(** * The IR builder and IR analyzer of [src/ir.cpp], embedded in Rocq

    The development follows the C++ source function by function.  Machine
    integers ([size_t], [uint64_t]) are values of [Z] whose wrap-around is
    written out with [wrap64]; pointers into the instruction, basic-block,
    variable and constant-value stores are indices into lists kept in the
    analyzer state; a C++ [assert], [zig_panic] or [zig_unreachable] that
    fires is the result [Panic]. *)

From stdpp Require Import base list strings.
From Stdlib Require Import ZArith Lia Bool.

Open Scope Z_scope.

(** ** Machine integers *)

Definition SIZE_MAX : Z := 2 ^ 64 - 1.

(** Arithmetic on [size_t] and [uint64_t] is modulo [2^64]. *)
Definition wrap64 (z : Z) : Z := z mod 2 ^ 64.

(** ** Results of code that may abort *)

Inductive Result (A : Type) : Type :=
| Ok (a : A)
| Panic (msg : string).
Arguments Ok {A} a.
Arguments Panic {A} msg.

(** A computation over a state [S] that may abort. *)
Definition M (S A : Type) : Type := S -> Result (A * S).

Definition ret {S A : Type} (a : A) : M S A := fun s => Ok (a, s).

Definition bind {S A B : Type} (m : M S A) (k : A -> M S B) : M S B :=
  fun s => match m s with
           | Ok (a, s') => k a s'
           | Panic e => Panic e
           end.

Definition get {S : Type} : M S S := fun s => Ok (s, s).
Definition gets {S A : Type} (f : S -> A) : M S A := fun s => Ok (f s, s).
Definition modify {S : Type} (f : S -> S) : M S unit := fun s => Ok (tt, f s).
Definition panic {S A : Type} (msg : string) : M S A := fun _ => Panic msg.

(** [assert(b)]. *)
Definition assert {S : Type} (b : bool) (what : string) : M S unit :=
  if b then ret tt else panic what.

(** Dereference of a pointer that may be null or dangling. *)
Definition deref {S A : Type} (o : option A) (what : string) : M S A :=
  match o with
  | Some a => ret a
  | None => panic what
  end.

Notation "x <- e ;; k" := (bind e (fun x => k))
  (at level 100, e at next level, right associativity).
Notation "e ;;; k" := (bind e (fun _ => k))
  (at level 100, right associativity).

(** ** Types *)

Inductive TypeTableEntryId : Type :=
| TypeTableEntryIdInvalid
| TypeTableEntryIdVar
| TypeTableEntryIdMetaType
| TypeTableEntryIdVoid
| TypeTableEntryIdBool
| TypeTableEntryIdUnreachable
| TypeTableEntryIdInt
| TypeTableEntryIdFloat
| TypeTableEntryIdPointer
| TypeTableEntryIdArray
| TypeTableEntryIdStruct
| TypeTableEntryIdNumLitFloat
| TypeTableEntryIdNumLitInt
| TypeTableEntryIdUndefLit
| TypeTableEntryIdNullLit
| TypeTableEntryIdMaybe
| TypeTableEntryIdErrorUnion
| TypeTableEntryIdPureError
| TypeTableEntryIdEnum
| TypeTableEntryIdUnion
| TypeTableEntryIdFn
| TypeTableEntryIdTypeDecl
| TypeTableEntryIdNamespace
| TypeTableEntryIdBlock
| TypeTableEntryIdGenericFn
| TypeTableEntryIdBoundFn.

(** A [TypeTableEntry *].  The C++ compares types by pointer; two entries
    are the same entry when they are the same term, so the integer entries
    carry their name ([usize] and [u64] are both unsigned with 64 bits and
    are different entries).  A struct entry is either a named container or
    a slice, whose field 0 has the pointer type [ptr_type]. *)
Inductive TypeTableEntry : Type :=
| TyInvalid
| TyVar
| TyMetaType
| TyVoid
| TyBool
| TyUnreachable
| TyInt (name : string) (is_signed : bool) (bit_count : Z)
| TyFloat (name : string) (bit_count : Z)
| TyPointer (child_type : TypeTableEntry) (is_const : bool)
| TyArray (child_type : TypeTableEntry) (len : Z)
| TyStruct (name : string)
| TySlice (ptr_type : TypeTableEntry)
| TyNumLitFloat
| TyNumLitInt
| TyUndefLit
| TyNullLit
| TyMaybe (child_type : TypeTableEntry)
| TyErrorUnion (child_type : TypeTableEntry)
| TyPureError
| TyEnum (name : string) (gen_field_count : Z)
| TyUnion (name : string)
| TyFn (name : string)
| TyTypeDecl (name : string) (canonical_type : TypeTableEntry)
| TyNamespace
| TyBlock
| TyGenericFn (name : string)
| TyBoundFn (name : string).

#[global] Instance TypeTableEntryId_eq_dec : EqDecision TypeTableEntryId.
Proof. solve_decision. Defined.

#[global] Instance TypeTableEntry_eq_dec : EqDecision TypeTableEntry.
Proof. solve_decision. Defined.

(** [type->id]. *)
Definition type_id (t : TypeTableEntry) : TypeTableEntryId :=
  match t with
  | TyInvalid => TypeTableEntryIdInvalid
  | TyVar => TypeTableEntryIdVar
  | TyMetaType => TypeTableEntryIdMetaType
  | TyVoid => TypeTableEntryIdVoid
  | TyBool => TypeTableEntryIdBool
  | TyUnreachable => TypeTableEntryIdUnreachable
  | TyInt _ _ _ => TypeTableEntryIdInt
  | TyFloat _ _ => TypeTableEntryIdFloat
  | TyPointer _ _ => TypeTableEntryIdPointer
  | TyArray _ _ => TypeTableEntryIdArray
  | TyStruct _ => TypeTableEntryIdStruct
  | TySlice _ => TypeTableEntryIdStruct
  | TyNumLitFloat => TypeTableEntryIdNumLitFloat
  | TyNumLitInt => TypeTableEntryIdNumLitInt
  | TyUndefLit => TypeTableEntryIdUndefLit
  | TyNullLit => TypeTableEntryIdNullLit
  | TyMaybe _ => TypeTableEntryIdMaybe
  | TyErrorUnion _ => TypeTableEntryIdErrorUnion
  | TyPureError => TypeTableEntryIdPureError
  | TyEnum _ _ => TypeTableEntryIdEnum
  | TyUnion _ => TypeTableEntryIdUnion
  | TyFn _ => TypeTableEntryIdFn
  | TyTypeDecl _ _ => TypeTableEntryIdTypeDecl
  | TyNamespace => TypeTableEntryIdNamespace
  | TyBlock => TypeTableEntryIdBlock
  | TyGenericFn _ => TypeTableEntryIdGenericFn
  | TyBoundFn _ => TypeTableEntryIdBoundFn
  end.

Definition id_is (t : TypeTableEntry) (i : TypeTableEntryId) : bool :=
  bool_decide (type_id t = i).

(** [type->data.pointer.child_type]; reading it from an entry that is not
    a pointer reads a union member that is not there. *)
Definition pointer_child_type (t : TypeTableEntry) : option TypeTableEntry :=
  match t with
  | TyPointer c _ => Some c
  | _ => None
  end.

(** The entries of [codegen->builtin_types] that [ir.cpp] names. *)
Definition entry_invalid : TypeTableEntry := TyInvalid.
Definition entry_unreachable : TypeTableEntry := TyUnreachable.
Definition entry_void : TypeTableEntry := TyVoid.
Definition entry_bool : TypeTableEntry := TyBool.
Definition entry_undef : TypeTableEntry := TyUndefLit.
Definition entry_usize : TypeTableEntry := TyInt "usize" false 64.
Definition entry_isize : TypeTableEntry := TyInt "isize" true 64.

(** [get_pointer_to_type(codegen, child, is_const)]: the interned pointer
    entry. *)
Definition get_pointer_to_type (child : TypeTableEntry) (is_const : bool)
  : TypeTableEntry := TyPointer child is_const.

(** [type->data.integral.is_signed]; read only under a test that the
    entry is an integer. *)
Definition integral_is_signed (t : TypeTableEntry) : bool :=
  match t with
  | TyInt _ is_signed _ => is_signed
  | _ => false
  end.

(** [type->data.integral.bit_count] and [type->data.floating.bit_count];
    read only under a test that the entry is an integer or a float. *)
Definition type_bit_count (t : TypeTableEntry) : Z :=
  match t with
  | TyInt _ _ bit_count => bit_count
  | TyFloat _ bit_count => bit_count
  | _ => 0
  end.

(** [is_slice] (ir.cpp:3033). *)
Definition is_slice (t : TypeTableEntry) : bool :=
  match t with
  | TySlice _ => true
  | _ => false
  end.

(** [is_u8] (ir.cpp:3037). *)
Definition is_u8 (t : TypeTableEntry) : bool :=
  match t with
  | TyInt _ is_signed bit_count => negb is_signed && (bit_count =? 8)
  | _ => false
  end.

(** Modelled from the spec: [types_match_const_cast_only] of analyze.cpp,
    which is not among the sources.  The spec calls it the "exact structural
    match modulo pointer const": the entries are the same, or both are
    pointers, the expected one is const whenever the actual one is, and the
    pointees match in the same way. *)
Fixpoint types_match_const_cast_only (expected_type actual_type : TypeTableEntry)
  : bool :=
  bool_decide (expected_type = actual_type) ||
  match expected_type, actual_type with
  | TyPointer ec econst, TyPointer ac aconst =>
      (negb aconst || econst) && types_match_const_cast_only ec ac
  | _, _ => false
  end.

(** Modelled from the spec: [get_underlying_type] of analyze.cpp, which is
    not among the sources; a type declaration stands for its canonical
    type. *)
Definition get_underlying_type (t : TypeTableEntry) : TypeTableEntry :=
  match t with
  | TyTypeDecl _ canonical => canonical
  | _ => t
  end.

(** ** Compile-time values *)

Inductive ConstValSpecial : Type :=
| ConstValSpecialRuntime
| ConstValSpecialStatic
| ConstValSpecialUndef.

#[global] Instance ConstValSpecial_eq_dec : EqDecision ConstValSpecial.
Proof. solve_decision. Defined.

Inductive BigNumKind : Type :=
| BigNumKindInt
| BigNumKindFloat.

#[global] Instance BigNumKind_eq_dec : EqDecision BigNumKind.
Proof. solve_decision. Defined.

(** [struct BigNum]: the magnitude [x_uint] is a [uint64_t]; the payload of
    a float is not read by the functions embedded here. *)
Record BigNum : Type := {
  bn_kind : BigNumKind;
  bn_is_negative : bool;
  bn_x_uint : Z;
}.

(** Pointers: indices into the stores of the analyzer state. *)
Definition InstrPtr : Type := nat.
Definition BlockPtr : Type := nat.
Definition VarPtr : Type := nat.
Definition AstNodeId : Type := nat.

(** A [ConstExprValue *] points at a mem-slot or at the [static_value] of
    an instruction, or at an array element inside one of them
    ([&base->data.x_array.elements[i]]): a root and the element indices
    that lead from it to the value. *)
Inductive ValRoot : Type :=
| RootMemSlot (mem_slot_index : nat)
| RootInstruction (instruction : InstrPtr).

Record ValPtr : Type := {
  vp_root : ValRoot;
  vp_path : list nat;
}.

(** The union [ConstExprValue::data]. *)
#[warnings="-register-all"]
Inductive ConstUnion (V : Type) : Type :=
| x_none
| x_bignum (bn : BigNum)
| x_bool (b : bool)
| x_type (t : TypeTableEntry)
| x_ptr (base_ptr : ValPtr) (index : Z) (is_c_str : bool)
| x_array (elements : list V)
| x_struct (fields : list V)
| x_maybe (payload : option V)
| x_handle (handle : nat).
Arguments x_none {V}.
Arguments x_bignum {V} bn.
Arguments x_bool {V} b.
Arguments x_type {V} t.
Arguments x_ptr {V} base_ptr index is_c_str.
Arguments x_array {V} elements.
Arguments x_struct {V} fields.
Arguments x_maybe {V} payload.
Arguments x_handle {V} handle.

#[warnings="-register-all"]
Inductive ConstExprValue : Type := mkConstExprValue {
  special : ConstValSpecial;
  depends_on_compile_var : bool;
  data : ConstUnion ConstExprValue;
}.

(** What [allocate<T>] leaves in a value: all zero. *)
Definition zero_value : ConstExprValue :=
  {| special := ConstValSpecialRuntime; depends_on_compile_var := false;
     data := x_none |}.

Definition set_special (s : ConstValSpecial) (v : ConstExprValue) : ConstExprValue :=
  {| special := s; depends_on_compile_var := depends_on_compile_var v;
     data := data v |}.

Definition set_depends_on_compile_var (d : bool) (v : ConstExprValue)
  : ConstExprValue :=
  {| special := special v; depends_on_compile_var := d; data := data v |}.

Definition set_data (d : ConstUnion ConstExprValue) (v : ConstExprValue)
  : ConstExprValue :=
  {| special := special v; depends_on_compile_var := depends_on_compile_var v;
     data := d |}.

Definition is_runtime (v : ConstExprValue) : bool :=
  bool_decide (special v = ConstValSpecialRuntime).

(** The value [path] leads to inside [v]. *)
Fixpoint val_at_path (v : ConstExprValue) (path : list nat)
  : option ConstExprValue :=
  match path with
  | [] => Some v
  | i :: rest =>
      match data v with
      | x_array elements =>
          match elements !! i with
          | Some e => val_at_path e rest
          | None => None
          end
      | _ => None
      end
  end.

(** [f] applied in place to the value [path] leads to inside [v]. *)
Fixpoint val_update_path (f : ConstExprValue -> ConstExprValue)
    (v : ConstExprValue) (path : list nat) : ConstExprValue :=
  match path with
  | [] => f v
  | i :: rest =>
      match data v with
      | x_array elements =>
          match elements !! i with
          | Some e =>
              set_data (x_array (<[i := val_update_path f e rest]> elements)) v
          | None => v
          end
      | _ => v
      end
  end.

(** ** Diagnostics *)

(** An argument of [buf_sprintf]. *)
Inductive FormatArg : Type :=
| ArgNum (n : Z)
| ArgBigNum (bn : BigNum)
| ArgStr (s : string)
| ArgType (t : TypeTableEntry).

(** [add_node_error(codegen, node, buf_sprintf(format, args...))]: the
    message is kept as its format string and arguments. *)
Record ErrorMsg : Type := {
  err_node : AstNodeId;
  err_format : string;
  err_args : list FormatArg;
  err_notes : list (AstNodeId * string);
}.

(** [struct CodeGen]: the diagnostics and the read-only primitive type
    table. *)
Record CodeGen : Type := {
  errors : list ErrorMsg;
  primitive_type_table : list (string * TypeTableEntry);
  (** [codegen->invalid_instruction], the instruction that stands for a
      failed generation or cast *)
  invalid_instruction : InstrPtr;
}.

Definition set_errors (l : list ErrorMsg) (g : CodeGen) : CodeGen :=
  {| errors := l; primitive_type_table := primitive_type_table g;
     invalid_instruction := invalid_instruction g |}.

Definition add_node_error (node : AstNodeId) (format : string)
    (args : list FormatArg) : M CodeGen unit :=
  modify (fun g =>
    set_errors (errors g ++
      [{| err_node := node; err_format := format; err_args := args;
          err_notes := [] |}]) g).

(** [add_error_note] on the message that [add_node_error] has just
    returned, the last one. *)
Definition add_error_note (node : AstNodeId) (text : string) : M CodeGen unit :=
  modify (fun g =>
    match reverse (errors g) with
    | [] => g
    | m :: earlier =>
        set_errors (reverse earlier ++
          [{| err_node := err_node m; err_format := err_format m;
              err_args := err_args m;
              err_notes := err_notes m ++ [(node, text)] |}]) g
    end).

(** ** Instructions *)

Inductive IrInstructionId : Type :=
| IrInstructionIdInvalid
| IrInstructionIdBr
| IrInstructionIdCondBr
| IrInstructionIdSwitchBr
| IrInstructionIdSwitchVar
| IrInstructionIdSwitchTarget
| IrInstructionIdPhi
| IrInstructionIdUnOp
| IrInstructionIdBinOp
| IrInstructionIdDeclVar
| IrInstructionIdLoadPtr
| IrInstructionIdStorePtr
| IrInstructionIdFieldPtr
| IrInstructionIdStructFieldPtr
| IrInstructionIdEnumFieldPtr
| IrInstructionIdElemPtr
| IrInstructionIdVarPtr
| IrInstructionIdCall
| IrInstructionIdConst
| IrInstructionIdReturn
| IrInstructionIdCast
| IrInstructionIdContainerInitList
| IrInstructionIdContainerInitFields
| IrInstructionIdUnreachable
| IrInstructionIdTypeOf
| IrInstructionIdToPtrType
| IrInstructionIdPtrTypeChild
| IrInstructionIdSetFnTest
| IrInstructionIdSetFnVisible
| IrInstructionIdSetDebugSafety
| IrInstructionIdArrayType
| IrInstructionIdSliceType
| IrInstructionIdAsm
| IrInstructionIdCompileVar
| IrInstructionIdSizeOf
| IrInstructionIdTestNull
| IrInstructionIdUnwrapMaybe
| IrInstructionIdClz
| IrInstructionIdCtz
| IrInstructionIdEnumTag
| IrInstructionIdStaticEval
| IrInstructionIdImport
| IrInstructionIdArrayLen
| IrInstructionIdRef
| IrInstructionIdStructInit.

#[global] Instance IrInstructionId_eq_dec : EqDecision IrInstructionId.
Proof. solve_decision. Defined.

Inductive IrBinOp : Type :=
| IrBinOpInvalid
| IrBinOpBoolOr
| IrBinOpBoolAnd
| IrBinOpCmpEq
| IrBinOpCmpNotEq
| IrBinOpCmpLessThan
| IrBinOpCmpGreaterThan
| IrBinOpCmpLessOrEq
| IrBinOpCmpGreaterOrEq
| IrBinOpBinOr
| IrBinOpBinXor
| IrBinOpBinAnd
| IrBinOpBitShiftLeft
| IrBinOpBitShiftLeftWrap
| IrBinOpBitShiftRight
| IrBinOpAdd
| IrBinOpAddWrap
| IrBinOpSub
| IrBinOpSubWrap
| IrBinOpMult
| IrBinOpMultWrap
| IrBinOpDiv
| IrBinOpMod
| IrBinOpArrayCat
| IrBinOpArrayMult.

(** The fields an instruction struct adds to its [base]; the kinds whose
    fields no embedded function reads share [IrInstructionOther]. *)
Inductive IrInstructionData : Type :=
| IrInstructionBr (dest_block : BlockPtr) (is_inline : bool)
| IrInstructionCondBr (condition : InstrPtr) (then_block else_block : BlockPtr)
    (is_inline : bool)
| IrInstructionPhi (incoming_blocks : list BlockPtr)
    (incoming_values : list InstrPtr)
| IrInstructionConst
| IrInstructionUnreachable
| IrInstructionVarPtr (var : VarPtr)
| IrInstructionDeclVar (var : VarPtr) (var_type : option InstrPtr)
    (init_value : InstrPtr)
| IrInstructionStorePtr (ptr value : InstrPtr)
| IrInstructionElemPtr (array_ptr elem_index : option InstrPtr)
    (safety_check_on : bool)
| IrInstructionFieldPtr
| IrInstructionReturn (value : InstrPtr)
| IrInstructionOperand (value : InstrPtr)
    (** [TypeOf], [ToPtrType], [PtrTypeChild], [ArrayLen], [Ref] and
        [LoadPtr]: one operand *)
| IrInstructionBinOp (op_id : IrBinOp) (op1 op2 : InstrPtr)
| IrInstructionCast (value : InstrPtr) (dest_type : TypeTableEntry)
| IrInstructionAsm (input_list : list InstrPtr)
    (output_types : list (option InstrPtr)) (return_count : Z)
    (has_side_effects : bool)
| IrInstructionOther.

(** [struct IrInstruction], the base of every instruction. *)
Record IrInstruction : Type := {
  inst_id : IrInstructionId;
  inst_source_node : AstNodeId;
  inst_static_value : ConstExprValue;
  inst_type_entry : option TypeTableEntry;
  inst_debug_id : Z;
  inst_other : option InstrPtr;
  inst_ref_count : Z;
  inst_data : IrInstructionData;
}.

(** ** Literal fitting and implicit casts *)

(** Modelled from the spec: [bignum_fits_in_bits] of bignum.cpp, which is
    not among the sources: the "fits in N bits, signed?" predicate on the
    sign and magnitude of an integer. *)
Definition bignum_fits_in_bits (bn : BigNum) (bit_count : Z) (is_signed : bool)
  : bool :=
  if is_signed then
    if bn_is_negative bn then bn_x_uint bn <=? 2 ^ (bit_count - 1)
    else bn_x_uint bn <? 2 ^ (bit_count - 1)
  else
    (negb (bn_is_negative bn) || (bn_x_uint bn =? 0))
    && (bn_x_uint bn <? 2 ^ bit_count).

(** [const_val->data.x_bignum]. *)
Definition read_x_bignum (v : ConstExprValue) : option BigNum :=
  match data v with
  | x_bignum bn => Some bn
  | _ => None
  end.

(** [ir_num_lit_fits_in_other_type] (ir.cpp:2801). *)
Definition ir_num_lit_fits_in_other_type (instruction : IrInstruction)
    (other_type : TypeTableEntry) : M CodeGen bool :=
  let other_type_underlying := get_underlying_type other_type in
  if id_is other_type_underlying TypeTableEntryIdInvalid then ret false else
  let const_val := inst_static_value instruction in
  assert (negb (is_runtime const_val)) "const_val->special != ConstValSpecialRuntime" ;;;
  if id_is other_type_underlying TypeTableEntryIdFloat then ret true else
  bn <- deref (read_x_bignum const_val) "data.x_bignum" ;;
  let fits :=
    match other_type_underlying with
    | TyInt _ is_signed bit_count =>
        if bool_decide (bn_kind bn = BigNumKindInt)
        then bignum_fits_in_bits bn bit_count is_signed
        else
          (* the next [else if] of the chain; false for an integer type *)
          false
    | TyNumLitFloat => bool_decide (bn_kind bn = BigNumKindFloat)
    | TyNumLitInt => bool_decide (bn_kind bn = BigNumKindInt)
    | _ => false
    end in
  if fits then ret true else
  let num_lit_str :=
    if bool_decide (bn_kind bn = BigNumKindFloat) then "float" else "integer" in
  add_node_error (inst_source_node instruction)
    "%s value %s cannot be implicitly casted to type '%s'"
    [ArgStr num_lit_str; ArgBigNum bn; ArgType other_type] ;;;
  ret false.

Inductive ImplicitCastMatchResult : Type :=
| ImplicitCastMatchResultNo
| ImplicitCastMatchResultYes
| ImplicitCastMatchResultReportedError.

(** An [ImplicitCastMatchResult] used as the operand of [&&]. *)
Definition match_result_is_true (r : ImplicitCastMatchResult) : bool :=
  match r with
  | ImplicitCastMatchResultNo => false
  | _ => true
  end.

(** [ir_types_match_with_implicit_cast] (ir.cpp:2918). *)
Fixpoint ir_types_match_with_implicit_cast (expected_type actual_type : TypeTableEntry)
    (value : IrInstruction) {struct expected_type}
  : M CodeGen ImplicitCastMatchResult :=
  if types_match_const_cast_only expected_type actual_type
  then ret ImplicitCastMatchResultYes else
  (* implicit conversion from non maybe type to maybe type *)
  non_maybe <-
    match expected_type with
    | TyMaybe child =>
        r <- ir_types_match_with_implicit_cast child actual_type value ;;
        ret (match_result_is_true r)
    | _ => ret false
    end ;;
  if non_maybe then ret ImplicitCastMatchResultYes else
  (* implicit conversion from null literal to maybe type *)
  if id_is expected_type TypeTableEntryIdMaybe
     && id_is actual_type TypeTableEntryIdNullLit
  then ret ImplicitCastMatchResultYes else
  (* implicit conversion from error child type to error type *)
  err_child <-
    match expected_type with
    | TyErrorUnion child =>
        r <- ir_types_match_with_implicit_cast child actual_type value ;;
        ret (match_result_is_true r)
    | _ => ret false
    end ;;
  if err_child then ret ImplicitCastMatchResultYes else
  (* implicit conversion from pure error to error union type *)
  if id_is expected_type TypeTableEntryIdErrorUnion
     && id_is actual_type TypeTableEntryIdPureError
  then ret ImplicitCastMatchResultYes else
  (* implicit widening conversion *)
  if match expected_type, actual_type with
     | TyInt _ e_signed e_bits, TyInt _ a_signed a_bits =>
         bool_decide (e_signed = a_signed) && (e_bits >=? a_bits)
     | _, _ => false
     end
  then ret ImplicitCastMatchResultYes else
  (* small enough unsigned ints can get casted to large enough signed ints *)
  if match expected_type, actual_type with
     | TyInt _ e_signed e_bits, TyInt _ a_signed a_bits =>
         e_signed && negb a_signed && (e_bits >? a_bits)
     | _, _ => false
     end
  then ret ImplicitCastMatchResultYes else
  (* implicit float widening conversion *)
  if match expected_type, actual_type with
     | TyFloat _ e_bits, TyFloat _ a_bits => e_bits >=? a_bits
     | _, _ => false
     end
  then ret ImplicitCastMatchResultYes else
  (* implicit array to slice conversion *)
  array_to_slice <-
    match expected_type, actual_type with
    | TySlice ptr_type, TyArray a_child _ =>
        e_child <- deref (pointer_child_type ptr_type) "data.pointer.child_type" ;;
        ret (types_match_const_cast_only e_child a_child)
    | _, _ => ret false
    end ;;
  if array_to_slice then ret ImplicitCastMatchResultYes else
  (* implicit number literal to typed number *)
  if id_is actual_type TypeTableEntryIdNumLitFloat
     || id_is actual_type TypeTableEntryIdNumLitInt
  then
    fits <- ir_num_lit_fits_in_other_type value expected_type ;;
    if fits then ret ImplicitCastMatchResultYes
    else ret ImplicitCastMatchResultReportedError
  else
  (* implicit undefined literal to anything *)
  if id_is actual_type TypeTableEntryIdUndefLit
  then ret ImplicitCastMatchResultYes
  else ret ImplicitCastMatchResultNo.

(** ** Peer type resolution *)

(** The body of the [for] loop of [ir_determine_peer_types], from index [i]
    on: [rest] is [instructions[i..]]. *)
Fixpoint ir_determine_peer_types_loop (source_node : AstNodeId)
    (prev_inst : IrInstruction) (rest : list IrInstruction)
  : M CodeGen TypeTableEntry :=
  match rest with
  | [] => deref (inst_type_entry prev_inst) "prev_inst->type_entry"
  | cur_inst :: rest' =>
      cur_type <- deref (inst_type_entry cur_inst) "cur_inst->type_entry" ;;
      prev_type <- deref (inst_type_entry prev_inst) "prev_inst->type_entry" ;;
      if id_is cur_type TypeTableEntryIdInvalid then ret cur_type
      else if types_match_const_cast_only prev_type cur_type then
        ir_determine_peer_types_loop source_node prev_inst rest'
      else if types_match_const_cast_only cur_type prev_type then
        ir_determine_peer_types_loop source_node cur_inst rest'
      else if id_is prev_type TypeTableEntryIdUnreachable then
        ir_determine_peer_types_loop source_node cur_inst rest'
      else if id_is cur_type TypeTableEntryIdUnreachable then
        ir_determine_peer_types_loop source_node prev_inst rest'
      else if id_is prev_type TypeTableEntryIdInt
              && id_is cur_type TypeTableEntryIdInt
              && bool_decide (integral_is_signed prev_type = integral_is_signed cur_type)
      then
        if type_bit_count cur_type >? type_bit_count prev_type
        then ir_determine_peer_types_loop source_node cur_inst rest'
        else ir_determine_peer_types_loop source_node prev_inst rest'
      else if id_is prev_type TypeTableEntryIdFloat
              && id_is cur_type TypeTableEntryIdFloat
      then
        if type_bit_count cur_type >? type_bit_count prev_type
        then ir_determine_peer_types_loop source_node cur_inst rest'
        else ir_determine_peer_types_loop source_node prev_inst rest'
      else if match prev_type with
              | TyErrorUnion p_child => types_match_const_cast_only p_child cur_type
              | _ => false
              end
      then ir_determine_peer_types_loop source_node prev_inst rest'
      else if match cur_type with
              | TyErrorUnion c_child => types_match_const_cast_only c_child prev_type
              | _ => false
              end
      then ir_determine_peer_types_loop source_node cur_inst rest'
      else if id_is prev_type TypeTableEntryIdNumLitInt
              || id_is prev_type TypeTableEntryIdNumLitFloat
      then
        fits <- ir_num_lit_fits_in_other_type prev_inst cur_type ;;
        if fits
        then ir_determine_peer_types_loop source_node cur_inst rest'
        else ret entry_invalid
      else if id_is cur_type TypeTableEntryIdNumLitInt
              || id_is cur_type TypeTableEntryIdNumLitFloat
      then
        fits <- ir_num_lit_fits_in_other_type cur_inst prev_type ;;
        if fits
        then ir_determine_peer_types_loop source_node prev_inst rest'
        else ret entry_invalid
      else
        add_node_error source_node "incompatible types: '%s' and '%s'"
          [ArgType prev_type; ArgType cur_type] ;;;
        ret entry_invalid
  end.

(** [ir_determine_peer_types] (ir.cpp:2838). *)
Definition ir_determine_peer_types (source_node : AstNodeId)
    (instructions : list IrInstruction) : M CodeGen TypeTableEntry :=
  match instructions with
  | [] => panic "assert(instruction_count >= 1)"
  | prev_inst :: rest =>
      prev_type <- deref (inst_type_entry prev_inst) "prev_inst->type_entry" ;;
      if id_is prev_type TypeTableEntryIdInvalid then ret entry_invalid
      else ir_determine_peer_types_loop source_node prev_inst rest
  end.

(** [ir_resolve_peer_types] (ir.cpp:3009). *)
Definition ir_resolve_peer_types (source_node : AstNodeId)
    (instructions : list IrInstruction) : M CodeGen TypeTableEntry :=
  ir_determine_peer_types source_node instructions.

(** ** Basic blocks, variables, executables and the builder *)

Record IrBasicBlock : Type := {
  bb_instruction_list : list InstrPtr;
  bb_other : option BlockPtr;
  bb_name_hint : string;
  bb_debug_id : Z;
  bb_ref_count : Z;
}.

(** [struct VariableTableEntry], with what the embedded functions read
    through [var->block_context] and [var->decl_node]. *)
Record VariableTableEntry : Type := {
  var_name : string;
  var_type : option TypeTableEntry;
  var_src_is_const : bool;
  var_gen_is_const : bool;
  var_is_inline : bool;
  var_shadowable : bool;
  var_mem_slot_index : Z;
  var_ref_count : Z;
  var_decl_node : AstNodeId;
  (** [var->block_context->fn_entry != nullptr] *)
  var_in_fn : bool;
  (** [var->decl_node->data.variable_declaration.top_level_decl.value] *)
  var_top_level_value : option InstrPtr;
  (** [top_level_decl.visib_mod == VisibModExport] and [is_extern] of the
      declaration *)
  var_is_export : bool;
  var_is_extern : bool;
}.

Record IrExecutable : Type := {
  exec_basic_block_list : list BlockPtr;
  exec_mem_slot_count : Z;
  exec_next_debug_id : Z;
  exec_is_inline : bool;
  exec_invalid : bool;
  exec_backward_branch_count : Z;
  exec_backward_branch_quota : Z;
}.

Record IrBuilder : Type := {
  irb_exec : IrExecutable;
  irb_current_basic_block : option BlockPtr;
  irb_break_block_stack : list BlockPtr;
  irb_continue_block_stack : list BlockPtr;
}.

(** *** The syntax tree and the scopes, as far as ir.cpp reads them *)

Definition ScopePtr : Type := nat.

Inductive NodeType : Type :=
| NodeTypeRoot
| NodeTypeFnProto
| NodeTypeFnDef
| NodeTypeFnDecl
| NodeTypeParamDecl
| NodeTypeBlock
| NodeTypeReturnExpr
| NodeTypeDefer
| NodeTypeVariableDeclaration
| NodeTypeTypeDecl
| NodeTypeErrorValueDecl
| NodeTypeBinOpExpr
| NodeTypeUnwrapErrorExpr
| NodeTypeNumberLiteral
| NodeTypeStringLiteral
| NodeTypeCharLiteral
| NodeTypeSymbol
| NodeTypePrefixOpExpr
| NodeTypeFnCallExpr
| NodeTypeArrayAccessExpr
| NodeTypeSliceExpr
| NodeTypeFieldAccessExpr
| NodeTypeUse
| NodeTypeBoolLiteral
| NodeTypeNullLiteral
| NodeTypeUndefinedLiteral
| NodeTypeZeroesLiteral
| NodeTypeThisLiteral
| NodeTypeIfBoolExpr
| NodeTypeIfVarExpr
| NodeTypeWhileExpr
| NodeTypeForExpr
| NodeTypeSwitchExpr
| NodeTypeSwitchProng
| NodeTypeSwitchRange
| NodeTypeLabel
| NodeTypeGoto
| NodeTypeBreak
| NodeTypeContinue
| NodeTypeAsmExpr
| NodeTypeContainerDecl
| NodeTypeStructField
| NodeTypeContainerInitExpr
| NodeTypeStructValueField
| NodeTypeArrayType
| NodeTypeErrorType
| NodeTypeTypeLiteral
| NodeTypeVarLiteral.

#[global] Instance NodeType_eq_dec : EqDecision NodeType.
Proof. solve_decision. Defined.

Record AsmOutput : Type := {
  out_asm_symbolic_name : string;
  out_constraint : string;
  out_variable_name : string;
  out_return_type : option AstNodeId;
  out_variable : option VarPtr;
}.

Record AsmInput : Type := {
  in_asm_symbolic_name : string;
  in_constraint : string;
  in_expr : AstNodeId;
}.

(** The member of [node->data] that goes with [node->type]. *)
Inductive AstNodeData : Type :=
| data_while_expr (condition : AstNodeId) (continue_expr : option AstNodeId)
    (body : AstNodeId) (is_inline : bool)
| data_for_expr (array_expr : AstNodeId) (elem_node index_node : option AstNodeId)
    (body : AstNodeId) (elem_is_ptr is_inline : bool)
    (elem_var index_var : option VarPtr)
| data_asm_expr (is_volatile : bool) (output_list : list AsmOutput)
    (input_list : list AsmInput)
| data_symbol_expr (symbol : string)
| data_bool_literal (value : bool)
| data_variable_declaration (is_export is_extern : bool)
    (value : option InstrPtr)
| data_other.

Record AstNode : Type := {
  node_type : NodeType;
  node_block_context : option ScopePtr;
  node_data : AstNodeData;
}.

(** [struct BlockContext]: a scope. *)
Record BlockContext : Type := {
  bc_node : option AstNodeId;
  bc_parent : option ScopePtr;
  bc_has_fn_entry : bool;
  bc_parent_loop_node : option AstNodeId;
  bc_var_table : list (string * VarPtr);
  bc_decls : list (string * AstNodeId);
}.

(** The objects that pointers point to. *)
Record Store : Type := {
  instructions : list IrInstruction;
  basic_blocks : list IrBasicBlock;
  variables : list VariableTableEntry;
  ast_nodes : list AstNode;
  block_contexts : list BlockContext;
}.

(** What a function that takes an [IrBuilder *irb] reaches: the builder,
    [irb->codegen] and the objects. *)
Record Builder : Type := {
  b_codegen : CodeGen;
  b_store : Store;
  b_irb : IrBuilder;
}.

(** *** Field updates *)

Definition set_inst_static_value (v : ConstExprValue) (i : IrInstruction)
  : IrInstruction :=
  {| inst_id := inst_id i; inst_source_node := inst_source_node i;
     inst_static_value := v; inst_type_entry := inst_type_entry i;
     inst_debug_id := inst_debug_id i; inst_other := inst_other i;
     inst_ref_count := inst_ref_count i; inst_data := inst_data i |}.

Definition set_inst_type_entry (t : option TypeTableEntry) (i : IrInstruction)
  : IrInstruction :=
  {| inst_id := inst_id i; inst_source_node := inst_source_node i;
     inst_static_value := inst_static_value i; inst_type_entry := t;
     inst_debug_id := inst_debug_id i; inst_other := inst_other i;
     inst_ref_count := inst_ref_count i; inst_data := inst_data i |}.

Definition set_inst_other (o : option InstrPtr) (i : IrInstruction)
  : IrInstruction :=
  {| inst_id := inst_id i; inst_source_node := inst_source_node i;
     inst_static_value := inst_static_value i;
     inst_type_entry := inst_type_entry i;
     inst_debug_id := inst_debug_id i; inst_other := o;
     inst_ref_count := inst_ref_count i; inst_data := inst_data i |}.

Definition set_inst_ref_count (n : Z) (i : IrInstruction) : IrInstruction :=
  {| inst_id := inst_id i; inst_source_node := inst_source_node i;
     inst_static_value := inst_static_value i;
     inst_type_entry := inst_type_entry i;
     inst_debug_id := inst_debug_id i; inst_other := inst_other i;
     inst_ref_count := n; inst_data := inst_data i |}.

Definition set_inst_data (d : IrInstructionData) (i : IrInstruction)
  : IrInstruction :=
  {| inst_id := inst_id i; inst_source_node := inst_source_node i;
     inst_static_value := inst_static_value i;
     inst_type_entry := inst_type_entry i;
     inst_debug_id := inst_debug_id i; inst_other := inst_other i;
     inst_ref_count := inst_ref_count i; inst_data := d |}.

Definition set_bb_instruction_list (l : list InstrPtr) (b : IrBasicBlock)
  : IrBasicBlock :=
  {| bb_instruction_list := l; bb_other := bb_other b;
     bb_name_hint := bb_name_hint b; bb_debug_id := bb_debug_id b;
     bb_ref_count := bb_ref_count b |}.

Definition set_bb_other (o : option BlockPtr) (b : IrBasicBlock) : IrBasicBlock :=
  {| bb_instruction_list := bb_instruction_list b; bb_other := o;
     bb_name_hint := bb_name_hint b; bb_debug_id := bb_debug_id b;
     bb_ref_count := bb_ref_count b |}.

Definition set_bb_ref_count (n : Z) (b : IrBasicBlock) : IrBasicBlock :=
  {| bb_instruction_list := bb_instruction_list b; bb_other := bb_other b;
     bb_name_hint := bb_name_hint b; bb_debug_id := bb_debug_id b;
     bb_ref_count := n |}.

Definition set_var_type (t : option TypeTableEntry) (v : VariableTableEntry)
  : VariableTableEntry :=
  {| var_name := var_name v; var_type := t;
     var_src_is_const := var_src_is_const v;
     var_gen_is_const := var_gen_is_const v; var_is_inline := var_is_inline v;
     var_shadowable := var_shadowable v; var_decl_node := var_decl_node v;
     var_mem_slot_index := var_mem_slot_index v;
     var_ref_count := var_ref_count v; var_in_fn := var_in_fn v;
     var_top_level_value := var_top_level_value v;
     var_is_export := var_is_export v; var_is_extern := var_is_extern v |}.

Definition set_var_ref_count (n : Z) (v : VariableTableEntry)
  : VariableTableEntry :=
  {| var_name := var_name v; var_type := var_type v;
     var_src_is_const := var_src_is_const v;
     var_gen_is_const := var_gen_is_const v; var_is_inline := var_is_inline v;
     var_shadowable := var_shadowable v; var_decl_node := var_decl_node v;
     var_mem_slot_index := var_mem_slot_index v;
     var_ref_count := n; var_in_fn := var_in_fn v;
     var_top_level_value := var_top_level_value v;
     var_is_export := var_is_export v; var_is_extern := var_is_extern v |}.

Definition set_var_mem_slot_index (n : Z) (v : VariableTableEntry)
  : VariableTableEntry :=
  {| var_name := var_name v; var_type := var_type v;
     var_src_is_const := var_src_is_const v;
     var_gen_is_const := var_gen_is_const v; var_is_inline := var_is_inline v;
     var_shadowable := var_shadowable v; var_decl_node := var_decl_node v;
     var_mem_slot_index := n;
     var_ref_count := var_ref_count v; var_in_fn := var_in_fn v;
     var_top_level_value := var_top_level_value v;
     var_is_export := var_is_export v; var_is_extern := var_is_extern v |}.

Definition set_exec_basic_block_list (l : list BlockPtr) (e : IrExecutable)
  : IrExecutable :=
  {| exec_basic_block_list := l; exec_mem_slot_count := exec_mem_slot_count e;
     exec_next_debug_id := exec_next_debug_id e;
     exec_is_inline := exec_is_inline e; exec_invalid := exec_invalid e;
     exec_backward_branch_count := exec_backward_branch_count e;
     exec_backward_branch_quota := exec_backward_branch_quota e |}.

Definition set_exec_mem_slot_count (n : Z) (e : IrExecutable) : IrExecutable :=
  {| exec_basic_block_list := exec_basic_block_list e;
     exec_mem_slot_count := n;
     exec_next_debug_id := exec_next_debug_id e;
     exec_is_inline := exec_is_inline e; exec_invalid := exec_invalid e;
     exec_backward_branch_count := exec_backward_branch_count e;
     exec_backward_branch_quota := exec_backward_branch_quota e |}.

Definition set_exec_next_debug_id (n : Z) (e : IrExecutable) : IrExecutable :=
  {| exec_basic_block_list := exec_basic_block_list e;
     exec_mem_slot_count := exec_mem_slot_count e;
     exec_next_debug_id := n;
     exec_is_inline := exec_is_inline e; exec_invalid := exec_invalid e;
     exec_backward_branch_count := exec_backward_branch_count e;
     exec_backward_branch_quota := exec_backward_branch_quota e |}.

Definition set_exec_invalid (b : bool) (e : IrExecutable) : IrExecutable :=
  {| exec_basic_block_list := exec_basic_block_list e;
     exec_mem_slot_count := exec_mem_slot_count e;
     exec_next_debug_id := exec_next_debug_id e;
     exec_is_inline := exec_is_inline e; exec_invalid := b;
     exec_backward_branch_count := exec_backward_branch_count e;
     exec_backward_branch_quota := exec_backward_branch_quota e |}.

Definition set_exec_backward_branch_count (n : Z) (e : IrExecutable)
  : IrExecutable :=
  {| exec_basic_block_list := exec_basic_block_list e;
     exec_mem_slot_count := exec_mem_slot_count e;
     exec_next_debug_id := exec_next_debug_id e;
     exec_is_inline := exec_is_inline e; exec_invalid := exec_invalid e;
     exec_backward_branch_count := n;
     exec_backward_branch_quota := exec_backward_branch_quota e |}.

Definition set_irb_exec (e : IrExecutable) (b : IrBuilder) : IrBuilder :=
  {| irb_exec := e; irb_current_basic_block := irb_current_basic_block b;
     irb_break_block_stack := irb_break_block_stack b;
     irb_continue_block_stack := irb_continue_block_stack b |}.

Definition set_irb_current_basic_block (c : option BlockPtr) (b : IrBuilder)
  : IrBuilder :=
  {| irb_exec := irb_exec b; irb_current_basic_block := c;
     irb_break_block_stack := irb_break_block_stack b;
     irb_continue_block_stack := irb_continue_block_stack b |}.

Definition set_irb_break_block_stack (l : list BlockPtr) (b : IrBuilder)
  : IrBuilder :=
  {| irb_exec := irb_exec b;
     irb_current_basic_block := irb_current_basic_block b;
     irb_break_block_stack := l;
     irb_continue_block_stack := irb_continue_block_stack b |}.

Definition set_irb_continue_block_stack (l : list BlockPtr) (b : IrBuilder)
  : IrBuilder :=
  {| irb_exec := irb_exec b;
     irb_current_basic_block := irb_current_basic_block b;
     irb_break_block_stack := irb_break_block_stack b;
     irb_continue_block_stack := l |}.

Definition set_instructions (l : list IrInstruction) (s : Store) : Store :=
  {| instructions := l; basic_blocks := basic_blocks s;
     variables := variables s; ast_nodes := ast_nodes s;
     block_contexts := block_contexts s |}.

Definition set_basic_blocks (l : list IrBasicBlock) (s : Store) : Store :=
  {| instructions := instructions s; basic_blocks := l;
     variables := variables s; ast_nodes := ast_nodes s;
     block_contexts := block_contexts s |}.

Definition set_variables (l : list VariableTableEntry) (s : Store) : Store :=
  {| instructions := instructions s; basic_blocks := basic_blocks s;
     variables := l; ast_nodes := ast_nodes s;
     block_contexts := block_contexts s |}.

Definition set_ast_nodes (l : list AstNode) (s : Store) : Store :=
  {| instructions := instructions s; basic_blocks := basic_blocks s;
     variables := variables s; ast_nodes := l;
     block_contexts := block_contexts s |}.

Definition set_block_contexts (l : list BlockContext) (s : Store) : Store :=
  {| instructions := instructions s; basic_blocks := basic_blocks s;
     variables := variables s; ast_nodes := ast_nodes s;
     block_contexts := l |}.

Definition set_node_block_context (c : option ScopePtr) (n : AstNode) : AstNode :=
  {| node_type := node_type n; node_block_context := c;
     node_data := node_data n |}.

Definition set_node_data (d : AstNodeData) (n : AstNode) : AstNode :=
  {| node_type := node_type n; node_block_context := node_block_context n;
     node_data := d |}.

Definition set_bc_parent_loop_node (l : option AstNodeId) (c : BlockContext)
  : BlockContext :=
  {| bc_node := bc_node c; bc_parent := bc_parent c;
     bc_has_fn_entry := bc_has_fn_entry c; bc_parent_loop_node := l;
     bc_var_table := bc_var_table c; bc_decls := bc_decls c |}.

Definition set_bc_var_table (t : list (string * VarPtr)) (c : BlockContext)
  : BlockContext :=
  {| bc_node := bc_node c; bc_parent := bc_parent c;
     bc_has_fn_entry := bc_has_fn_entry c;
     bc_parent_loop_node := bc_parent_loop_node c;
     bc_var_table := t; bc_decls := bc_decls c |}.

Definition set_out_variable (v : option VarPtr) (o : AsmOutput) : AsmOutput :=
  {| out_asm_symbolic_name := out_asm_symbolic_name o;
     out_constraint := out_constraint o;
     out_variable_name := out_variable_name o;
     out_return_type := out_return_type o; out_variable := v |}.

Definition set_b_codegen (g : CodeGen) (b : Builder) : Builder :=
  {| b_codegen := g; b_store := b_store b; b_irb := b_irb b |}.

Definition set_b_store (s : Store) (b : Builder) : Builder :=
  {| b_codegen := b_codegen b; b_store := s; b_irb := b_irb b |}.

Definition set_b_irb (i : IrBuilder) (b : Builder) : Builder :=
  {| b_codegen := b_codegen b; b_store := b_store b; b_irb := i |}.

(** *** Access to the objects *)

Definition get_instruction (p : InstrPtr) : M Builder IrInstruction :=
  s <- gets b_store ;; deref (instructions s !! p) "IrInstruction *".

Definition get_basic_block (p : BlockPtr) : M Builder IrBasicBlock :=
  s <- gets b_store ;; deref (basic_blocks s !! p) "IrBasicBlock *".

Definition get_variable (p : VarPtr) : M Builder VariableTableEntry :=
  s <- gets b_store ;; deref (variables s !! p) "VariableTableEntry *".

Definition update_instruction (p : InstrPtr)
    (f : IrInstruction -> IrInstruction) : M Builder unit :=
  i <- get_instruction p ;;
  modify (fun b =>
    set_b_store (set_instructions (<[p := f i]> (instructions (b_store b)))
                   (b_store b)) b).

Definition update_basic_block (p : BlockPtr)
    (f : IrBasicBlock -> IrBasicBlock) : M Builder unit :=
  bb <- get_basic_block p ;;
  modify (fun b =>
    set_b_store (set_basic_blocks (<[p := f bb]> (basic_blocks (b_store b)))
                   (b_store b)) b).

Definition update_variable (p : VarPtr)
    (f : VariableTableEntry -> VariableTableEntry) : M Builder unit :=
  v <- get_variable p ;;
  modify (fun b =>
    set_b_store (set_variables (<[p := f v]> (variables (b_store b)))
                   (b_store b)) b).

Definition get_node (p : AstNodeId) : M Builder AstNode :=
  s <- gets b_store ;; deref (ast_nodes s !! p) "AstNode *".

Definition get_block_context (p : ScopePtr) : M Builder BlockContext :=
  s <- gets b_store ;; deref (block_contexts s !! p) "BlockContext *".

Definition update_node (p : AstNodeId) (f : AstNode -> AstNode) : M Builder unit :=
  n <- get_node p ;;
  modify (fun b =>
    set_b_store (set_ast_nodes (<[p := f n]> (ast_nodes (b_store b)))
                   (b_store b)) b).

Definition update_block_context (p : ScopePtr)
    (f : BlockContext -> BlockContext) : M Builder unit :=
  c <- get_block_context p ;;
  modify (fun b =>
    set_b_store (set_block_contexts (<[p := f c]> (block_contexts (b_store b)))
                   (b_store b)) b).

Definition update_exec (f : IrExecutable -> IrExecutable) : M Builder unit :=
  modify (fun b => set_b_irb (set_irb_exec (f (irb_exec (b_irb b))) (b_irb b)) b).

(** A [codegen] computation run on [irb->codegen]. *)
Definition with_codegen {A : Type} (m : M CodeGen A) : M Builder A :=
  fun b => match m (b_codegen b) with
           | Ok (a, g) => Ok (a, set_b_codegen g b)
           | Panic e => Panic e
           end.

(** [allocate<T>(1)] of an instruction: a fresh object, all zero. *)
Definition allocate_instruction (i : IrInstruction) : M Builder InstrPtr :=
  s <- gets b_store ;;
  modify (fun b =>
    set_b_store (set_instructions (instructions s ++ [i]) (b_store b)) b) ;;;
  ret (length (instructions s)).

Definition allocate_basic_block (bb : IrBasicBlock) : M Builder BlockPtr :=
  s <- gets b_store ;;
  modify (fun b =>
    set_b_store (set_basic_blocks (basic_blocks s ++ [bb]) (b_store b)) b) ;;;
  ret (length (basic_blocks s)).

Definition allocate_variable (v : VariableTableEntry) : M Builder VarPtr :=
  s <- gets b_store ;;
  modify (fun b =>
    set_b_store (set_variables (variables s ++ [v]) (b_store b)) b) ;;;
  ret (length (variables s)).

Definition allocate_block_context (c : BlockContext) : M Builder ScopePtr :=
  s <- gets b_store ;;
  modify (fun b =>
    set_b_store (set_block_contexts (block_contexts s ++ [c]) (b_store b)) b) ;;;
  ret (length (block_contexts s)).

(** *** The builder functions of ir.cpp *)

(** [ir_should_inline] (ir.cpp:52). *)
Definition ir_should_inline : M Builder bool :=
  gets (fun b => exec_is_inline (irb_exec (b_irb b))).

(** [ir_instruction_append] (ir.cpp:56). *)
Definition ir_instruction_append (basic_block : option BlockPtr)
    (instruction : InstrPtr) : M Builder unit :=
  bb <- deref basic_block "assert(basic_block)" ;;
  update_basic_block bb (fun b =>
    set_bb_instruction_list (bb_instruction_list b ++ [instruction]) b).

(** [exec_next_debug_id] (ir.cpp:62). *)
Definition exec_next_debug_id_ : M Builder Z :=
  result <- gets (fun b => exec_next_debug_id (irb_exec (b_irb b))) ;;
  update_exec (set_exec_next_debug_id (wrap64 (result + 1))) ;;;
  ret result.

(** [exec_next_mem_slot] (ir.cpp:68). *)
Definition exec_next_mem_slot : M Builder Z :=
  result <- gets (fun b => exec_mem_slot_count (irb_exec (b_irb b))) ;;
  update_exec (set_exec_mem_slot_count (wrap64 (result + 1))) ;;;
  ret result.

(** [ir_link_new_instruction] (ir.cpp:74). *)
Definition ir_link_new_instruction (new_instruction old_instruction : InstrPtr)
  : M Builder unit :=
  update_instruction new_instruction (set_inst_other (Some old_instruction)) ;;;
  update_instruction old_instruction (set_inst_other (Some new_instruction)).

(** [ir_link_new_bb] (ir.cpp:79). *)
Definition ir_link_new_bb (new_bb old_bb : BlockPtr) : M Builder unit :=
  update_basic_block new_bb (set_bb_other (Some old_bb)) ;;;
  update_basic_block old_bb (set_bb_other (Some new_bb)).

(** [ir_ref_bb] (ir.cpp:84). *)
Definition ir_ref_bb (bb : BlockPtr) : M Builder unit :=
  update_basic_block bb (fun b => set_bb_ref_count (wrap64 (bb_ref_count b + 1)) b).

(** [ir_ref_instruction] (ir.cpp:88). *)
Definition ir_ref_instruction (instruction : InstrPtr) : M Builder unit :=
  update_instruction instruction
    (fun i => set_inst_ref_count (wrap64 (inst_ref_count i + 1)) i).

(** [ir_ref_var] (ir.cpp:92). *)
Definition ir_ref_var (var : VarPtr) : M Builder unit :=
  update_variable var (fun v => set_var_ref_count (wrap64 (var_ref_count v + 1)) v).

(** [ir_build_basic_block_raw] (ir.cpp:96). *)
Definition ir_build_basic_block_raw (name_hint : string) : M Builder BlockPtr :=
  debug_id <- exec_next_debug_id_ ;;
  allocate_basic_block
    {| bb_instruction_list := []; bb_other := None; bb_name_hint := name_hint;
       bb_debug_id := debug_id; bb_ref_count := 0 |}.

(** [ir_build_basic_block] (ir.cpp:103). *)
Definition ir_build_basic_block (name_hint : string) : M Builder BlockPtr :=
  result <- ir_build_basic_block_raw name_hint ;;
  update_exec (fun e =>
    set_exec_basic_block_list (exec_basic_block_list e ++ [result]) e) ;;;
  ret result.

(** [ir_build_bb_from] (ir.cpp:109). *)
Definition ir_build_bb_from (other_bb : BlockPtr) : M Builder BlockPtr :=
  other <- get_basic_block other_bb ;;
  new_bb <- ir_build_basic_block_raw (bb_name_hint other) ;;
  ir_link_new_bb new_bb other_bb ;;;
  ret new_bb.

(** [ir_create_instruction<T>] (ir.cpp:292): [id] is [ir_instruction_id] of
    [T] and [d] the fields of [T], still zero. *)
Definition ir_create_instruction (id : IrInstructionId) (d : IrInstructionData)
    (source_node : AstNodeId) : M Builder InstrPtr :=
  debug_id <- exec_next_debug_id_ ;;
  allocate_instruction
    {| inst_id := id; inst_source_node := source_node;
       inst_static_value := zero_value; inst_type_entry := None;
       inst_debug_id := debug_id; inst_other := None; inst_ref_count := 0;
       inst_data := d |}.

(** [ir_build_instruction<T>] (ir.cpp:301). *)
Definition ir_build_instruction (id : IrInstructionId) (d : IrInstructionData)
    (source_node : AstNodeId) : M Builder InstrPtr :=
  special_instruction <- ir_create_instruction id d source_node ;;
  current <- gets (fun b => irb_current_basic_block (b_irb b)) ;;
  ir_instruction_append current special_instruction ;;;
  ret special_instruction.

(** [instruction->base.static_value.special = s]. *)
Definition set_instruction_special (p : InstrPtr) (s : ConstValSpecial)
  : M Builder unit :=
  update_instruction p
    (fun i => set_inst_static_value (set_special s (inst_static_value i)) i).

(** [ir_build_cast] (ir.cpp:308). *)
Definition ir_build_cast (source_node : AstNodeId) (dest_type : TypeTableEntry)
    (value : InstrPtr) : M Builder InstrPtr :=
  cast_instruction <-
    ir_build_instruction IrInstructionIdCast (IrInstructionCast value dest_type)
      source_node ;;
  ir_ref_instruction value ;;;
  ret cast_instruction.

(** [ir_build_cond_br] (ir.cpp:321). *)
Definition ir_build_cond_br (source_node : AstNodeId) (condition : InstrPtr)
    (then_block else_block : BlockPtr) (is_inline : bool) : M Builder InstrPtr :=
  cond_br_instruction <-
    ir_build_instruction IrInstructionIdCondBr
      (IrInstructionCondBr condition then_block else_block is_inline)
      source_node ;;
  update_instruction cond_br_instruction
    (set_inst_type_entry (Some entry_unreachable)) ;;;
  set_instruction_special cond_br_instruction ConstValSpecialStatic ;;;
  ir_ref_instruction condition ;;;
  ir_ref_bb then_block ;;;
  ir_ref_bb else_block ;;;
  ret cond_br_instruction.

(** [ir_build_cond_br_from] (ir.cpp:339). *)
Definition ir_build_cond_br_from (old_instruction : InstrPtr)
    (condition : InstrPtr) (then_block else_block : BlockPtr) (is_inline : bool)
  : M Builder InstrPtr :=
  old <- get_instruction old_instruction ;;
  new_instruction <-
    ir_build_cond_br (inst_source_node old) condition then_block else_block
      is_inline ;;
  ir_link_new_instruction new_instruction old_instruction ;;;
  ret new_instruction.

(** [ir_create_const] (ir.cpp:367). *)
Definition ir_create_const (source_node : AstNodeId) (type_entry : TypeTableEntry)
    (depends : bool) : M Builder InstrPtr :=
  const_instruction <-
    ir_create_instruction IrInstructionIdConst IrInstructionConst source_node ;;
  update_instruction const_instruction (fun i =>
    set_inst_static_value
      (set_depends_on_compile_var depends
         (set_special ConstValSpecialStatic (inst_static_value i)))
      (set_inst_type_entry (Some type_entry) i)) ;;;
  ret const_instruction.

(** [ir_build_const_void] (ir.cpp:378). *)
Definition ir_build_const_void (source_node : AstNodeId) : M Builder InstrPtr :=
  const_instruction <-
    ir_build_instruction IrInstructionIdConst IrInstructionConst source_node ;;
  update_instruction const_instruction (set_inst_type_entry (Some entry_void)) ;;;
  set_instruction_special const_instruction ConstValSpecialStatic ;;;
  ret const_instruction.

(** [ir_build_var_ptr] (ir.cpp:553). *)
Definition ir_build_var_ptr (source_node : AstNodeId) (var : VarPtr)
  : M Builder InstrPtr :=
  instruction <-
    ir_build_instruction IrInstructionIdVarPtr (IrInstructionVarPtr var)
      source_node ;;
  ir_ref_var var ;;;
  ret instruction.

(** [ir_build_var_ptr_from] (ir.cpp:562). *)
Definition ir_build_var_ptr_from (old_instruction : InstrPtr) (var : VarPtr)
  : M Builder InstrPtr :=
  old <- get_instruction old_instruction ;;
  new_instruction <- ir_build_var_ptr (inst_source_node old) var ;;
  ir_link_new_instruction new_instruction old_instruction ;;;
  ret new_instruction.

(** [ir_build_elem_ptr] (ir.cpp:569). *)
Definition ir_build_elem_ptr (source_node : AstNodeId)
    (array_ptr elem_index : InstrPtr) (safety_check_on : bool)
  : M Builder InstrPtr :=
  instruction <-
    ir_build_instruction IrInstructionIdElemPtr
      (IrInstructionElemPtr (Some array_ptr) (Some elem_index) safety_check_on)
      source_node ;;
  ir_ref_instruction array_ptr ;;;
  ir_ref_instruction elem_index ;;;
  ret instruction.

(** [ir_build_elem_ptr_from] (ir.cpp:583). *)
Definition ir_build_elem_ptr_from (old_instruction : InstrPtr)
    (array_ptr elem_index : InstrPtr) (safety_check_on : bool)
  : M Builder InstrPtr :=
  old <- get_instruction old_instruction ;;
  new_instruction <-
    ir_build_elem_ptr (inst_source_node old) array_ptr elem_index
      safety_check_on ;;
  ir_link_new_instruction new_instruction old_instruction ;;;
  ret new_instruction.

(** [ir_create_br] (ir.cpp:699). *)
Definition ir_create_br (source_node : AstNodeId) (dest_block : BlockPtr)
    (is_inline : bool) : M Builder InstrPtr :=
  br_instruction <-
    ir_create_instruction IrInstructionIdBr
      (IrInstructionBr dest_block is_inline) source_node ;;
  update_instruction br_instruction
    (set_inst_type_entry (Some entry_unreachable)) ;;;
  set_instruction_special br_instruction ConstValSpecialStatic ;;;
  ir_ref_bb dest_block ;;;
  ret br_instruction.

(** [ir_build_br] (ir.cpp:711). *)
Definition ir_build_br (source_node : AstNodeId) (dest_block : BlockPtr)
    (is_inline : bool) : M Builder InstrPtr :=
  instruction <- ir_create_br source_node dest_block is_inline ;;
  current <- gets (fun b => irb_current_basic_block (b_irb b)) ;;
  ir_instruction_append current instruction ;;;
  ret instruction.

(** [ir_build_br_from] (ir.cpp:717). *)
Definition ir_build_br_from (old_instruction : InstrPtr) (dest_block : BlockPtr)
  : M Builder InstrPtr :=
  old <- get_instruction old_instruction ;;
  new_instruction <- ir_build_br (inst_source_node old) dest_block false ;;
  ir_link_new_instruction new_instruction old_instruction ;;;
  ret new_instruction.

(** [ir_build_unreachable] (ir.cpp:807). *)
Definition ir_build_unreachable (source_node : AstNodeId) : M Builder InstrPtr :=
  unreachable_instruction <-
    ir_build_instruction IrInstructionIdUnreachable IrInstructionUnreachable
      source_node ;;
  set_instruction_special unreachable_instruction ConstValSpecialStatic ;;;
  update_instruction unreachable_instruction
    (set_inst_type_entry (Some entry_unreachable)) ;;;
  ret unreachable_instruction.

(** [ir_build_unreachable_from] (ir.cpp:815). *)
Definition ir_build_unreachable_from (old_instruction : InstrPtr)
  : M Builder InstrPtr :=
  old <- get_instruction old_instruction ;;
  new_instruction <- ir_build_unreachable (inst_source_node old) ;;
  ir_link_new_instruction new_instruction old_instruction ;;;
  ret new_instruction.

(** [ir_build_store_ptr] (ir.cpp:821). *)
Definition ir_build_store_ptr (source_node : AstNodeId) (ptr value : InstrPtr)
  : M Builder InstrPtr :=
  instruction <-
    ir_build_instruction IrInstructionIdStorePtr (IrInstructionStorePtr ptr value)
      source_node ;;
  set_instruction_special instruction ConstValSpecialStatic ;;;
  update_instruction instruction (set_inst_type_entry (Some entry_void)) ;;;
  ir_ref_instruction ptr ;;;
  ir_ref_instruction value ;;;
  ret instruction.

(** [ir_build_store_ptr_from] (ir.cpp:836). *)
Definition ir_build_store_ptr_from (old_instruction : InstrPtr)
    (ptr value : InstrPtr) : M Builder InstrPtr :=
  old <- get_instruction old_instruction ;;
  new_instruction <- ir_build_store_ptr (inst_source_node old) ptr value ;;
  ir_link_new_instruction new_instruction old_instruction ;;;
  ret new_instruction.

(** [ir_build_var_decl] (ir.cpp:844). *)
Definition ir_build_var_decl (source_node : AstNodeId) (var : VarPtr)
    (var_type : option InstrPtr) (init_value : InstrPtr) : M Builder InstrPtr :=
  decl_var_instruction <-
    ir_build_instruction IrInstructionIdDeclVar
      (IrInstructionDeclVar var var_type init_value) source_node ;;
  set_instruction_special decl_var_instruction ConstValSpecialStatic ;;;
  update_instruction decl_var_instruction (set_inst_type_entry (Some entry_void)) ;;;
  match var_type with
  | Some t => ir_ref_instruction t
  | None => ret tt
  end ;;;
  ir_ref_instruction init_value ;;;
  ret decl_var_instruction.

(** [ir_build_var_decl_from] (ir.cpp:860). *)
Definition ir_build_var_decl_from (old_instruction : InstrPtr) (var : VarPtr)
    (var_type : option InstrPtr) (init_value : InstrPtr) : M Builder InstrPtr :=
  old <- get_instruction old_instruction ;;
  new_instruction <-
    ir_build_var_decl (inst_source_node old) var var_type init_value ;;
  ir_link_new_instruction new_instruction old_instruction ;;;
  ret new_instruction.

(** [ir_build_const_undefined] (ir.cpp:385). *)
Definition ir_build_const_undefined (source_node : AstNodeId) : M Builder InstrPtr :=
  const_instruction <-
    ir_build_instruction IrInstructionIdConst IrInstructionConst source_node ;;
  set_instruction_special const_instruction ConstValSpecialUndef ;;;
  update_instruction const_instruction (set_inst_type_entry (Some entry_undef)) ;;;
  ret const_instruction.

(** [instruction->base.static_value.data = d]. *)
Definition set_instruction_data_value (p : InstrPtr)
    (d : ConstUnion ConstExprValue) : M Builder unit :=
  update_instruction p
    (fun i => set_inst_static_value (set_data d (inst_static_value i)) i).

(** Modelled from the spec: [bignum_init_unsigned] of bignum.cpp, which is
    not among the sources: the non-negative integer of magnitude [value]. *)
Definition bignum_init_unsigned (value : Z) : BigNum :=
  {| bn_kind := BigNumKindInt; bn_is_negative := false; bn_x_uint := value |}.

(** [ir_build_const_usize] (ir.cpp:408). *)
Definition ir_build_const_usize (source_node : AstNodeId) (value : Z)
  : M Builder InstrPtr :=
  const_instruction <-
    ir_build_instruction IrInstructionIdConst IrInstructionConst source_node ;;
  update_instruction const_instruction (set_inst_type_entry (Some entry_usize)) ;;;
  set_instruction_special const_instruction ConstValSpecialStatic ;;;
  set_instruction_data_value const_instruction
    (x_bignum (bignum_init_unsigned value)) ;;;
  ret const_instruction.

(** [ir_build_const_type] (ir.cpp:424) with [ir_create_const_type]
    (ir.cpp:416); [builtin_types.entry_type] is the metatype. *)
Definition ir_build_const_type (source_node : AstNodeId)
    (type_entry : TypeTableEntry) : M Builder InstrPtr :=
  const_instruction <-
    ir_create_instruction IrInstructionIdConst IrInstructionConst source_node ;;
  update_instruction const_instruction (set_inst_type_entry (Some TyMetaType)) ;;;
  set_instruction_special const_instruction ConstValSpecialStatic ;;;
  set_instruction_data_value const_instruction (x_type type_entry) ;;;
  current <- gets (fun b => irb_current_basic_block (b_irb b)) ;;
  ir_instruction_append current const_instruction ;;;
  ret const_instruction.

(** [ir_build_const_bool] (ir.cpp:462). *)
Definition ir_build_const_bool (source_node : AstNodeId) (value : bool)
  : M Builder InstrPtr :=
  const_instruction <-
    ir_build_instruction IrInstructionIdConst IrInstructionConst source_node ;;
  update_instruction const_instruction (set_inst_type_entry (Some entry_bool)) ;;;
  set_instruction_special const_instruction ConstValSpecialStatic ;;;
  set_instruction_data_value const_instruction (x_bool value) ;;;
  ret const_instruction.

(** [ir_build_bin_op] (ir.cpp:531). *)
Definition ir_build_bin_op (source_node : AstNodeId) (op_id : IrBinOp)
    (op1 op2 : InstrPtr) : M Builder InstrPtr :=
  bin_op_instruction <-
    ir_build_instruction IrInstructionIdBinOp (IrInstructionBinOp op_id op1 op2)
      source_node ;;
  ir_ref_instruction op1 ;;;
  ir_ref_instruction op2 ;;;
  ret bin_op_instruction.

(** The builders of an instruction with one operand: [ir_build_load_ptr]
    (ir.cpp:868), [ir_build_typeof] (883), [ir_build_to_ptr_type] (892),
    [ir_build_ptr_type_child] (901), [ir_build_array_len] (1182) and
    [ir_build_ref] (1199). *)
Definition ir_build_operand (id : IrInstructionId) (source_node : AstNodeId)
    (value : InstrPtr) : M Builder InstrPtr :=
  instruction <-
    ir_build_instruction id (IrInstructionOperand value) source_node ;;
  ir_ref_instruction value ;;;
  ret instruction.

Definition ir_build_load_ptr := ir_build_operand IrInstructionIdLoadPtr.
Definition ir_build_typeof := ir_build_operand IrInstructionIdTypeOf.
Definition ir_build_to_ptr_type := ir_build_operand IrInstructionIdToPtrType.
Definition ir_build_ptr_type_child := ir_build_operand IrInstructionIdPtrTypeChild.
Definition ir_build_array_len := ir_build_operand IrInstructionIdArrayLen.
Definition ir_build_ref := ir_build_operand IrInstructionIdRef.

(** [ir_build_asm] (ir.cpp:974). *)
Definition ir_build_asm (source_node : AstNodeId) (input_list : list InstrPtr)
    (output_types : list (option InstrPtr)) (return_count : Z)
    (has_side_effects : bool) : M Builder InstrPtr :=
  instruction <-
    ir_build_instruction IrInstructionIdAsm
      (IrInstructionAsm input_list output_types return_count has_side_effects)
      source_node ;;
  node <- get_node source_node ;;
  assert (bool_decide (node_type node = NodeTypeAsmExpr))
    "source_node->type == NodeTypeAsmExpr" ;;;
  foldr (fun output_type k =>
           match output_type with
           | Some t => ir_ref_instruction t ;;; k
           | None => k
           end) (ret tt) output_types ;;;
  foldr (fun input_value k => ir_ref_instruction input_value ;;; k)
    (ret tt) input_list ;;;
  ret instruction.

(** [ir_set_cursor_at_end] (ir.cpp:1261). *)
Definition ir_set_cursor_at_end (basic_block : BlockPtr) : M Builder unit :=
  modify (fun b =>
    set_b_irb (set_irb_current_basic_block (Some basic_block) (b_irb b)) b).

(** *** Scopes and local variables *)

(** Modelled from the spec: [new_block_context] of analyze.cpp, which is
    not among the sources: a scope knows its parent, its defining node and
    its owning function, and starts with empty tables. *)
Definition new_block_context (node : AstNodeId) (parent : option ScopePtr)
  : M Builder ScopePtr :=
  parent <- deref parent "parent scope" ;;
  p <- get_block_context parent ;;
  allocate_block_context
    {| bc_node := Some node; bc_parent := Some parent;
       bc_has_fn_entry := bc_has_fn_entry p;
       bc_parent_loop_node := bc_parent_loop_node p;
       bc_var_table := []; bc_decls := [] |}.

(** The first entry of a table under [name]. *)
Fixpoint table_get {A : Type} (name : string) (table : list (string * A))
  : option A :=
  match table with
  | [] => None
  | (k, v) :: rest => if bool_decide (k = name) then Some v else table_get name rest
  end.

(** A lookup that walks from [scope] to its parents; [fuel] bounds the
    length of the chain. *)
Fixpoint scope_lookup {A : Type} (table : BlockContext -> list (string * A))
    (fuel : nat) (scopes : list BlockContext) (scope : option ScopePtr)
    (name : string) : option A :=
  match fuel with
  | O => None
  | S fuel' =>
      match scope with
      | None => None
      | Some p =>
          match scopes !! p with
          | None => None
          | Some c =>
              match table_get name (table c) with
              | Some v => Some v
              | None => scope_lookup table fuel' scopes (bc_parent c) name
              end
          end
      end
  end.

(** Modelled from the spec: [find_variable] of analyze.cpp, which is not
    among the sources: the variable [name] resolves to along the scope
    chain. *)
Definition find_variable (scope : option ScopePtr) (name : string)
  : M Builder (option VarPtr) :=
  s <- gets b_store ;;
  ret (scope_lookup bc_var_table (length (block_contexts s)) (block_contexts s)
         scope name).

(** Modelled from the spec: [find_decl] of analyze.cpp, which is not among
    the sources: the declaration [name] resolves to along the scope
    chain. *)
Definition find_decl (scope : option ScopePtr) (name : string)
  : M Builder (option AstNodeId) :=
  s <- gets b_store ;;
  ret (scope_lookup bc_decls (length (block_contexts s)) (block_contexts s)
         scope name).

(** [add_local_var] (ir.cpp:1267). *)
Definition add_local_var (node : AstNodeId) (scope : ScopePtr)
    (name : option string) (src_is_const gen_is_const is_shadowable is_inline : bool)
  : M Builder VarPtr :=
  sc <- get_block_context scope ;;
  n <- get_node node ;;
  variable_entry <-
    allocate_variable
      {| var_name := default "_anon" name; var_type := None;
         var_src_is_const := src_is_const; var_gen_is_const := gen_is_const;
         var_is_inline := is_inline; var_shadowable := is_shadowable;
         var_mem_slot_index := SIZE_MAX; var_ref_count := 0;
         var_decl_node := node; var_in_fn := bc_has_fn_entry sc;
         var_top_level_value :=
           match node_data n with
           | data_variable_declaration _ _ value => value
           | _ => None
           end;
         var_is_export :=
           match node_data n with
           | data_variable_declaration is_export _ _ => is_export
           | _ => false
           end;
         var_is_extern :=
           match node_data n with
           | data_variable_declaration _ is_extern _ => is_extern
           | _ => false
           end |} ;;
  match name with
  | Some name =>
      existing_var <- find_variable (Some scope) name ;;
      existing <-
        match existing_var with
        | Some e => v <- get_variable e ;; ret (Some v)
        | None => ret None
        end ;;
      let no_clash : M Builder unit :=
        g <- gets b_codegen ;;
        match table_get name (primitive_type_table g) with
        | Some type =>
            with_codegen
              (add_node_error node "variable shadows type '%s'" [ArgType type]) ;;;
            update_variable variable_entry (set_var_type (Some entry_invalid))
        | None =>
            decl_node <- find_decl (Some scope) name ;;
            match decl_node with
            | Some d =>
                dn <- get_node d ;;
                if negb (bool_decide (node_type dn = NodeTypeVariableDeclaration))
                then
                  with_codegen
                    (add_node_error node "redefinition of '%s'" [ArgStr name] ;;;
                     add_error_note d "previous definition is here") ;;;
                  update_variable variable_entry
                    (set_var_type (Some entry_invalid))
                else ret tt
            | None => ret tt
            end
        end in
      match existing with
      | Some e =>
          if negb (var_shadowable e) then
            with_codegen
              (add_node_error node "redeclaration of variable '%s'" [ArgStr name] ;;;
               add_error_note (var_decl_node e) "previous declaration is here") ;;;
            update_variable variable_entry (set_var_type (Some entry_invalid))
          else no_clash
      | None => no_clash
      end ;;;
      update_block_context scope (fun c =>
        set_bc_var_table ((name, variable_entry) :: bc_var_table c) c)
  | None => assert is_shadowable "assert(is_shadowable)"
  end ;;;
  ret variable_entry.

(** [ir_add_local_var] (ir.cpp:1319). *)
Definition ir_add_local_var (node : AstNodeId) (scope : ScopePtr)
    (name : option string) (src_is_const gen_is_const is_shadowable is_inline : bool)
  : M Builder VarPtr :=
  var <- add_local_var node scope name src_is_const gen_is_const is_shadowable
           is_inline ;;
  (if is_inline || gen_is_const then
     slot <- exec_next_mem_slot ;;
     update_variable var (set_var_mem_slot_index slot)
   else ret tt) ;;;
  ret var.

(** ** IR construction *)

Inductive LValPurpose : Type :=
| LValPurposeNone
| LValPurposeAssign
| LValPurposeAddressOf.

#[global] Instance LValPurpose_eq_dec : EqDecision LValPurpose.
Proof. solve_decision. Defined.

(** [irb->codegen->invalid_instruction]. *)
Definition get_invalid_instruction : M Builder InstrPtr :=
  gets (fun b => invalid_instruction (b_codegen b)).

(** [ZigList::append] and [ZigList::pop] on a stack of blocks; [pop]
    asserts that the list is not empty and drops its last item. *)
Definition stack_append (bb : BlockPtr) (l : list BlockPtr) : list BlockPtr :=
  l ++ [bb].

Definition stack_pop (l : list BlockPtr) : option (list BlockPtr) :=
  match l with
  | [] => None
  | _ => Some (removelast l)
  end.

Definition break_block_stack_append (bb : BlockPtr) : M Builder unit :=
  modify (fun b =>
    set_b_irb (set_irb_break_block_stack
                 (stack_append bb (irb_break_block_stack (b_irb b))) (b_irb b)) b).

Definition continue_block_stack_append (bb : BlockPtr) : M Builder unit :=
  modify (fun b =>
    set_b_irb (set_irb_continue_block_stack
                 (stack_append bb (irb_continue_block_stack (b_irb b))) (b_irb b)) b).

Definition break_block_stack_pop : M Builder unit :=
  l <- gets (fun b => irb_break_block_stack (b_irb b)) ;;
  l' <- deref (stack_pop l) "break_block_stack.pop()" ;;
  modify (fun b => set_b_irb (set_irb_break_block_stack l' (b_irb b)) b).

Definition continue_block_stack_pop : M Builder unit :=
  l <- gets (fun b => irb_continue_block_stack (b_irb b)) ;;
  l' <- deref (stack_pop l) "continue_block_stack.pop()" ;;
  modify (fun b => set_b_irb (set_irb_continue_block_stack l' (b_irb b)) b).

(** [ir_lval_wrap] (ir.cpp:2594). *)
Definition ir_lval_wrap (value : InstrPtr) (lval : LValPurpose)
  : M Builder InstrPtr :=
  if bool_decide (lval = LValPurposeNone) then ret value else
  invalid <- get_invalid_instruction ;;
  if bool_decide (value = invalid) then ret value else
  i <- get_instruction value ;;
  ir_build_ref (inst_source_node i) value.

(** [ir_gen_bool_literal] (ir.cpp:2180). *)
Definition ir_gen_bool_literal (node : AstNodeId) : M Builder InstrPtr :=
  n <- get_node node ;;
  assert (bool_decide (node_type n = NodeTypeBoolLiteral))
    "node->type == NodeTypeBoolLiteral" ;;;
  match node_data n with
  | data_bool_literal value => ir_build_const_bool node value
  | _ => panic "node->data.bool_literal"
  end.

(** [ir_gen_undefined_literal] (ir.cpp:2227). *)
Definition ir_gen_undefined_literal (node : AstNodeId) : M Builder InstrPtr :=
  n <- get_node node ;;
  assert (bool_decide (node_type n = NodeTypeUndefinedLiteral))
    "node->type == NodeTypeUndefinedLiteral" ;;;
  ir_build_const_undefined node.

(** [ir_gen_type_literal] (ir.cpp:2605). *)
Definition ir_gen_type_literal (node : AstNodeId) : M Builder InstrPtr :=
  n <- get_node node ;;
  assert (bool_decide (node_type n = NodeTypeTypeLiteral))
    "node->type == NodeTypeTypeLiteral" ;;;
  ir_build_const_type node TyMetaType.

Section IrGen.

(** The recursive calls: [ir_gen_node_extra]. *)
Variable ir_gen_node_extra :
  AstNodeId -> option ScopePtr -> LValPurpose -> M Builder InstrPtr.

(** The generators of ir.cpp for the node types that are not embedded
    here. *)
Variable ir_gen_other : AstNodeId -> LValPurpose -> M Builder InstrPtr.

(** [ir_gen_node] (ir.cpp:2705). *)
Definition ir_gen_node (node : AstNodeId) (scope : option ScopePtr)
  : M Builder InstrPtr :=
  ir_gen_node_extra node scope LValPurposeNone.

(** [ir_gen_while_expr] (ir.cpp:2014). *)
Definition ir_gen_while_expr (node : AstNodeId) : M Builder InstrPtr :=
  n <- get_node node ;;
  assert (bool_decide (node_type n = NodeTypeWhileExpr))
    "node->type == NodeTypeWhileExpr" ;;;
  match node_data n with
  | data_while_expr condition continue_expr_node body node_is_inline =>
      cond_block <- ir_build_basic_block "WhileCond" ;;
      body_block <- ir_build_basic_block "WhileBody" ;;
      continue_block <-
        match continue_expr_node with
        | Some _ => ir_build_basic_block "WhileContinue"
        | None => ret cond_block
        end ;;
      end_block <- ir_build_basic_block "WhileEnd" ;;
      should_inline <- ir_should_inline ;;
      let is_inline := should_inline || node_is_inline in
      ir_build_br node cond_block is_inline ;;;
      match continue_expr_node with
      | Some continue_expr =>
          ir_set_cursor_at_end continue_block ;;;
          ir_gen_node continue_expr (node_block_context n) ;;;
          ir_build_br node cond_block is_inline ;;;
          ret tt
      | None => ret tt
      end ;;;
      ir_set_cursor_at_end cond_block ;;;
      cond_val <- ir_gen_node condition (node_block_context n) ;;
      ir_build_cond_br condition cond_val body_block end_block is_inline ;;;
      ir_set_cursor_at_end body_block ;;;
      break_block_stack_append end_block ;;;
      continue_block_stack_append continue_block ;;;
      ir_gen_node body (node_block_context n) ;;;
      break_block_stack_pop ;;;
      continue_block_stack_pop ;;;
      ir_build_br node continue_block is_inline ;;;
      ir_set_cursor_at_end end_block ;;;
      ir_build_const_void node
  | _ => panic "node->data.while_expr"
  end.

(** [ir_gen_for_expr] (ir.cpp:2052). *)
Definition ir_gen_for_expr (node : AstNodeId) : M Builder InstrPtr :=
  n <- get_node node ;;
  assert (bool_decide (node_type n = NodeTypeForExpr))
    "node->type == NodeTypeForExpr" ;;;
  let parent_scope := node_block_context n in
  match node_data n with
  | data_for_expr array_node elem_node index_node body_node elem_is_ptr
      node_is_inline _ _ =>
      match elem_node with
      | None =>
          with_codegen
            (add_node_error node
               "for loop expression missing element parameter" []) ;;;
          get_invalid_instruction
      | Some elem_node =>
          en <- get_node elem_node ;;
          assert (bool_decide (node_type en = NodeTypeSymbol))
            "elem_node->type == NodeTypeSymbol" ;;;
          array_val <- ir_gen_node array_node parent_scope ;;
          invalid <- get_invalid_instruction ;;
          if bool_decide (array_val = invalid) then ret array_val else
          (   array_type <- ir_build_typeof array_node array_val ;;
              pointer_type <- ir_build_to_ptr_type array_node array_type ;;
              elem_var_type <-
                (if elem_is_ptr then ret pointer_type
                 else ir_build_ptr_type_child elem_node pointer_type) ;;
              should_inline <- ir_should_inline ;;
              let is_inline := should_inline || node_is_inline in
              child_scope <- new_block_context node parent_scope ;;
              update_block_context child_scope
                (set_bc_parent_loop_node (Some node)) ;;;
              update_node elem_node (set_node_block_context (Some child_scope)) ;;;
              elem_var_name <-
                match node_data en with
                | data_symbol_expr symbol => ret symbol
                | _ => panic "elem_node->data.symbol_expr"
                end ;;
              elem_var <-
                ir_add_local_var elem_node child_scope (Some elem_var_name)
                  true false false is_inline ;;
              update_node node (fun x =>
                match node_data x with
                | data_for_expr a e i b p l _ iv =>
                    set_node_data (data_for_expr a e i b p l (Some elem_var) iv) x
                | _ => x
                end) ;;;
              undefined_value <- ir_build_const_undefined elem_node ;;
              ir_build_var_decl elem_node elem_var (Some elem_var_type)
                undefined_value ;;;
              elem_var_ptr <- ir_build_var_ptr node elem_var ;;
              index_var <-
                match index_node with
                | Some index_node =>
                    ixn <- get_node index_node ;;
                    index_var_name <-
                      match node_data ixn with
                      | data_symbol_expr symbol => ret symbol
                      | _ => panic "index_node->data.symbol_expr"
                      end ;;
                    update_node index_node
                      (set_node_block_context (Some child_scope)) ;;;
                    ir_add_local_var index_node child_scope
                      (Some index_var_name) true false false is_inline
                | None =>
                    ir_add_local_var node child_scope None true false true
                      is_inline
                end ;;
              let index_var_source_node := default node index_node in
              update_node node (fun x =>
                match node_data x with
                | data_for_expr a e i b p l ev _ =>
                    set_node_data (data_for_expr a e i b p l ev (Some index_var)) x
                | _ => x
                end) ;;;
              usize <- ir_build_const_type node entry_usize ;;
              zero <- ir_build_const_usize node 0 ;;
              one <- ir_build_const_usize node 1 ;;
              ir_build_var_decl index_var_source_node index_var (Some usize)
                zero ;;;
              index_ptr <- ir_build_var_ptr node index_var ;;
              cond_block <- ir_build_basic_block "ForCond" ;;
              body_block <- ir_build_basic_block "ForBody" ;;
              end_block <- ir_build_basic_block "ForEnd" ;;
              continue_block <- ir_build_basic_block "ForContinue" ;;
              len_val <- ir_build_array_len node array_val ;;
              ir_build_br node cond_block is_inline ;;;
              ir_set_cursor_at_end cond_block ;;;
              index_val <- ir_build_load_ptr node index_ptr ;;
              cond <- ir_build_bin_op node IrBinOpCmpLessThan index_val len_val ;;
              ir_build_cond_br node cond body_block end_block is_inline ;;;
              ir_set_cursor_at_end body_block ;;;
              elem_ptr <- ir_build_elem_ptr node array_val index_val true ;;
              elem_val <-
                (if elem_is_ptr then ret elem_ptr
                 else ir_build_load_ptr node elem_ptr) ;;
              ir_build_store_ptr node elem_var_ptr elem_val ;;;
              break_block_stack_append end_block ;;;
              continue_block_stack_append continue_block ;;;
              ir_gen_node body_node (Some child_scope) ;;;
              break_block_stack_pop ;;;
              continue_block_stack_pop ;;;
              ir_build_br node continue_block is_inline ;;;
              ir_set_cursor_at_end continue_block ;;;
              new_index_val <- ir_build_bin_op node IrBinOpAdd index_val one ;;
              ir_build_store_ptr node index_ptr new_index_val ;;;
              ir_build_br node cond_block is_inline ;;;
              ir_set_cursor_at_end end_block ;;;
              ir_build_const_void node)
      end
  | _ => panic "node->data.for_expr"
  end.

(** The first loop of [ir_gen_asm_expr], over the outputs from index [i]
    on.  [None] is the [return irb->codegen->invalid_instruction] inside
    the loop; otherwise the final [return_count] and [output_types]. *)
Fixpoint ir_gen_asm_outputs (node : AstNodeId) (scope : option ScopePtr) (i : nat)
    (outputs : list AsmOutput) (return_count : Z)
    (output_types : list (option InstrPtr))
  : M Builder (option (Z * list (option InstrPtr))) :=
  match outputs with
  | [] => ret (Some (return_count, output_types))
  | asm_output :: rest =>
      match out_return_type asm_output with
      | Some return_type_node =>
          let return_count := wrap64 (return_count + 1) in
          return_type <- ir_gen_node return_type_node scope ;;
          invalid <- get_invalid_instruction ;;
          if bool_decide (return_type = invalid) then ret None
          else if return_count >? 1 then
            with_codegen
              (add_node_error node
                 "inline assembly allows up to one output value" []) ;;;
            ret None
          else
            ir_gen_asm_outputs node scope (S i) rest return_count
              (output_types ++ [Some return_type])
      | None =>
          let variable_name := out_variable_name asm_output in
          var <- find_variable scope variable_name ;;
          match var with
          | Some v =>
              update_node node (fun x =>
                match node_data x with
                | data_asm_expr vol outs ins =>
                    set_node_data
                      (data_asm_expr vol
                         (<[i := set_out_variable (Some v) asm_output]> outs) ins) x
                | _ => x
                end) ;;;
              ir_gen_asm_outputs node scope (S i) rest return_count
                (output_types ++ [None])
          | None =>
              with_codegen
                (add_node_error node "use of undeclared identifier '%s'"
                   [ArgStr variable_name]) ;;;
              ret None
          end
      end
  end.

(** The second loop of [ir_gen_asm_expr], over the inputs. *)
Fixpoint ir_gen_asm_inputs (scope : option ScopePtr) (inputs : list AsmInput)
    (input_list : list InstrPtr) : M Builder (option (list InstrPtr)) :=
  match inputs with
  | [] => ret (Some input_list)
  | asm_input :: rest =>
      input_value <- ir_gen_node (in_expr asm_input) scope ;;
      invalid <- get_invalid_instruction ;;
      if bool_decide (input_value = invalid) then ret None
      else ir_gen_asm_inputs scope rest (input_list ++ [input_value])
  end.

(** [ir_gen_asm_expr] (ir.cpp:2232). *)
Definition ir_gen_asm_expr (node : AstNodeId) : M Builder InstrPtr :=
  n <- get_node node ;;
  assert (bool_decide (node_type n = NodeTypeAsmExpr))
    "node->type == NodeTypeAsmExpr" ;;;
  match node_data n with
  | data_asm_expr is_volatile output_list input_list =>
      if negb is_volatile && bool_decide (length output_list = 0%nat) then
        with_codegen
          (add_node_error node
             "assembly expression with no output must be marked volatile" []) ;;;
        get_invalid_instruction
      else
        outs <- ir_gen_asm_outputs node (node_block_context n) 0 output_list 0 [] ;;
        match outs with
        | None => get_invalid_instruction
        | Some (return_count, output_types) =>
            ins <- ir_gen_asm_inputs (node_block_context n) input_list [] ;;
            match ins with
            | None => get_invalid_instruction
            | Some inputs =>
                ir_build_asm node inputs output_types return_count is_volatile
            end
        end
  | _ => panic "node->data.asm_expr"
  end.

(** [ir_gen_node_raw] (ir.cpp:2610). *)
Definition ir_gen_node_raw (node : AstNodeId) (block_context : option ScopePtr)
    (lval : LValPurpose) : M Builder InstrPtr :=
  assert (bool_decide (is_Some block_context)) "assert(block_context)" ;;;
  update_node node (set_node_block_context block_context) ;;;
  n <- get_node node ;;
  match node_type n with
  | NodeTypeStructValueField => panic "zig_unreachable"
  | NodeTypeWhileExpr => r <- ir_gen_while_expr node ;; ir_lval_wrap r lval
  | NodeTypeForExpr => r <- ir_gen_for_expr node ;; ir_lval_wrap r lval
  | NodeTypeBoolLiteral => r <- ir_gen_bool_literal node ;; ir_lval_wrap r lval
  | NodeTypeUndefinedLiteral =>
      r <- ir_gen_undefined_literal node ;; ir_lval_wrap r lval
  | NodeTypeAsmExpr => r <- ir_gen_asm_expr node ;; ir_lval_wrap r lval
  | NodeTypeTypeLiteral => r <- ir_gen_type_literal node ;; ir_lval_wrap r lval
  | NodeTypeBlock
  | NodeTypeBinOpExpr
  | NodeTypeNumberLiteral
  | NodeTypeSymbol
  | NodeTypeFnCallExpr
  | NodeTypeIfBoolExpr
  | NodeTypePrefixOpExpr
  | NodeTypeContainerInitExpr
  | NodeTypeVariableDeclaration
  | NodeTypeArrayAccessExpr
  | NodeTypeReturnExpr
  | NodeTypeFieldAccessExpr
  | NodeTypeThisLiteral
  | NodeTypeArrayType
  | NodeTypeStringLiteral
  | NodeTypeNullLiteral
  | NodeTypeIfVarExpr
  | NodeTypeSwitchExpr
  | NodeTypeLabel
  | NodeTypeGoto => ir_gen_other node lval
  | NodeTypeUnwrapErrorExpr
  | NodeTypeDefer
  | NodeTypeSliceExpr
  | NodeTypeBreak
  | NodeTypeContinue
  | NodeTypeCharLiteral
  | NodeTypeZeroesLiteral
  | NodeTypeErrorType
  | NodeTypeVarLiteral
  | NodeTypeRoot
  | NodeTypeFnProto
  | NodeTypeFnDef
  | NodeTypeFnDecl
  | NodeTypeParamDecl
  | NodeTypeUse
  | NodeTypeContainerDecl
  | NodeTypeStructField
  | NodeTypeSwitchProng
  | NodeTypeSwitchRange
  | NodeTypeErrorValueDecl
  | NodeTypeTypeDecl => panic "TODO more IR gen for node types"
  end.

(** The body of [ir_gen_node_extra] (ir.cpp:2697). *)
Definition ir_gen_node_extra_body (node : AstNodeId)
    (block_context : option ScopePtr) (lval : LValPurpose) : M Builder InstrPtr :=
  result <- ir_gen_node_raw node block_context lval ;;
  invalid <- get_invalid_instruction ;;
  update_exec (fun e =>
    set_exec_invalid (exec_invalid e || bool_decide (result = invalid)) e) ;;;
  ret result.

End IrGen.

(** [ir_gen_node_extra], with the depth of the recursion bounded by
    [fuel]; [ir_gen_other] receives the function for its own recursive
    calls. *)
Fixpoint ir_gen_node_extra
    (ir_gen_other : (AstNodeId -> option ScopePtr -> LValPurpose -> M Builder InstrPtr) ->
                    AstNodeId -> LValPurpose -> M Builder InstrPtr)
    (fuel : nat) (node : AstNodeId) (block_context : option ScopePtr)
    (lval : LValPurpose) : M Builder InstrPtr :=
  match fuel with
  | O => panic "out of fuel"
  | S fuel' =>
      ir_gen_node_extra_body (ir_gen_node_extra ir_gen_other fuel')
        (ir_gen_other (ir_gen_node_extra ir_gen_other fuel'))
        node block_context lval
  end.

(** ** The analyzer state *)

(** [struct IrAnalyze] (ir.cpp:21) with [struct IrExecContext] (ir.cpp:8). *)
Record IrAnalyze : Type := {
  (** [codegen], shared with both builders *)
  ira_codegen : CodeGen;
  (** the objects both executables point to *)
  ira_store : Store;
  ira_old_irb : IrBuilder;
  ira_new_irb : IrBuilder;
  (** [exec_context.mem_slot_list] *)
  ira_mem_slot_list : list ConstExprValue;
  (** [exec_context.mem_slot_count] *)
  ira_mem_slot_count : Z;
  ira_old_bb_queue : list BlockPtr;
  ira_block_queue_index : Z;
  ira_instruction_index : Z;
  ira_explicit_return_type : option TypeTableEntry;
  ira_implicit_return_type_list : list InstrPtr;
  ira_const_predecessor_bb : option BlockPtr;
  (** [fn_entry->variable_list] of the function under analysis *)
  ira_fn_variable_list : list VarPtr;
}.

Definition set_ira_codegen (x : CodeGen) (a : IrAnalyze) : IrAnalyze :=
  {| ira_codegen := x; ira_store := ira_store a;
     ira_old_irb := ira_old_irb a; ira_new_irb := ira_new_irb a;
     ira_mem_slot_list := ira_mem_slot_list a;
     ira_mem_slot_count := ira_mem_slot_count a;
     ira_old_bb_queue := ira_old_bb_queue a;
     ira_block_queue_index := ira_block_queue_index a;
     ira_instruction_index := ira_instruction_index a;
     ira_explicit_return_type := ira_explicit_return_type a;
     ira_implicit_return_type_list := ira_implicit_return_type_list a;
     ira_const_predecessor_bb := ira_const_predecessor_bb a;
     ira_fn_variable_list := ira_fn_variable_list a |}.

Definition set_ira_store (x : Store) (a : IrAnalyze) : IrAnalyze :=
  {| ira_codegen := ira_codegen a; ira_store := x;
     ira_old_irb := ira_old_irb a; ira_new_irb := ira_new_irb a;
     ira_mem_slot_list := ira_mem_slot_list a;
     ira_mem_slot_count := ira_mem_slot_count a;
     ira_old_bb_queue := ira_old_bb_queue a;
     ira_block_queue_index := ira_block_queue_index a;
     ira_instruction_index := ira_instruction_index a;
     ira_explicit_return_type := ira_explicit_return_type a;
     ira_implicit_return_type_list := ira_implicit_return_type_list a;
     ira_const_predecessor_bb := ira_const_predecessor_bb a;
     ira_fn_variable_list := ira_fn_variable_list a |}.

Definition set_ira_old_irb (x : IrBuilder) (a : IrAnalyze) : IrAnalyze :=
  {| ira_codegen := ira_codegen a; ira_store := ira_store a;
     ira_old_irb := x; ira_new_irb := ira_new_irb a;
     ira_mem_slot_list := ira_mem_slot_list a;
     ira_mem_slot_count := ira_mem_slot_count a;
     ira_old_bb_queue := ira_old_bb_queue a;
     ira_block_queue_index := ira_block_queue_index a;
     ira_instruction_index := ira_instruction_index a;
     ira_explicit_return_type := ira_explicit_return_type a;
     ira_implicit_return_type_list := ira_implicit_return_type_list a;
     ira_const_predecessor_bb := ira_const_predecessor_bb a;
     ira_fn_variable_list := ira_fn_variable_list a |}.

Definition set_ira_new_irb (x : IrBuilder) (a : IrAnalyze) : IrAnalyze :=
  {| ira_codegen := ira_codegen a; ira_store := ira_store a;
     ira_old_irb := ira_old_irb a; ira_new_irb := x;
     ira_mem_slot_list := ira_mem_slot_list a;
     ira_mem_slot_count := ira_mem_slot_count a;
     ira_old_bb_queue := ira_old_bb_queue a;
     ira_block_queue_index := ira_block_queue_index a;
     ira_instruction_index := ira_instruction_index a;
     ira_explicit_return_type := ira_explicit_return_type a;
     ira_implicit_return_type_list := ira_implicit_return_type_list a;
     ira_const_predecessor_bb := ira_const_predecessor_bb a;
     ira_fn_variable_list := ira_fn_variable_list a |}.

Definition set_ira_mem_slot_list (x : list ConstExprValue) (a : IrAnalyze) : IrAnalyze :=
  {| ira_codegen := ira_codegen a; ira_store := ira_store a;
     ira_old_irb := ira_old_irb a; ira_new_irb := ira_new_irb a;
     ira_mem_slot_list := x; ira_mem_slot_count := ira_mem_slot_count a;
     ira_old_bb_queue := ira_old_bb_queue a;
     ira_block_queue_index := ira_block_queue_index a;
     ira_instruction_index := ira_instruction_index a;
     ira_explicit_return_type := ira_explicit_return_type a;
     ira_implicit_return_type_list := ira_implicit_return_type_list a;
     ira_const_predecessor_bb := ira_const_predecessor_bb a;
     ira_fn_variable_list := ira_fn_variable_list a |}.

Definition set_ira_mem_slot_count (x : Z) (a : IrAnalyze) : IrAnalyze :=
  {| ira_codegen := ira_codegen a; ira_store := ira_store a;
     ira_old_irb := ira_old_irb a; ira_new_irb := ira_new_irb a;
     ira_mem_slot_list := ira_mem_slot_list a; ira_mem_slot_count := x;
     ira_old_bb_queue := ira_old_bb_queue a;
     ira_block_queue_index := ira_block_queue_index a;
     ira_instruction_index := ira_instruction_index a;
     ira_explicit_return_type := ira_explicit_return_type a;
     ira_implicit_return_type_list := ira_implicit_return_type_list a;
     ira_const_predecessor_bb := ira_const_predecessor_bb a;
     ira_fn_variable_list := ira_fn_variable_list a |}.

Definition set_ira_old_bb_queue (x : list BlockPtr) (a : IrAnalyze) : IrAnalyze :=
  {| ira_codegen := ira_codegen a; ira_store := ira_store a;
     ira_old_irb := ira_old_irb a; ira_new_irb := ira_new_irb a;
     ira_mem_slot_list := ira_mem_slot_list a;
     ira_mem_slot_count := ira_mem_slot_count a; ira_old_bb_queue := x;
     ira_block_queue_index := ira_block_queue_index a;
     ira_instruction_index := ira_instruction_index a;
     ira_explicit_return_type := ira_explicit_return_type a;
     ira_implicit_return_type_list := ira_implicit_return_type_list a;
     ira_const_predecessor_bb := ira_const_predecessor_bb a;
     ira_fn_variable_list := ira_fn_variable_list a |}.

Definition set_ira_block_queue_index (x : Z) (a : IrAnalyze) : IrAnalyze :=
  {| ira_codegen := ira_codegen a; ira_store := ira_store a;
     ira_old_irb := ira_old_irb a; ira_new_irb := ira_new_irb a;
     ira_mem_slot_list := ira_mem_slot_list a;
     ira_mem_slot_count := ira_mem_slot_count a;
     ira_old_bb_queue := ira_old_bb_queue a; ira_block_queue_index := x;
     ira_instruction_index := ira_instruction_index a;
     ira_explicit_return_type := ira_explicit_return_type a;
     ira_implicit_return_type_list := ira_implicit_return_type_list a;
     ira_const_predecessor_bb := ira_const_predecessor_bb a;
     ira_fn_variable_list := ira_fn_variable_list a |}.

Definition set_ira_instruction_index (x : Z) (a : IrAnalyze) : IrAnalyze :=
  {| ira_codegen := ira_codegen a; ira_store := ira_store a;
     ira_old_irb := ira_old_irb a; ira_new_irb := ira_new_irb a;
     ira_mem_slot_list := ira_mem_slot_list a;
     ira_mem_slot_count := ira_mem_slot_count a;
     ira_old_bb_queue := ira_old_bb_queue a;
     ira_block_queue_index := ira_block_queue_index a;
     ira_instruction_index := x;
     ira_explicit_return_type := ira_explicit_return_type a;
     ira_implicit_return_type_list := ira_implicit_return_type_list a;
     ira_const_predecessor_bb := ira_const_predecessor_bb a;
     ira_fn_variable_list := ira_fn_variable_list a |}.

Definition set_ira_explicit_return_type (x : option TypeTableEntry) (a : IrAnalyze) : IrAnalyze :=
  {| ira_codegen := ira_codegen a; ira_store := ira_store a;
     ira_old_irb := ira_old_irb a; ira_new_irb := ira_new_irb a;
     ira_mem_slot_list := ira_mem_slot_list a;
     ira_mem_slot_count := ira_mem_slot_count a;
     ira_old_bb_queue := ira_old_bb_queue a;
     ira_block_queue_index := ira_block_queue_index a;
     ira_instruction_index := ira_instruction_index a;
     ira_explicit_return_type := x;
     ira_implicit_return_type_list := ira_implicit_return_type_list a;
     ira_const_predecessor_bb := ira_const_predecessor_bb a;
     ira_fn_variable_list := ira_fn_variable_list a |}.

Definition set_ira_implicit_return_type_list (x : list InstrPtr) (a : IrAnalyze) : IrAnalyze :=
  {| ira_codegen := ira_codegen a; ira_store := ira_store a;
     ira_old_irb := ira_old_irb a; ira_new_irb := ira_new_irb a;
     ira_mem_slot_list := ira_mem_slot_list a;
     ira_mem_slot_count := ira_mem_slot_count a;
     ira_old_bb_queue := ira_old_bb_queue a;
     ira_block_queue_index := ira_block_queue_index a;
     ira_instruction_index := ira_instruction_index a;
     ira_explicit_return_type := ira_explicit_return_type a;
     ira_implicit_return_type_list := x;
     ira_const_predecessor_bb := ira_const_predecessor_bb a;
     ira_fn_variable_list := ira_fn_variable_list a |}.

Definition set_ira_const_predecessor_bb (x : option BlockPtr) (a : IrAnalyze) : IrAnalyze :=
  {| ira_codegen := ira_codegen a; ira_store := ira_store a;
     ira_old_irb := ira_old_irb a; ira_new_irb := ira_new_irb a;
     ira_mem_slot_list := ira_mem_slot_list a;
     ira_mem_slot_count := ira_mem_slot_count a;
     ira_old_bb_queue := ira_old_bb_queue a;
     ira_block_queue_index := ira_block_queue_index a;
     ira_instruction_index := ira_instruction_index a;
     ira_explicit_return_type := ira_explicit_return_type a;
     ira_implicit_return_type_list := ira_implicit_return_type_list a;
     ira_const_predecessor_bb := x;
     ira_fn_variable_list := ira_fn_variable_list a |}.

Definition set_ira_fn_variable_list (x : list VarPtr) (a : IrAnalyze) : IrAnalyze :=
  {| ira_codegen := ira_codegen a; ira_store := ira_store a;
     ira_old_irb := ira_old_irb a; ira_new_irb := ira_new_irb a;
     ira_mem_slot_list := ira_mem_slot_list a;
     ira_mem_slot_count := ira_mem_slot_count a;
     ira_old_bb_queue := ira_old_bb_queue a;
     ira_block_queue_index := ira_block_queue_index a;
     ira_instruction_index := ira_instruction_index a;
     ira_explicit_return_type := ira_explicit_return_type a;
     ira_implicit_return_type_list := ira_implicit_return_type_list a;
     ira_const_predecessor_bb := ira_const_predecessor_bb a;
     ira_fn_variable_list := x |}.

(** A builder computation run on [&ira->new_irb]. *)
Definition on_new_irb {A : Type} (m : M Builder A) : M IrAnalyze A :=
  fun a =>
    match m {| b_codegen := ira_codegen a; b_store := ira_store a;
               b_irb := ira_new_irb a |} with
    | Ok (x, b) =>
        Ok (x, set_ira_new_irb (b_irb b)
                 (set_ira_store (b_store b) (set_ira_codegen (b_codegen b) a)))
    | Panic e => Panic e
    end.

(** A [codegen] computation run on [ira->codegen]. *)
Definition on_codegen {A : Type} (m : M CodeGen A) : M IrAnalyze A :=
  fun a =>
    match m (ira_codegen a) with
    | Ok (x, g) => Ok (x, set_ira_codegen g a)
    | Panic e => Panic e
    end.

Definition ira_instruction (p : InstrPtr) : M IrAnalyze IrInstruction :=
  on_new_irb (get_instruction p).

Definition ira_basic_block (p : BlockPtr) : M IrAnalyze IrBasicBlock :=
  on_new_irb (get_basic_block p).

Definition ira_variable (p : VarPtr) : M IrAnalyze VariableTableEntry :=
  on_new_irb (get_variable p).

Definition ira_invalid_instruction : M IrAnalyze InstrPtr :=
  gets (fun a => invalid_instruction (ira_codegen a)).

(** [instruction->type_entry], which the analyzer reads only from
    instructions that have one. *)
Definition ira_type_entry (p : InstrPtr) : M IrAnalyze TypeTableEntry :=
  i <- ira_instruction p ;; deref (inst_type_entry i) "instruction->type_entry".

(** [old_operand->other]. *)
Definition ira_other (p : InstrPtr) : M IrAnalyze InstrPtr :=
  i <- ira_instruction p ;; deref (inst_other i) "instruction->other".

Definition update_new_exec (f : IrExecutable -> IrExecutable) : M IrAnalyze unit :=
  modify (fun a => set_ira_new_irb (set_irb_exec (f (irb_exec (ira_new_irb a)))
                                      (ira_new_irb a)) a).

(** *** Constant values behind pointers *)

Definition read_root (r : ValRoot) : M IrAnalyze ConstExprValue :=
  match r with
  | RootMemSlot i =>
      slots <- gets ira_mem_slot_list ;; deref (slots !! i) "mem_slot_list[i]"
  | RootInstruction p => i <- ira_instruction p ;; ret (inst_static_value i)
  end.

(** The value that [p] points to. *)
Definition read_val (p : ValPtr) : M IrAnalyze ConstExprValue :=
  root <- read_root (vp_root p) ;;
  deref (val_at_path root (vp_path p)) "ConstExprValue *".

(** The value that [p] points to, updated in place by [f]. *)
Definition update_val (p : ValPtr) (f : ConstExprValue -> ConstExprValue)
  : M IrAnalyze unit :=
  read_val p ;;;
  match vp_root p with
  | RootMemSlot i =>
      slots <- gets ira_mem_slot_list ;;
      root <- deref (slots !! i) "mem_slot_list[i]" ;;
      modify (set_ira_mem_slot_list
                (<[i := val_update_path f root (vp_path p)]> slots))
  | RootInstruction q =>
      on_new_irb (update_instruction q (fun i =>
        set_inst_static_value
          (val_update_path f (inst_static_value i) (vp_path p)) i))
  end.

(** [&base->data.x_array.elements[index]]. *)
Definition element_ptr (base : ValPtr) (index : Z) : ValPtr :=
  {| vp_root := vp_root base; vp_path := vp_path base ++ [Z.to_nat index] |}.

(** [v->data.x_array.size]. *)
Definition read_x_array_size (v : ConstExprValue) : option Z :=
  match data v with
  | x_array elements => Some (Z.of_nat (length elements))
  | _ => None
  end.

(** [v->data.x_ptr]. *)
Definition read_x_ptr (v : ConstExprValue) : option (ValPtr * Z) :=
  match data v with
  | x_ptr base_ptr index _ => Some (base_ptr, index)
  | _ => None
  end.

(** [const_ptr_pointee] (ir.cpp:39). *)
Definition const_ptr_pointee (const_val : ConstExprValue) : M IrAnalyze ValPtr :=
  assert (bool_decide (special const_val = ConstValSpecialStatic))
    "const_val->special == ConstValSpecialStatic" ;;;
  p <- deref (read_x_ptr const_val) "const_val->data.x_ptr" ;;
  let '(base_ptr, index) := p in
  if index =? SIZE_MAX then ret base_ptr
  else
    base <- read_val base_ptr ;;
    size <- deref (read_x_array_size base) "base_ptr->data.x_array" ;;
    assert (index <? size) "index < base_ptr->data.x_array.size" ;;;
    ret (element_ptr base_ptr index).

(** Constants of analyze.hpp that are not among the sources: the fields of
    a slice value, the pointer first (as [is_slice] types have it) and the
    length second. *)
Definition slice_ptr_index : nat := 0.
Definition slice_len_index : nat := 1.

(** *** What the analyzer takes from outside ir.cpp, and from the parts of
    ir.cpp that are not embedded *)

Record Oracle : Type := {
  (** [first_executing_node] of analyze.cpp *)
  first_executing_node : AstNodeId -> AstNodeId;
  (** [validate_var_type] of analyze.cpp *)
  validate_var_type : AstNodeId -> TypeTableEntry -> M CodeGen TypeTableEntry;
  (** [ir_analyze_cast] (ir.cpp:3218): source instruction, wanted type,
      value *)
  ir_analyze_cast : InstrPtr -> TypeTableEntry -> InstrPtr -> M IrAnalyze InstrPtr;
  (** [ir_analyze_instruction_nocast] on the instruction kinds whose
      analysis is not embedded *)
  ir_analyze_instruction_other : InstrPtr -> M IrAnalyze TypeTableEntry;
}.

(** ** IR analysis: control flow *)

(** [ZigList::at]: the index is asserted to be in range. *)
Definition list_at {S A : Type} (l : list A) (index : Z) : M S A :=
  assert (index <? Z.of_nat (length l)) "ZigList::at: index < length" ;;;
  deref (l !! Z.to_nat index) "ZigList::at".

(** [ir_get_new_bb] (ir.cpp:3042); [fuel] bounds the depth of the recursion
    through the predecessors named by leading phi instructions. *)
Fixpoint ir_get_new_bb_fuel (fuel : nat) (old_bb : BlockPtr)
  : M IrAnalyze BlockPtr :=
  match fuel with
  | O => panic "out of fuel"
  | S fuel' =>
      bb <- ira_basic_block old_bb ;;
      match bb_other bb with
      | Some other => ret other
      | None =>
          new_bb <- on_new_irb (ir_build_bb_from old_bb) ;;
          (* We are about to enqueue old_bb for analysis. Before we do so,
             check old_bb for phi instructions. Any incoming blocks in the
             phi instructions need to be queued first. *)
          let fix incoming (l : list BlockPtr) : M IrAnalyze unit :=
            match l with
            | [] => ret tt
            | predecessor :: rest =>
                ir_get_new_bb_fuel fuel' predecessor ;;; incoming rest
            end in
          let fix leading_phis (l : list InstrPtr) : M IrAnalyze unit :=
            match l with
            | [] => ret tt
            | p :: rest =>
                instruction <- ira_instruction p ;;
                if negb (bool_decide (inst_id instruction = IrInstructionIdPhi))
                then ret tt
                else
                  match inst_data instruction with
                  | IrInstructionPhi incoming_blocks _ =>
                      incoming incoming_blocks ;;; leading_phis rest
                  | _ => panic "(IrInstructionPhi *)instruction"
                  end
            end in
          leading_phis (bb_instruction_list bb) ;;;
          modify (fun a =>
            set_ira_old_bb_queue (ira_old_bb_queue a ++ [old_bb]) a) ;;;
          ret new_bb
      end
  end.

(** [ir_get_new_bb] with fuel for every block there is. *)
Definition ir_get_new_bb (old_bb : BlockPtr) : M IrAnalyze BlockPtr :=
  s <- gets ira_store ;;
  ir_get_new_bb_fuel (S (length (basic_blocks s))) old_bb.

(** [ir_start_bb] (ir.cpp:3065). *)
Definition ir_start_bb (old_bb : BlockPtr) (const_predecessor_bb : option BlockPtr)
  : M IrAnalyze unit :=
  modify (set_ira_instruction_index 0) ;;;
  modify (fun a =>
    set_ira_old_irb (set_irb_current_basic_block (Some old_bb) (ira_old_irb a)) a) ;;;
  modify (set_ira_const_predecessor_bb const_predecessor_bb) ;;;
  bb <- ira_basic_block old_bb ;;
  match bb_other bb with
  | Some other =>
      update_new_exec (fun e =>
        set_exec_basic_block_list (exec_basic_block_list e ++ [other]) e)
  | None => ret tt
  end.

(** [ir_finish_bb] (ir.cpp:3074). *)
Definition ir_finish_bb : M IrAnalyze unit :=
  modify (fun a =>
    set_ira_block_queue_index (wrap64 (ira_block_queue_index a + 1)) a) ;;;
  a <- get ;;
  if ira_block_queue_index a <? Z.of_nat (length (ira_old_bb_queue a)) then
    old_bb <- list_at (ira_old_bb_queue a) (ira_block_queue_index a) ;;
    new_bb <- ir_get_new_bb old_bb ;;
    modify (fun a =>
      set_ira_new_irb (set_irb_current_basic_block (Some new_bb) (ira_new_irb a)) a) ;;;
    ir_start_bb old_bb None
  else ret tt.

(** [ir_unreach_error] (ir.cpp:3085). *)
Definition ir_unreach_error : M IrAnalyze TypeTableEntry :=
  modify (set_ira_block_queue_index SIZE_MAX) ;;;
  update_new_exec (set_exec_invalid true) ;;;
  ret entry_unreachable.

(** [ir_inline_bb] (ir.cpp:3091). *)
Definition ir_inline_bb (source_instruction : InstrPtr) (old_bb : BlockPtr)
  : M IrAnalyze TypeTableEntry :=
  bb <- ira_basic_block old_bb ;;
  current <- gets (fun a => irb_current_basic_block (ira_old_irb a)) ;;
  current_ptr <- deref current "ira->old_irb.current_basic_block" ;;
  current_bb <- ira_basic_block current_ptr ;;
  let start : M IrAnalyze TypeTableEntry :=
    ir_start_bb old_bb current ;;;
    ret entry_unreachable in
  if bb_debug_id bb <=? bb_debug_id current_bb then
    update_new_exec (fun e =>
      set_exec_backward_branch_count
        (wrap64 (exec_backward_branch_count e + 1)) e) ;;;
    e <- gets (fun a => irb_exec (ira_new_irb a)) ;;
    if exec_backward_branch_count e >? exec_backward_branch_quota e then
      src <- ira_instruction source_instruction ;;
      on_codegen
        (add_node_error (inst_source_node src)
           "evaluation exceeded %zu backwards branches"
           [ArgNum (exec_backward_branch_quota e)]) ;;;
      ir_unreach_error
    else start
  else start.

(** [ir_finish_anal] (ir.cpp:3105). *)
Definition ir_finish_anal (result_type : TypeTableEntry)
  : M IrAnalyze TypeTableEntry :=
  (if id_is result_type TypeTableEntryIdUnreachable then ir_finish_bb
   else ret tt) ;;;
  ret result_type.

(** [ir_build_const_from] (ir.cpp:3111); the result is the new instruction,
    whose [static_value] the C++ returns the address of. *)
Definition ir_build_const_from (old_instruction : InstrPtr) (depends : bool)
  : M IrAnalyze InstrPtr :=
  old <- ira_instruction old_instruction ;;
  new_instruction <-
    (if bool_decide (inst_id old = IrInstructionIdVarPtr) then
       match inst_data old with
       | IrInstructionVarPtr var =>
           on_new_irb (ir_create_instruction IrInstructionIdVarPtr
                         (IrInstructionVarPtr var) (inst_source_node old))
       | _ => panic "(IrInstructionVarPtr *)old_instruction"
       end
     else if bool_decide (inst_id old = IrInstructionIdFieldPtr) then
       on_new_irb (ir_create_instruction IrInstructionIdFieldPtr
                     IrInstructionFieldPtr (inst_source_node old))
     else if bool_decide (inst_id old = IrInstructionIdElemPtr) then
       on_new_irb (ir_create_instruction IrInstructionIdElemPtr
                     (IrInstructionElemPtr None None false)
                     (inst_source_node old))
     else
       on_new_irb (ir_create_instruction IrInstructionIdConst
                     IrInstructionConst (inst_source_node old))) ;;
  on_new_irb (ir_link_new_instruction new_instruction old_instruction) ;;;
  on_new_irb (update_instruction new_instruction (fun i =>
    set_inst_static_value
      (set_depends_on_compile_var depends
         (set_special ConstValSpecialStatic (inst_static_value i))) i)) ;;;
  ret new_instruction.

(** [ir_analyze_void] (ir.cpp:3141). *)
Definition ir_analyze_void (instruction : InstrPtr) : M IrAnalyze TypeTableEntry :=
  ir_build_const_from instruction false ;;;
  ret entry_void.

(** [ir_analyze_const_ptr] (ir.cpp:3146). *)
Definition ir_analyze_const_ptr (instruction : InstrPtr) (pointee : ValPtr)
    (pointee_type : TypeTableEntry) (depends : bool) : M IrAnalyze TypeTableEntry :=
  let ptr_type := get_pointer_to_type pointee_type true in
  pointee_val <- read_val pointee ;;
  const_val <-
    ir_build_const_from instruction
      (depends || depends_on_compile_var pointee_val) ;;
  on_new_irb (set_instruction_data_value const_val (x_ptr pointee SIZE_MAX false)) ;;;
  ret ptr_type.

(** [ir_resolve_const] (ir.cpp:3165): [None] is [nullptr]. *)
Definition ir_resolve_const (value : InstrPtr) : M IrAnalyze (option ConstExprValue) :=
  v <- ira_instruction value ;;
  if negb (bool_decide (special (inst_static_value v) = ConstValSpecialStatic))
  then
    on_codegen
      (add_node_error (inst_source_node v)
         "unable to evaluate constant expression" []) ;;;
    ret None
  else ret (Some (inst_static_value v)).

(** [ir_resolve_type] (ir.cpp:3194) with [ir_resolve_type_lval]
    (ir.cpp:3174) at [LValPurposeNone]. *)
Definition ir_resolve_type (type_value : InstrPtr) : M IrAnalyze TypeTableEntry :=
  t <- ira_type_entry type_value ;;
  if id_is t TypeTableEntryIdInvalid then ret entry_invalid
  else if negb (id_is t TypeTableEntryIdMetaType) then
    v <- ira_instruction type_value ;;
    on_codegen
      (add_node_error (inst_source_node v) "expected type 'type', found '%s'"
         [ArgType t]) ;;;
    ret entry_invalid
  else
    const_val <- ir_resolve_const type_value ;;
    match const_val with
    | None => ret entry_invalid
    | Some c =>
        match data c with
        | x_type ty => ret ty
        | _ => panic "const_val->data.x_type"
        end
    end.

(** [ir_has_side_effects] (ir.cpp:6365). *)
Definition ir_has_side_effects {S : Type} (instruction : IrInstruction) : M S bool :=
  match inst_id instruction with
  | IrInstructionIdInvalid => panic "zig_unreachable"
  | IrInstructionIdBr
  | IrInstructionIdCondBr
  | IrInstructionIdSwitchBr
  | IrInstructionIdDeclVar
  | IrInstructionIdStorePtr
  | IrInstructionIdCall
  | IrInstructionIdReturn
  | IrInstructionIdUnreachable
  | IrInstructionIdSetFnTest
  | IrInstructionIdSetFnVisible
  | IrInstructionIdSetDebugSafety
  | IrInstructionIdImport => ret true
  | IrInstructionIdPhi
  | IrInstructionIdUnOp
  | IrInstructionIdBinOp
  | IrInstructionIdLoadPtr
  | IrInstructionIdConst
  | IrInstructionIdCast
  | IrInstructionIdContainerInitList
  | IrInstructionIdContainerInitFields
  | IrInstructionIdStructInit
  | IrInstructionIdFieldPtr
  | IrInstructionIdElemPtr
  | IrInstructionIdVarPtr
  | IrInstructionIdTypeOf
  | IrInstructionIdToPtrType
  | IrInstructionIdPtrTypeChild
  | IrInstructionIdArrayLen
  | IrInstructionIdStructFieldPtr
  | IrInstructionIdEnumFieldPtr
  | IrInstructionIdArrayType
  | IrInstructionIdSliceType
  | IrInstructionIdCompileVar
  | IrInstructionIdSizeOf
  | IrInstructionIdTestNull
  | IrInstructionIdUnwrapMaybe
  | IrInstructionIdClz
  | IrInstructionIdCtz
  | IrInstructionIdSwitchVar
  | IrInstructionIdSwitchTarget
  | IrInstructionIdEnumTag
  | IrInstructionIdStaticEval
  | IrInstructionIdRef => ret false
  | IrInstructionIdAsm =>
      match inst_data instruction with
      | IrInstructionAsm _ _ _ has_side_effects => ret has_side_effects
      | _ => panic "(IrInstructionAsm *)instruction"
      end
  end.

(** [ir_analyze_instruction_br] (ir.cpp:4607). *)
Definition ir_analyze_instruction_br (br_instruction : InstrPtr)
  : M IrAnalyze TypeTableEntry :=
  br <- ira_instruction br_instruction ;;
  match inst_data br with
  | IrInstructionBr old_dest_block is_inline =>
      dest <- ira_basic_block old_dest_block ;;
      if is_inline || (bb_ref_count dest =? 1) then
        ir_inline_bb br_instruction old_dest_block
      else
        new_bb <- ir_get_new_bb old_dest_block ;;
        on_new_irb (ir_build_br_from br_instruction new_bb) ;;;
        ir_finish_anal entry_unreachable
  | _ => panic "(IrInstructionBr *)instruction"
  end.

(** [ir_analyze_instruction_unreachable] (ir.cpp:4648). *)
Definition ir_analyze_instruction_unreachable (unreachable_instruction : InstrPtr)
  : M IrAnalyze TypeTableEntry :=
  on_new_irb (ir_build_unreachable_from unreachable_instruction) ;;;
  ir_finish_anal entry_unreachable.

(** [ir_analyze_instruction_const] (ir.cpp:3640). *)
Definition ir_analyze_instruction_const (const_instruction : InstrPtr)
  : M IrAnalyze TypeTableEntry :=
  c <- ira_instruction const_instruction ;;
  out_val <-
    ir_build_const_from const_instruction
      (depends_on_compile_var (inst_static_value c)) ;;
  on_new_irb (update_instruction out_val
                (set_inst_static_value (inst_static_value c))) ;;;
  deref (inst_type_entry c) "const_instruction->base.type_entry".

(** [ir_analyze_var_ptr] (ir.cpp:4729). *)
Definition ir_analyze_var_ptr (instruction : InstrPtr) (var : VarPtr)
  : M IrAnalyze TypeTableEntry :=
  v <- ira_variable var ;;
  var_ty <- deref (var_type v) "assert(var->type)" ;;
  if id_is var_ty TypeTableEntryIdInvalid then ret var_ty else
  mem_slot <-
    (if var_in_fn v then
       (* TODO once the analyze code is fully ported over to IR we won't
          need this SIZE_MAX thing. *)
       if negb (var_mem_slot_index v =? SIZE_MAX)
       then ret (Some {| vp_root := RootMemSlot (Z.to_nat (var_mem_slot_index v));
                         vp_path := [] |})
       else ret None
     else if var_src_is_const v then
       value <- deref (var_top_level_value v) "top_level_decl.value" ;;
       let mem_slot := {| vp_root := RootInstruction value; vp_path := [] |} in
       slot_val <- read_val mem_slot ;;
       assert (negb (is_runtime slot_val))
         "mem_slot->special != ConstValSpecialRuntime" ;;;
       ret (Some mem_slot)
     else ret None) ;;
  static_slot <-
    match mem_slot with
    | Some p => slot_val <- read_val p ;; ret (negb (is_runtime slot_val))
    | None => ret false
    end ;;
  match mem_slot with
  | Some p =>
      if static_slot then ir_analyze_const_ptr instruction p var_ty false
      else
        on_new_irb (ir_build_var_ptr_from instruction var) ;;;
        ret (get_pointer_to_type var_ty false)
  | None =>
      on_new_irb (ir_build_var_ptr_from instruction var) ;;;
      ret (get_pointer_to_type var_ty false)
  end.

(** [ir_analyze_instruction_var_ptr] (ir.cpp:4754). *)
Definition ir_analyze_instruction_var_ptr (var_ptr_instruction : InstrPtr)
  : M IrAnalyze TypeTableEntry :=
  i <- ira_instruction var_ptr_instruction ;;
  match inst_data i with
  | IrInstructionVarPtr var => ir_analyze_var_ptr var_ptr_instruction var
  | _ => panic "(IrInstructionVarPtr *)instruction"
  end.

(** [ir_build_return] (ir.cpp:348). *)
Definition ir_build_return (source_node : AstNodeId) (return_value : InstrPtr)
  : M Builder InstrPtr :=
  return_instruction <-
    ir_build_instruction IrInstructionIdReturn (IrInstructionReturn return_value)
      source_node ;;
  update_instruction return_instruction
    (set_inst_type_entry (Some entry_unreachable)) ;;;
  set_instruction_special return_instruction ConstValSpecialStatic ;;;
  ir_ref_instruction return_value ;;;
  ret return_instruction.

(** [ir_build_return_from] (ir.cpp:359). *)
Definition ir_build_return_from (old_instruction : InstrPtr)
    (return_value : InstrPtr) : M Builder InstrPtr :=
  old <- get_instruction old_instruction ;;
  new_instruction <- ir_build_return (inst_source_node old) return_value ;;
  ir_link_new_instruction new_instruction old_instruction ;;;
  ret new_instruction.

Section IrAnalysis.

Variable oracle : Oracle.

(** [ir_get_casted_value] (ir.cpp:3478); a null [expected_type] is
    [None]. *)
Definition ir_get_casted_value (value : InstrPtr)
    (expected_type : option TypeTableEntry) : M IrAnalyze InstrPtr :=
  invalid <- ira_invalid_instruction ;;
  assert (negb (bool_decide (value = invalid)))
    "value != ira->codegen->invalid_instruction" ;;;
  assert (match expected_type with
          | Some t => negb (id_is t TypeTableEntryIdInvalid)
          | None => true
          end)
    "!expected_type || expected_type->id != TypeTableEntryIdInvalid" ;;;
  v <- ira_instruction value ;;
  value_type <- deref (inst_type_entry v) "assert(value->type_entry)" ;;
  assert (negb (id_is value_type TypeTableEntryIdInvalid))
    "value->type_entry->id != TypeTableEntryIdInvalid" ;;;
  match expected_type with
  | None => ret value (* anything will do *)
  | Some expected_type =>
      if bool_decide (expected_type = value_type) then ret value (* match *)
      else if id_is value_type TypeTableEntryIdUnreachable then ret value
      else
        result <-
          on_codegen
            (ir_types_match_with_implicit_cast expected_type value_type v) ;;
        match result with
        | ImplicitCastMatchResultNo =>
            on_codegen
              (add_node_error (first_executing_node oracle (inst_source_node v))
                 "expected type '%s', found '%s'"
                 [ArgType expected_type; ArgType value_type]) ;;;
            ret invalid
        | ImplicitCastMatchResultYes =>
            ir_analyze_cast oracle value expected_type value
        | ImplicitCastMatchResultReportedError => ret invalid
        end
  end.

(** [ir_resolve_bool] (ir.cpp:3577): [None] is the result [false],
    otherwise the boolean written to [out]. *)
Definition ir_resolve_bool (value : InstrPtr) : M IrAnalyze (option bool) :=
  t <- ira_type_entry value ;;
  if id_is t TypeTableEntryIdInvalid then ret None else
  casted_value <- ir_get_casted_value value (Some entry_bool) ;;
  ct <- ira_type_entry casted_value ;;
  if id_is ct TypeTableEntryIdInvalid then ret None else
  const_val <- ir_resolve_const casted_value ;;
  match const_val with
  | None => ret None
  | Some c =>
      match data c with
      | x_bool b => ret (Some b)
      | _ => panic "const_val->data.x_bool"
      end
  end.

(** [ir_analyze_instruction_return] (ir.cpp:3624). *)
Definition ir_analyze_instruction_return (return_instruction : InstrPtr)
  : M IrAnalyze TypeTableEntry :=
  r <- ira_instruction return_instruction ;;
  match inst_data r with
  | IrInstructionReturn old_value =>
      value <- ira_other old_value ;;
      t <- ira_type_entry value ;;
      if id_is t TypeTableEntryIdInvalid then ir_unreach_error else
      modify (fun a =>
        set_ira_implicit_return_type_list
          (ira_implicit_return_type_list a ++ [value]) a) ;;;
      explicit_return_type <- gets ira_explicit_return_type ;;
      casted_value <- ir_get_casted_value value explicit_return_type ;;
      invalid <- ira_invalid_instruction ;;
      if bool_decide (casted_value = invalid) then ir_unreach_error else
      on_new_irb (ir_build_return_from return_instruction casted_value) ;;;
      ir_finish_anal entry_unreachable
  | _ => panic "(IrInstructionReturn *)instruction"
  end.

(** [ir_analyze_instruction_cond_br] (ir.cpp:4619). *)
Definition ir_analyze_instruction_cond_br (cond_br_instruction : InstrPtr)
  : M IrAnalyze TypeTableEntry :=
  cond_br <- ira_instruction cond_br_instruction ;;
  match inst_data cond_br with
  | IrInstructionCondBr old_condition then_block else_block is_inline =>
      condition <- ira_other old_condition ;;
      t <- ira_type_entry condition ;;
      if id_is t TypeTableEntryIdInvalid then ir_unreach_error else
      let runtime_branch : M IrAnalyze TypeTableEntry :=
        let bool_type := entry_bool in
        casted_condition <- ir_get_casted_value condition (Some bool_type) ;;
        invalid <- ira_invalid_instruction ;;
        if bool_decide (casted_condition = invalid) then ir_unreach_error else
        new_then_block <- ir_get_new_bb then_block ;;
        new_else_block <- ir_get_new_bb else_block ;;
        on_new_irb (ir_build_cond_br_from cond_br_instruction casted_condition
                      new_then_block new_else_block false) ;;;
        ir_finish_anal entry_unreachable in
      c <- ira_instruction condition ;;
      if is_inline || negb (is_runtime (inst_static_value c)) then
        cond_is_true <- ir_resolve_bool condition ;;
        match cond_is_true with
        | None => ir_unreach_error
        | Some cond_is_true =>
            let old_dest_block :=
              if cond_is_true then then_block else else_block in
            dest <- ira_basic_block old_dest_block ;;
            if is_inline || (bb_ref_count dest =? 1)
            then ir_inline_bb cond_br_instruction old_dest_block
            else runtime_branch
        end
      else runtime_branch
  | _ => panic "(IrInstructionCondBr *)instruction"
  end.

(** [ir_analyze_instruction_elem_ptr] (ir.cpp:4759). *)
Definition ir_analyze_instruction_elem_ptr (elem_ptr_instruction : InstrPtr)
  : M IrAnalyze TypeTableEntry :=
  ep <- ira_instruction elem_ptr_instruction ;;
  match inst_data ep with
  | IrInstructionElemPtr old_array_ptr old_elem_index _ =>
      old_array_ptr <- deref old_array_ptr "elem_ptr_instruction->array_ptr" ;;
      array_ptr <- ira_other old_array_ptr ;;
      ptr_type <- ira_type_entry array_ptr ;;
      if id_is ptr_type TypeTableEntryIdInvalid then ret entry_invalid else
      old_elem_index <- deref old_elem_index "elem_ptr_instruction->elem_index" ;;
      elem_index <- ira_other old_elem_index ;;
      index_type <- ira_type_entry elem_index ;;
      if id_is index_type TypeTableEntryIdInvalid then ret entry_invalid else
      (* This will be a pointer type because elem ptr IR instruction
         operates on a pointer to a thing. *)
      array_type <-
        match ptr_type with
        | TyPointer child _ => ret child
        | _ => panic "assert(ptr_type->id == TypeTableEntryIdPointer)"
        end ;;
      let source_node := inst_source_node ep in
      let analyze (return_type : TypeTableEntry) : M IrAnalyze TypeTableEntry :=
        let usize := entry_usize in
        casted_elem_index <- ir_get_casted_value elem_index (Some usize) ;;
        invalid <- ira_invalid_instruction ;;
        if bool_decide (casted_elem_index = invalid) then ret entry_invalid else
        casted <- ira_instruction casted_elem_index ;;
        let runtime_elem_ptr (safety_check_on : bool) : M IrAnalyze TypeTableEntry :=
          on_new_irb (ir_build_elem_ptr_from elem_ptr_instruction array_ptr
                        casted_elem_index safety_check_on) ;;;
          ret return_type in
        if negb (is_runtime (inst_static_value casted)) then
          index_bn <- deref (read_x_bignum (inst_static_value casted))
                        "static_value.data.x_bignum" ;;
          let index := bn_x_uint index_bn in
          let known_index (safety_check_on : bool) : M IrAnalyze TypeTableEntry :=
            ap <- ira_instruction array_ptr ;;
            array_ptr_val <-
              (if negb (is_runtime (inst_static_value ap)) then
                 p <- const_ptr_pointee (inst_static_value ap) ;;
                 v <- read_val p ;;
                 if negb (is_runtime v) then ret (Some (p, v)) else ret None
               else ret None) ;;
            match array_ptr_val with
            | None => runtime_elem_ptr safety_check_on
            | Some (array_ptr_val, pointee) =>
                let depends :=
                  depends_on_compile_var pointee
                  || depends_on_compile_var (inst_static_value casted) in
                out_val <- ir_build_const_from elem_ptr_instruction depends ;;
                if id_is array_type TypeTableEntryIdPointer then
                  p <- deref (read_x_ptr pointee) "array_ptr_val->data.x_ptr" ;;
                  let '(base_ptr, offset) := p in
                  sizes <-
                    (if offset =? SIZE_MAX then ret (SIZE_MAX, 1, 1)
                     else
                       base <- read_val base_ptr ;;
                       mem_size <- deref (read_x_array_size base)
                                     "base_ptr->data.x_array.size" ;;
                       ret (wrap64 (offset + index), mem_size,
                            wrap64 (mem_size - offset))) ;;
                  let '(new_index, mem_size, old_size) := sizes in
                  if new_index >=? mem_size then
                    on_codegen
                      (add_node_error source_node
                         "index %PRIu64 outside pointer of size %PRIu64"
                         [ArgNum index; ArgNum old_size]) ;;;
                    ret entry_invalid
                  else
                    on_new_irb (set_instruction_data_value out_val
                                  (x_ptr base_ptr new_index false)) ;;;
                    ret return_type
                else if is_slice array_type then
                  fields <-
                    match data pointee with
                    | x_struct fields => ret fields
                    | _ => panic "array_ptr_val->data.x_struct"
                    end ;;
                  ptr_field <- deref (fields !! slice_ptr_index)
                                 "fields[slice_ptr_index]" ;;
                  len_field <- deref (fields !! slice_len_index)
                                 "fields[slice_len_index]" ;;
                  len_bn <- deref (read_x_bignum len_field)
                              "len_field->data.x_bignum" ;;
                  let slice_len := bn_x_uint len_bn in
                  if index >=? slice_len then
                    on_codegen
                      (add_node_error source_node
                         "index %PRIu64 outside slice of size %PRIu64"
                         [ArgNum index; ArgNum slice_len]) ;;;
                    ret entry_invalid
                  else
                    p <- deref (read_x_ptr ptr_field) "ptr_field->data.x_ptr" ;;
                    let '(base_ptr, offset) := p in
                    if offset =? SIZE_MAX then
                      on_new_irb (set_instruction_data_value out_val
                                    (x_ptr base_ptr SIZE_MAX false)) ;;;
                      ret return_type
                    else
                      let new_index := wrap64 (offset + index) in
                      base <- read_val base_ptr ;;
                      size <- deref (read_x_array_size base)
                                "base_ptr->data.x_array.size" ;;
                      assert (new_index <? size)
                        "new_index < ptr_field->data.x_ptr.base_ptr->data.x_array.size" ;;;
                      on_new_irb (set_instruction_data_value out_val
                                    (x_ptr base_ptr new_index false)) ;;;
                      ret return_type
                else if id_is array_type TypeTableEntryIdArray then
                  on_new_irb (set_instruction_data_value out_val
                                (x_ptr array_ptr_val index false)) ;;;
                  ret return_type
                else panic "zig_unreachable"
            end in
          match array_type with
          | TyArray _ array_len =>
              if index >=? array_len then
                on_codegen
                  (add_node_error source_node
                     "index %PRIu64 outside array of size %PRIu64"
                     [ArgNum index; ArgNum array_len]) ;;;
                ret entry_invalid
              else known_index false
          | _ => known_index true
          end
        else runtime_elem_ptr true in
      match array_type with
      | TyInvalid => ret array_type
      | TyArray child_type len =>
          (if len =? 0 then
             on_codegen
               (add_node_error source_node "index 0 outside array of size 0" [])
           else ret tt) ;;;
          analyze (get_pointer_to_type child_type false)
      | TyPointer _ _ => analyze array_type
      | TySlice slice_ptr_type => analyze slice_ptr_type
      | _ =>
          on_codegen
            (add_node_error source_node "array access of non-array type '%s'"
               [ArgType array_type]) ;;;
          ret entry_invalid
      end
  | _ => panic "(IrInstructionElemPtr *)instruction"
  end.

(** [ir_analyze_instruction_store_ptr] (ir.cpp:5103). *)
Definition ir_analyze_instruction_store_ptr (store_ptr_instruction : InstrPtr)
  : M IrAnalyze TypeTableEntry :=
  sp <- ira_instruction store_ptr_instruction ;;
  match inst_data sp with
  | IrInstructionStorePtr old_ptr old_value =>
      ptr <- ira_other old_ptr ;;
      ptr_type <- ira_type_entry ptr ;;
      if id_is ptr_type TypeTableEntryIdInvalid then ret ptr_type else
      value <- ira_other old_value ;;
      value_type <- ira_type_entry value ;;
      if id_is value_type TypeTableEntryIdInvalid then ret value_type else
      child_type <- deref (pointer_child_type ptr_type)
                      "ptr->type_entry->data.pointer.child_type" ;;
      casted_value <- ir_get_casted_value value (Some child_type) ;;
      invalid <- ira_invalid_instruction ;;
      if bool_decide (casted_value = invalid) then ret entry_invalid else
      p <- ira_instruction ptr ;;
      cv <- ira_instruction casted_value ;;
      stored <-
        (if negb (is_runtime (inst_static_value p))
            && negb (is_runtime (inst_static_value cv))
         then
           dest_val <- const_ptr_pointee (inst_static_value p) ;;
           dest <- read_val dest_val ;;
           if negb (is_runtime dest) then
             update_val dest_val (fun _ => inst_static_value cv) ;;;
             ret true
           else ret false
         else ret false) ;;
      if stored then ir_analyze_void store_ptr_instruction else
      if negb (is_runtime (inst_static_value p)) then
        (* This memory location is transforming from known at compile time
           to known at runtime.  We must emit our own var ptr instruction.
           TODO can we delete this code now that we have inline var? *)
        on_new_irb (set_instruction_special ptr ConstValSpecialRuntime) ;;;
        new_ptr_inst <-
          (if bool_decide (inst_id p = IrInstructionIdVarPtr) then
             match inst_data p with
             | IrInstructionVarPtr var =>
                 new_ptr_inst <-
                   on_new_irb (ir_build_var_ptr (inst_source_node sp) var) ;;
                 v <- ira_variable var ;;
                 assert (negb (var_mem_slot_index v =? SIZE_MAX))
                   "var->mem_slot_index != SIZE_MAX" ;;;
                 update_val
                   {| vp_root := RootMemSlot (Z.to_nat (var_mem_slot_index v));
                      vp_path := [] |}
                   (set_special ConstValSpecialRuntime) ;;;
                 ret new_ptr_inst
             | _ => panic "(IrInstructionVarPtr *)ptr"
             end
           else if bool_decide (inst_id p = IrInstructionIdFieldPtr) then
             panic "TODO"
           else if bool_decide (inst_id p = IrInstructionIdElemPtr) then
             panic "TODO"
           else panic "zig_unreachable") ;;
        on_new_irb (update_instruction new_ptr_inst
                      (set_inst_type_entry (Some ptr_type))) ;;;
        on_new_irb (ir_build_store_ptr (inst_source_node sp) new_ptr_inst
                      casted_value) ;;;
        ir_analyze_void store_ptr_instruction
      else
        on_new_irb (ir_build_store_ptr_from store_ptr_instruction ptr
                      casted_value) ;;;
        ret entry_void
  | _ => panic "(IrInstructionStorePtr *)instruction"
  end.

(** [ir_analyze_instruction_decl_var] (ir.cpp:4011). *)
Definition ir_analyze_instruction_decl_var (decl_var_instruction : InstrPtr)
  : M IrAnalyze TypeTableEntry :=
  dv <- ira_instruction decl_var_instruction ;;
  match inst_data dv with
  | IrInstructionDeclVar var old_var_type old_init_value =>
      init_value <- ira_other old_init_value ;;
      init_type <- ira_type_entry init_value ;;
      if id_is init_type TypeTableEntryIdInvalid then
        on_new_irb (update_variable var (set_var_type (Some entry_invalid))) ;;;
        ret entry_invalid
      else
      v <- ira_variable var ;;
      let is_export := var_is_export v in
      let is_extern := var_is_extern v in
      on_new_irb (update_variable var (set_var_ref_count 0)) ;;;
      let continue (explicit_type : option TypeTableEntry)
          (var_type : option InstrPtr) : M IrAnalyze TypeTableEntry :=
        let source_node := inst_source_node dv in
        casted_init_value <- ir_get_casted_value init_value explicit_type ;;
        casted_type <- ira_type_entry casted_init_value ;;
        casted <- ira_instruction casted_init_value ;;
        let result_type := get_underlying_type casted_type in
        result_type <-
          match type_id result_type with
          | TypeTableEntryIdTypeDecl => panic "zig_unreachable"
          | TypeTableEntryIdInvalid => ret entry_invalid
          | TypeTableEntryIdNumLitFloat
          | TypeTableEntryIdNumLitInt =>
              if is_export || is_extern
                 || is_runtime (inst_static_value casted)
              then
                on_codegen
                  (add_node_error source_node "unable to infer variable type" []) ;;;
                ret entry_invalid
              else ret result_type
          | TypeTableEntryIdUnreachable
          | TypeTableEntryIdVar
          | TypeTableEntryIdBlock
          | TypeTableEntryIdNullLit =>
              on_codegen
                (add_node_error source_node "variable of type '%s' not allowed"
                   [ArgType result_type]) ;;;
              ret entry_invalid
          | TypeTableEntryIdMetaType
          | TypeTableEntryIdNamespace =>
              if is_runtime (inst_static_value casted) then
                on_codegen
                  (add_node_error source_node
                     "variable of type '%s' must be constant"
                     [ArgType result_type]) ;;;
                ret entry_invalid
              else ret result_type
          | TypeTableEntryIdUndefLit
          | TypeTableEntryIdVoid
          | TypeTableEntryIdBool
          | TypeTableEntryIdInt
          | TypeTableEntryIdFloat
          | TypeTableEntryIdPointer
          | TypeTableEntryIdArray
          | TypeTableEntryIdStruct
          | TypeTableEntryIdMaybe
          | TypeTableEntryIdErrorUnion
          | TypeTableEntryIdPureError
          | TypeTableEntryIdEnum
          | TypeTableEntryIdUnion
          | TypeTableEntryIdFn
          | TypeTableEntryIdGenericFn
          | TypeTableEntryIdBoundFn => ret result_type (* OK *)
          end ;;
        on_new_irb (update_variable var (set_var_type (Some result_type))) ;;;
        (if negb (var_mem_slot_index v =? SIZE_MAX) then
           count <- gets ira_mem_slot_count ;;
           assert (var_mem_slot_index v <? count)
             "var->mem_slot_index < ira->exec_context.mem_slot_count" ;;;
           update_val
             {| vp_root := RootMemSlot (Z.to_nat (var_mem_slot_index v));
                vp_path := [] |}
             (fun _ => inst_static_value casted)
         else ret tt) ;;;
        on_new_irb (ir_build_var_decl_from decl_var_instruction var var_type
                      casted_init_value) ;;;
        n <- on_new_irb (get_node source_node) ;;
        scope <- deref (node_block_context n) "source_node->block_context" ;;
        sc <- on_new_irb (get_block_context scope) ;;
        (if bc_has_fn_entry sc then
           modify (fun a =>
             set_ira_fn_variable_list (ira_fn_variable_list a ++ [var]) a)
         else ret tt) ;;;
        ret entry_void in
      match old_var_type with
      | Some old_var_type =>
          var_type <- ira_other old_var_type ;;
          proposed_type <- ir_resolve_type var_type ;;
          vt <- ira_instruction var_type ;;
          explicit_type <-
            on_codegen (validate_var_type oracle (inst_source_node vt) proposed_type) ;;
          if id_is explicit_type TypeTableEntryIdInvalid then ret explicit_type
          else continue (Some explicit_type) (Some var_type)
      | None => continue None None
      end
  | _ => panic "(IrInstructionDeclVar *)instruction"
  end.

(** [ir_analyze_instruction_nocast] (ir.cpp:6203). *)
Definition ir_analyze_instruction_nocast (instruction : InstrPtr)
  : M IrAnalyze TypeTableEntry :=
  i <- ira_instruction instruction ;;
  match inst_id i with
  | IrInstructionIdInvalid => panic "zig_unreachable"
  | IrInstructionIdReturn => ir_analyze_instruction_return instruction
  | IrInstructionIdConst => ir_analyze_instruction_const instruction
  | IrInstructionIdDeclVar => ir_analyze_instruction_decl_var instruction
  | IrInstructionIdStorePtr => ir_analyze_instruction_store_ptr instruction
  | IrInstructionIdElemPtr => ir_analyze_instruction_elem_ptr instruction
  | IrInstructionIdVarPtr => ir_analyze_instruction_var_ptr instruction
  | IrInstructionIdBr => ir_analyze_instruction_br instruction
  | IrInstructionIdCondBr => ir_analyze_instruction_cond_br instruction
  | IrInstructionIdUnreachable => ir_analyze_instruction_unreachable instruction
  | IrInstructionIdUnOp
  | IrInstructionIdBinOp
  | IrInstructionIdLoadPtr
  | IrInstructionIdFieldPtr
  | IrInstructionIdCall
  | IrInstructionIdPhi
  | IrInstructionIdTypeOf
  | IrInstructionIdToPtrType
  | IrInstructionIdPtrTypeChild
  | IrInstructionIdSetFnTest
  | IrInstructionIdSetFnVisible
  | IrInstructionIdSetDebugSafety
  | IrInstructionIdSliceType
  | IrInstructionIdAsm
  | IrInstructionIdArrayType
  | IrInstructionIdCompileVar
  | IrInstructionIdSizeOf
  | IrInstructionIdTestNull
  | IrInstructionIdUnwrapMaybe
  | IrInstructionIdClz
  | IrInstructionIdCtz
  | IrInstructionIdSwitchBr
  | IrInstructionIdSwitchTarget
  | IrInstructionIdSwitchVar
  | IrInstructionIdEnumTag
  | IrInstructionIdStaticEval
  | IrInstructionIdImport
  | IrInstructionIdArrayLen
  | IrInstructionIdRef
  | IrInstructionIdContainerInitList
  | IrInstructionIdContainerInitFields =>
      ir_analyze_instruction_other oracle instruction
  | IrInstructionIdCast
  | IrInstructionIdStructFieldPtr
  | IrInstructionIdEnumFieldPtr
  | IrInstructionIdStructInit => panic "TODO analyze more instructions"
  end.

(** [ir_analyze_instruction] (ir.cpp:6296). *)
Definition ir_analyze_instruction (instruction : InstrPtr)
  : M IrAnalyze TypeTableEntry :=
  instruction_type <- ir_analyze_instruction_nocast instruction ;;
  on_new_irb (update_instruction instruction
                (set_inst_type_entry (Some instruction_type))) ;;;
  i <- ira_instruction instruction ;;
  match inst_other i with
  | Some other =>
      on_new_irb (update_instruction other
                    (set_inst_type_entry (Some instruction_type)))
  | None =>
      assert (id_is instruction_type TypeTableEntryIdInvalid
              || id_is instruction_type TypeTableEntryIdUnreachable)
        "instruction_type->id == Invalid || instruction_type->id == Unreachable" ;;;
      on_new_irb (update_instruction instruction
                    (set_inst_other (Some instruction)))
  end ;;;
  ret instruction_type.

(** The condition of the [while] loop of [ir_analyze] (ir.cpp:6338). *)
Definition ir_analyze_running (a : IrAnalyze) : bool :=
  ira_block_queue_index a <? Z.of_nat (length (ira_old_bb_queue a)).

(** What one turn of that loop did with the old instruction. *)
Inductive LoopEvent : Type :=
| Skipped (old_instruction : InstrPtr)
| Analyzed (old_instruction : InstrPtr) (return_type : TypeTableEntry).

(** The body of the [while] loop of [ir_analyze] (ir.cpp:6339-6352). *)
Definition ir_analyze_loop_body : M IrAnalyze LoopEvent :=
  a <- get ;;
  current <- deref (irb_current_basic_block (ira_old_irb a))
               "ira->old_irb.current_basic_block" ;;
  bb <- ira_basic_block current ;;
  old_instruction <- list_at (bb_instruction_list bb) (ira_instruction_index a) ;;
  old <- ira_instruction old_instruction ;;
  side_effects <-
    (if inst_ref_count old =? 0 then ir_has_side_effects old else ret true) ;;
  if (inst_ref_count old =? 0) && negb side_effects then
    modify (fun a =>
      set_ira_instruction_index (wrap64 (ira_instruction_index a + 1)) a) ;;;
    ret (Skipped old_instruction)
  else
    return_type <- ir_analyze_instruction old_instruction ;;
    (* unreachable instructions do their own control flow. *)
    (if id_is return_type TypeTableEntryIdUnreachable then ret tt
     else
       modify (fun a =>
         set_ira_instruction_index (wrap64 (ira_instruction_index a + 1)) a)) ;;;
    ret (Analyzed old_instruction return_type).

(** The [while] loop of [ir_analyze]; [fuel] bounds the number of
    turns. *)
Fixpoint ir_analyze_loop (fuel : nat) : M IrAnalyze unit :=
  a <- get ;;
  if ir_analyze_running a then
    match fuel with
    | O => panic "out of fuel"
    | S fuel' => ir_analyze_loop_body ;;; ir_analyze_loop fuel'
    end
  else ret tt.

(** [ir_analyze] (ir.cpp:6311), from the state in which [ira] has been
    zero-initialised and given [codegen], the two executables and the
    expected type. *)
Definition ir_analyze (fuel : nat) (expected_type_source_node : AstNodeId)
  : M IrAnalyze TypeTableEntry :=
  old_exec <- gets (fun a => irb_exec (ira_old_irb a)) ;;
  assert (negb (exec_invalid old_exec)) "assert(!old_exec->invalid)" ;;;
  modify (set_ira_mem_slot_count (exec_mem_slot_count old_exec)) ;;;
  modify (set_ira_mem_slot_list
            (replicate (Z.to_nat (exec_mem_slot_count old_exec)) zero_value)) ;;;
  old_entry_bb <- list_at (exec_basic_block_list old_exec) 0 ;;
  new_entry_bb <- ir_get_new_bb old_entry_bb ;;
  on_new_irb (ir_ref_bb new_entry_bb) ;;;
  modify (fun a =>
    set_ira_new_irb
      (set_irb_current_basic_block (Some new_entry_bb) (ira_new_irb a)) a) ;;;
  modify (set_ira_block_queue_index 0) ;;;
  ir_start_bb old_entry_bb None ;;;
  ir_analyze_loop fuel ;;;
  a <- get ;;
  if exec_invalid (irb_exec (ira_new_irb a)) then ret entry_invalid
  else if bool_decide (length (ira_implicit_return_type_list a) = 0%nat)
  then ret entry_unreachable
  else
    items <-
      foldr (fun p k =>
               i <- ira_instruction p ;; rest <- k ;; ret (i :: rest))
        (ret []) (ira_implicit_return_type_list a) ;;
    on_codegen (ir_resolve_peer_types expected_type_source_node items).

End IrAnalysis.

(** The [IrAnalyze] that [ir_analyze] starts from: [ir_analyze_data = {}]
    with [codegen], [old_exec], [new_exec] and [expected_type] filled in. *)
Definition ir_analyze_data (codegen : CodeGen) (store : Store)
    (old_exec new_exec : IrExecutable) (expected_type : option TypeTableEntry)
  : IrAnalyze :=
  {| ira_codegen := codegen; ira_store := store;
     ira_old_irb :=
       {| irb_exec := old_exec; irb_current_basic_block := None;
          irb_break_block_stack := []; irb_continue_block_stack := [] |};
     ira_new_irb :=
       {| irb_exec := new_exec; irb_current_basic_block := None;
          irb_break_block_stack := []; irb_continue_block_stack := [] |};
     ira_mem_slot_list := []; ira_mem_slot_count := 0;
     ira_old_bb_queue := []; ira_block_queue_index := 0;
     ira_instruction_index := 0;
     ira_explicit_return_type := expected_type;
     ira_implicit_return_type_list := [];
     ira_const_predecessor_bb := None; ira_fn_variable_list := [] |}.

(** ** IR analysis: more instructions *)

(** [ir_build_bin_op_from] (ir.cpp:545). *)
Definition ir_build_bin_op_from (old_instruction : InstrPtr) (op_id : IrBinOp)
    (op1 op2 : InstrPtr) : M Builder InstrPtr :=
  old <- get_instruction old_instruction ;;
  new_instruction <- ir_build_bin_op (inst_source_node old) op_id op1 op2 ;;
  ir_link_new_instruction new_instruction old_instruction ;;;
  ret new_instruction.

(** [ir_build_phi] (ir.cpp:671); [incoming_count] is the length of
    [incoming_blocks], and [incoming_values] is read at the same indices. *)
Definition ir_build_phi (source_node : AstNodeId) (incoming_blocks : list BlockPtr)
    (incoming_values : list InstrPtr) : M Builder InstrPtr :=
  let incoming_count := Z.of_nat (length incoming_blocks) in
  assert (negb (incoming_count =? 0)) "incoming_count != 0" ;;;
  assert (negb (incoming_count =? SIZE_MAX)) "incoming_count != SIZE_MAX" ;;;
  phi_instruction <-
    ir_build_instruction IrInstructionIdPhi
      (IrInstructionPhi incoming_blocks incoming_values) source_node ;;
  (fix refs (i : nat) (blocks : list BlockPtr) : M Builder unit :=
     match blocks with
     | [] => ret tt
     | bb :: rest =>
         ir_ref_bb bb ;;;
         value <- deref (incoming_values !! i) "incoming_values[i]" ;;
         ir_ref_instruction value ;;;
         refs (S i) rest
     end) 0%nat incoming_blocks ;;;
  ret phi_instruction.

(** [ir_build_phi_from] (ir.cpp:690). *)
Definition ir_build_phi_from (old_instruction : InstrPtr)
    (incoming_blocks : list BlockPtr) (incoming_values : list InstrPtr)
  : M Builder InstrPtr :=
  old <- get_instruction old_instruction ;;
  new_instruction <-
    ir_build_phi (inst_source_node old) incoming_blocks incoming_values ;;
  ir_link_new_instruction new_instruction old_instruction ;;;
  ret new_instruction.

(** [ir_get_deref] (ir.cpp:3509). *)
Definition ir_get_deref (source_instruction ptr : InstrPtr) : M IrAnalyze InstrPtr :=
  p <- ira_instruction ptr ;;
  type_entry <- deref (inst_type_entry p) "ptr->type_entry" ;;
  if id_is type_entry TypeTableEntryIdInvalid then ira_invalid_instruction
  else
    match type_entry with
    | TyPointer child_type _ =>
        constant <-
          (if negb (is_runtime (inst_static_value p)) then
             pointee <- const_ptr_pointee (inst_static_value p) ;;
             pointee_val <- read_val pointee ;;
             if negb (is_runtime pointee_val) then
               src <- ira_instruction source_instruction ;;
               result <-
                 on_new_irb (ir_create_const (inst_source_node src) child_type
                               (depends_on_compile_var pointee_val)) ;;
               on_new_irb (update_instruction result
                             (set_inst_static_value pointee_val)) ;;;
               ret (Some result)
             else ret None
           else ret None) ;;
        match constant with
        | Some result => ret result
        | None =>
            src <- ira_instruction source_instruction ;;
            load_ptr_instruction <-
              on_new_irb (ir_build_load_ptr (inst_source_node src) ptr) ;;
            on_new_irb (update_instruction load_ptr_instruction
                          (set_inst_type_entry (Some child_type))) ;;;
            ret load_ptr_instruction
        end
    | _ =>
        src <- ira_instruction source_instruction ;;
        on_codegen
          (add_node_error (inst_source_node src)
             "attempt to dereference non pointer type '%s'"
             [ArgType type_entry]) ;;;
        ira_invalid_instruction
    end.

(** [ir_analyze_instruction_load_ptr] (ir.cpp:5095). *)
Definition ir_analyze_instruction_load_ptr (load_ptr_instruction : InstrPtr)
  : M IrAnalyze TypeTableEntry :=
  lp <- ira_instruction load_ptr_instruction ;;
  match inst_data lp with
  | IrInstructionOperand old_ptr =>
      ptr <- ira_other old_ptr ;;
      result <- ir_get_deref load_ptr_instruction ptr ;;
      on_new_irb (ir_link_new_instruction result load_ptr_instruction) ;;;
      r <- ira_instruction result ;;
      deref (inst_type_entry r) "assert(result->type_entry)"
  | _ => panic "(IrInstructionLoadPtr *)instruction"
  end.

(** [ir_exec_const_result] (ir.cpp:6423): [None] is [nullptr]. *)
Definition ir_exec_const_result (exec : IrExecutable) : M Builder (option InstrPtr) :=
  match exec_basic_block_list exec with
  | [bb_ptr] =>
      bb <- get_basic_block bb_ptr ;;
      match bb_instruction_list bb with
      | [only_inst] =>
          i <- get_instruction only_inst ;;
          if negb (bool_decide (inst_id i = IrInstructionIdReturn)) then ret None
          else
            match inst_data i with
            | IrInstructionReturn value =>
                v <- get_instruction value ;;
                assert (negb (is_runtime (inst_static_value v)))
                  "value->static_value.special != ConstValSpecialRuntime" ;;;
                ret (Some value)
            | _ => panic "(IrInstructionReturn *)only_inst"
            end
      | _ => ret None
      end
  | _ => ret None
  end.

Section MoreAnalysis.

Variable oracle : Oracle.

(** [ir_analyze_bin_op_bool] (ir.cpp:3647). *)
Definition ir_analyze_bin_op_bool (bin_op_instruction : InstrPtr)
  : M IrAnalyze TypeTableEntry :=
  bo <- ira_instruction bin_op_instruction ;;
  match inst_data bo with
  | IrInstructionBinOp op_id old_op1 old_op2 =>
      op1 <- ira_other old_op1 ;;
      op1_type <- ira_type_entry op1 ;;
      if id_is op1_type TypeTableEntryIdInvalid then ret entry_invalid else
      op2 <- ira_other old_op2 ;;
      op2_type <- ira_type_entry op2 ;;
      if id_is op2_type TypeTableEntryIdInvalid then ret entry_invalid else
      let bool_type := entry_bool in
      casted_op1 <- ir_get_casted_value oracle op1 (Some bool_type) ;;
      invalid <- ira_invalid_instruction ;;
      if bool_decide (casted_op1 = invalid) then ret entry_invalid else
      casted_op2 <- ir_get_casted_value oracle op2 (Some bool_type) ;;
      invalid <- ira_invalid_instruction ;;
      if bool_decide (casted_op2 = invalid) then ret entry_invalid else
      c1 <- ira_instruction casted_op1 ;;
      c2 <- ira_instruction casted_op2 ;;
      if negb (is_runtime (inst_static_value c1))
         && negb (is_runtime (inst_static_value c2))
      then
        let depends :=
          depends_on_compile_var (inst_static_value c1)
          || depends_on_compile_var (inst_static_value c2) in
        out_val <- ir_build_const_from bin_op_instruction depends ;;
        c1 <- ira_instruction casted_op1 ;;
        c2 <- ira_instruction casted_op2 ;;
        assert (match inst_type_entry c1 with
                | Some t => id_is t TypeTableEntryIdBool
                | None => false
                end)
          "casted_op1->type_entry->id == TypeTableEntryIdBool" ;;;
        assert (match inst_type_entry c2 with
                | Some t => id_is t TypeTableEntryIdBool
                | None => false
                end)
          "casted_op2->type_entry->id == TypeTableEntryIdBool" ;;;
        let x_bool_of (v : ConstExprValue) what : M IrAnalyze bool :=
          match data v with
          | x_bool b => ret b
          | _ => panic what
          end in
        let op1_x_bool := x_bool_of (inst_static_value c1) "op1_val->data.x_bool" in
        let op2_x_bool := x_bool_of (inst_static_value c2) "op2_val->data.x_bool" in
        match op_id with
        | IrBinOpBoolOr =>
            b1 <- op1_x_bool ;;
            b <- (if b1 then ret true else op2_x_bool) ;;
            on_new_irb (set_instruction_data_value out_val (x_bool b)) ;;;
            ret bool_type
        | IrBinOpBoolAnd =>
            b1 <- op1_x_bool ;;
            b <- (if b1 then op2_x_bool else ret false) ;;
            on_new_irb (set_instruction_data_value out_val (x_bool b)) ;;;
            ret bool_type
        | _ => panic "zig_unreachable"
        end
      else
        on_new_irb (ir_build_bin_op_from bin_op_instruction op_id casted_op1
                      casted_op2) ;;;
        ret bool_type
  | _ => panic "(IrInstructionBinOp *)instruction"
  end.

(** The first loop of [ir_analyze_instruction_phi], from index [i] on:
    the value that comes in from [const_predecessor_bb]. *)
Fixpoint ir_analyze_phi_const_predecessor (phi_instruction : InstrPtr)
    (const_predecessor_bb : BlockPtr) (incoming_values : list InstrPtr)
    (i : nat) (incoming_blocks : list BlockPtr) : M IrAnalyze TypeTableEntry :=
  match incoming_blocks with
  | [] => panic "zig_unreachable"
  | predecessor :: rest =>
      if negb (bool_decide (predecessor = const_predecessor_bb)) then
        ir_analyze_phi_const_predecessor phi_instruction const_predecessor_bb
          incoming_values (S i) rest
      else
        old_value <- deref (incoming_values !! i) "incoming_values[i]" ;;
        value <- ira_other old_value ;;
        v <- ira_instruction value ;;
        value_type <- deref (inst_type_entry v) "assert(value->type_entry)" ;;
        if id_is value_type TypeTableEntryIdInvalid then ret entry_invalid else
        (if negb (is_runtime (inst_static_value v)) then
           out_val <-
             ir_build_const_from phi_instruction
               (depends_on_compile_var (inst_static_value v)) ;;
           v <- ira_instruction value ;;
           on_new_irb (update_instruction out_val
                         (set_inst_static_value (inst_static_value v)))
         else
           on_new_irb (update_instruction phi_instruction
                         (set_inst_other (Some value)))) ;;;
        v <- ira_instruction value ;;
        deref (inst_type_entry v) "value->type_entry"
  end.

(** The second loop of [ir_analyze_instruction_phi], from index [i] on;
    [None] is the [return] of the invalid type inside the loop. *)
Fixpoint ir_analyze_phi_incoming (incoming_values : list InstrPtr) (i : nat)
    (incoming_blocks : list BlockPtr)
    (new_incoming_blocks : list BlockPtr) (new_incoming_values : list InstrPtr)
  : M IrAnalyze (option (list BlockPtr * list InstrPtr)) :=
  match incoming_blocks with
  | [] => ret (Some (new_incoming_blocks, new_incoming_values))
  | predecessor :: rest =>
      pred <- ira_basic_block predecessor ;;
      if bb_ref_count pred =? 0 then
        ir_analyze_phi_incoming incoming_values (S i) rest new_incoming_blocks
          new_incoming_values
      else
        pred_other <- deref (bb_other pred) "assert(predecessor->other)" ;;
        old_value <- deref (incoming_values !! i) "assert(old_value)" ;;
        new_value <- ira_other old_value ;;
        new_value_type <- ira_type_entry new_value ;;
        if id_is new_value_type TypeTableEntryIdInvalid then ret None
        else
          ir_analyze_phi_incoming incoming_values (S i) rest
            (new_incoming_blocks ++ [pred_other])
            (new_incoming_values ++ [new_value])
  end.

(** [ir_analyze_instruction_phi] (ir.cpp:4655). *)
Definition ir_analyze_instruction_phi (phi_instruction : InstrPtr)
  : M IrAnalyze TypeTableEntry :=
  phi <- ira_instruction phi_instruction ;;
  match inst_data phi with
  | IrInstructionPhi incoming_blocks incoming_values =>
      const_predecessor_bb <- gets ira_const_predecessor_bb ;;
      match const_predecessor_bb with
      | Some const_predecessor_bb =>
          ir_analyze_phi_const_predecessor phi_instruction const_predecessor_bb
            incoming_values 0 incoming_blocks
      | None =>
          incoming <-
            ir_analyze_phi_incoming incoming_values 0 incoming_blocks [] [] ;;
          match incoming with
          | None => ret entry_invalid
          | Some (new_incoming_blocks, new_incoming_values) =>
              assert (negb (bool_decide (length new_incoming_blocks = 0%nat)))
                "new_incoming_blocks.length != 0" ;;;
              if bool_decide (length new_incoming_blocks = 1%nat) then
                first_value <- list_at new_incoming_values 0 ;;
                on_new_irb (update_instruction phi_instruction
                              (set_inst_other (Some first_value))) ;;;
                ira_type_entry first_value
              else
                items <-
                  foldr (fun p k =>
                           i <- ira_instruction p ;; rest <- k ;; ret (i :: rest))
                    (ret []) new_incoming_values ;;
                resolved_type <-
                  on_codegen
                    (ir_resolve_peer_types (inst_source_node phi) items) ;;
                if id_is resolved_type TypeTableEntryIdInvalid
                then ret resolved_type
                else if id_is resolved_type TypeTableEntryIdNumLitFloat
                        || id_is resolved_type TypeTableEntryIdNumLitInt
                then
                  on_codegen
                    (add_node_error (inst_source_node phi)
                       "unable to infer expression type" []) ;;;
                  ret entry_invalid
                else
                  (* cast all literal values to the resolved type *)
                  casted_values <-
                    foldl (fun acc new_value =>
                             done <- acc ;;
                             casted_value <-
                               ir_get_casted_value oracle new_value
                                 (Some resolved_type) ;;
                             ret (done ++ [casted_value]))
                      (ret []) new_incoming_values ;;
                  on_new_irb (ir_build_phi_from phi_instruction
                                new_incoming_blocks casted_values) ;;;
                  ret resolved_type
          end
      end
  | _ => panic "(IrInstructionPhi *)instruction"
  end.

End MoreAnalysis.

(** * Vocabulary of the properties and example programs *)

Definition result_value {A S : Type} (r : Result (A * S)) : option A :=
  match r with
  | Ok (a, _) => Some a
  | Panic _ => None
  end.

Definition is_num_lit (t : TypeTableEntry) : bool :=
  id_is t TypeTableEntryIdNumLitInt || id_is t TypeTableEntryIdNumLitFloat.

Definition same_width_numbers (a b : TypeTableEntry) : Prop :=
  a <> b /\
  ((type_id a = TypeTableEntryIdInt /\ type_id b = TypeTableEntryIdInt
    /\ integral_is_signed a = integral_is_signed b)
   \/ (type_id a = TypeTableEntryIdFloat /\ type_id b = TypeTableEntryIdFloat)) /\
  type_bit_count a = type_bit_count b.

Definition analyzed_instruction (t : TypeTableEntry) : IrInstruction :=
  {| inst_id := IrInstructionIdConst; inst_source_node := 0%nat;
     inst_static_value := zero_value; inst_type_entry := Some t;
     inst_debug_id := 0; inst_other := None; inst_ref_count := 0;
     inst_data := IrInstructionConst |}.

Definition empty_codegen : CodeGen :=
  {| errors := []; primitive_type_table := []; invalid_instruction := 0%nat |}.

Definition ty_i8 : TypeTableEntry := TyInt "i8" true 8.

Definition ty_i16 : TypeTableEntry := TyInt "i16" true 16.

Definition side_effect_kinds : list IrInstructionId :=
  [IrInstructionIdBr; IrInstructionIdCondBr; IrInstructionIdSwitchBr;
   IrInstructionIdDeclVar; IrInstructionIdStorePtr; IrInstructionIdCall;
   IrInstructionIdReturn; IrInstructionIdUnreachable; IrInstructionIdSetFnTest;
   IrInstructionIdSetFnVisible; IrInstructionIdSetDebugSafety;
   IrInstructionIdImport].

Definition asm_has_side_effects_flag (i : IrInstruction) : bool :=
  match inst_data i with
  | IrInstructionAsm _ _ _ has_side_effects => has_side_effects
  | _ => false
  end.

Definition observable_side_effects (i : IrInstruction) : bool :=
  bool_decide (inst_id i ∈ side_effect_kinds)
  || (bool_decide (inst_id i = IrInstructionIdAsm) && asm_has_side_effects_flag i).

Definition instruction_kind_well_formed (i : IrInstruction) : Prop :=
  inst_id i <> IrInstructionIdInvalid /\
  (inst_id i = IrInstructionIdAsm ->
   exists ins outs n h, inst_data i = IrInstructionAsm ins outs n h).

(** Observations *)
Definition new_exec (a : IrAnalyze) : IrExecutable := irb_exec (ira_new_irb a).

Definition old_current_block (a : IrAnalyze) : option BlockPtr :=
  irb_current_basic_block (ira_old_irb a).

Definition backward_branch_count (a : IrAnalyze) : Z :=
  exec_backward_branch_count (new_exec a).

Definition backward_branch_quota (a : IrAnalyze) : Z :=
  exec_backward_branch_quota (new_exec a).

Definition quota_error (node : AstNodeId) (quota : Z) : ErrorMsg :=
  {| err_node := node; err_format := "evaluation exceeded %zu backwards branches";
     err_args := [ArgNum quota]; err_notes := [] |}.

Definition queue_fits (a : IrAnalyze) : Prop :=
  Z.of_nat (length (ira_old_bb_queue a)) <= SIZE_MAX.

(** The outcomes of [ir_inline_bb]. *)
Definition inlined (a : IrAnalyze) (old_bb current : BlockPtr) (count : Z)
  (a' : IrAnalyze) : Prop :=
  old_current_block a' = Some old_bb /\
  ira_instruction_index a' = 0 /\
  ira_const_predecessor_bb a' = Some current /\
  ira_store a' = ira_store a /\
  ira_codegen a' = ira_codegen a /\
  ira_block_queue_index a' = ira_block_queue_index a /\
  ira_old_bb_queue a' = ira_old_bb_queue a /\
  ira_mem_slot_list a' = ira_mem_slot_list a /\
  exec_invalid (new_exec a') = exec_invalid (new_exec a) /\
  backward_branch_count a' = count /\
  backward_branch_quota a' = backward_branch_quota a.

Definition quota_exceeded (a : IrAnalyze) (src : IrInstruction)
  (current : BlockPtr) (a' : IrAnalyze) : Prop :=
  ira_block_queue_index a' = SIZE_MAX /\
  exec_invalid (new_exec a') = true /\
  errors (ira_codegen a') =
    errors (ira_codegen a) ++
      [quota_error (inst_source_node src) (backward_branch_quota a)] /\
  old_current_block a' = Some current /\
  ira_instruction_index a' = ira_instruction_index a /\
  ira_const_predecessor_bb a' = ira_const_predecessor_bb a /\
  ira_store a' = ira_store a /\
  ira_old_bb_queue a' = ira_old_bb_queue a /\
  ira_mem_slot_list a' = ira_mem_slot_list a /\
  backward_branch_count a' = wrap64 (backward_branch_count a + 1) /\
  backward_branch_quota a' = backward_branch_quota a.

Definition is_backward_branch (a : IrAnalyze) (old_bb : BlockPtr) : Prop :=
  exists current bb current_bb,
    old_current_block a = Some current /\
    basic_blocks (ira_store a) !! old_bb = Some bb /\
    basic_blocks (ira_store a) !! current = Some current_bb /\
    bb_debug_id bb <= bb_debug_id current_bb.

Definition same_budget (a1 a2 : IrAnalyze) : Prop :=
  backward_branch_count a2 = backward_branch_count a1 /\
  backward_branch_quota a2 = backward_branch_quota a1.

Inductive backward_run : nat -> IrAnalyze -> IrAnalyze -> Prop :=
| backward_run_start a : backward_run 0 a a
| backward_run_branch n a a1 a2 a3 source_instruction src old_bb t :
    backward_run n a a1 ->
    (n <> 0%nat -> ir_analyze_running a1 = true) ->
    same_budget a1 a2 ->
    queue_fits a2 ->
    instructions (ira_store a2) !! source_instruction = Some src ->
    is_backward_branch a2 old_bb ->
    ir_inline_bb source_instruction old_bb a2 = Ok (t, a3) ->
    backward_run (S n) a a3.

Definition stopped_on_quota (quota : Z) (a : IrAnalyze) : Prop :=
  ir_analyze_running a = false /\
  exec_invalid (new_exec a) = true /\
  exists node, last (errors (ira_codegen a)) = Some (quota_error node quota).

(** The branch from the block [current_bb] to [dest] is a backward branch
    that takes the count over the quota. *)
Definition over_quota (a : IrAnalyze) (dest current_bb : IrBasicBlock) : Prop :=
  bb_debug_id dest <= bb_debug_id current_bb /\
  wrap64 (backward_branch_count a + 1) > backward_branch_quota a.

Definition typed_outputs (outputs : list AsmOutput) : nat :=
  length (filter (fun o => is_Some (out_return_type o)) outputs).

Definition up_to_one_output_error (node : AstNodeId) : ErrorMsg :=
  {| err_node := node;
     err_format := "inline assembly allows up to one output value";
     err_args := []; err_notes := [] |}.

Definition break_stack (b : Builder) : list BlockPtr :=
  irb_break_block_stack (b_irb b).

Definition continue_stack (b : Builder) : list BlockPtr :=
  irb_continue_block_stack (b_irb b).

Definition current_block (b : Builder) : option BlockPtr :=
  irb_current_basic_block (b_irb b).

Definition keeps_stacks {A : Type} (m : M Builder A) : Prop :=
  forall s r s', m s = Ok (r, s') ->
    break_stack s' = break_stack s /\ continue_stack s' = continue_stack s.

Definition keeps_current_block {A : Type} (m : M Builder A) : Prop :=
  forall s r s', m s = Ok (r, s') -> current_block s' = current_block s.

(** The loop body was generated by [gen] in a state whose stacks are those
    of [s] with the loop's targets pushed, the break target being
    [end_block]. *)
Definition body_under_targets
    (gen : AstNodeId -> option ScopePtr -> LValPurpose -> M Builder InstrPtr)
    (body : AstNodeId) (s : Builder) (end_block : BlockPtr) : Prop :=
  exists scope s_in r_body s_out continue_block,
    gen body scope LValPurposeNone s_in = Ok (r_body, s_out) /\
    break_stack s_in = break_stack s ++ [end_block] /\
    continue_stack s_in = continue_stack s ++ [continue_block].

(** The generators that are not embedded keep the stacks whenever the
    generator they call back does. *)
Definition other_generators_keep_stacks
    (ir_gen_other : (AstNodeId -> option ScopePtr -> LValPurpose -> M Builder InstrPtr) ->
                    AstNodeId -> LValPurpose -> M Builder InstrPtr) : Prop :=
  forall gen,
    (forall node scope lval, keeps_stacks (gen node scope lval)) ->
    forall node lval, keeps_stacks (ir_gen_other gen node lval).

(** ** Example programs *)

Definition static_value (d : ConstUnion ConstExprValue) : ConstExprValue :=
  {| special := ConstValSpecialStatic; depends_on_compile_var := false; data := d |}.

Definition runtime_value : ConstExprValue :=
  set_special ConstValSpecialRuntime zero_value.

Definition example_instruction (id : IrInstructionId) (d : IrInstructionData)
    (ty : option TypeTableEntry) (value : ConstExprValue)
    (other : option InstrPtr) (ref_count : Z) : IrInstruction :=
  {| inst_id := id; inst_source_node := 0%nat; inst_static_value := value;
     inst_type_entry := ty; inst_debug_id := 0; inst_other := other;
     inst_ref_count := ref_count; inst_data := d |}.

(** The instruction that [codegen->invalid_instruction] points to. *)
Definition the_invalid_instruction : IrInstruction :=
  example_instruction IrInstructionIdConst IrInstructionConst (Some entry_invalid)
    zero_value None 0.

Definition an_unreachable : IrInstruction :=
  example_instruction IrInstructionIdUnreachable IrInstructionUnreachable
    (Some entry_unreachable) (static_value x_none) None 0.

Definition example_block (name : string) (debug_id : Z) (ref_count : Z)
    (other : option BlockPtr) (l : list InstrPtr) : IrBasicBlock :=
  {| bb_instruction_list := l; bb_other := other; bb_name_hint := name;
     bb_debug_id := debug_id; bb_ref_count := ref_count |}.

Definition example_codegen : CodeGen :=
  {| errors := []; primitive_type_table := []; invalid_instruction := 0%nat |}.

Definition example_exec (blocks : list BlockPtr) (next_debug_id count quota : Z)
  : IrExecutable :=
  {| exec_basic_block_list := blocks; exec_mem_slot_count := 0;
     exec_next_debug_id := next_debug_id; exec_is_inline := false;
     exec_invalid := false; exec_backward_branch_count := count;
     exec_backward_branch_quota := quota |}.

Definition a_node (ty : NodeType) (d : AstNodeData) : AstNode :=
  {| node_type := ty; node_block_context := None; node_data := d |}.

(** The analyzer in the middle of old block [old_current], at instruction
    [index], with [new_current] the block under construction. *)
Definition example_state (store : Store) (old_blocks new_blocks : list BlockPtr)
    (old_current : BlockPtr) (new_current : option BlockPtr) (index : Z)
    (count quota : Z) (slots : list ConstExprValue) : IrAnalyze :=
  {| ira_codegen := example_codegen; ira_store := store;
     ira_old_irb :=
       {| irb_exec := example_exec old_blocks 100 0 quota;
          irb_current_basic_block := Some old_current;
          irb_break_block_stack := []; irb_continue_block_stack := [] |};
     ira_new_irb :=
       {| irb_exec := example_exec new_blocks 100 count quota;
          irb_current_basic_block := new_current;
          irb_break_block_stack := []; irb_continue_block_stack := [] |};
     ira_mem_slot_list := slots;
     ira_mem_slot_count := Z.of_nat (length slots);
     ira_old_bb_queue := [old_current]; ira_block_queue_index := 0;
     ira_instruction_index := index;
     ira_explicit_return_type := None;
     ira_implicit_return_type_list := [];
     ira_const_predecessor_bb := None; ira_fn_variable_list := [] |}.

(** No cast and none of the analyses outside the embedded ones is
    available. *)
Definition no_oracle : Oracle :=
  {| first_executing_node := fun n => n;
     validate_var_type := fun _ t => ret t;
     ir_analyze_cast := fun _ _ _ => panic "ir_analyze_cast";
     ir_analyze_instruction_other := fun _ => panic "ir_analyze_instruction_nocast" |}.

(** *** A branch back to a block with one reference

    The end of a loop body that holds an inner loop: the inner [WhileEnd]
    block, made after the outer loop's [ForContinue] block, branches to
    it. *)
Definition back_edge_store : Store :=
  {| instructions :=
       [ the_invalid_instruction;
         an_unreachable;
         example_instruction IrInstructionIdBr (IrInstructionBr 0%nat false)
           (Some entry_unreachable) (static_value x_none) None 0 ];
     basic_blocks :=
       [ example_block "ForContinue" 4 1 None [1%nat];
         example_block "WhileEnd" 8 1 None [2%nat] ];
     variables := [];
     ast_nodes := [ a_node NodeTypeForExpr data_other ];
     block_contexts := [] |}.

Definition back_edge_state (count : Z) : IrAnalyze :=
  example_state back_edge_store [0%nat; 1%nat] [] 1%nat None 0 count 1000 [].

Definition state_of {A : Type} (r : Result (A * IrAnalyze)) (default : IrAnalyze) : IrAnalyze :=
  match r with
  | Ok (_, a) => a
  | Panic _ => default
  end.

(** *** A conditional branch on a constant *)
Definition cond_br_store (b : bool) : Store :=
  {| instructions :=
       [ the_invalid_instruction;
         example_instruction IrInstructionIdConst IrInstructionConst
           (Some entry_bool) (static_value (x_bool b)) (Some 2%nat) 1;
         example_instruction IrInstructionIdConst IrInstructionConst
           (Some entry_bool) (static_value (x_bool b)) (Some 1%nat) 0;
         example_instruction IrInstructionIdCondBr
           (IrInstructionCondBr 1%nat 1%nat 2%nat false)
           (Some entry_unreachable) (static_value x_none) None 0;
         an_unreachable;
         an_unreachable ];
     basic_blocks :=
       [ example_block "Entry" 0 1 (Some 3%nat) [1%nat; 3%nat];
         example_block "Then" 1 2 None [4%nat];
         example_block "Else" 2 1 None [5%nat];
         example_block "Entry" 0 1 (Some 0%nat) [] ];
     variables := [];
     ast_nodes := [ a_node NodeTypeIfBoolExpr data_other ];
     block_contexts := [] |}.

Definition cond_br_state (b : bool) : IrAnalyze :=
  example_state (cond_br_store b) [0%nat; 1%nat; 2%nat] [3%nat] 0%nat (Some 3%nat)
    1 0 1000 [].

(** *** An instruction that nothing uses *)
Definition dead_code_store : Store :=
  {| instructions :=
       [ the_invalid_instruction;
         example_instruction IrInstructionIdConst IrInstructionConst
           (Some entry_bool) (static_value (x_bool true)) None 0;
         an_unreachable ];
     basic_blocks :=
       [ example_block "Entry" 0 1 (Some 1%nat) [1%nat; 2%nat];
         example_block "Entry" 0 1 (Some 0%nat) [] ];
     variables := [];
     ast_nodes := [ a_node NodeTypeBoolLiteral (data_bool_literal true) ];
     block_contexts := [] |}.

Definition dead_code_state : IrAnalyze :=
  example_state dead_code_store [0%nat] [1%nat] 0%nat (Some 1%nat) 0 0 1000 [].

(** *** Programs for the builder *)
Definition top_scope : BlockContext :=
  {| bc_node := None; bc_parent := None; bc_has_fn_entry := false;
     bc_parent_loop_node := None; bc_var_table := []; bc_decls := [] |}.

Definition example_builder (nodes : list AstNode) : Builder :=
  {| b_codegen := example_codegen;
     b_store :=
       {| instructions := [the_invalid_instruction];
          basic_blocks := [example_block "Entry" 0 1 None []];
          variables := []; ast_nodes := nodes; block_contexts := [top_scope] |};
     b_irb :=
       {| irb_exec := example_exec [0%nat] 1 0 1000;
          irb_current_basic_block := Some 0%nat;
          irb_break_block_stack := []; irb_continue_block_stack := [] |} |}.

(** None of the generators outside the embedded ones is available. *)
Definition no_other_generators
    (gen : AstNodeId -> option ScopePtr -> LValPurpose -> M Builder InstrPtr)
    (node : AstNodeId) (lval : LValPurpose) : M Builder InstrPtr :=
  panic "ir_gen_node_raw".

(** [break;] at the top of a function body. *)
Definition break_outside_loop : Builder :=
  example_builder [a_node NodeTypeBreak data_other].

(** [while (true) false]. *)
Definition while_true : Builder :=
  example_builder
    [ a_node NodeTypeWhileExpr (data_while_expr 1%nat None 2%nat false);
      a_node NodeTypeBoolLiteral (data_bool_literal true);
      a_node NodeTypeBoolLiteral (data_bool_literal false) ].

Definition asm_output (variable_name : string) (return_type : option AstNodeId)
  : AsmOutput :=
  {| out_asm_symbolic_name := "ret"; out_constraint := "=r";
     out_variable_name := variable_name; out_return_type := return_type;
     out_variable := None |}.

Definition asm_node (outputs : list AsmOutput) : AstNode :=
  {| node_type := NodeTypeAsmExpr; node_block_context := Some 0%nat;
     node_data := data_asm_expr true outputs [] |}.

(** An asm expression with the outputs [(x)], [(-> T)], [(-> T)], where [x]
    is not declared. *)
Definition asm_undeclared_then_two_typed : Builder :=
  example_builder
    [ asm_node [asm_output "x" None; asm_output "" (Some 1%nat);
                asm_output "" (Some 2%nat)];
      a_node NodeTypeTypeLiteral data_other;
      a_node NodeTypeTypeLiteral data_other ].

(** An asm expression with the outputs [(-> T)], [(-> T)]. *)
Definition asm_two_typed : Builder :=
  example_builder
    [ asm_node [asm_output "" (Some 1%nat); asm_output "" (Some 2%nat)];
      a_node NodeTypeTypeLiteral data_other;
      a_node NodeTypeTypeLiteral data_other ].

Definition undeclared_identifier_error (node : AstNodeId) (name : string) : ErrorMsg :=
  {| err_node := node; err_format := "use of undeclared identifier '%s'";
     err_args := [ArgStr name]; err_notes := [] |}.

Definition ty_u8 : TypeTableEntry := TyInt "u8" false 8.

Definition usize_value (n : Z) : ConstExprValue :=
  static_value (x_bignum {| bn_kind := BigNumKindInt; bn_is_negative := false;
                            bn_x_uint := n |}).

Definition mem_slot (i : nat) : ValPtr := {| vp_root := RootMemSlot i; vp_path := [] |}.

(** *** Indexing a pointer into an array

    [var a = []u8{1, 2, 3}; const p = &a[1];] and then [p[k]]: slot 0 holds
    [a], slot 1 holds [p], instruction 2 is the analysed pointer to [p],
    instruction 4 the analysed index [k] and instruction 5 the old
    [ElemPtr]. *)
Definition elem_ptr_store (k : Z) : Store :=
  {| instructions :=
       [ the_invalid_instruction;
         example_instruction IrInstructionIdVarPtr (IrInstructionVarPtr 0%nat)
           None runtime_value (Some 2%nat) 1;
         example_instruction IrInstructionIdVarPtr (IrInstructionVarPtr 0%nat)
           (Some (TyPointer (TyPointer ty_u8 false) true))
           (static_value (x_ptr (mem_slot 1) SIZE_MAX false)) (Some 1%nat) 1;
         example_instruction IrInstructionIdConst IrInstructionConst
           None runtime_value (Some 4%nat) 1;
         example_instruction IrInstructionIdConst IrInstructionConst
           (Some entry_usize) (usize_value k) (Some 3%nat) 1;
         example_instruction IrInstructionIdElemPtr
           (IrInstructionElemPtr (Some 1%nat) (Some 3%nat) true)
           None runtime_value None 1 ];
     basic_blocks :=
       [ example_block "Entry" 0 1 (Some 1%nat) [1%nat; 3%nat; 5%nat];
         example_block "Entry" 0 1 (Some 0%nat) [] ];
     variables := [];
     ast_nodes := [ a_node NodeTypeArrayAccessExpr data_other ];
     block_contexts := [] |}.

Definition elem_ptr_state (k : Z) : IrAnalyze :=
  example_state (elem_ptr_store k) [0%nat] [1%nat] 0%nat (Some 1%nat) 2 0 1000
    [ static_value (x_array [usize_value 1; usize_value 2; usize_value 3]);
      static_value (x_ptr (mem_slot 0) 1 false) ].

Definition index_outside_array_error (node : AstNodeId) (index len : Z) : ErrorMsg :=
  {| err_node := node;
     err_format := "index %PRIu64 outside array of size %PRIu64";
     err_args := [ArgNum index; ArgNum len]; err_notes := [] |}.

(** Mem slot [i] has been demoted. *)
Definition slot_is_runtime (i : nat) (a : IrAnalyze) : Prop :=
  exists v, ira_mem_slot_list a !! i = Some v /\
            special v = ConstValSpecialRuntime.

Definition slot_is_static (i : nat) (a : IrAnalyze) : Prop :=
  exists v, ira_mem_slot_list a !! i = Some v /\
            special v = ConstValSpecialStatic.

Definition keeps_runtime_slot (i : nat) {A : Type} (m : M IrAnalyze A) : Prop :=
  forall s r s', slot_is_runtime i s -> m s = Ok (r, s') -> slot_is_runtime i s'.

Definition a_variable (name : string) (ty : TypeTableEntry) (slot : Z)
  : VariableTableEntry :=
  {| var_name := name; var_type := Some ty; var_src_is_const := false;
     var_gen_is_const := false; var_is_inline := false; var_shadowable := false;
     var_mem_slot_index := slot; var_ref_count := 0; var_decl_node := 0%nat;
     var_in_fn := true; var_top_level_value := None; var_is_export := false;
     var_is_extern := false |}.

(** *** A store of a runtime value to a variable known so far

    The body of [while (...) { var x = true; x = f(); }]: instruction 8
    declares [x] (mem slot 0) with the constant of instruction 7, instruction
    2 is the analysed constant pointer to [x], instruction 4 the analysed
    call and instruction 5 the old [StorePtr]. *)
Definition demotion_store : Store :=
  {| instructions :=
       [ the_invalid_instruction;
         example_instruction IrInstructionIdVarPtr (IrInstructionVarPtr 0%nat)
           None runtime_value (Some 2%nat) 1;
         example_instruction IrInstructionIdVarPtr (IrInstructionVarPtr 0%nat)
           (Some (TyPointer entry_bool true))
           (static_value (x_ptr (mem_slot 0) SIZE_MAX false)) (Some 1%nat) 1;
         example_instruction IrInstructionIdCall IrInstructionOther
           None runtime_value (Some 4%nat) 1;
         example_instruction IrInstructionIdCall IrInstructionOther
           (Some entry_bool) runtime_value (Some 3%nat) 0;
         example_instruction IrInstructionIdStorePtr
           (IrInstructionStorePtr 1%nat 3%nat) None runtime_value None 0;
         example_instruction IrInstructionIdConst IrInstructionConst
           None runtime_value (Some 7%nat) 1;
         example_instruction IrInstructionIdConst IrInstructionConst
           (Some entry_bool) (static_value (x_bool true)) (Some 6%nat) 0;
         example_instruction IrInstructionIdDeclVar
           (IrInstructionDeclVar 0%nat None 6%nat) None runtime_value None 0 ];
     basic_blocks :=
       [ example_block "WhileBody" 2 1 (Some 1%nat)
           [6%nat; 8%nat; 1%nat; 3%nat; 5%nat];
         example_block "WhileBody" 2 1 (Some 0%nat) [] ];
     variables := [ a_variable "x" entry_bool 0 ];
     ast_nodes :=
       [ {| node_type := NodeTypeVariableDeclaration;
            node_block_context := Some 0%nat; node_data := data_other |} ];
     block_contexts := [ top_scope ] |}.

Definition demotion_state : IrAnalyze :=
  example_state demotion_store [0%nat] [1%nat] 0%nat (Some 1%nat) 4 0 1000
    [ static_value (x_bool true) ].

(** ** Vocabulary of the further properties *)

(** The diagnostic that [add_node_error] appends: a message at [node]
    without notes. *)
Definition node_error (node : AstNodeId) (format : string) (args : list FormatArg)
  : ErrorMsg :=
  {| err_node := node; err_format := format; err_args := args; err_notes := [] |}.

(** The instruction of [ir_create_const] in [ir_get_deref], once its value
    is set: a [Const] of the pointee type that holds [value]. *)
Definition folded_constant (source_node : AstNodeId) (value : ConstExprValue)
    (type_entry : TypeTableEntry) (debug_id : Z) (other : InstrPtr)
  : IrInstruction :=
  {| inst_id := IrInstructionIdConst; inst_source_node := source_node;
     inst_static_value := value; inst_type_entry := Some type_entry;
     inst_debug_id := debug_id; inst_other := Some other; inst_ref_count := 0;
     inst_data := IrInstructionConst |}.

(** The [Const] that [ir_build_const_from] allocates for a store that is
    done at compile time; [ir_analyze_instruction] sets its type. *)
Definition void_constant (source_node : AstNodeId) (debug_id : Z) (other : InstrPtr)
  : IrInstruction :=
  {| inst_id := IrInstructionIdConst; inst_source_node := source_node;
     inst_static_value := static_value x_none; inst_type_entry := None;
     inst_debug_id := debug_id; inst_other := Some other; inst_ref_count := 0;
     inst_data := IrInstructionConst |}.

(** The pointer [p] is [Runtime], or it points at a value that is. *)
Definition pointee_unknown (a : IrAnalyze) (p : IrInstruction) : Prop :=
  is_runtime (inst_static_value p) = true \/
  exists target is_c_str v,
    special (inst_static_value p) = ConstValSpecialStatic /\
    data (inst_static_value p) = x_ptr target SIZE_MAX is_c_str /\
    read_val target a = Ok (v, a) /\
    is_runtime v = true.

(** The [LoadPtr] that [ir_get_deref] builds. *)
Definition emitted_load (source_node : AstNodeId) (ptr : InstrPtr)
    (type_entry : TypeTableEntry) (debug_id : Z) (other : InstrPtr)
  : IrInstruction :=
  {| inst_id := IrInstructionIdLoadPtr; inst_source_node := source_node;
     inst_static_value := zero_value; inst_type_entry := Some type_entry;
     inst_debug_id := debug_id; inst_other := Some other; inst_ref_count := 0;
     inst_data := IrInstructionOperand ptr |}.

(** What [ir_analyze_bin_op_bool] computes on two constants; the other
    operators are not boolean ones. *)
Definition bool_op_result (op_id : IrBinOp) (b1 b2 : bool) : option bool :=
  match op_id with
  | IrBinOpBoolOr => Some (b1 || b2)
  | IrBinOpBoolAnd => Some (b1 && b2)
  | _ => None
  end.

(** The block [b] has reference count 0. *)
Definition unreferenced (a : IrAnalyze) (b : BlockPtr) : Prop :=
  exists bb, basic_blocks (ira_store a) !! b = Some bb /\ bb_ref_count bb = 0.

(** The executable is one block of one instruction, the [Return] of
    [value], and [value] is known at compile time. *)
Definition returns_constant (exec : IrExecutable) (s : Store) (value : InstrPtr)
  : Prop :=
  exists bb_ptr bb only_inst r v,
    exec_basic_block_list exec = [bb_ptr] /\
    basic_blocks s !! bb_ptr = Some bb /\
    bb_instruction_list bb = [only_inst] /\
    instructions s !! only_inst = Some r /\
    inst_id r = IrInstructionIdReturn /\
    inst_data r = IrInstructionReturn value /\
    instructions s !! value = Some v /\
    is_runtime (inst_static_value v) = false.

(** [t] is the invalid type or the type of an instruction of [l]. *)
Definition peer_type_of (l : list IrInstruction) (t : TypeTableEntry) : Prop :=
  t = entry_invalid \/ exists i, i ∈ l /\ inst_type_entry i = Some t.

(** The first instruction of [bb], if there is one, is not a [Phi]. *)
Definition no_leading_phi (s : Store) (bb : IrBasicBlock) : Prop :=
  match head (bb_instruction_list bb) with
  | None => True
  | Some p =>
      exists i, instructions s !! p = Some i /\ inst_id i <> IrInstructionIdPhi
  end.

(** The block that [ir_build_bb_from] allocates for [old_bb]. *)
Definition new_block_for (old_bb : BlockPtr) (bb : IrBasicBlock) (debug_id : Z)
  : IrBasicBlock :=
  {| bb_instruction_list := []; bb_other := Some old_bb;
     bb_name_hint := bb_name_hint bb; bb_debug_id := debug_id;
     bb_ref_count := 0 |}.

(** The [Return] that [ir_analyze_instruction_return] builds. *)
Definition emitted_return (source_node : AstNodeId) (value : InstrPtr)
    (debug_id : Z) (other : InstrPtr) : IrInstruction :=
  {| inst_id := IrInstructionIdReturn; inst_source_node := source_node;
     inst_static_value := set_special ConstValSpecialStatic zero_value;
     inst_type_entry := Some entry_unreachable;
     inst_debug_id := debug_id; inst_other := Some other; inst_ref_count := 0;
     inst_data := IrInstructionReturn value |}.

(** The builder of the new executable in the analyzer's state. *)
Definition builder_of (a : IrAnalyze) : Builder :=
  {| b_codegen := ira_codegen a; b_store := ira_store a; b_irb := ira_new_irb a |}.

(** The state with [l] as its instructions. *)
Definition with_instructions (l : list IrInstruction) (a : IrAnalyze) : IrAnalyze :=
  set_ira_store (set_instructions l (ira_store a)) a.

(** The state after one debug id of the new executable is taken. *)
Definition with_next_debug_id (a : IrAnalyze) : IrAnalyze :=
  set_ira_new_irb
    (set_irb_exec
       (set_exec_next_debug_id
          (wrap64 (exec_next_debug_id (irb_exec (ira_new_irb a)) + 1))
          (irb_exec (ira_new_irb a)))
       (ira_new_irb a)) a.

(** The [VarPtr] that [ir_analyze_const_ptr] allocates for a variable in
    mem slot [slot]. *)
Definition constant_var_ptr (source_node : AstNodeId) (var : VarPtr)
    (slot : nat) (depends : bool) (type_entry : TypeTableEntry) (debug_id : Z)
    (other : InstrPtr) : IrInstruction :=
  {| inst_id := IrInstructionIdVarPtr; inst_source_node := source_node;
     inst_static_value :=
       {| special := ConstValSpecialStatic; depends_on_compile_var := depends;
          data := x_ptr (mem_slot slot) SIZE_MAX false |};
     inst_type_entry := Some (TyPointer type_entry true);
     inst_debug_id := debug_id; inst_other := Some other; inst_ref_count := 0;
     inst_data := IrInstructionVarPtr var |}.

(** The types a variable may have without more ado: the cases marked OK in
    [ir_analyze_instruction_decl_var]. *)
Definition plain_variable_type (t : TypeTableEntry) : bool :=
  match t with
  | TyUndefLit | TyVoid | TyBool | TyInt _ _ _ | TyFloat _ _ | TyPointer _ _
  | TyArray _ _ | TyStruct _ | TyMaybe _ | TyErrorUnion _ | TyPureError
  | TyEnum _ _ | TyUnion _ | TyFn _ | TyGenericFn _ | TyBoundFn _ => true
  | _ => false
  end.

(** The [DeclVar] that [ir_analyze_instruction_decl_var] builds. *)
Definition emitted_decl_var (source_node : AstNodeId) (var : VarPtr)
    (init_value : InstrPtr) (debug_id : Z) (other : InstrPtr) : IrInstruction :=
  {| inst_id := IrInstructionIdDeclVar; inst_source_node := source_node;
     inst_static_value := set_special ConstValSpecialStatic zero_value;
     inst_type_entry := Some entry_void;
     inst_debug_id := debug_id; inst_other := Some other; inst_ref_count := 0;
     inst_data := IrInstructionDeclVar var None init_value |}.

(** *** Loads, stores and boolean operators on a variable

    [var x = true;] in mem slot 0, then [x = false], [x], [false or true],
    [false and f()], an inline branch on [f()], [return false] and phi
    instructions: an old instruction and the new one it was analysed to
    point to each other. *)
Definition operations_store : Store :=
  {| instructions :=
       [ the_invalid_instruction;
         (* 1, 2: the pointer to [x] *)
         example_instruction IrInstructionIdVarPtr (IrInstructionVarPtr 0%nat)
           None runtime_value (Some 2%nat) 1;
         example_instruction IrInstructionIdVarPtr (IrInstructionVarPtr 0%nat)
           (Some (TyPointer entry_bool true))
           (static_value (x_ptr (mem_slot 0) SIZE_MAX false)) (Some 1%nat) 1;
         (* 3, 4: [false] *)
         example_instruction IrInstructionIdConst IrInstructionConst
           (Some entry_bool) (static_value (x_bool false)) (Some 4%nat) 1;
         example_instruction IrInstructionIdConst IrInstructionConst
           (Some entry_bool) (static_value (x_bool false)) (Some 3%nat) 0;
         (* 5: [x = false], 6: [x] *)
         example_instruction IrInstructionIdStorePtr
           (IrInstructionStorePtr 1%nat 3%nat) None runtime_value None 0;
         example_instruction IrInstructionIdLoadPtr (IrInstructionOperand 1%nat)
           None runtime_value None 1;
         (* 7, 8: [f()] *)
         example_instruction IrInstructionIdCall IrInstructionOther
           None runtime_value (Some 8%nat) 1;
         example_instruction IrInstructionIdCall IrInstructionOther
           (Some entry_bool) runtime_value (Some 7%nat) 0;
         (* 9, 10: [true] *)
         example_instruction IrInstructionIdConst IrInstructionConst
           (Some entry_bool) (static_value (x_bool true)) (Some 10%nat) 1;
         example_instruction IrInstructionIdConst IrInstructionConst
           (Some entry_bool) (static_value (x_bool true)) (Some 9%nat) 0;
         (* 11: [false or true], 12: [false and f()] *)
         example_instruction IrInstructionIdBinOp
           (IrInstructionBinOp IrBinOpBoolOr 3%nat 9%nat) None runtime_value None 1;
         example_instruction IrInstructionIdBinOp
           (IrInstructionBinOp IrBinOpBoolAnd 3%nat 7%nat) None runtime_value
           None 1;
         (* 13: an inline branch on [f()], 14: [return false] *)
         example_instruction IrInstructionIdCondBr
           (IrInstructionCondBr 7%nat 2%nat 2%nat true) None runtime_value None 0;
         example_instruction IrInstructionIdReturn (IrInstructionReturn 3%nat)
           None runtime_value None 0;
         (* 15: phi of [false] from block 4 and [true] from block 2 *)
         example_instruction IrInstructionIdPhi
           (IrInstructionPhi [4%nat; 2%nat] [3%nat; 9%nat]) None runtime_value
           None 1;
         (* 16: a load through [false], 17: a fresh pointer to [x],
            18: a load through it *)
         example_instruction IrInstructionIdLoadPtr (IrInstructionOperand 3%nat)
           None runtime_value None 1;
         example_instruction IrInstructionIdVarPtr (IrInstructionVarPtr 0%nat)
           None runtime_value None 1;
         example_instruction IrInstructionIdLoadPtr (IrInstructionOperand 17%nat)
           None runtime_value None 1;
         (* 19, 20: a pointer that is not known, 21: a load through it *)
         example_instruction IrInstructionIdCall IrInstructionOther
           None runtime_value (Some 20%nat) 1;
         example_instruction IrInstructionIdCall IrInstructionOther
           (Some (TyPointer entry_bool false)) runtime_value (Some 19%nat) 0;
         example_instruction IrInstructionIdLoadPtr (IrInstructionOperand 19%nat)
           None runtime_value None 1;
         (* 22: [var x = true] *)
         example_instruction IrInstructionIdDeclVar
           (IrInstructionDeclVar 0%nat None 9%nat) None runtime_value None 0 ];
     basic_blocks :=
       [ example_block "Entry" 0 1 (Some 1%nat) [];
         example_block "Entry" 0 1 (Some 0%nat) [];
         example_block "Then" 1 1 (Some 3%nat) [];
         example_block "Then" 1 1 (Some 2%nat) [];
         example_block "Else" 2 0 None [] ];
     variables := [ a_variable "x" entry_bool 0 ];
     ast_nodes :=
       [ {| node_type := NodeTypeVariableDeclaration;
            node_block_context := Some 0%nat; node_data := data_other |} ];
     block_contexts := [ top_scope ] |}.

(** The analysis in the middle of that program: blocks 0, 2 and 4 are the
    old executable and block 1 the new one, the current old block is block
    0, the current new block is block 1 and mem slot 0 holds [true]. *)
Definition operations_state : IrAnalyze :=
  example_state operations_store [0%nat; 2%nat; 4%nat] [1%nat] 0%nat (Some 1%nat)
    0 0 1000 [ static_value (x_bool true) ].

(** *** A function body that returns a constant

    [return true]: instruction 1 is the constant, instruction 2 the
    [Return] of it; block 0 is the body. *)
Definition constant_function_store : Store :=
  {| instructions :=
       [ the_invalid_instruction;
         example_instruction IrInstructionIdConst IrInstructionConst
           (Some entry_bool) (static_value (x_bool true)) None 1;
         example_instruction IrInstructionIdReturn (IrInstructionReturn 1%nat)
           (Some entry_unreachable) (static_value x_none) None 0 ];
     basic_blocks :=
       [ example_block "Entry" 0 1 None [1%nat; 2%nat] ];
     variables := [];
     ast_nodes := [ a_node NodeTypeReturnExpr data_other ];
     block_contexts := [ top_scope ] |}.

(** *** Indexing an array

    [var a = []u8{1, 2, 3};] in mem slot 0 and then [a[k]]: instruction 2
    is the analysed pointer to [a], instruction 4 the analysed index [k]
    and instruction 5 the old [ElemPtr]. *)
Definition array_store (k : Z) : Store :=
  {| instructions :=
       [ the_invalid_instruction;
         example_instruction IrInstructionIdVarPtr (IrInstructionVarPtr 0%nat)
           None runtime_value (Some 2%nat) 1;
         example_instruction IrInstructionIdVarPtr (IrInstructionVarPtr 0%nat)
           (Some (TyPointer (TyArray ty_u8 3) true))
           (static_value (x_ptr (mem_slot 0) SIZE_MAX false)) (Some 1%nat) 1;
         example_instruction IrInstructionIdConst IrInstructionConst
           None runtime_value (Some 4%nat) 1;
         example_instruction IrInstructionIdConst IrInstructionConst
           (Some entry_usize) (usize_value k) (Some 3%nat) 1;
         example_instruction IrInstructionIdElemPtr
           (IrInstructionElemPtr (Some 1%nat) (Some 3%nat) true)
           None runtime_value None 1 ];
     basic_blocks :=
       [ example_block "Entry" 0 1 (Some 1%nat) [1%nat; 3%nat; 5%nat];
         example_block "Entry" 0 1 (Some 0%nat) [] ];
     variables := [];
     ast_nodes := [ a_node NodeTypeArrayAccessExpr data_other ];
     block_contexts := [] |}.

(** The analysis of that program, with the array in mem slot 0. *)
Definition array_state (k : Z) : IrAnalyze :=
  example_state (array_store k) [0%nat] [1%nat] 0%nat (Some 1%nat) 2 0 1000
    [ static_value (x_array [usize_value 1; usize_value 2; usize_value 3]) ].

(** A builder on [store] whose current block is block 1. *)
Definition example_builder_of (store : Store) : Builder :=
  {| b_codegen := example_codegen; b_store := store;
     b_irb :=
       {| irb_exec := example_exec [1%nat] 100 0 1000;
          irb_current_basic_block := Some 1%nat;
          irb_break_block_stack := []; irb_continue_block_stack := [] |} |}.

(** [for (a) body]: a [for] loop without its element parameter. *)
Definition for_without_element : Builder :=
  example_builder
    [ a_node NodeTypeForExpr
        (data_for_expr 1%nat None None 2%nat false false None None);
      a_node NodeTypeSymbol (data_symbol_expr "a");
      a_node NodeTypeBoolLiteral (data_bool_literal true) ].

(** [asm("nop")]: neither volatile nor with an output. *)
Definition asm_without_output : Builder :=
  example_builder
    [ {| node_type := NodeTypeAsmExpr; node_block_context := Some 0%nat;
         node_data := data_asm_expr false [] [] |} ].

(** * Properties *)

#[local] Arguments wrap64 : simpl never.

Lemma bind_ok {S A B : Type} (m : M S A) (k : A -> M S B) s r s' :
  bind m k s = Ok (r, s') <->
  exists x s1, m s = Ok (x, s1) /\ k x s1 = Ok (r, s').
Proof.
  unfold bind. split.
  - destruct (m s) as [[x s1]|e]; [eauto | discriminate].
  - intros (x & s1 & -> & H). exact H.
Qed.

Lemma types_match_const_cast_only_unfold e a :
  types_match_const_cast_only e a =
  bool_decide (e = a) ||
  match e, a with
  | TyPointer ec econst, TyPointer ac aconst =>
      (negb aconst || econst) && types_match_const_cast_only ec ac
  | _, _ => false
  end.
Proof. destruct e; reflexivity. Qed.

Lemma types_match_const_cast_only_refl t : types_match_const_cast_only t t = true.
Proof.
  rewrite types_match_const_cast_only_unfold, bool_decide_eq_true_2; auto.
Qed.

Lemma types_match_const_cast_only_not_pointer e a :
  type_id e <> TypeTableEntryIdPointer \/ type_id a <> TypeTableEntryIdPointer ->
  types_match_const_cast_only e a = bool_decide (e = a).
Proof.
  intros H. rewrite types_match_const_cast_only_unfold.
  destruct e, a; rewrite ?orb_false_r; try reflexivity.
  simpl in H. destruct H; congruence.
Qed.

Lemma types_match_const_cast_only_id e a :
  types_match_const_cast_only e a = true -> type_id e = type_id a.
Proof.
  rewrite types_match_const_cast_only_unfold. intros H.
  apply orb_true_iff in H as [H|H].
  - apply bool_decide_eq_true_1 in H. congruence.
  - destruct e, a; try discriminate. reflexivity.
Qed.

Lemma types_match_const_cast_only_antisym e a :
  types_match_const_cast_only e a = true ->
  types_match_const_cast_only a e = true -> e = a.
Proof.
  revert a. induction e; intros a H1 H2;
    rewrite types_match_const_cast_only_unfold in H1;
    apply orb_true_iff in H1 as [H1|H1];
    try (apply bool_decide_eq_true_1 in H1; exact H1);
    try (destruct a; discriminate).
  destruct a; try discriminate.
  rewrite types_match_const_cast_only_unfold in H2.
  apply orb_true_iff in H2 as [H2|H2]; [apply bool_decide_eq_true_1 in H2; auto|].
  apply andb_true_iff in H1 as [C1 M1]. apply andb_true_iff in H2 as [C2 M2].
  rewrite (IHe _ M1 M2). f_equal.
  destruct is_const, is_const0; simpl in *; congruence.
Qed.

(** C2: for two distinct sized integer types, the expected type [E] and the
    actual type [A] of a value, [ir_types_match_with_implicit_cast] returns,
    without touching [codegen], Yes exactly when [E] and [A] have the same
    signedness and [E] has at least the bits of [A], or [A] is unsigned,
    [E] is signed and [E] has more bits than [A]; and it returns No exactly
    in every other case. *)
Theorem implicit_cast_between_distinct_int_types
    (e_name a_name : string) (e_signed a_signed : bool) (e_bits a_bits : Z)
    (value : IrInstruction) (g : CodeGen) :
  TyInt e_name e_signed e_bits <> TyInt a_name a_signed a_bits ->
  let widening := e_signed = a_signed /\ e_bits >= a_bits in
  let unsigned_to_signed :=
    a_signed = false /\ e_signed = true /\ e_bits > a_bits in
  exists r,
    ir_types_match_with_implicit_cast (TyInt e_name e_signed e_bits)
      (TyInt a_name a_signed a_bits) value g = Ok (r, g)
    /\ (r = ImplicitCastMatchResultYes <-> widening \/ unsigned_to_signed)
    /\ (r = ImplicitCastMatchResultNo <-> ~ (widening \/ unsigned_to_signed)).
Proof.
  intros Hne widening unsigned_to_signed. subst widening unsigned_to_signed.
  unfold ir_types_match_with_implicit_cast.
  rewrite types_match_const_cast_only_not_pointer by (left; discriminate).
  rewrite (bool_decide_eq_false_2 _ Hne).
  unfold bind, ret, id_is; simpl.
  rewrite Z.geb_leb, Z.gtb_ltb.
  destruct (Z.leb_spec a_bits e_bits), (Z.ltb_spec a_bits e_bits),
    e_signed, a_signed; simpl;
    (eexists; split; [reflexivity|]);
    intuition (try discriminate; try congruence; try lia).
Qed.

(** C2 at [E] = [i16], [A] = [u8]. *)
Lemma implicit_cast_between_distinct_int_types_witness :
  TyInt "i16" true 16 <> TyInt "u8" false 8 /\
  exists r,
    ir_types_match_with_implicit_cast (TyInt "i16" true 16) (TyInt "u8" false 8)
      {| inst_id := IrInstructionIdConst; inst_source_node := 0%nat;
         inst_static_value := zero_value; inst_type_entry := Some (TyInt "u8" false 8);
         inst_debug_id := 0; inst_other := None; inst_ref_count := 0;
         inst_data := IrInstructionConst |}
      {| errors := []; primitive_type_table := []; invalid_instruction := 0%nat |}
    = Ok (r, {| errors := []; primitive_type_table := []; invalid_instruction := 0%nat |})
    /\ (r = ImplicitCastMatchResultYes <->
        (true = false /\ 16 >= 8) \/ (false = false /\ true = true /\ 16 > 8))
    /\ (r = ImplicitCastMatchResultNo <->
        ~ ((true = false /\ 16 >= 8) \/ (false = false /\ true = true /\ 16 > 8))).
Proof.
  split; [discriminate|].
  apply (implicit_cast_between_distinct_int_types "i16" "u8" true false 16 8).
  discriminate.
Defined.

Lemma type_id_invalid t : type_id t = TypeTableEntryIdInvalid -> t = TyInvalid.
Proof. destruct t; simpl; congruence. Qed.

Lemma error_union_not_nested t : t <> TyErrorUnion (TyErrorUnion t).
Proof. induction t; try discriminate. intros H. injection H as H. auto. Qed.

Lemma types_match_const_cast_only_neq e a :
  types_match_const_cast_only e a = false -> e <> a.
Proof. intros H ->. rewrite types_match_const_cast_only_refl in H. discriminate. Qed.

Lemma error_union_child_match c t :
  types_match_const_cast_only c (TyErrorUnion t) = true -> c = TyErrorUnion t.
Proof.
  rewrite types_match_const_cast_only_not_pointer by (right; discriminate).
  apply bool_decide_eq_true_1.
Qed.

Lemma type_id_unreachable t : type_id t = TypeTableEntryIdUnreachable -> t = TyUnreachable.
Proof. destruct t; simpl; congruence. Qed.

Ltac peer_facts :=
  unfold id_is in *;
  repeat match goal with
         | H : _ && _ = true |- _ => apply andb_true_iff in H as [? ?]
         | H : bool_decide _ = true |- _ => apply bool_decide_eq_true_1 in H
         | H : bool_decide _ = false |- _ => apply bool_decide_eq_false_1 in H
         | H : type_id _ = TypeTableEntryIdInvalid |- _ =>
             apply type_id_invalid in H; subst
         | H : type_id _ = TypeTableEntryIdUnreachable |- _ =>
             apply type_id_unreachable in H; subst
         | H : types_match_const_cast_only ?x ?x = false |- _ =>
             rewrite types_match_const_cast_only_refl in H; discriminate
         | H : _ && _ = false |- _ => apply andb_false_iff in H as [H|H]
         | H : (_ >? _) = true |- _ => rewrite Z.gtb_ltb in H; apply Z.ltb_lt in H
         | H : (_ >? _) = false |- _ => rewrite Z.gtb_ltb in H; apply Z.ltb_ge in H
         end.

Ltac peer_same :=
  solve [ eexists; split; reflexivity
        | match goal with
          | H1 : types_match_const_cast_only ?x ?y = true,
            H2 : types_match_const_cast_only ?y ?x = true |- _ =>
              pose proof (types_match_const_cast_only_antisym _ _ H1 H2); subst;
              eexists; split; reflexivity
          end ].

(** C7, as far as it holds: for two analysed instructions whose types are
    not literal-numeric, [ir_resolve_peer_types] gives the same type for
    both orders of the two, unless the two types are different entries of
    the same numeric kind (and signedness) and bit count, in which case
    the first one wins. *)
Theorem peer_types_pair_order_independent src a b ta tb g :
  inst_type_entry a = Some ta -> inst_type_entry b = Some tb ->
  is_num_lit ta = false -> is_num_lit tb = false ->
  ~ same_width_numbers ta tb ->
  exists t,
    result_value (ir_resolve_peer_types src [a; b] g) = Some t /\
    result_value (ir_resolve_peer_types src [b; a] g) = Some t.
Proof.
  intros Ha Hb Na Nb Hw.
  unfold ir_resolve_peer_types, ir_determine_peer_types, ir_determine_peer_types_loop.
  unfold bind, ret, deref. rewrite Ha, Hb. simpl.
  unfold is_num_lit in *. apply orb_false_iff in Na as [Na1 Na2].
  apply orb_false_iff in Nb as [Nb1 Nb2].
  rewrite Na1, Na2, Nb1, Nb2. simpl.
  repeat match goal with
         | |- context [if ?c then _ else _] => destruct c eqn:?
         end; simpl; try solve [eexists; split; reflexivity].
  all: peer_facts; simpl in *; try congruence; try peer_same.
  all: repeat match goal with
              | H : context [match ?t with _ => _ end] |- _ =>
                  is_var t; destruct t; try discriminate
              end; simpl in *; try congruence.
  all: repeat match goal with
              | H : types_match_const_cast_only _ (TyErrorUnion _) = true |- _ =>
                  apply error_union_child_match in H
              | H : ?t = TyErrorUnion (TyErrorUnion ?t) |- _ =>
                  destruct (error_union_not_nested _ H)
              | H : ?c = TyErrorUnion _ |- _ => subst c
              end.
  all: try solve [exfalso; apply Hw; split;
                  [eauto using types_match_const_cast_only_neq
                  | split; [tauto | lia]]].
Qed.

(** C7 for [i8] and [i16]. *)
Lemma peer_types_pair_order_independent_witness :
  exists t,
    result_value (ir_resolve_peer_types 0%nat
      [analyzed_instruction ty_i8; analyzed_instruction ty_i16] empty_codegen) = Some t /\
    result_value (ir_resolve_peer_types 0%nat
      [analyzed_instruction ty_i16; analyzed_instruction ty_i8] empty_codegen) = Some t.
Proof.
  apply (peer_types_pair_order_independent 0%nat _ _ ty_i8 ty_i16);
    try reflexivity.
  intros (_ & _ & H). vm_compute in H. discriminate.
Defined.

(** C7 fails for three instructions: [i16, i8, %i16] resolves to [%i16],
    its permutation [i16, %i16, i8] to the invalid type. *)
Lemma peer_types_order_dependent :
  let l1 := [analyzed_instruction ty_i16; analyzed_instruction ty_i8;
             analyzed_instruction (TyErrorUnion ty_i16)] in
  let l2 := [analyzed_instruction ty_i16; analyzed_instruction (TyErrorUnion ty_i16);
             analyzed_instruction ty_i8] in
  l1 ≡ₚ l2 /\
  Forall (fun i => exists t, inst_type_entry i = Some t /\ is_num_lit t = false) l1 /\
  result_value (ir_resolve_peer_types 0%nat l1 empty_codegen) = Some (TyErrorUnion ty_i16) /\
  result_value (ir_resolve_peer_types 0%nat l2 empty_codegen) = Some TyInvalid.
Proof.
  split; [apply perm_skip, perm_swap|].
  split; [repeat constructor; eexists; split; reflexivity|].
  split; reflexivity.
Qed.

Lemma ira_state_eta a :
  set_ira_new_irb (ira_new_irb a)
    (set_ira_store (ira_store a) (set_ira_codegen (ira_codegen a) a)) = a.
Proof. destruct a; reflexivity. Qed.

Lemma on_new_irb_read {A : Type} (m : M Builder A) (x : A) a :
  (forall b, m b = Ok (x, b)) -> on_new_irb m a = Ok (x, a).
Proof. intros H. unfold on_new_irb. rewrite H. simpl. f_equal. f_equal. apply ira_state_eta. Qed.

Lemma ira_instruction_ok a p i :
  instructions (ira_store a) !! p = Some i -> ira_instruction p a = Ok (i, a).
Proof.
  intros H. unfold ira_instruction, on_new_irb, get_instruction.
  unfold bind, gets, deref, ret. simpl. rewrite H. simpl.
  f_equal. f_equal. apply ira_state_eta.
Qed.

Lemma ira_instruction_inv a p i a' :
  ira_instruction p a = Ok (i, a') ->
  a' = a /\ instructions (ira_store a) !! p = Some i.
Proof.
  unfold ira_instruction, on_new_irb, get_instruction.
  unfold bind, gets, deref, ret, panic. simpl.
  destruct (instructions (ira_store a) !! p); simpl; [|discriminate].
  intros [= <- <-]. split; [apply ira_state_eta | reflexivity].
Qed.

Lemma ira_basic_block_ok a p bb :
  basic_blocks (ira_store a) !! p = Some bb -> ira_basic_block p a = Ok (bb, a).
Proof.
  intros H. unfold ira_basic_block, on_new_irb, get_basic_block.
  unfold bind, gets, deref, ret. simpl. rewrite H. simpl.
  f_equal. f_equal. apply ira_state_eta.
Qed.

Lemma ira_basic_block_inv a p bb a' :
  ira_basic_block p a = Ok (bb, a') ->
  a' = a /\ basic_blocks (ira_store a) !! p = Some bb.
Proof.
  unfold ira_basic_block, on_new_irb, get_basic_block.
  unfold bind, gets, deref, ret, panic. simpl.
  destruct (basic_blocks (ira_store a) !! p); simpl; [|discriminate].
  intros [= <- <-]. split; [apply ira_state_eta | reflexivity].
Qed.

Lemma list_at_ok {S A : Type} (l : list A) (index : Z) (x : A) (s : S) :
  0 <= index -> l !! Z.to_nat index = Some x -> list_at l index s = Ok (x, s).
Proof.
  intros Hi Hl. unfold list_at, bind, assert, deref, ret.
  pose proof (lookup_lt_Some _ _ _ Hl) as Hlt.
  destruct (Z.ltb_spec index (Z.of_nat (length l))); [|lia].
  rewrite Hl. reflexivity.
Qed.

Lemma ir_has_side_effects_classification {S : Type} (i : IrInstruction) (s : S) :
  instruction_kind_well_formed i ->
  ir_has_side_effects i s = Ok (observable_side_effects i, s).
Proof.
  intros [Hid Hasm]. unfold ir_has_side_effects, observable_side_effects,
    asm_has_side_effects_flag.
  destruct (inst_id i) eqn:E; try congruence; try reflexivity.
  destruct (Hasm eq_refl) as (ins & outs & n & h & ->). reflexivity.
Qed.

Section MainLoop.
Variable oracle : Oracle.

(** C6: one turn of the main loop of [ir_analyze] at the old instruction
    [old].  [ir_has_side_effects] answers true exactly on [Br], [CondBr],
    [SwitchBr], [DeclVar], [StorePtr], [Call], [Return], [Unreachable],
    [SetFnTest], [SetFnVisible], [SetDebugSafety], [Import] and on an [Asm]
    whose has-side-effects flag is set.  If the reference count of [old] is
    zero and it has no side effects, the turn only moves to the next
    instruction: nothing is analysed and no object changes; otherwise the
    turn is the analysis of the instruction by [ir_analyze_instruction]. *)
Theorem dead_instruction_skipped_iff (a : IrAnalyze) current bb p old :
  irb_current_basic_block (ira_old_irb a) = Some current ->
  basic_blocks (ira_store a) !! current = Some bb ->
  0 <= ira_instruction_index a ->
  bb_instruction_list bb !! Z.to_nat (ira_instruction_index a) = Some p ->
  instructions (ira_store a) !! p = Some old ->
  instruction_kind_well_formed old ->
  let dead := inst_ref_count old = 0 /\ observable_side_effects old = false in
  ir_has_side_effects old a = Ok (observable_side_effects old, a) /\
  (dead ->
   ir_analyze_loop_body oracle a =
     Ok (Skipped p,
         set_ira_instruction_index (wrap64 (ira_instruction_index a + 1)) a)) /\
  (~ dead ->
   ir_analyze_loop_body oracle a =
     match ir_analyze_instruction oracle p a with
     | Ok (return_type, a') =>
         Ok (Analyzed p return_type,
             if id_is return_type TypeTableEntryIdUnreachable then a'
             else set_ira_instruction_index
                    (wrap64 (ira_instruction_index a' + 1)) a')
     | Panic e => Panic e
     end).
Proof.
  intros Hcur Hbb Hidx Hp Hold Hwf dead. subst dead.
  split; [apply ir_has_side_effects_classification; assumption|].
  assert (Hprefix : forall k : InstrPtr -> IrInstruction -> M IrAnalyze LoopEvent,
    (a' <- get ;;
     current <- deref (irb_current_basic_block (ira_old_irb a'))
                  "ira->old_irb.current_basic_block" ;;
     bb <- ira_basic_block current ;;
     old_instruction <- list_at (bb_instruction_list bb) (ira_instruction_index a') ;;
     old <- ira_instruction old_instruction ;;
     k old_instruction old) a = k p old a).
  { intros k. unfold bind at 1. unfold get. unfold bind at 1.
    rewrite Hcur. unfold deref, ret. unfold bind at 1.
    rewrite (ira_basic_block_ok _ _ _ Hbb). unfold bind at 1.
    rewrite (list_at_ok _ _ _ _ Hidx Hp). unfold bind at 1.
    rewrite (ira_instruction_ok _ _ _ Hold). reflexivity. }
  unfold ir_analyze_loop_body. rewrite Hprefix.
  split.
  - intros [Hrc Hse]. unfold bind. rewrite Hrc. simpl.
    rewrite ir_has_side_effects_classification by assumption.
    rewrite Hse. simpl. reflexivity.
  - intros Hnot. unfold bind at 1.
    destruct (inst_ref_count old =? 0) eqn:Hrc.
    + rewrite ir_has_side_effects_classification by assumption.
      destruct (observable_side_effects old) eqn:Hse.
      * simpl. unfold bind, ret, modify.
        destruct (ir_analyze_instruction oracle p a) as [[t a']|e]; [|reflexivity].
        destruct (id_is t TypeTableEntryIdUnreachable); reflexivity.
      * exfalso. apply Hnot. split; [lia | reflexivity].
    + unfold ret. simpl. unfold bind, ret, modify.
      destruct (ir_analyze_instruction oracle p a) as [[t a']|e]; [|reflexivity].
      destruct (id_is t TypeTableEntryIdUnreachable); reflexivity.
Qed.
End MainLoop.

Section BindLaws.
Context {S A B : Type}.
Implicit Types (k : A -> M S B) (s : S).

Lemma bind_ret (x : A) k s : bind (ret x) k s = k x s.
Proof. reflexivity. Qed.

Lemma bind_gets (f : S -> A) k s : bind (gets f) k s = k (f s) s.
Proof. reflexivity. Qed.

Lemma bind_deref_some (x : A) what k s : bind (deref (Some x) what) k s = k x s.
Proof. reflexivity. Qed.
End BindLaws.

Lemma bind_get {S B : Type} (k : S -> M S B) s : bind get k s = k s s.
Proof. reflexivity. Qed.

Lemma bind_modify {S B : Type} (f : S -> S) (k : unit -> M S B) s :
  bind (modify f) k s = k tt (f s).
Proof. reflexivity. Qed.

Lemma bind_assert_true {S B : Type} what (k : unit -> M S B) s :
  bind (assert true what) k s = k tt s.
Proof. reflexivity. Qed.

Lemma bind_assoc {S A B C : Type} (m : M S A) (k : A -> M S B) (h : B -> M S C) s :
  bind (bind m k) h s = bind m (fun x => bind (k x) h) s.
Proof. unfold bind. destruct (m s) as [[x s1]|e]; reflexivity. Qed.

Lemma bind_ira_basic_block {B : Type} p bb (k : IrBasicBlock -> M IrAnalyze B) a :
  basic_blocks (ira_store a) !! p = Some bb ->
  bind (ira_basic_block p) k a = k bb a.
Proof. intros H. unfold bind. rewrite (ira_basic_block_ok _ _ _ H). reflexivity. Qed.

Lemma bind_ira_instruction {B : Type} p i (k : IrInstruction -> M IrAnalyze B) a :
  instructions (ira_store a) !! p = Some i ->
  bind (ira_instruction p) k a = k i a.
Proof. intros H. unfold bind. rewrite (ira_instruction_ok _ _ _ H). reflexivity. Qed.

Lemma bind_update_new_exec {B : Type} f (k : unit -> M IrAnalyze B) a :
  bind (update_new_exec f) k a =
  k tt (set_ira_new_irb (set_irb_exec (f (irb_exec (ira_new_irb a))) (ira_new_irb a)) a).
Proof. reflexivity. Qed.

Lemma bind_on_codegen_add_node_error {B : Type} node fmt args
    (k : unit -> M IrAnalyze B) a :
  bind (on_codegen (add_node_error node fmt args)) k a =
  k tt (set_ira_codegen
          (set_errors (errors (ira_codegen a) ++
             [{| err_node := node; err_format := fmt; err_args := args;
                 err_notes := [] |}]) (ira_codegen a)) a).
Proof. reflexivity. Qed.

Ltac mstep :=
  first
    [ rewrite bind_ret | rewrite bind_gets | rewrite bind_get
    | rewrite bind_modify | rewrite bind_deref_some | rewrite bind_assert_true
    | rewrite bind_update_new_exec | rewrite bind_on_codegen_add_node_error
    | rewrite bind_assoc
    | erewrite bind_ira_basic_block by (simpl; eassumption)
    | erewrite bind_ira_instruction by (simpl; eassumption) ];
  cbv beta.

Ltac msteps := repeat mstep.

Lemma ir_start_bb_spec old_bb cp bb a :
  basic_blocks (ira_store a) !! old_bb = Some bb ->
  exists a',
    ir_start_bb old_bb cp a = Ok (tt, a') /\
    ira_instruction_index a' = 0 /\
    old_current_block a' = Some old_bb /\
    ira_const_predecessor_bb a' = cp /\
    ira_store a' = ira_store a /\
    ira_codegen a' = ira_codegen a /\
    ira_block_queue_index a' = ira_block_queue_index a /\
    ira_old_bb_queue a' = ira_old_bb_queue a /\
    ira_mem_slot_list a' = ira_mem_slot_list a /\
    irb_current_basic_block (ira_new_irb a') = irb_current_basic_block (ira_new_irb a) /\
    exec_invalid (new_exec a') = exec_invalid (new_exec a) /\
    backward_branch_count a' = backward_branch_count a /\
    backward_branch_quota a' = backward_branch_quota a.
Proof.
  intros Hbb. unfold ir_start_bb. msteps.
  destruct (bb_other bb); [unfold update_new_exec, modify | unfold ret];
    eexists; (split; [reflexivity|]); simpl; repeat split; reflexivity.
Qed.

Lemma stopped_not_running a :
  queue_fits a -> ira_block_queue_index a = SIZE_MAX -> ir_analyze_running a = false.
Proof.
  unfold queue_fits, ir_analyze_running. intros Hq ->. apply Z.ltb_ge. exact Hq.
Qed.

Lemma ir_unreach_error_spec a :
  exists a',
    ir_unreach_error a = Ok (entry_unreachable, a') /\
    ira_block_queue_index a' = SIZE_MAX /\
    exec_invalid (new_exec a') = true /\
    old_current_block a' = old_current_block a /\
    ira_instruction_index a' = ira_instruction_index a /\
    ira_const_predecessor_bb a' = ira_const_predecessor_bb a /\
    ira_store a' = ira_store a /\
    ira_codegen a' = ira_codegen a /\
    ira_old_bb_queue a' = ira_old_bb_queue a /\
    ira_mem_slot_list a' = ira_mem_slot_list a /\
    backward_branch_count a' = backward_branch_count a /\
    backward_branch_quota a' = backward_branch_quota a.
Proof.
  unfold ir_unreach_error. msteps. eexists. split; [reflexivity|].
  simpl. repeat split; reflexivity.
Qed.

(** What [ir_inline_bb] does, case by case. *)
Section InlineBb.
Variables (a : IrAnalyze) (source_instruction : InstrPtr) (src : IrInstruction)
          (old_bb current : BlockPtr) (bb current_bb : IrBasicBlock).
Hypothesis Hbb : basic_blocks (ira_store a) !! old_bb = Some bb.
Hypothesis Hcur : old_current_block a = Some current.
Hypothesis Hcur_bb : basic_blocks (ira_store a) !! current = Some current_bb.
Hypothesis Hsrc : instructions (ira_store a) !! source_instruction = Some src.

Lemma ir_inline_bb_forward :
  bb_debug_id current_bb < bb_debug_id bb ->
  exists a', ir_inline_bb source_instruction old_bb a = Ok (entry_unreachable, a')
             /\ inlined a old_bb current (backward_branch_count a) a'.
Proof.
  intros Hlt. unfold ir_inline_bb. unfold old_current_block in Hcur.
  msteps. rewrite Hcur. msteps.
  destruct (Z.leb_spec (bb_debug_id bb) (bb_debug_id current_bb)) as [?|_]; [lia|].
  destruct (ir_start_bb_spec old_bb (Some current) bb a Hbb) as (a' & E & Hspec).
  unfold bind. rewrite E. eexists. split; [reflexivity|].
  unfold inlined. intuition.
Qed.

Lemma ir_inline_bb_backward_within_quota :
  bb_debug_id bb <= bb_debug_id current_bb ->
  wrap64 (backward_branch_count a + 1) <= backward_branch_quota a ->
  exists a', ir_inline_bb source_instruction old_bb a = Ok (entry_unreachable, a')
             /\ inlined a old_bb current (wrap64 (backward_branch_count a + 1)) a'.
Proof.
  intros Hle Hq. unfold ir_inline_bb. unfold old_current_block in Hcur.
  msteps. rewrite Hcur. msteps.
  destruct (Z.leb_spec (bb_debug_id bb) (bb_debug_id current_bb)) as [_|?]; [|lia].
  msteps. simpl.
  unfold backward_branch_count, backward_branch_quota, new_exec in Hq.
  rewrite Z.gtb_ltb.
  destruct (Z.ltb_spec (exec_backward_branch_quota (irb_exec (ira_new_irb a)))
              (wrap64 (exec_backward_branch_count (irb_exec (ira_new_irb a)) + 1)))
    as [?|_]; [lia|].
  match goal with
  | |- context [bind (ir_start_bb _ _) _ ?s] =>
      destruct (ir_start_bb_spec old_bb (Some current) bb s Hbb) as (a' & E & Hspec)
  end.
  unfold bind. rewrite E. eexists. split; [reflexivity|].
  unfold inlined. simpl in Hspec. intuition.
Qed.

Lemma ir_inline_bb_backward_over_quota :
  bb_debug_id bb <= bb_debug_id current_bb ->
  wrap64 (backward_branch_count a + 1) > backward_branch_quota a ->
  exists a', ir_inline_bb source_instruction old_bb a = Ok (entry_unreachable, a')
             /\ quota_exceeded a src current a'.
Proof.
  intros Hle Hq. unfold ir_inline_bb. unfold old_current_block in Hcur.
  msteps. rewrite Hcur. msteps.
  destruct (Z.leb_spec (bb_debug_id bb) (bb_debug_id current_bb)) as [_|?]; [|lia].
  msteps. simpl.
  unfold backward_branch_count, backward_branch_quota, new_exec in Hq.
  rewrite Z.gtb_ltb.
  destruct (Z.ltb_spec (exec_backward_branch_quota (irb_exec (ira_new_irb a)))
              (wrap64 (exec_backward_branch_count (irb_exec (ira_new_irb a)) + 1)))
    as [_|?]; [|lia].
  msteps.
  match goal with
  | |- context [ir_unreach_error ?s] =>
      destruct (ir_unreach_error_spec s) as (a' & E & Hspec)
  end.
  rewrite E. eexists. split; [reflexivity|].
  unfold quota_exceeded. simpl in Hspec. unfold old_current_block in *.
  rewrite <- Hcur. intuition.
  match goal with H : ira_codegen a' = _ |- _ => rewrite H end. reflexivity.
Qed.
End InlineBb.

Lemma wrap64_small z : 0 <= z < 2 ^ 64 -> wrap64 z = z.
Proof. intros H. unfold wrap64. apply Z.mod_small. exact H. Qed.


Lemma ir_analyze_loop_stopped oracle fuel a :
  ir_analyze_running a = false -> ir_analyze_loop oracle fuel a = Ok (tt, a).
Proof. intros H. destruct fuel; simpl; unfold bind, get; rewrite H; reflexivity. Qed.

Lemma bind_ira_type_entry {B : Type} p i t (k : TypeTableEntry -> M IrAnalyze B) a :
  instructions (ira_store a) !! p = Some i -> inst_type_entry i = Some t ->
  bind (ira_type_entry p) k a = k t a.
Proof.
  intros H Ht. unfold ira_type_entry. rewrite bind_assoc.
  erewrite bind_ira_instruction by eassumption. rewrite Ht. reflexivity.
Qed.

Lemma bind_ira_other {B : Type} p i o (k : InstrPtr -> M IrAnalyze B) a :
  instructions (ira_store a) !! p = Some i -> inst_other i = Some o ->
  bind (ira_other p) k a = k o a.
Proof.
  intros H Ho. unfold ira_other. rewrite bind_assoc.
  erewrite bind_ira_instruction by eassumption. rewrite Ho. reflexivity.
Qed.

Lemma bind_ira_invalid_instruction {B : Type} (k : InstrPtr -> M IrAnalyze B) a :
  bind ira_invalid_instruction k a = k (invalid_instruction (ira_codegen a)) a.
Proof. reflexivity. Qed.

Ltac mstep' :=
  first
    [ mstep
    | rewrite bind_ira_invalid_instruction
    | erewrite bind_ira_type_entry by (simpl; eassumption)
    | erewrite bind_ira_other by (simpl; eassumption) ];
  cbv beta.

(** [ir_inline_bb] never touches the objects. *)
Lemma ir_start_bb_store old_bb cp a a' :
  ir_start_bb old_bb cp a = Ok (tt, a') -> ira_store a' = ira_store a.
Proof.
  unfold ir_start_bb. repeat mstep. intros H.
  apply bind_ok in H as (bb & s1 & Hbb & H).
  apply ira_basic_block_inv in Hbb as [-> Hbb].
  destruct (bb_other bb); injection H as <-; reflexivity.
Qed.

Lemma ir_unreach_error_store a t a' :
  ir_unreach_error a = Ok (t, a') -> ira_store a' = ira_store a.
Proof. unfold ir_unreach_error. repeat mstep. intros [= _ <-]. reflexivity. Qed.

Lemma ir_inline_bb_store source_instruction old_bb a t a' :
  ir_inline_bb source_instruction old_bb a = Ok (t, a') ->
  ira_store a' = ira_store a.
Proof.
  unfold ir_inline_bb. intros H.
  apply bind_ok in H as (bb & s1 & Hbb & H).
  apply ira_basic_block_inv in Hbb as [-> Hbb].
  rewrite bind_gets in H.
  apply bind_ok in H as (current & s1 & Hc & H).
  destruct (irb_current_basic_block (ira_old_irb a)) as [c|] eqn:Ec; [|discriminate].
  injection Hc as <- <-.
  apply bind_ok in H as (current_bb & s1 & Hcb & H).
  apply ira_basic_block_inv in Hcb as [-> Hcb].
  assert (Hstart : forall s r s',
    (ir_start_bb old_bb (Some c) ;;; ret entry_unreachable) s = Ok (r, s') ->
    ira_store s' = ira_store s).
  { intros s r s' Hs. apply bind_ok in Hs as ([] & s2 & Hs & Hr).
    injection Hr as _ <-. eapply ir_start_bb_store; eassumption. }
  destruct (bb_debug_id bb <=? bb_debug_id current_bb); [|eapply Hstart; eassumption].
  rewrite bind_update_new_exec, bind_gets in H. cbv beta in H.
  match type of H with
  | (if ?c then _ else _) _ = _ => destruct c
  end.
  - apply bind_ok in H as (src & s1 & Hsrc & H).
    apply ira_instruction_inv in Hsrc as [-> Hsrc].
    rewrite bind_on_codegen_add_node_error in H.
    cbv beta in H. apply ir_unreach_error_store in H. rewrite H. reflexivity.
  - apply Hstart in H. rewrite H. reflexivity.
Qed.

Section BrAnalysis.
Variables (a : IrAnalyze) (br_instruction : InstrPtr) (br : IrInstruction)
          (dest_block current : BlockPtr) (is_inline : bool)
          (dest current_bb : IrBasicBlock).
Hypothesis Hbr : instructions (ira_store a) !! br_instruction = Some br.
Hypothesis Hdata : inst_data br = IrInstructionBr dest_block is_inline.
Hypothesis Hdest : basic_blocks (ira_store a) !! dest_block = Some dest.
Hypothesis Hcur : old_current_block a = Some current.
Hypothesis Hcur_bb : basic_blocks (ira_store a) !! current = Some current_bb.

Lemma ir_analyze_instruction_br_inline :
  is_inline = true \/ bb_ref_count dest = 1 ->
  ir_analyze_instruction_br br_instruction a =
  ir_inline_bb br_instruction dest_block a.
Proof.
  intros H. unfold ir_analyze_instruction_br. repeat mstep. rewrite Hdata.
  repeat mstep.
  destruct H as [-> | ->]; [reflexivity | rewrite orb_true_r; reflexivity].
Qed.

Lemma ir_inline_bb_cases :
  exists a',
    ir_inline_bb br_instruction dest_block a = Ok (entry_unreachable, a') /\
    ira_store a' = ira_store a /\
    (~ over_quota a dest current_bb ->
     old_current_block a' = Some dest_block /\
     ira_instruction_index a' = 0 /\
     ira_const_predecessor_bb a' = Some current /\
     ira_codegen a' = ira_codegen a /\
     ira_block_queue_index a' = ira_block_queue_index a /\
     exec_invalid (new_exec a') = exec_invalid (new_exec a)) /\
    (over_quota a dest current_bb ->
     ira_block_queue_index a' = SIZE_MAX /\
     exec_invalid (new_exec a') = true /\
     old_current_block a' = Some current /\
     errors (ira_codegen a') =
       errors (ira_codegen a) ++
         [quota_error (inst_source_node br) (backward_branch_quota a)]).
Proof.
  unfold over_quota.
  destruct (Z_lt_le_dec (bb_debug_id current_bb) (bb_debug_id dest)) as [Hf|Hb].
  - destruct (ir_inline_bb_forward a br_instruction dest_block current dest
                current_bb Hdest Hcur Hcur_bb Hf) as (a' & E & Hi).
    exists a'. unfold inlined in Hi. intuition; lia.
  - destruct (Z_le_gt_dec (wrap64 (backward_branch_count a + 1))
                (backward_branch_quota a)) as [Hin|Hout].
    + destruct (ir_inline_bb_backward_within_quota a br_instruction dest_block
                  current dest current_bb Hdest Hcur Hcur_bb Hb Hin)
        as (a' & E & Hi).
      exists a'. unfold inlined in Hi. intuition; lia.
    + destruct (ir_inline_bb_backward_over_quota a br_instruction br dest_block
                  current dest current_bb Hdest Hcur Hcur_bb Hbr Hb Hout)
        as (a' & E & Hx).
      exists a'. unfold quota_exceeded in Hx. intuition.
Qed.
End BrAnalysis.

(** C9, as far as it holds: a [Br] to a block with reference count 1 never
    emits an instruction, whether or not it is marked inline; the analysis
    continues in the destination block, with the current block as its const
    predecessor, unless the branch is a backward branch that takes the
    count over the quota, in which case the quota error is reported and the
    analysis stops.  An analysis of a [Br] that changes an object (emits a
    runtime [Br]) has a destination with a reference count other than 1
    and is not inline. *)
Theorem br_to_single_reference_block_is_inlined
    (a : IrAnalyze) (br_instruction : InstrPtr) (br : IrInstruction)
    (dest_block current : BlockPtr) (is_inline : bool)
    (dest current_bb : IrBasicBlock) :
  instructions (ira_store a) !! br_instruction = Some br ->
  inst_data br = IrInstructionBr dest_block is_inline ->
  basic_blocks (ira_store a) !! dest_block = Some dest ->
  old_current_block a = Some current ->
  basic_blocks (ira_store a) !! current = Some current_bb ->
  (bb_ref_count dest = 1 ->
   exists a',
     ir_analyze_instruction_br br_instruction a = Ok (entry_unreachable, a') /\
     ira_store a' = ira_store a /\
     (~ over_quota a dest current_bb ->
      old_current_block a' = Some dest_block /\
      ira_instruction_index a' = 0 /\
      ira_const_predecessor_bb a' = Some current /\
      ira_codegen a' = ira_codegen a /\
      ira_block_queue_index a' = ira_block_queue_index a /\
      exec_invalid (new_exec a') = exec_invalid (new_exec a)) /\
     (over_quota a dest current_bb ->
      ira_block_queue_index a' = SIZE_MAX /\
      exec_invalid (new_exec a') = true /\
      old_current_block a' = Some current /\
      errors (ira_codegen a') =
        errors (ira_codegen a) ++
          [quota_error (inst_source_node br) (backward_branch_quota a)])) /\
  (forall t a',
     ir_analyze_instruction_br br_instruction a = Ok (t, a') ->
     ira_store a' <> ira_store a ->
     bb_ref_count dest <> 1 /\ is_inline = false).
Proof.
  intros Hbr Hdata Hdest Hcur Hcur_bb. split.
  - intros Hrc.
    rewrite (ir_analyze_instruction_br_inline a br_instruction br dest_block
               is_inline dest Hbr Hdata Hdest) by (right; exact Hrc).
    apply ir_inline_bb_cases; assumption.
  - intros t a' Hrun Hne.
    destruct is_inline eqn:Ei, (Z.eq_dec (bb_ref_count dest) 1) as [Hrc|Hrc];
      try (split; [assumption | reflexivity]); exfalso; apply Hne;
      (rewrite (ir_analyze_instruction_br_inline a br_instruction br dest_block
                  _ dest Hbr Hdata Hdest) in Hrun by (auto);
       eapply ir_inline_bb_store; eassumption).
Qed.

Section Casts.
Variable oracle : Oracle.

Lemma ir_get_casted_value_same_type value v t a :
  instructions (ira_store a) !! value = Some v ->
  inst_type_entry v = Some t ->
  value <> invalid_instruction (ira_codegen a) ->
  type_id t <> TypeTableEntryIdInvalid ->
  ir_get_casted_value oracle value (Some t) a = Ok (value, a).
Proof.
  intros Hv Ht Hne Hid. unfold ir_get_casted_value. repeat mstep'.
  rewrite (bool_decide_eq_false_2 _ Hne). simpl negb. repeat mstep'.
  unfold id_is. rewrite (bool_decide_eq_false_2 _ Hid). simpl negb.
  repeat mstep'. rewrite Ht. repeat mstep'.
  rewrite (bool_decide_eq_false_2 _ Hid). simpl negb. repeat mstep'.
  rewrite bool_decide_eq_true_2 by reflexivity. reflexivity.
Qed.

Lemma ir_resolve_bool_static value v b a :
  instructions (ira_store a) !! value = Some v ->
  inst_type_entry v = Some entry_bool ->
  value <> invalid_instruction (ira_codegen a) ->
  special (inst_static_value v) = ConstValSpecialStatic ->
  data (inst_static_value v) = x_bool b ->
  ir_resolve_bool oracle value a = Ok (Some b, a).
Proof.
  intros Hv Ht Hne Hs Hd. unfold ir_resolve_bool. repeat mstep'.
  change (id_is entry_bool TypeTableEntryIdInvalid) with false. cbv iota.
  unfold bind at 1.
  rewrite (ir_get_casted_value_same_type value v entry_bool a Hv Ht Hne)
    by discriminate.
  repeat mstep'.
  change (id_is entry_bool TypeTableEntryIdInvalid) with false. cbv iota.
  unfold ir_resolve_const. repeat mstep'. rewrite Hs.
  rewrite bool_decide_eq_true_2 by reflexivity. simpl negb. cbv iota.
  repeat mstep'. rewrite Hd. reflexivity.
Qed.

End Casts.

Section AsmExpr.
Variable ir_gen_node_extra :
  AstNodeId -> option ScopePtr -> LValPurpose -> M Builder InstrPtr.

Lemma ir_gen_asm_outputs_two_typed node scope outputs :
  forall i return_count output_types s r s',
    (return_count = 0 /\ (2 <= typed_outputs outputs)%nat) \/
    (return_count = 1 /\ (1 <= typed_outputs outputs)%nat) ->
    ir_gen_asm_outputs ir_gen_node_extra node scope i outputs return_count
      output_types s = Ok (r, s') ->
    r = None.
Proof.
  induction outputs as [|o rest IH]; intros i c tys s r s' Hc Hrun.
  - exfalso. unfold typed_outputs in Hc. simpl in Hc. lia.
  - simpl in Hrun. unfold typed_outputs in Hc. rewrite filter_cons in Hc.
    destruct (out_return_type o) as [rt|] eqn:Ert.
    + apply bind_ok in Hrun as (rv & s1 & Hgen & Hrun).
      unfold get_invalid_instruction, gets in Hrun. unfold bind at 1 in Hrun.
      destruct (bool_decide (rv = invalid_instruction (b_codegen s1)));
        [injection Hrun as <- _; reflexivity|].
      destruct (decide (is_Some (Some rt))) as [_|Hn];
        [|exfalso; apply Hn; eexists; reflexivity].
      simpl in Hc.
      destruct Hc as [[-> Hc] | [-> Hc]].
      * change (wrap64 (0 + 1)) with 1 in Hrun. simpl in Hrun.
        eapply IH; [|exact Hrun]. right. split; [reflexivity|].
        unfold typed_outputs. lia.
      * change (wrap64 (1 + 1)) with 2 in Hrun. simpl in Hrun.
        apply bind_ok in Hrun as ([] & s2 & _ & Hrun).
        injection Hrun as <- _. reflexivity.
    + destruct (decide (is_Some (@None AstNodeId))) as [[x Hx]|_];
        [discriminate|].
      apply bind_ok in Hrun as (var & s1 & Hfind & Hrun).
      destruct var as [v|].
      * apply bind_ok in Hrun as ([] & s2 & _ & Hrun).
        eapply IH; [|exact Hrun]. exact Hc.
      * apply bind_ok in Hrun as ([] & s2 & _ & Hrun).
        injection Hrun as <- _. reflexivity.
Qed.

End AsmExpr.

Section KeepsStacks.
Context {A B : Type}.

Lemma keeps_stacks_bind (m : M Builder A) (k : A -> M Builder B) :
  keeps_stacks m -> (forall x, keeps_stacks (k x)) -> keeps_stacks (bind m k).
Proof.
  intros Hm Hk s r s' H. apply bind_ok in H as (x & s1 & H1 & H2).
  destruct (Hm _ _ _ H1) as [E1 E2]. destruct (Hk x _ _ _ H2) as [E3 E4].
  split; congruence.
Qed.

Lemma keeps_stacks_ret (x : A) : keeps_stacks (ret x).
Proof. intros s r s' H. injection H as _ <-. split; reflexivity. Qed.

Lemma keeps_stacks_gets (f : Builder -> A) : keeps_stacks (gets f).
Proof. intros s r s' H. injection H as _ <-. split; reflexivity. Qed.

Lemma keeps_stacks_panic msg : keeps_stacks (@panic Builder A msg).
Proof. intros s r s' H. discriminate. Qed.

Lemma keeps_stacks_deref (o : option A) what : keeps_stacks (deref o what).
Proof.
  intros s r s' H. destruct o; [|discriminate].
  injection H as _ <-. split; reflexivity.
Qed.

Lemma keeps_stacks_with_codegen (m : M CodeGen A) : keeps_stacks (with_codegen m).
Proof.
  intros s r s' H. unfold with_codegen in H.
  destruct (m (b_codegen s)) as [[x g]|]; [|discriminate].
  injection H as _ <-. split; reflexivity.
Qed.
End KeepsStacks.

Lemma keeps_stacks_get : keeps_stacks get.
Proof. intros s r s' H. injection H as _ <-. split; reflexivity. Qed.

Lemma keeps_stacks_assert c what : keeps_stacks (assert c what).
Proof.
  intros s r s' H. unfold assert in H. destruct c; [|discriminate].
  injection H as _ <-. split; reflexivity.
Qed.

Lemma keeps_stacks_modify (f : Builder -> Builder) :
  (forall s, break_stack (f s) = break_stack s /\
             continue_stack (f s) = continue_stack s) ->
  keeps_stacks (modify f).
Proof. intros Hf s r s' H. injection H as _ <-. apply Hf. Qed.

Ltac head_of t := lazymatch t with ?f _ => head_of f | _ => t end.

Ltac keeps_stacks_step :=
  lazymatch goal with
  | |- keeps_stacks (bind _ _) => apply keeps_stacks_bind; [|intro]
  | |- keeps_stacks (ret _) => apply keeps_stacks_ret
  | |- keeps_stacks (gets _) => apply keeps_stacks_gets
  | |- keeps_stacks get => apply keeps_stacks_get
  | |- keeps_stacks (panic _) => apply keeps_stacks_panic
  | |- keeps_stacks (deref _ _) => apply keeps_stacks_deref
  | |- keeps_stacks (assert _ _) => apply keeps_stacks_assert
  | |- keeps_stacks (with_codegen _) => apply keeps_stacks_with_codegen
  | |- keeps_stacks (modify _) =>
      apply keeps_stacks_modify; intros [? ? []]; split; reflexivity
  | |- keeps_stacks (match ?x with _ => _ end) => destruct x
  | |- keeps_stacks (let _ := _ in _) => cbv zeta
  | |- keeps_stacks ?m => let h := head_of m in unfold h
  end.

Ltac keeps_stacks_auto := repeat keeps_stacks_step.

Lemma keeps_stacks_ir_build_basic_block name :
  keeps_stacks (ir_build_basic_block name).
Proof. keeps_stacks_auto. Qed.

Lemma bind_keeps_inv {A B : Type} (m : M Builder A) (k : A -> M Builder B)
    s r s' bs cs :
  keeps_stacks m ->
  break_stack s = bs -> continue_stack s = cs ->
  bind m k s = Ok (r, s') ->
  exists x s1, break_stack s1 = bs /\ continue_stack s1 = cs /\
               k x s1 = Ok (r, s').
Proof.
  intros Hm Hb Hc H. apply bind_ok in H as (x & s1 & H1 & H2).
  destruct (Hm _ _ _ H1) as [E1 E2]. exists x, s1.
  repeat split; [congruence | congruence | exact H2].
Qed.

Lemma stack_pop_append bb l : stack_pop (stack_append bb l) = Some l.
Proof.
  unfold stack_pop, stack_append. rewrite removelast_last.
  destruct l; reflexivity.
Qed.

Lemma push_body_pop {A B : Type} (m : M Builder A) (k : M Builder B)
    end_block continue_block s r s' :
  keeps_stacks m ->
  (break_block_stack_append end_block ;;;
   continue_block_stack_append continue_block ;;;
   m ;;;
   break_block_stack_pop ;;;
   continue_block_stack_pop ;;;
   k) s = Ok (r, s') ->
  exists s_in x s_out s_k,
    break_stack s_in = break_stack s ++ [end_block] /\
    continue_stack s_in = continue_stack s ++ [continue_block] /\
    m s_in = Ok (x, s_out) /\
    break_stack s_k = break_stack s /\
    continue_stack s_k = continue_stack s /\
    k s_k = Ok (r, s').
Proof.
  intros Hm H.
  unfold break_block_stack_append, continue_block_stack_append in H.
  rewrite !bind_modify in H.
  apply bind_ok in H as (x & s_out & Hbody & H).
  destruct (Hm _ _ _ Hbody) as [Eb Ec].
  unfold break_block_stack_pop, continue_block_stack_pop in H.
  rewrite bind_assoc, bind_gets in H.
  change (irb_break_block_stack (b_irb s_out)) with (break_stack s_out) in H.
  rewrite Eb in H. unfold break_stack at 1 in H. simpl in H.
  rewrite stack_pop_append in H. rewrite bind_assoc in H.
  rewrite bind_deref_some, bind_modify in H.
  rewrite bind_assoc, bind_gets in H. simpl in H.
  change (irb_continue_block_stack (b_irb s_out)) with (continue_stack s_out) in H.
  rewrite Ec in H. unfold continue_stack at 1 in H. simpl in H.
  rewrite stack_pop_append in H. rewrite bind_assoc in H.
  rewrite bind_deref_some, bind_modify in H.
  eexists _, x, s_out, _.
  split; [|split; [|split; [exact Hbody|split; [|split; [|exact H]]]]];
    destruct s as [? ? []]; reflexivity.
Qed.

Lemma keeps_stacks_ir_build_const_void node :
  keeps_stacks (ir_build_const_void node).
Proof. keeps_stacks_auto. Qed.

Section KeepsCurrentBlock.
Context {A B : Type}.

Lemma keeps_current_block_bind (m : M Builder A) (k : A -> M Builder B) :
  keeps_current_block m -> (forall x, keeps_current_block (k x)) ->
  keeps_current_block (bind m k).
Proof.
  intros Hm Hk s r s' H. apply bind_ok in H as (x & s1 & H1 & H2).
  rewrite (Hk x _ _ _ H2). exact (Hm _ _ _ H1).
Qed.

Lemma keeps_current_block_ret (x : A) : keeps_current_block (ret x).
Proof. intros s r s' H. injection H as _ <-. reflexivity. Qed.

Lemma keeps_current_block_gets (f : Builder -> A) : keeps_current_block (gets f).
Proof. intros s r s' H. injection H as _ <-. reflexivity. Qed.

Lemma keeps_current_block_deref (o : option A) what :
  keeps_current_block (deref o what).
Proof.
  intros s r s' H. destruct o; [|discriminate]. injection H as _ <-. reflexivity.
Qed.
End KeepsCurrentBlock.

Lemma keeps_current_block_modify (f : Builder -> Builder) :
  (forall s, current_block (f s) = current_block s) ->
  keeps_current_block (modify f).
Proof. intros Hf s r s' H. injection H as _ <-. apply Hf. Qed.

Ltac keeps_current_block_step :=
  lazymatch goal with
  | |- keeps_current_block (bind _ _) => apply keeps_current_block_bind; [|intro]
  | |- keeps_current_block (ret _) => apply keeps_current_block_ret
  | |- keeps_current_block (gets _) => apply keeps_current_block_gets
  | |- keeps_current_block (deref _ _) => apply keeps_current_block_deref
  | |- keeps_current_block (modify _) =>
      apply keeps_current_block_modify; intros [? ? []]; reflexivity
  | |- keeps_current_block (match ?x with _ => _ end) => destruct x
  | |- keeps_current_block (let _ := _ in _) => cbv zeta
  | |- keeps_current_block ?m => let h := head_of m in unfold h
  end.

Lemma keeps_current_block_ir_build_const_void node :
  keeps_current_block (ir_build_const_void node).
Proof. repeat keeps_current_block_step. Qed.

Lemma loop_exit end_block node s r s' :
  (ir_set_cursor_at_end end_block ;;; ir_build_const_void node) s = Ok (r, s') ->
  break_stack s' = break_stack s /\ continue_stack s' = continue_stack s /\
  current_block s' = Some end_block.
Proof.
  intros H. unfold ir_set_cursor_at_end in H. rewrite bind_modify in H.
  destruct (keeps_stacks_ir_build_const_void _ _ _ _ H) as [-> ->].
  rewrite (keeps_current_block_ir_build_const_void _ _ _ _ H).
  destruct s as [? ? []]. repeat split; reflexivity.
Qed.

Lemma keeps_stacks_ir_ref_instruction p : keeps_stacks (ir_ref_instruction p).
Proof. keeps_stacks_auto. Qed.

Lemma keeps_stacks_ir_build_asm node inputs output_types return_count volatile :
  keeps_stacks (ir_build_asm node inputs output_types return_count volatile).
Proof.
  unfold ir_build_asm.
  apply keeps_stacks_bind; [keeps_stacks_auto | intro].
  apply keeps_stacks_bind; [keeps_stacks_auto | intro].
  apply keeps_stacks_bind; [keeps_stacks_auto | intro].
  apply keeps_stacks_bind; [|intro].
  { induction output_types as [|[t|] l IH]; simpl.
    - apply keeps_stacks_ret.
    - apply keeps_stacks_bind; [apply keeps_stacks_ir_ref_instruction | intro; exact IH].
    - exact IH. }
  apply keeps_stacks_bind; [|intro; apply keeps_stacks_ret].
  induction inputs as [|t l IH]; simpl.
  - apply keeps_stacks_ret.
  - apply keeps_stacks_bind; [apply keeps_stacks_ir_ref_instruction | intro; exact IH].
Qed.

Section LoopStacks.
Variable ir_gen_node_extra :
  AstNodeId -> option ScopePtr -> LValPurpose -> M Builder InstrPtr.
Hypothesis callee_keeps_stacks :
  forall node scope lval, keeps_stacks (ir_gen_node_extra node scope lval).

Ltac keeps_stacks_solve :=
  solve [repeat first [apply callee_keeps_stacks | keeps_stacks_step]].

Ltac stacks_inv1 H Eb Ec :=
  lazymatch type of H with
  | bind ?m ?k ?s = Ok _ =>
      let Hk := fresh in
      assert (Hk : keeps_stacks m) by keeps_stacks_solve;
      apply (bind_keeps_inv _ _ _ _ _ _ _ Hk Eb Ec) in H; clear Hk;
      clear Eb Ec; destruct H as (? & ? & Eb & Ec & H)
  end.

Ltac stacks_inv H Eb Ec := repeat stacks_inv1 H Eb Ec.

Lemma ir_gen_while_expr_stacks node s r s' :
  ir_gen_while_expr ir_gen_node_extra node s = Ok (r, s') ->
  break_stack s' = break_stack s /\ continue_stack s' = continue_stack s /\
  exists n condition continue_expr body is_inline end_block,
    ast_nodes (b_store s) !! node = Some n /\
    node_data n = data_while_expr condition continue_expr body is_inline /\
    current_block s' = Some end_block /\
    body_under_targets ir_gen_node_extra body s end_block.
Proof.
  intros H. unfold ir_gen_while_expr in H.
  apply bind_ok in H as (n & s0 & Hn & H).
  unfold get_node in Hn. rewrite bind_gets in Hn.
  destruct (ast_nodes (b_store s) !! node) as [n'|] eqn:En; [|discriminate].
  injection Hn as Hn1 Hn2. subst n' s0.
  unfold body_under_targets.
  remember (break_stack s) as bs eqn:Eb.
  remember (continue_stack s) as cs eqn:Ec.
  symmetry in Eb, Ec.
  apply bind_ok in H as ([] & s0 & Ha & H).
  apply keeps_stacks_assert in Ha as [Ea1 Ea2].
  rewrite <- Ea1 in Eb. rewrite <- Ea2 in Ec. clear Ea1 Ea2.
  destruct (node_data n) as [condition continue_expr body node_is_inline| | | | | |]
    eqn:Edata; try discriminate.
  stacks_inv H Eb Ec.
  apply push_body_pop in H; [|apply callee_keeps_stacks].
  destruct H as (s_in & r_body & s_out & s_k & Hb & Hc & Hbody & Eb' & Ec' & H).
  rewrite Eb in Hb, Eb'. rewrite Ec in Hc, Ec'.
  stacks_inv1 H Eb' Ec'.
  apply loop_exit in H as (-> & -> & Hcur).
  split; [exact Eb'|]. split; [exact Ec'|].
  eexists n, _, _, _, _, _. split; [reflexivity|]. split; [exact Edata|].
  split; [exact Hcur|].
  eexists _, s_in, r_body, s_out, _. split; [exact Hbody|].
  split; [exact Hb | exact Hc].
Qed.

Lemma ir_gen_for_expr_stacks node s r s' :
  ir_gen_for_expr ir_gen_node_extra node s = Ok (r, s') ->
  break_stack s' = break_stack s /\ continue_stack s' = continue_stack s /\
  (r = invalid_instruction (b_codegen s') \/
   exists n array_node elem_node index_node body elem_is_ptr is_inline
          elem_var index_var end_block,
     ast_nodes (b_store s) !! node = Some n /\
     node_data n = data_for_expr array_node elem_node index_node body
                     elem_is_ptr is_inline elem_var index_var /\
     current_block s' = Some end_block /\
     body_under_targets ir_gen_node_extra body s end_block).
Proof.
  intros H. unfold ir_gen_for_expr in H.
  apply bind_ok in H as (n & s0 & Hn & H).
  unfold get_node in Hn. rewrite bind_gets in Hn.
  destruct (ast_nodes (b_store s) !! node) as [n'|] eqn:En; [|discriminate].
  injection Hn as Hn1 Hn2. subst n' s0.
  unfold body_under_targets.
  remember (break_stack s) as bs eqn:Eb.
  remember (continue_stack s) as cs eqn:Ec.
  symmetry in Eb, Ec.
  apply bind_ok in H as ([] & s0 & Ha & H).
  apply keeps_stacks_assert in Ha as [Ea1 Ea2].
  rewrite <- Ea1 in Eb. rewrite <- Ea2 in Ec. clear Ea1 Ea2.
  cbv zeta in H.
  destruct (node_data n)
    as [| array_node elem_node index_node body elem_is_ptr node_is_inline
          elem_var index_var | | | | |] eqn:Edata; try discriminate.
  destruct elem_node as [elem_node|].
  - do 3 stacks_inv1 H Eb Ec.
    unfold get_invalid_instruction, gets in H. unfold bind at 1 in H.
    match type of H with
    | (if ?c then _ else _) _ = _ => destruct c eqn:Einv
    end.
    + injection H as <- <-. split; [exact Eb|]. split; [exact Ec|]. left.
      apply bool_decide_eq_true_1 in Einv. exact Einv.
    + stacks_inv H Eb Ec.
      apply push_body_pop in H; [|apply callee_keeps_stacks].
      destruct H as (s_in & r_body & s_out & s_k & Hb & Hc & Hbody & Eb' & Ec' & H).
      rewrite Eb in Hb, Eb'. rewrite Ec in Hc, Ec'.
      do 5 stacks_inv1 H Eb' Ec'.
      apply loop_exit in H as (-> & -> & Hcur).
      split; [exact Eb'|]. split; [exact Ec'|]. right.
      eexists n, _, _, _, _, _, _, _, _, _. split; [reflexivity|].
      split; [exact Edata|]. split; [exact Hcur|].
      eexists _, s_in, r_body, s_out, _. split; [exact Hbody|].
      split; [exact Hb | exact Hc].
  - stacks_inv1 H Eb Ec. unfold get_invalid_instruction, gets in H.
    injection H as <- <-. split; [exact Eb|]. split; [exact Ec|]. left.
    reflexivity.
Qed.

Lemma keeps_stacks_ir_gen_asm_outputs node scope outputs :
  forall i return_count output_types,
    keeps_stacks (ir_gen_asm_outputs ir_gen_node_extra node scope i outputs
                    return_count output_types).
Proof.
  induction outputs as [|o rest IH]; intros i c tys; simpl.
  - apply keeps_stacks_ret.
  - destruct (out_return_type o).
    + repeat first [apply IH | apply callee_keeps_stacks | keeps_stacks_step].
    + repeat first [apply IH | apply callee_keeps_stacks | keeps_stacks_step].
Qed.

Lemma keeps_stacks_ir_gen_asm_inputs scope inputs :
  forall input_list,
    keeps_stacks (ir_gen_asm_inputs ir_gen_node_extra scope inputs input_list).
Proof.
  induction inputs as [|o rest IH]; intros l; simpl.
  - apply keeps_stacks_ret.
  - repeat first [apply IH | apply callee_keeps_stacks | keeps_stacks_step].
Qed.

Lemma keeps_stacks_ir_gen_asm_expr node :
  keeps_stacks (ir_gen_asm_expr ir_gen_node_extra node).
Proof.
  unfold ir_gen_asm_expr.
  repeat first [apply keeps_stacks_ir_gen_asm_outputs
               | apply keeps_stacks_ir_gen_asm_inputs
               | apply keeps_stacks_ir_build_asm | keeps_stacks_step].
Qed.

Lemma keeps_stacks_ir_gen_while_expr node :
  keeps_stacks (ir_gen_while_expr ir_gen_node_extra node).
Proof.
  intros s r s' H. apply ir_gen_while_expr_stacks in H as (Hb & Hc & _).
  split; assumption.
Qed.

Lemma keeps_stacks_ir_gen_for_expr node :
  keeps_stacks (ir_gen_for_expr ir_gen_node_extra node).
Proof.
  intros s r s' H. apply ir_gen_for_expr_stacks in H as (Hb & Hc & _).
  split; assumption.
Qed.

Variable ir_gen_other : AstNodeId -> LValPurpose -> M Builder InstrPtr.
Hypothesis other_keeps_stacks :
  forall node lval, keeps_stacks (ir_gen_other node lval).

Lemma keeps_stacks_ir_gen_node_extra_body node scope lval :
  keeps_stacks
    (ir_gen_node_extra_body ir_gen_node_extra ir_gen_other node scope lval).
Proof.
  unfold ir_gen_node_extra_body, ir_gen_node_raw.
  repeat first [apply keeps_stacks_ir_gen_while_expr
               | apply keeps_stacks_ir_gen_for_expr
               | apply keeps_stacks_ir_gen_asm_expr
               | apply other_keeps_stacks
               | keeps_stacks_step].
Qed.
End LoopStacks.

Lemma keeps_stacks_ir_gen_node_extra ir_gen_other fuel :
  other_generators_keep_stacks ir_gen_other ->
  forall node scope lval,
    keeps_stacks (ir_gen_node_extra ir_gen_other fuel node scope lval).
Proof.
  intros Hother. induction fuel as [|fuel IH]; intros node scope lval; simpl.
  - apply keeps_stacks_panic.
  - apply keeps_stacks_ir_gen_node_extra_body; [exact IH|].
    apply Hother. exact IH.
Qed.

Lemma break_or_continue_is_not_generated ir_gen_other fuel node n scope lval s :
  ast_nodes (b_store s) !! node = Some n ->
  node_type n = NodeTypeBreak \/ node_type n = NodeTypeContinue ->
  ir_gen_node_extra ir_gen_other (S fuel) node (Some scope) lval s =
    Panic "TODO more IR gen for node types".
Proof.
  intros Hn Hty. simpl. unfold ir_gen_node_extra_body, ir_gen_node_raw.
  rewrite bool_decide_eq_true_2 by (eexists; reflexivity).
  unfold update_node, get_node, bind, assert, gets, deref, modify, ret. simpl.
  rewrite Hn. destruct s as [g [ins bbs vars nodes bcs] irb].
  cbn [b_store ast_nodes set_b_store set_ast_nodes] in Hn |- *.
  rewrite list_lookup_insert_eq by (eapply lookup_lt_Some; exact Hn).
  destruct n as [ty bc d]. simpl in *.
  destruct Hty as [-> | ->]; reflexivity.
Qed.




(** C9 fails when the quota is used up: the [Br] to [ForContinue], a block
    with reference count 1, is a backward branch; the analysis reports the
    quota error, stays in the current block and stops. *)
Lemma br_to_single_reference_block_stops_at_quota :
  exists a' dest,
    basic_blocks (ira_store (back_edge_state 1000)) !! 0%nat = Some dest /\
    bb_ref_count dest = 1 /\
    ir_analyze_instruction_br 2%nat (back_edge_state 1000) =
      Ok (entry_unreachable, a') /\
    old_current_block a' = Some 1%nat /\
    ir_analyze_running a' = false /\
    exec_invalid (new_exec a') = true /\
    errors (ira_codegen a') = [quota_error 0%nat 1000].
Proof.
  eexists _, _. split; [reflexivity|]. split; [reflexivity|].
  split; [vm_compute; reflexivity|]. vm_compute. repeat split; reflexivity.
Qed.

(** C9 for the same branch with the count at 0. *)
Lemma br_to_single_reference_block_is_inlined_witness :
  exists a',
    ir_analyze_instruction_br 2%nat (back_edge_state 0) = Ok (entry_unreachable, a') /\
    old_current_block a' = Some 0%nat.
Proof.
  destruct (br_to_single_reference_block_is_inlined (back_edge_state 0) 2%nat
              (example_instruction IrInstructionIdBr (IrInstructionBr 0%nat false)
                 (Some entry_unreachable) (static_value x_none) None 0)
              0%nat 1%nat false
              (example_block "ForContinue" 4 1 None [1%nat])
              (example_block "WhileEnd" 8 1 None [2%nat])
              eq_refl eq_refl eq_refl eq_refl eq_refl) as [H _].
  destruct (H eq_refl) as (a' & E & _ & Hin' & _).
  assert (Hin : old_current_block a' = Some 0%nat).
  { apply Hin'. vm_compute. intros [_ H']. discriminate H'. }
  exists a'. split; [exact E | exact Hin].
Defined.



(** C6 for a constant that nothing refers to. *)
Lemma dead_instruction_skipped_witness :
  ir_analyze_loop_body no_oracle dead_code_state =
    Ok (Skipped 1%nat, set_ira_instruction_index 1 dead_code_state).
Proof.
  destruct (dead_instruction_skipped_iff no_oracle dead_code_state 0%nat
              (example_block "Entry" 0 1 (Some 1%nat) [1%nat; 2%nat]) 1%nat
              (example_instruction IrInstructionIdConst IrInstructionConst
                 (Some entry_bool) (static_value (x_bool true)) None 0))
    as (_ & Hdead & _).
  - reflexivity.
  - reflexivity.
  - vm_compute. discriminate.
  - reflexivity.
  - reflexivity.
  - split; [discriminate|]. intros H. discriminate H.
  - apply Hdead. split; reflexivity.
Defined.





Section ElemPtr.
Variable oracle : Oracle.

(** X25: the analysis of an [ElemPtr] into an array of length [len] > 0
    at a [Static] index [k] >= [len] reports "index %PRIu64 outside array
    of size %PRIu64" with [k] and [len], returns the invalid type and
    changes nothing else. *)
Lemma elem_ptr_index_outside_array a elem_ptr_instruction ep old_array_ptr oa
    array_ptr ap old_elem_index oi elem_index ei safety child len is_const k bn :
  instructions (ira_store a) !! elem_ptr_instruction = Some ep ->
  inst_data ep = IrInstructionElemPtr (Some old_array_ptr) (Some old_elem_index) safety ->
  instructions (ira_store a) !! old_array_ptr = Some oa ->
  inst_other oa = Some array_ptr ->
  instructions (ira_store a) !! array_ptr = Some ap ->
  inst_type_entry ap = Some (TyPointer (TyArray child len) is_const) ->
  instructions (ira_store a) !! old_elem_index = Some oi ->
  inst_other oi = Some elem_index ->
  instructions (ira_store a) !! elem_index = Some ei ->
  elem_index <> invalid_instruction (ira_codegen a) ->
  inst_type_entry ei = Some entry_usize ->
  is_runtime (inst_static_value ei) = false ->
  read_x_bignum (inst_static_value ei) = Some bn ->
  bn_x_uint bn = k ->
  0 < len <= k ->
  ir_analyze_instruction_elem_ptr oracle elem_ptr_instruction a =
    Ok (entry_invalid,
        set_ira_codegen
          (set_errors (errors (ira_codegen a) ++
                         [index_outside_array_error (inst_source_node ep) k len])
             (ira_codegen a)) a).
Proof.
  intros Hep Hdata Hoa Hoao Hap Hapt Hoi Hoio Hei Hne Heit Hrt Hbn Hk Hlen.
  unfold ir_analyze_instruction_elem_ptr. repeat mstep'. rewrite Hdata.
  repeat mstep'.
  change (id_is (TyPointer (TyArray child len) is_const) TypeTableEntryIdInvalid)
    with false. cbv iota. repeat mstep'.
  change (id_is entry_usize TypeTableEntryIdInvalid) with false. cbv iota.
  repeat mstep'.
  destruct (Z.eqb_spec len 0) as [?|_]; [lia|]. repeat mstep'.
  unfold bind at 1.
  rewrite (ir_get_casted_value_same_type oracle elem_index ei entry_usize a
             Hei Heit Hne) by discriminate.
  repeat mstep'. rewrite (bool_decide_eq_false_2 _ Hne). repeat mstep'.
  rewrite Hrt. cbn [negb]. rewrite Hbn. repeat mstep'. rewrite Hk.
  destruct (Z.geb_spec k len) as [_|?]; [|lia].
  repeat mstep'. reflexivity.
Qed.
End ElemPtr.

(** C3: the sum of the offset and the index is a [size_t] and wraps.  With
    [a] an array of three elements and [p = &a[1]], the analysis of [p[k]]
    for [k] = 2^64 - 1 reports no error and yields the constant pointer of
    base [a] and index 0, although 1 + [k] is not within the size of
    [a]. *)
Theorem elem_ptr_offset_plus_index_wraps (oracle : Oracle) :
  let k := 2 ^ 64 - 1 in
  exists a' out_val out,
    ir_analyze_instruction_elem_ptr oracle 5%nat (elem_ptr_state k) =
      Ok (TyPointer ty_u8 false, a') /\
    errors (ira_codegen a') = [] /\
    instructions (ira_store a') !! 5%nat ≫= inst_other = Some out_val /\
    instructions (ira_store a') !! out_val = Some out /\
    inst_static_value out = static_value (x_ptr (mem_slot 0) 0 false) /\
    ira_mem_slot_list a' !! 0%nat ≫= read_x_array_size = Some 3 /\
    3 <= 1 + k.
Proof.
  intros k. subst k. eexists _, _, _.
  split; [vm_compute; reflexivity|].
  repeat split; try reflexivity. vm_compute. discriminate.
Qed.

Section KeepsRuntimeSlot.
Context (i : nat) {A B : Type}.

Lemma keeps_runtime_slot_bind (m : M IrAnalyze A) (k : A -> M IrAnalyze B) :
  keeps_runtime_slot i m -> (forall x, keeps_runtime_slot i (k x)) ->
  keeps_runtime_slot i (bind m k).
Proof.
  intros Hm Hk s r s' Hs H. apply bind_ok in H as (x & s1 & H1 & H2).
  exact (Hk x _ _ _ (Hm _ _ _ Hs H1) H2).
Qed.

Lemma keeps_runtime_slot_ret (x : A) : keeps_runtime_slot i (ret x).
Proof. intros s r s' Hs H. injection H as _ <-. exact Hs. Qed.

Lemma keeps_runtime_slot_gets (f : IrAnalyze -> A) : keeps_runtime_slot i (gets f).
Proof. intros s r s' Hs H. injection H as _ <-. exact Hs. Qed.

Lemma keeps_runtime_slot_panic msg : keeps_runtime_slot i (@panic IrAnalyze A msg).
Proof. intros s r s' _ H. discriminate. Qed.

Lemma keeps_runtime_slot_deref (o : option A) what :
  keeps_runtime_slot i (deref o what).
Proof.
  intros s r s' Hs H. destruct o; [|discriminate]. injection H as _ <-. exact Hs.
Qed.

Lemma keeps_runtime_slot_on_new_irb (m : M Builder A) :
  keeps_runtime_slot i (on_new_irb m).
Proof.
  intros s r s' Hs H. unfold on_new_irb in H.
  destruct (m _) as [[x b]|]; [|discriminate]. injection H as _ <-. exact Hs.
Qed.

Lemma keeps_runtime_slot_on_codegen (m : M CodeGen A) :
  keeps_runtime_slot i (on_codegen m).
Proof.
  intros s r s' Hs H. unfold on_codegen in H.
  destruct (m _) as [[x b]|]; [|discriminate]. injection H as _ <-. exact Hs.
Qed.
End KeepsRuntimeSlot.

Lemma keeps_runtime_slot_get i : keeps_runtime_slot i get.
Proof. intros s r s' Hs H. injection H as _ <-. exact Hs. Qed.

Lemma keeps_runtime_slot_assert i c what : keeps_runtime_slot i (assert c what).
Proof.
  intros s r s' Hs H. unfold assert in H. destruct c; [|discriminate].
  injection H as _ <-. exact Hs.
Qed.

Lemma keeps_runtime_slot_modify i (f : IrAnalyze -> IrAnalyze) :
  (forall s, ira_mem_slot_list (f s) = ira_mem_slot_list s) ->
  keeps_runtime_slot i (modify f).
Proof.
  intros Hf s r s' Hs H. injection H as _ <-.
  unfold slot_is_runtime. rewrite Hf. exact Hs.
Qed.

Lemma special_val_update_path f v k path :
  special (val_update_path f v (k :: path)) = special v.
Proof.
  simpl. destruct (data v); try reflexivity.
  destruct (elements !! k); reflexivity.
Qed.

Lemma read_root_state root s v s' : read_root root s = Ok (v, s') -> s' = s.
Proof.
  destruct root as [j|q]; simpl; intros H.
  - unfold bind, gets in H. destruct (_ !! _); [|discriminate].
    injection H as _ <-. reflexivity.
  - apply bind_ok in H as (x & s3 & Hi & H).
    apply ira_instruction_inv in Hi as [-> _]. injection H as _ <-. reflexivity.
Qed.

Lemma read_val_state p s v s' : read_val p s = Ok (v, s') -> s' = s.
Proof.
  unfold read_val. intros H. apply bind_ok in H as (root & s1 & Hroot & H).
  apply read_root_state in Hroot as ->.
  destruct (val_at_path root (vp_path p)); [|discriminate].
  injection H as _ <-. reflexivity.
Qed.

(** A store through a constant pointer happens only where the pointee is
    not [Runtime]; it leaves a demoted slot demoted. *)
Lemma keeps_runtime_slot_guarded_update i dest_val (value : ConstExprValue) :
  keeps_runtime_slot i
    (dest <- read_val dest_val ;;
     if negb (is_runtime dest) then
       update_val dest_val (fun _ => value) ;;;
       ret true
     else ret false).
Proof.
  intros s r s' Hs H.
  apply bind_ok in H as (dest & s1 & Hread & H).
  pose proof (read_val_state _ _ _ _ Hread) as ->.
  destruct (is_runtime dest) eqn:Hrt; simpl in H.
  - injection H as _ <-. exact Hs.
  - apply bind_ok in H as ([] & s3 & Hupd & H). injection H as _ <-.
    unfold update_val in Hupd. unfold bind at 1 in Hupd. rewrite Hread in Hupd.
    unfold read_val in Hread.
    apply bind_ok in Hread as (root & s2 & Hroot & Hread).
    pose proof (read_root_state _ _ _ _ Hroot) as ->.
    destruct (val_at_path root (vp_path dest_val)) as [d|] eqn:Hpath; [|discriminate].
    injection Hread as ->.
    destruct (vp_root dest_val) as [j|q] eqn:Eroot.
    + simpl in Hroot. unfold bind, gets in Hroot, Hupd.
      destruct (ira_mem_slot_list s !! j) as [v|] eqn:Ej; [|discriminate].
      injection Hroot as ->. simpl in Hupd. injection Hupd as <-.
      destruct Hs as (w & Hw & Hsp).
      destruct (decide (i = j)) as [->|Hne].
      * rewrite Ej in Hw. injection Hw as <-.
        destruct (vp_path dest_val) as [|k path].
        -- simpl in Hpath. injection Hpath as ->.
           unfold is_runtime in Hrt. rewrite Hsp in Hrt.
           rewrite bool_decide_eq_true_2 in Hrt by reflexivity. discriminate.
        -- exists (val_update_path (fun _ => value) root (k :: path)). split.
           ++ cbn [ira_mem_slot_list set_ira_mem_slot_list].
              apply list_lookup_insert_eq. eapply lookup_lt_Some. exact Ej.
           ++ rewrite special_val_update_path. exact Hsp.
      * exists w. split; [|exact Hsp]. simpl.
        rewrite list_lookup_insert_ne by congruence. exact Hw.
    + apply (keeps_runtime_slot_on_new_irb i _ _ _ _ Hs Hupd).
Qed.

(** The demotion itself. *)
Lemma keeps_runtime_slot_demote i j :
  keeps_runtime_slot i
    (update_val {| vp_root := RootMemSlot j; vp_path := [] |}
       (set_special ConstValSpecialRuntime)).
Proof.
  intros s r s' Hs H. unfold update_val in H.
  apply bind_ok in H as (d & s1 & Hread & H).
  unfold read_val in Hread. simpl in Hread. unfold bind, gets in Hread, H.
  simpl in H.
  destruct (ira_mem_slot_list s !! j) as [v|] eqn:Ej; [|discriminate].
  simpl in Hread. injection Hread as _ <-. rewrite Ej in H. simpl in H.
  injection H as _ <-.
  destruct Hs as (w & Hw & Hsp).
  destruct (decide (i = j)) as [->|Hne].
  - eexists. split.
    + simpl. apply list_lookup_insert_eq. eapply lookup_lt_Some. exact Ej.
    + reflexivity.
  - exists w. split; [|exact Hsp]. simpl.
    rewrite list_lookup_insert_ne by congruence. exact Hw.
Qed.

Ltac keeps_runtime_slot_step :=
  lazymatch goal with
  | |- keeps_runtime_slot _ (bind (read_val _) _) =>
      first [ apply keeps_runtime_slot_guarded_update
            | apply keeps_runtime_slot_bind; [|intro] ]
  | |- keeps_runtime_slot _ (update_val {| vp_root := RootMemSlot _; vp_path := [] |}
                               (set_special ConstValSpecialRuntime)) =>
      apply keeps_runtime_slot_demote
  | |- keeps_runtime_slot _ (bind _ _) => apply keeps_runtime_slot_bind; [|intro]
  | |- keeps_runtime_slot _ (ret _) => apply keeps_runtime_slot_ret
  | |- keeps_runtime_slot _ (gets _) => apply keeps_runtime_slot_gets
  | |- keeps_runtime_slot _ get => apply keeps_runtime_slot_get
  | |- keeps_runtime_slot _ (panic _) => apply keeps_runtime_slot_panic
  | |- keeps_runtime_slot _ (deref _ _) => apply keeps_runtime_slot_deref
  | |- keeps_runtime_slot _ (assert _ _) => apply keeps_runtime_slot_assert
  | |- keeps_runtime_slot _ (on_new_irb _) => apply keeps_runtime_slot_on_new_irb
  | |- keeps_runtime_slot _ (on_codegen _) => apply keeps_runtime_slot_on_codegen
  | |- keeps_runtime_slot _ (modify _) =>
      apply keeps_runtime_slot_modify; intros []; reflexivity
  | |- keeps_runtime_slot _ (match ?x with _ => _ end) => destruct x
  | |- keeps_runtime_slot _ (let _ := _ in _) => cbv zeta
  | |- keeps_runtime_slot _ ?m => let h := head_of m in unfold h
  end.

Lemma keeps_runtime_slot_ir_get_new_bb_fuel i fuel :
  forall old_bb, keeps_runtime_slot i (ir_get_new_bb_fuel fuel old_bb).
Proof.
  induction fuel as [|fuel IH]; intros old_bb; simpl.
  - apply keeps_runtime_slot_panic.
  - apply keeps_runtime_slot_bind; [repeat keeps_runtime_slot_step | intros bb].
    destruct (bb_other bb); [apply keeps_runtime_slot_ret|].
    apply keeps_runtime_slot_bind; [apply keeps_runtime_slot_on_new_irb | intros new_bb].
    apply keeps_runtime_slot_bind; [|intro; repeat keeps_runtime_slot_step].
    induction (bb_instruction_list bb) as [|p rest IHl].
    + apply keeps_runtime_slot_ret.
    + apply keeps_runtime_slot_bind; [repeat keeps_runtime_slot_step | intros ins].
      destruct (negb _); [apply keeps_runtime_slot_ret|].
      destruct (inst_data ins); try apply keeps_runtime_slot_panic.
      apply keeps_runtime_slot_bind; [|intro; exact IHl].
      induction incoming_blocks as [|q l IHq].
      * apply keeps_runtime_slot_ret.
      * apply keeps_runtime_slot_bind; [apply IH | intro; exact IHq].
Qed.

Section AnalysisKeepsRuntimeSlot.
Variable oracle : Oracle.
Variable i : nat.
Hypothesis cast_keeps_runtime_slot :
  forall source_instr wanted_type value,
    keeps_runtime_slot i (ir_analyze_cast oracle source_instr wanted_type value).
Hypothesis other_keeps_runtime_slot :
  forall instruction,
    keeps_runtime_slot i (ir_analyze_instruction_other oracle instruction).

Ltac keeps_runtime_slot_auto :=
  repeat first
    [ apply cast_keeps_runtime_slot
    | apply other_keeps_runtime_slot
    | apply keeps_runtime_slot_ir_get_new_bb_fuel
    | keeps_runtime_slot_step ].

Lemma keeps_runtime_slot_ir_get_casted_value value expected_type :
  keeps_runtime_slot i (ir_get_casted_value oracle value expected_type).
Proof. unfold ir_get_casted_value. keeps_runtime_slot_auto. Qed.

Lemma keeps_runtime_slot_store_ptr instruction :
  keeps_runtime_slot i (ir_analyze_instruction_store_ptr oracle instruction).
Proof.
  unfold ir_analyze_instruction_store_ptr.
  repeat first [ apply keeps_runtime_slot_ir_get_casted_value
               | keeps_runtime_slot_auto ].
Qed.

Lemma keeps_runtime_slot_return instruction :
  keeps_runtime_slot i (ir_analyze_instruction_return oracle instruction).
Proof.
  unfold ir_analyze_instruction_return.
  repeat first [ apply keeps_runtime_slot_ir_get_casted_value
               | keeps_runtime_slot_auto ].
Qed.

Lemma keeps_runtime_slot_ir_inline_bb instruction old_bb :
  keeps_runtime_slot i (ir_inline_bb instruction old_bb).
Proof. unfold ir_inline_bb. keeps_runtime_slot_auto. Qed.

Lemma keeps_runtime_slot_ir_finish_anal t :
  keeps_runtime_slot i (ir_finish_anal t).
Proof. unfold ir_finish_anal. keeps_runtime_slot_auto. Qed.

Lemma keeps_runtime_slot_br instruction :
  keeps_runtime_slot i (ir_analyze_instruction_br instruction).
Proof.
  unfold ir_analyze_instruction_br.
  repeat first [ apply keeps_runtime_slot_ir_inline_bb
               | apply keeps_runtime_slot_ir_finish_anal
               | keeps_runtime_slot_auto ].
Qed.

Lemma keeps_runtime_slot_cond_br instruction :
  keeps_runtime_slot i (ir_analyze_instruction_cond_br oracle instruction).
Proof.
  unfold ir_analyze_instruction_cond_br.
  repeat first [ apply keeps_runtime_slot_ir_get_casted_value
               | apply keeps_runtime_slot_ir_inline_bb
               | apply keeps_runtime_slot_ir_finish_anal
               | keeps_runtime_slot_auto ].
Qed.

Lemma keeps_runtime_slot_elem_ptr instruction :
  keeps_runtime_slot i (ir_analyze_instruction_elem_ptr oracle instruction).
Proof.
  unfold ir_analyze_instruction_elem_ptr.
  repeat first [ apply keeps_runtime_slot_ir_get_casted_value
               | keeps_runtime_slot_auto ].
Qed.

Lemma keeps_runtime_slot_var_ptr instruction :
  keeps_runtime_slot i (ir_analyze_instruction_var_ptr instruction).
Proof. unfold ir_analyze_instruction_var_ptr. keeps_runtime_slot_auto. Qed.

Lemma keeps_runtime_slot_const instruction :
  keeps_runtime_slot i (ir_analyze_instruction_const instruction).
Proof. unfold ir_analyze_instruction_const. keeps_runtime_slot_auto. Qed.

Lemma keeps_runtime_slot_unreachable instruction :
  keeps_runtime_slot i (ir_analyze_instruction_unreachable instruction).
Proof.
  unfold ir_analyze_instruction_unreachable.
  repeat first [ apply keeps_runtime_slot_ir_finish_anal
               | keeps_runtime_slot_auto ].
Qed.

(** Every analysis but that of [DeclVar] leaves a demoted slot demoted. *)
Lemma ir_analyze_instruction_keeps_runtime_slot instruction old a t a' :
  instructions (ira_store a) !! instruction = Some old ->
  inst_id old <> IrInstructionIdDeclVar ->
  slot_is_runtime i a ->
  ir_analyze_instruction oracle instruction a = Ok (t, a') ->
  slot_is_runtime i a'.
Proof.
  intros Hold Hid Hs H. unfold ir_analyze_instruction in H.
  apply bind_ok in H as (ty & a1 & Hnocast & H).
  assert (Hs1 : slot_is_runtime i a1).
  { unfold ir_analyze_instruction_nocast in Hnocast.
    apply bind_ok in Hnocast as (old' & a0 & Hi & Hnocast).
    apply ira_instruction_inv in Hi as [-> Hi].
    rewrite Hold in Hi. injection Hi as <-.
    destruct (inst_id old) eqn:E; try discriminate Hnocast;
      first
        [ congruence
        | exact (keeps_runtime_slot_return _ _ _ _ Hs Hnocast)
        | exact (keeps_runtime_slot_const _ _ _ _ Hs Hnocast)
        | exact (keeps_runtime_slot_store_ptr _ _ _ _ Hs Hnocast)
        | exact (keeps_runtime_slot_elem_ptr _ _ _ _ Hs Hnocast)
        | exact (keeps_runtime_slot_var_ptr _ _ _ _ Hs Hnocast)
        | exact (keeps_runtime_slot_br _ _ _ _ Hs Hnocast)
        | exact (keeps_runtime_slot_cond_br _ _ _ _ Hs Hnocast)
        | exact (keeps_runtime_slot_unreachable _ _ _ _ Hs Hnocast)
        | exact (other_keeps_runtime_slot _ _ _ _ Hs Hnocast) ]. }
  revert H. generalize a1 Hs1 t a'. clear.
  intros s Hs r s' H. revert s r s' Hs H.
  change (keeps_runtime_slot i
    (on_new_irb (update_instruction instruction
                   (set_inst_type_entry (Some ty))) ;;;
     i0 <- ira_instruction instruction ;;
     match inst_other i0 with
     | Some other =>
         on_new_irb (update_instruction other
                       (set_inst_type_entry (Some ty)))
     | None =>
         assert (id_is ty TypeTableEntryIdInvalid
                 || id_is ty TypeTableEntryIdUnreachable)
           "instruction_type->id == Invalid || instruction_type->id == Unreachable" ;;;
         on_new_irb (update_instruction instruction
                       (set_inst_other (Some instruction)))
     end ;;;
     ret ty)).
  repeat keeps_runtime_slot_step.
Qed.
End AnalysisKeepsRuntimeSlot.

Ltac state_norm :=
  unfold set_b_store, set_b_irb, set_b_codegen, set_instructions,
    set_basic_blocks, set_variables, set_irb_exec, set_ira_store,
    set_ira_codegen, set_ira_new_irb, set_ira_mem_slot_list;
  cbn [b_store b_codegen b_irb instructions basic_blocks variables
       irb_exec irb_current_basic_block ira_store ira_codegen ira_new_irb
       ast_nodes block_contexts ira_mem_slot_list vp_root vp_path
       val_at_path val_update_path ira_old_irb ira_mem_slot_count
       ira_old_bb_queue ira_block_queue_index ira_instruction_index
       ira_explicit_return_type ira_implicit_return_type_list
       ira_const_predecessor_bb ira_fn_variable_list irb_break_block_stack
       irb_continue_block_stack];
  unfold InstrPtr, BlockPtr, VarPtr in *;
  repeat first [rewrite length_insert | rewrite length_app];
  cbn [length];
  repeat match goal with
         | En : ?n = length ?l |- context [length ?l] => rewrite <- En
         end.

Ltac list_len :=
  repeat first [rewrite length_insert | rewrite length_app];
  cbn [length] in *; lia.

Ltac lookup_step :=
  first
    [ rewrite list_lookup_insert_eq by list_len
    | rewrite list_lookup_middle by list_len
    | rewrite list_lookup_insert_ne by list_len
    | rewrite lookup_app_l by list_len ].

Lemma pointer_type_neq_child t : forall c, TyPointer t c <> t.
Proof.
  induction t; intros c H; try discriminate H.
  injection H as H1 H2. subst. eapply IHt. eassumption.
Qed.

Section Demotion.
Variable oracle : Oracle.

Lemma store_ptr_demotion_run
    (a : IrAnalyze) (store_ptr_instruction old_ptr ptr old_value value : InstrPtr)
    (sp op p ov v : IrInstruction) (var : VarPtr) (vr : VariableTableEntry)
    (slot : nat) (slot_value : ConstExprValue)
    (child_type : TypeTableEntry) (is_const : bool)
    (current : BlockPtr) (bb : IrBasicBlock) :
  instructions (ira_store a) !! store_ptr_instruction = Some sp ->
  inst_id sp = IrInstructionIdStorePtr ->
  inst_data sp = IrInstructionStorePtr old_ptr old_value ->
  instructions (ira_store a) !! old_ptr = Some op ->
  inst_other op = Some ptr ->
  instructions (ira_store a) !! ptr = Some p ->
  inst_type_entry p = Some (TyPointer child_type is_const) ->
  inst_id p = IrInstructionIdVarPtr ->
  inst_data p = IrInstructionVarPtr var ->
  is_runtime (inst_static_value p) = false ->
  instructions (ira_store a) !! old_value = Some ov ->
  inst_other ov = Some value ->
  instructions (ira_store a) !! value = Some v ->
  inst_type_entry v = Some child_type ->
  type_id child_type <> TypeTableEntryIdInvalid ->
  value <> invalid_instruction (ira_codegen a) ->
  value <> store_ptr_instruction ->
  is_runtime (inst_static_value v) = true ->
  variables (ira_store a) !! var = Some vr ->
  var_mem_slot_index vr = Z.of_nat slot ->
  Z.of_nat slot <> SIZE_MAX ->
  ira_mem_slot_list a !! slot = Some slot_value ->
  irb_current_basic_block (ira_new_irb a) = Some current ->
  basic_blocks (ira_store a) !! current = Some bb ->
  let new_var_ptr := length (instructions (ira_store a)) in
  let new_store_ptr := S new_var_ptr in
  exists a' bb' i1 i2,
    ir_analyze_instruction_store_ptr oracle store_ptr_instruction a =
      Ok (entry_void, a') /\
    ira_mem_slot_list a' =
      <[slot := set_special ConstValSpecialRuntime slot_value]>
        (ira_mem_slot_list a) /\
    basic_blocks (ira_store a') !! current = Some bb' /\
    bb_instruction_list bb' =
      bb_instruction_list bb ++ [new_var_ptr; new_store_ptr] /\
    instructions (ira_store a') !! new_var_ptr = Some i1 /\
    inst_id i1 = IrInstructionIdVarPtr /\
    inst_data i1 = IrInstructionVarPtr var /\
    instructions (ira_store a') !! new_store_ptr = Some i2 /\
    inst_id i2 = IrInstructionIdStorePtr /\
    inst_data i2 = IrInstructionStorePtr new_var_ptr value /\
    ira_codegen a' = ira_codegen a.
Proof.
  intros Hsp Hspid Hspd Hop Hopo Hp Hpt Hpid Hpd Hprt Hov Hovo Hv Hvt Htid Hvne
    Hvsp Hvrt Hvar Hslot Hslotmax Hsv Hcur Hbb.
  cbv zeta.
  unfold ir_analyze_instruction_store_ptr. repeat mstep'. rewrite Hspd.
  repeat mstep'.
  change (id_is (TyPointer child_type is_const) TypeTableEntryIdInvalid) with false.
  cbv iota. repeat mstep'.
  unfold id_is at 1. rewrite (bool_decide_eq_false_2 _ Htid). repeat mstep'.
  simpl pointer_child_type. repeat mstep'. unfold bind at 1.
  rewrite (ir_get_casted_value_same_type oracle value v child_type a Hv Hvt Hvne Htid).
  repeat mstep'. rewrite (bool_decide_eq_false_2 _ Hvne). repeat mstep'.
  rewrite Hprt, Hvrt. cbn [negb andb]. repeat mstep'.
  rewrite Hpid. rewrite bool_decide_eq_true_2 by reflexivity. rewrite Hpd.
  clear Hop Hopo Hov Hovo.
  destruct a as [g [I B V N C] oirb [ex cur bs cs] L Lc Q qi ii ert irl cp fvl].
  cbn [ira_store ira_codegen ira_new_irb ira_mem_slot_list instructions
       basic_blocks variables irb_current_basic_block invalid_instruction] in *.
  subst cur.
  pose proof (lookup_lt_Some _ _ _ Hsp) as Lsp.
  pose proof (lookup_lt_Some _ _ _ Hp) as Lp.
  pose proof (lookup_lt_Some _ _ _ Hv) as Lv.
  pose proof (lookup_lt_Some _ _ _ Hvar) as Lvar.
  pose proof (lookup_lt_Some _ _ _ Hbb) as Lbb.
  repeat progress
    unfold ir_analyze_void, ir_build_const_from, ir_build_store_ptr,
      ir_build_var_ptr, ir_build_instruction, ir_create_instruction,
      ir_instruction_append, ir_ref_var, ir_ref_instruction,
      ir_link_new_instruction, set_instruction_special, update_instruction,
      update_basic_block, update_variable, get_instruction, get_basic_block,
      get_variable, allocate_instruction, exec_next_debug_id_, update_exec,
      ira_variable, ira_instruction, update_val, read_val, read_root,
      on_new_irb, bind, gets, deref, modify, ret, assert, panic.
  assert (Hpv : ptr <> value).
  { intros ->. rewrite Hp in Hv. injection Hv as ->. rewrite Hpt in Hvt.
    injection Hvt as Hvt. exact (pointer_type_neq_child _ _ Hvt). }
  assert (Hps : ptr <> store_ptr_instruction).
  { intros ->. rewrite Hp in Hsp. injection Hsp as ->. congruence. }
  cbn [ira_store instructions].
  remember (length I) as n eqn:En.
  state_norm. rewrite Hp. state_norm. rewrite Hbb. state_norm.
  rewrite Hvar. state_norm.
  repeat (lookup_step; state_norm).
  cbn [var_mem_slot_index set_var_ref_count]. rewrite Hslot.
  destruct (Z.eqb_spec (Z.of_nat slot) SIZE_MAX) as [?|_]; [contradiction|].
  cbn [negb]. state_norm. rewrite Nat2Z.id.
  repeat (first [rewrite Hsv | rewrite Hv | rewrite Hsp | lookup_step]; state_norm).
  rewrite Hspid. rewrite !bool_decide_eq_false_2 by discriminate. state_norm.
  repeat (first [rewrite Hsv | rewrite Hv | rewrite Hsp | lookup_step]; state_norm).
  eexists _, _, _, _. split; [reflexivity|]. state_norm.
  split; [reflexivity|].
  split; [repeat lookup_step; reflexivity|].
  split.
  { cbn [bb_instruction_list set_bb_instruction_list].
    rewrite <- app_assoc. cbn [app]. rewrite Nat.add_1_r. reflexivity. }
  replace (S n) with (n + 1)%nat by lia.
  split; [repeat lookup_step; reflexivity|].
  split; [reflexivity|]. split; [reflexivity|].
  split; [repeat lookup_step; reflexivity|].
  split; [reflexivity|]. split; reflexivity.
Qed.
End Demotion.




(** ** IR generation: rejected nodes and literals *)

Ltac builder_unfold :=
  repeat progress
    unfold ir_gen_node_extra_body, ir_gen_node_raw, ir_lval_wrap,
      get_invalid_instruction, with_codegen, add_node_error,
      ir_build_const_bool, ir_build_cond_br,
      ir_build_instruction, ir_create_instruction,
      ir_instruction_append, ir_ref_var, ir_ref_instruction, ir_ref_bb,
      ir_link_new_instruction, set_instruction_special,
      set_instruction_data_value, update_instruction,
      update_basic_block, update_variable, update_node, get_node,
      get_instruction, get_basic_block,
      get_variable, allocate_instruction, exec_next_debug_id_, update_exec,
      bind, gets, deref, modify, ret, assert, panic.

(** X1: [ir_gen_node_extra] on a [for] loop whose element parameter is missing
    returns the invalid instruction, whatever the lvalue purpose, appends
    the error "for loop expression missing element parameter" at the loop
    node and nothing else, marks the executable invalid and leaves the
    instructions and the basic blocks as they were. *)
Theorem for_expr_without_element_is_rejected ir_gen_other fuel node n scope lval s
    array_node index_node body elem_is_ptr is_inline elem_var index_var :
  ast_nodes (b_store s) !! node = Some n ->
  node_type n = NodeTypeForExpr ->
  node_data n =
    data_for_expr array_node None index_node body elem_is_ptr is_inline
      elem_var index_var ->
  exists s',
    ir_gen_node_extra ir_gen_other (S fuel) node (Some scope) lval s =
      Ok (invalid_instruction (b_codegen s), s') /\
    errors (b_codegen s') =
      errors (b_codegen s) ++
        [node_error node "for loop expression missing element parameter" []] /\
    exec_invalid (irb_exec (b_irb s')) = true /\
    instructions (b_store s') = instructions (b_store s) /\
    basic_blocks (b_store s') = basic_blocks (b_store s).
Proof.
  intros Hn Ht Hd.
  destruct s as [g [I B V N C] [ex cur bs cs]].
  cbn [b_store b_codegen b_irb ast_nodes instructions basic_blocks] in *.
  cbn [ir_gen_node_extra]. builder_unfold.
  rewrite bool_decide_eq_true_2 by eauto.
  state_norm. rewrite Hn.
  state_norm. unfold set_ast_nodes. state_norm.
  rewrite list_lookup_insert_eq by (eapply lookup_lt_Some; eassumption).
  cbn [node_type set_node_block_context]. rewrite Ht.
  unfold ir_gen_for_expr. builder_unfold. state_norm.
  rewrite list_lookup_insert_eq by (eapply lookup_lt_Some; eassumption).
  cbn [node_type node_data set_node_block_context]. rewrite Ht, Hd.
  rewrite bool_decide_eq_true_2 by reflexivity.
  state_norm. cbn [invalid_instruction errors set_errors].
  destruct (bool_decide (lval = LValPurposeNone));
    rewrite ?bool_decide_eq_true_2 by reflexivity;
    (eexists; split; [reflexivity|]); cbn;
    rewrite ?orb_true_r; repeat split; reflexivity.
Qed.

(** X2: [ir_gen_node_extra] on an asm expression that is not volatile and has
    no output returns the invalid instruction, appends the error "assembly
    expression with no output must be marked volatile" at the node, marks
    the executable invalid and creates no instruction, whatever the inputs
    are. *)
Theorem asm_expr_without_output_must_be_volatile ir_gen_other fuel node n scope
    lval s input_list :
  ast_nodes (b_store s) !! node = Some n ->
  node_type n = NodeTypeAsmExpr ->
  node_data n = data_asm_expr false [] input_list ->
  exists s',
    ir_gen_node_extra ir_gen_other (S fuel) node (Some scope) lval s =
      Ok (invalid_instruction (b_codegen s), s') /\
    errors (b_codegen s') =
      errors (b_codegen s) ++
        [node_error node
           "assembly expression with no output must be marked volatile" []] /\
    exec_invalid (irb_exec (b_irb s')) = true /\
    instructions (b_store s') = instructions (b_store s) /\
    basic_blocks (b_store s') = basic_blocks (b_store s).
Proof.
  intros Hn Ht Hd.
  destruct s as [g [I B V N C] [ex cur bs cs]].
  cbn [b_store b_codegen b_irb ast_nodes instructions basic_blocks] in *.
  cbn [ir_gen_node_extra]. builder_unfold.
  rewrite bool_decide_eq_true_2 by eauto.
  state_norm. rewrite Hn.
  state_norm. unfold set_ast_nodes. state_norm.
  rewrite list_lookup_insert_eq by (eapply lookup_lt_Some; eassumption).
  cbn [node_type set_node_block_context]. rewrite Ht.
  unfold ir_gen_asm_expr. builder_unfold. state_norm.
  rewrite list_lookup_insert_eq by (eapply lookup_lt_Some; eassumption).
  cbn [node_type node_data set_node_block_context]. rewrite Ht, Hd.
  rewrite !bool_decide_eq_true_2 by reflexivity.
  cbn [negb andb].
  state_norm. cbn [invalid_instruction errors set_errors].
  destruct (bool_decide (lval = LValPurposeNone));
    rewrite ?bool_decide_eq_true_2 by reflexivity;
    (eexists; split; [reflexivity|]); cbn;
    rewrite ?orb_true_r; repeat split; reflexivity.
Qed.

(** X3: [ir_gen_node_extra] on a boolean literal allocates one instruction, a
    [Const] of type [bool] with the [Static] value of the literal and the
    next debug id, appends it to the current block and returns it; the
    diagnostics and the invalid flag of the executable stay as they were. *)
Theorem bool_literal_generates_static_constant ir_gen_other fuel node n scope s
    value current bb :
  ast_nodes (b_store s) !! node = Some n ->
  node_type n = NodeTypeBoolLiteral ->
  node_data n = data_bool_literal value ->
  irb_current_basic_block (b_irb s) = Some current ->
  basic_blocks (b_store s) !! current = Some bb ->
  is_Some (instructions (b_store s) !! invalid_instruction (b_codegen s)) ->
  let result := length (instructions (b_store s)) in
  exists s' bb',
    ir_gen_node_extra ir_gen_other (S fuel) node (Some scope) LValPurposeNone s =
      Ok (result, s') /\
    instructions (b_store s') =
      instructions (b_store s) ++
        [{| inst_id := IrInstructionIdConst; inst_source_node := node;
            inst_static_value := static_value (x_bool value);
            inst_type_entry := Some entry_bool;
            inst_debug_id := exec_next_debug_id (irb_exec (b_irb s));
            inst_other := None; inst_ref_count := 0;
            inst_data := IrInstructionConst |}] /\
    basic_blocks (b_store s') !! current = Some bb' /\
    bb_instruction_list bb' = bb_instruction_list bb ++ [result] /\
    b_codegen s' = b_codegen s /\
    exec_invalid (irb_exec (b_irb s')) = exec_invalid (irb_exec (b_irb s)).
Proof.
  intros Hn Ht Hd Hcur Hbb [inv Hinv]. cbv zeta.
  destruct s as [g [I B V N C] [ex cur bs cs]].
  cbn [b_store b_codegen b_irb ast_nodes instructions basic_blocks
       irb_current_basic_block irb_exec] in *.
  subst cur.
  pose proof (lookup_lt_Some _ _ _ Hn) as Ln.
  pose proof (lookup_lt_Some _ _ _ Hbb) as Lbb.
  pose proof (lookup_lt_Some _ _ _ Hinv) as Linv.
  cbn [ir_gen_node_extra]. builder_unfold.
  rewrite bool_decide_eq_true_2 by eauto.
  state_norm. rewrite Hn.
  state_norm. unfold set_ast_nodes. state_norm.
  rewrite list_lookup_insert_eq by assumption.
  cbn [node_type set_node_block_context]. rewrite Ht.
  unfold ir_gen_bool_literal. builder_unfold. state_norm.
  rewrite list_lookup_insert_eq by assumption.
  cbn [node_type node_data set_node_block_context]. rewrite Ht, Hd.
  rewrite !bool_decide_eq_true_2 by reflexivity.
  remember (length I) as k eqn:En.
  state_norm. rewrite Hbb. state_norm.
  repeat (lookup_step; state_norm).
  cbn [invalid_instruction].
  rewrite (bool_decide_eq_false_2 (k = invalid_instruction g)) by lia.
  eexists _, _. split; [reflexivity|]. state_norm.
  split.
  { rewrite !list_insert_insert_eq. rewrite En, insert_app_r_alt by lia.
    rewrite Nat.sub_diag. reflexivity. }
  split; [repeat lookup_step; reflexivity|].
  split; [reflexivity|]. split; [reflexivity|].
  cbn. rewrite orb_false_r. reflexivity.
Qed.

(** ** Loads and stores at compile time *)

Lemma bind_run {S A B : Type} (m : M S A) (k : A -> M S B) s x s' :
  m s = Ok (x, s') -> bind m k s = k x s'.
Proof. intros H. unfold bind. rewrite H. reflexivity. Qed.

Ltac analysis_unfold :=
  repeat progress
    unfold ir_analyze_void, ir_build_const_from, ir_create_const,
      ir_build_store_ptr, ir_build_load_ptr, ir_build_operand,
      ir_build_bin_op, ir_build_bin_op_from,
      ir_build_var_ptr, ir_build_instruction, ir_create_instruction,
      ir_instruction_append, ir_ref_var, ir_ref_instruction, ir_ref_bb,
      ir_link_new_instruction, set_instruction_special,
      set_instruction_data_value, update_instruction,
      update_basic_block, update_variable, get_instruction, get_basic_block,
      get_variable, allocate_instruction, exec_next_debug_id_, update_exec,
      ira_variable, ira_instruction, ira_basic_block, ira_type_entry, ira_other,
      ira_invalid_instruction, on_codegen, add_node_error,
      update_val, read_val, read_root,
      on_new_irb, bind, gets, get, deref, modify, ret, assert, panic.

Ltac sink_insert n :=
  repeat first
    [ rewrite (list_insert_insert_eq _ n)
    | rewrite (list_insert_insert_ne _ n) by lia ].

Lemma load_ptr_static_run a load_ptr_instruction lp old_ptr op ptr p child_type
    is_const target is_c_str v :
  instructions (ira_store a) !! load_ptr_instruction = Some lp ->
  inst_data lp = IrInstructionOperand old_ptr ->
  instructions (ira_store a) !! old_ptr = Some op ->
  inst_other op = Some ptr ->
  instructions (ira_store a) !! ptr = Some p ->
  inst_type_entry p = Some (TyPointer child_type is_const) ->
  special (inst_static_value p) = ConstValSpecialStatic ->
  data (inst_static_value p) = x_ptr target SIZE_MAX is_c_str ->
  read_val target a = Ok (v, a) ->
  is_runtime v = false ->
  let result := length (instructions (ira_store a)) in
  exists a',
    ir_analyze_instruction_load_ptr load_ptr_instruction a =
      Ok (child_type, a') /\
    instructions (ira_store a') =
      <[load_ptr_instruction := set_inst_other (Some result) lp]>
        (instructions (ira_store a) ++
           [folded_constant (inst_source_node lp) v child_type
              (exec_next_debug_id (irb_exec (ira_new_irb a)))
              load_ptr_instruction]) /\
    basic_blocks (ira_store a') = basic_blocks (ira_store a) /\
    ira_mem_slot_list a' = ira_mem_slot_list a /\
    ira_codegen a' = ira_codegen a.
Proof.
  intros Hlp Hlpd Hop Hopo Hp Hpt Hps Hpd Hread Hv. cbv zeta.
  unfold ir_analyze_instruction_load_ptr. repeat mstep'. rewrite Hlpd.
  repeat mstep'. unfold ir_get_deref. repeat mstep'. rewrite Hpt.
  repeat mstep'.
  change (id_is (TyPointer child_type is_const) TypeTableEntryIdInvalid) with false.
  cbv iota. unfold is_runtime at 1. rewrite Hps.
  rewrite bool_decide_eq_false_2 by discriminate. cbn [negb].
  unfold const_ptr_pointee. rewrite Hps.
  rewrite bool_decide_eq_true_2 by reflexivity. repeat mstep'.
  unfold read_x_ptr. rewrite Hpd. repeat mstep'.
  rewrite Z.eqb_refl. repeat mstep'.
  rewrite (bind_run _ _ _ _ _ Hread). rewrite Hv. cbn [negb].
  repeat mstep'.
  clear Hread Hop Hopo.
  destruct a as [g [I B V N C] oirb [ex cur bs cs] L Lc Q qi ii ert irl cp fvl].
  cbn [ira_store ira_codegen ira_new_irb ira_mem_slot_list instructions
       basic_blocks variables irb_current_basic_block irb_exec
       invalid_instruction] in *.
  pose proof (lookup_lt_Some _ _ _ Hlp) as Llp.
  analysis_unfold.
  remember (length I) as n eqn:En.
  state_norm.
  repeat (first [rewrite Hlp | lookup_step]; state_norm).
  eexists. split; [reflexivity|]. state_norm.
  split.
  { rewrite !(list_insert_insert_eq _ n).
    rewrite En, insert_app_r_alt by lia.
    rewrite Nat.sub_diag. reflexivity. }
  repeat split; reflexivity.
Qed.

Section StaticStore.
Variable oracle : Oracle.

Lemma store_ptr_static_run a store_ptr_instruction sp old_ptr op ptr p
    old_value ov value v child_type is_const slot is_c_str dest :
  instructions (ira_store a) !! store_ptr_instruction = Some sp ->
  inst_id sp = IrInstructionIdStorePtr ->
  inst_data sp = IrInstructionStorePtr old_ptr old_value ->
  instructions (ira_store a) !! old_ptr = Some op ->
  inst_other op = Some ptr ->
  instructions (ira_store a) !! ptr = Some p ->
  inst_type_entry p = Some (TyPointer child_type is_const) ->
  special (inst_static_value p) = ConstValSpecialStatic ->
  data (inst_static_value p) = x_ptr (mem_slot slot) SIZE_MAX is_c_str ->
  instructions (ira_store a) !! old_value = Some ov ->
  inst_other ov = Some value ->
  instructions (ira_store a) !! value = Some v ->
  inst_type_entry v = Some child_type ->
  type_id child_type <> TypeTableEntryIdInvalid ->
  value <> invalid_instruction (ira_codegen a) ->
  is_runtime (inst_static_value v) = false ->
  ira_mem_slot_list a !! slot = Some dest ->
  is_runtime dest = false ->
  let result := length (instructions (ira_store a)) in
  exists a',
    ir_analyze_instruction_store_ptr oracle store_ptr_instruction a =
      Ok (entry_void, a') /\
    ira_mem_slot_list a' =
      <[slot := inst_static_value v]> (ira_mem_slot_list a) /\
    instructions (ira_store a') =
      <[store_ptr_instruction := set_inst_other (Some result) sp]>
        (instructions (ira_store a) ++
           [void_constant (inst_source_node sp)
              (exec_next_debug_id (irb_exec (ira_new_irb a)))
              store_ptr_instruction]) /\
    basic_blocks (ira_store a') = basic_blocks (ira_store a) /\
    ira_codegen a' = ira_codegen a /\
    exec_next_debug_id (irb_exec (ira_new_irb a')) =
      wrap64 (exec_next_debug_id (irb_exec (ira_new_irb a)) + 1).
Proof.
  intros Hsp Hspid Hspd Hop Hopo Hp Hpt Hps Hpd Hov Hovo Hv Hvt Htid Hvne Hvrt
    Hslot Hdest.
  cbv zeta.
  unfold ir_analyze_instruction_store_ptr. repeat mstep'. rewrite Hspd.
  repeat mstep'.
  change (id_is (TyPointer child_type is_const) TypeTableEntryIdInvalid) with false.
  cbv iota. repeat mstep'.
  unfold id_is at 1. rewrite (bool_decide_eq_false_2 _ Htid). repeat mstep'.
  simpl pointer_child_type. repeat mstep'. unfold bind at 1.
  rewrite (ir_get_casted_value_same_type oracle value v child_type a Hv Hvt Hvne Htid).
  repeat mstep'. rewrite (bool_decide_eq_false_2 _ Hvne). repeat mstep'.
  rewrite Hvrt. unfold is_runtime at 1. rewrite Hps.
  rewrite bool_decide_eq_false_2 by discriminate. cbn [negb andb].
  unfold const_ptr_pointee. rewrite Hps.
  rewrite bool_decide_eq_true_2 by reflexivity. repeat mstep'.
  unfold read_x_ptr. rewrite Hpd. repeat mstep'.
  rewrite Z.eqb_refl. repeat mstep'.
  clear Hop Hopo Hov Hovo.
  destruct a as [g [I B V N C] oirb [ex cur bs cs] L Lc Q qi ii ert irl cp fvl].
  cbn [ira_store ira_codegen ira_new_irb ira_mem_slot_list instructions
       basic_blocks variables irb_current_basic_block irb_exec
       invalid_instruction] in *.
  pose proof (lookup_lt_Some _ _ _ Hsp) as Lsp.
  analysis_unfold. unfold mem_slot.
  remember (length I) as n eqn:En.
  state_norm. rewrite Hslot. state_norm. rewrite Hdest. cbn [negb].
  state_norm. rewrite Hslot. state_norm. rewrite Hslot. state_norm.
  rewrite Hsp. state_norm.
  rewrite Hspid. rewrite !bool_decide_eq_false_2 by discriminate. state_norm.
  repeat (first [rewrite Hsp | lookup_step]; state_norm).
  eexists. split; [reflexivity|]. state_norm.
  split; [reflexivity|].
  split.
  { rewrite (list_insert_insert_ne _ n store_ptr_instruction) by lia.
    rewrite !(list_insert_insert_eq _ n).
    rewrite En, insert_app_r_alt by lia.
    rewrite Nat.sub_diag. reflexivity. }
  repeat split; reflexivity.
Qed.

End StaticStore.

(** X4: the analysis of a [LoadPtr] through a [Static] pointer to a
    single value that is not [Runtime] returns the pointee type and links
    the old instruction with one fresh [Const] that holds a copy of the
    pointee; no block, no mem slot and no diagnostic changes. *)
Theorem load_through_constant_pointer_is_folded a load_ptr_instruction lp old_ptr
    op ptr p child_type is_const target is_c_str v :
  instructions (ira_store a) !! load_ptr_instruction = Some lp ->
  inst_data lp = IrInstructionOperand old_ptr ->
  instructions (ira_store a) !! old_ptr = Some op ->
  inst_other op = Some ptr ->
  instructions (ira_store a) !! ptr = Some p ->
  inst_type_entry p = Some (TyPointer child_type is_const) ->
  special (inst_static_value p) = ConstValSpecialStatic ->
  data (inst_static_value p) = x_ptr target SIZE_MAX is_c_str ->
  read_val target a = Ok (v, a) ->
  is_runtime v = false ->
  let result := length (instructions (ira_store a)) in
  exists a',
    ir_analyze_instruction_load_ptr load_ptr_instruction a =
      Ok (child_type, a') /\
    instructions (ira_store a') =
      <[load_ptr_instruction := set_inst_other (Some result) lp]>
        (instructions (ira_store a) ++
           [folded_constant (inst_source_node lp) v child_type
              (exec_next_debug_id (irb_exec (ira_new_irb a)))
              load_ptr_instruction]) /\
    basic_blocks (ira_store a') = basic_blocks (ira_store a) /\
    ira_mem_slot_list a' = ira_mem_slot_list a /\
    ira_codegen a' = ira_codegen a.
Proof. apply load_ptr_static_run. Qed.

(** X7: the analysis of a [StorePtr] of a value that is not [Runtime]
    through a [Static] pointer to a mem slot that is not [Runtime] writes
    the value to the slot, returns [void] and links the old instruction
    with a fresh [Const]; no block and no diagnostic changes. *)
Theorem store_of_static_value_updates_slot_and_emits_nothing (oracle : Oracle)
    a store_ptr_instruction sp old_ptr op ptr p
    old_value ov value v child_type is_const slot is_c_str dest :
  instructions (ira_store a) !! store_ptr_instruction = Some sp ->
  inst_id sp = IrInstructionIdStorePtr ->
  inst_data sp = IrInstructionStorePtr old_ptr old_value ->
  instructions (ira_store a) !! old_ptr = Some op ->
  inst_other op = Some ptr ->
  instructions (ira_store a) !! ptr = Some p ->
  inst_type_entry p = Some (TyPointer child_type is_const) ->
  special (inst_static_value p) = ConstValSpecialStatic ->
  data (inst_static_value p) = x_ptr (mem_slot slot) SIZE_MAX is_c_str ->
  instructions (ira_store a) !! old_value = Some ov ->
  inst_other ov = Some value ->
  instructions (ira_store a) !! value = Some v ->
  inst_type_entry v = Some child_type ->
  type_id child_type <> TypeTableEntryIdInvalid ->
  value <> invalid_instruction (ira_codegen a) ->
  is_runtime (inst_static_value v) = false ->
  ira_mem_slot_list a !! slot = Some dest ->
  is_runtime dest = false ->
  let result := length (instructions (ira_store a)) in
  exists a',
    ir_analyze_instruction_store_ptr oracle store_ptr_instruction a =
      Ok (entry_void, a') /\
    ira_mem_slot_list a' =
      <[slot := inst_static_value v]> (ira_mem_slot_list a) /\
    instructions (ira_store a') =
      <[store_ptr_instruction := set_inst_other (Some result) sp]>
        (instructions (ira_store a) ++
           [void_constant (inst_source_node sp)
              (exec_next_debug_id (irb_exec (ira_new_irb a)))
              store_ptr_instruction]) /\
    basic_blocks (ira_store a') = basic_blocks (ira_store a) /\
    ira_codegen a' = ira_codegen a.
Proof.
  intros. cbv zeta.
  edestruct (store_ptr_static_run oracle a store_ptr_instruction)
    as (a' & R1 & R2 & R3 & R4 & R5 & _); try eassumption.
  exists a'. repeat split; assumption.
Qed.

Lemma read_slot a slot v :
  ira_mem_slot_list a !! slot = Some v -> read_val (mem_slot slot) a = Ok (v, a).
Proof.
  intros H. unfold read_val, read_root, mem_slot. cbn [vp_root vp_path].
  repeat mstep'. rewrite H. reflexivity.
Qed.

(** X8: after the analysis of a compile-time [StorePtr] to a mem slot,
    the analysis of a [LoadPtr] through the same pointer returns the
    pointee type and links the load with a fresh [Const] whose value is
    the stored one; the blocks and the diagnostics are those from before
    the store. *)
Theorem static_store_then_load_reads_back (oracle : Oracle)
    a store_ptr_instruction sp old_ptr op ptr p
    old_value ov value v child_type is_const slot is_c_str dest
    load_ptr_instruction lp :
  instructions (ira_store a) !! store_ptr_instruction = Some sp ->
  inst_id sp = IrInstructionIdStorePtr ->
  inst_data sp = IrInstructionStorePtr old_ptr old_value ->
  instructions (ira_store a) !! old_ptr = Some op ->
  inst_other op = Some ptr ->
  instructions (ira_store a) !! ptr = Some p ->
  inst_type_entry p = Some (TyPointer child_type is_const) ->
  special (inst_static_value p) = ConstValSpecialStatic ->
  data (inst_static_value p) = x_ptr (mem_slot slot) SIZE_MAX is_c_str ->
  instructions (ira_store a) !! old_value = Some ov ->
  inst_other ov = Some value ->
  instructions (ira_store a) !! value = Some v ->
  inst_type_entry v = Some child_type ->
  type_id child_type <> TypeTableEntryIdInvalid ->
  value <> invalid_instruction (ira_codegen a) ->
  is_runtime (inst_static_value v) = false ->
  ira_mem_slot_list a !! slot = Some dest ->
  is_runtime dest = false ->
  instructions (ira_store a) !! load_ptr_instruction = Some lp ->
  inst_data lp = IrInstructionOperand old_ptr ->
  old_ptr <> store_ptr_instruction ->
  ptr <> store_ptr_instruction ->
  let loaded := S (length (instructions (ira_store a))) in
  exists a1 a2 c,
    ir_analyze_instruction_store_ptr oracle store_ptr_instruction a =
      Ok (entry_void, a1) /\
    ir_analyze_instruction_load_ptr load_ptr_instruction a1 =
      Ok (child_type, a2) /\
    instructions (ira_store a2) !! load_ptr_instruction =
      Some (set_inst_other (Some loaded) lp) /\
    instructions (ira_store a2) !! loaded = Some c /\
    inst_id c = IrInstructionIdConst /\
    inst_static_value c = inst_static_value v /\
    inst_type_entry c = Some child_type /\
    basic_blocks (ira_store a2) = basic_blocks (ira_store a) /\
    ira_codegen a2 = ira_codegen a.
Proof.
  intros Hsp Hspid Hspd Hop Hopo Hp Hpt Hps Hpd Hov Hovo Hv Hvt Htid Hvne Hvrt
    Hslot Hdest Hlp Hlpd Hne1 Hne2.
  cbv zeta.
  destruct (store_ptr_static_run oracle a store_ptr_instruction sp old_ptr op ptr
              p old_value ov value v child_type is_const slot is_c_str dest)
    as (a1 & R1 & S1 & I1 & B1 & G1 & D1); try assumption.
  assert (Hlps : load_ptr_instruction <> store_ptr_instruction).
  { intros ->. rewrite Hsp in Hlp. injection Hlp as <-. congruence. }
  pose proof (lookup_lt_Some _ _ _ Hsp) as Lsp.
  pose proof (lookup_lt_Some _ _ _ Hlp) as Llp.
  pose proof (lookup_lt_Some _ _ _ Hop) as Lop.
  pose proof (lookup_lt_Some _ _ _ Hp) as Lp.
  pose proof (lookup_lt_Some _ _ _ Hslot) as Lslot.
  assert (Hlp1 : instructions (ira_store a1) !! load_ptr_instruction = Some lp).
  { rewrite I1. rewrite list_lookup_insert_ne by congruence.
    rewrite lookup_app_l by assumption. assumption. }
  assert (Hop1 : instructions (ira_store a1) !! old_ptr = Some op).
  { rewrite I1. rewrite list_lookup_insert_ne by congruence.
    rewrite lookup_app_l by assumption. assumption. }
  assert (Hp1 : instructions (ira_store a1) !! ptr = Some p).
  { rewrite I1. rewrite list_lookup_insert_ne by congruence.
    rewrite lookup_app_l by assumption. assumption. }
  assert (Hread : read_val (mem_slot slot) a1 = Ok (inst_static_value v, a1)).
  { apply read_slot. rewrite S1. apply list_lookup_insert_eq. assumption. }
  destruct (load_ptr_static_run a1 load_ptr_instruction lp old_ptr op ptr p
              child_type is_const (mem_slot slot) is_c_str (inst_static_value v))
    as (a2 & R2 & I2 & B2 & S2 & G2); try assumption.
  assert (Hlen : length (instructions (ira_store a1)) =
                 S (length (instructions (ira_store a)))).
  { rewrite I1. rewrite length_insert, length_app. cbn [length]. lia. }
  rewrite Hlen in I2.
  exists a1, a2. eexists. split; [exact R1|]. split; [exact R2|].
  split.
  { rewrite I2. apply list_lookup_insert_eq.
    rewrite length_app. cbn [length]. lia. }
  split.
  { rewrite I2. rewrite list_lookup_insert_ne by lia.
    rewrite <- Hlen. apply list_lookup_middle. reflexivity. }
  repeat split; congruence.
Qed.

(** X5: the analysis of a [LoadPtr] through a pointer that is [Runtime],
    or [Static] with a [Runtime] pointee, emits a [LoadPtr] of the pointee
    type into the current new block, references the pointer once more and
    links the new instruction with the old one; mem slots and diagnostics
    do not change. *)
Theorem load_of_unknown_pointee_emits_load a load_ptr_instruction lp old_ptr op
    ptr p child_type is_const current bb :
  instructions (ira_store a) !! load_ptr_instruction = Some lp ->
  inst_data lp = IrInstructionOperand old_ptr ->
  instructions (ira_store a) !! old_ptr = Some op ->
  inst_other op = Some ptr ->
  instructions (ira_store a) !! ptr = Some p ->
  inst_type_entry p = Some (TyPointer child_type is_const) ->
  pointee_unknown a p ->
  ptr <> load_ptr_instruction ->
  irb_current_basic_block (ira_new_irb a) = Some current ->
  basic_blocks (ira_store a) !! current = Some bb ->
  let result := length (instructions (ira_store a)) in
  exists a',
    ir_analyze_instruction_load_ptr load_ptr_instruction a =
      Ok (child_type, a') /\
    instructions (ira_store a') =
      <[load_ptr_instruction := set_inst_other (Some result) lp]>
        (<[ptr := set_inst_ref_count (wrap64 (inst_ref_count p + 1)) p]>
           (instructions (ira_store a)) ++
         [emitted_load (inst_source_node lp) ptr child_type
            (exec_next_debug_id (irb_exec (ira_new_irb a)))
            load_ptr_instruction]) /\
    basic_blocks (ira_store a') =
      <[current :=
          set_bb_instruction_list (bb_instruction_list bb ++ [result]) bb]>
        (basic_blocks (ira_store a)) /\
    ira_mem_slot_list a' = ira_mem_slot_list a /\
    ira_codegen a' = ira_codegen a.
Proof.
  intros Hlp Hlpd Hop Hopo Hp Hpt Hunknown Hne Hcur Hbb. cbv zeta.
  unfold ir_analyze_instruction_load_ptr. repeat mstep'. rewrite Hlpd.
  repeat mstep'. unfold ir_get_deref. repeat mstep'. rewrite Hpt.
  repeat mstep'.
  change (id_is (TyPointer child_type is_const) TypeTableEntryIdInvalid) with false.
  cbv iota.
  assert (Hconst :
    is_runtime (inst_static_value p) = true \/
    exists target v,
      negb (is_runtime (inst_static_value p)) = true /\
      const_ptr_pointee (inst_static_value p) a = Ok (target, a) /\
      read_val target a = Ok (v, a) /\ is_runtime v = true).
  { destruct Hunknown as [Hrt | (target & c & v & Hs & Hd & Hread & Hv)];
      [left; exact Hrt | right].
    exists target, v. split.
    { unfold is_runtime. rewrite Hs. reflexivity. }
    split; [|split; assumption].
    unfold const_ptr_pointee. rewrite Hs.
    rewrite bool_decide_eq_true_2 by reflexivity. repeat mstep'.
    unfold read_x_ptr. rewrite Hd. repeat mstep'.
    rewrite Z.eqb_refl. reflexivity. }
  clear Hunknown.
  destruct Hconst as [Hrt | (target & v & Hs & Hptr & Hread & Hv)];
    [ rewrite Hrt; cbn [negb]
    | rewrite Hs; cbv iota; rewrite !bind_assoc; rewrite (bind_run _ _ _ _ _ Hptr);
      rewrite bind_assoc; rewrite (bind_run _ _ _ _ _ Hread); rewrite Hv;
      cbn [negb]; clear Hptr Hread ].
  all: repeat mstep'.
  all: clear Hop Hopo.
  all: destruct a as [g [I B V N C] oirb [ex cur bs cs] L Lc Q qi ii ert irl cp fvl].
  all: cbn [ira_store ira_codegen ira_new_irb ira_mem_slot_list instructions
       basic_blocks variables irb_current_basic_block irb_exec
       invalid_instruction] in *.
  all: subst cur.
  all: pose proof (lookup_lt_Some _ _ _ Hlp) as Llp.
  all: pose proof (lookup_lt_Some _ _ _ Hp) as Lp.
  all: pose proof (lookup_lt_Some _ _ _ Hbb) as Lbb.
  all: analysis_unfold.
  all: remember (length I) as n eqn:En.
  all: state_norm; rewrite Hbb; state_norm.
  all: repeat (first [rewrite Hlp | rewrite Hp | lookup_step]; state_norm).
  all: eexists; (split; [reflexivity|]); state_norm.
  all: split;
    [ sink_insert n; rewrite En, insert_app_r_alt by lia;
      rewrite Nat.sub_diag, <- En;
      rewrite (insert_app_l _ _ ptr) by lia; reflexivity
    | repeat split; reflexivity ].
Qed.

Lemma ir_get_deref_non_pointer source_instruction src ptr p t a :
  instructions (ira_store a) !! source_instruction = Some src ->
  instructions (ira_store a) !! ptr = Some p ->
  inst_type_entry p = Some t ->
  type_id t <> TypeTableEntryIdInvalid ->
  type_id t <> TypeTableEntryIdPointer ->
  ir_get_deref source_instruction ptr a =
    Ok (invalid_instruction (ira_codegen a),
        set_ira_codegen
          (set_errors
             (errors (ira_codegen a) ++
                [node_error (inst_source_node src)
                   "attempt to dereference non pointer type '%s'" [ArgType t]])
             (ira_codegen a)) a).
Proof.
  intros Hsrc Hp Ht Hinv Hptr. unfold ir_get_deref. repeat mstep'.
  rewrite Ht. repeat mstep'.
  unfold id_is. rewrite (bool_decide_eq_false_2 _ Hinv).
  destruct t; try (exfalso; apply Hptr; reflexivity); repeat mstep';
    reflexivity.
Qed.

(** X6: the analysis of a [LoadPtr] through a value whose type is neither
    invalid nor a pointer reports "attempt to dereference non pointer type
    '%s'" at the load and returns the invalid type; no instruction is
    created and no block changes, and the old load is linked to the shared
    invalid instruction. *)
Theorem load_through_non_pointer_is_an_error a load_ptr_instruction lp old_ptr op
    ptr p t inv :
  instructions (ira_store a) !! load_ptr_instruction = Some lp ->
  inst_data lp = IrInstructionOperand old_ptr ->
  instructions (ira_store a) !! old_ptr = Some op ->
  inst_other op = Some ptr ->
  instructions (ira_store a) !! ptr = Some p ->
  inst_type_entry p = Some t ->
  type_id t <> TypeTableEntryIdInvalid ->
  type_id t <> TypeTableEntryIdPointer ->
  instructions (ira_store a) !! invalid_instruction (ira_codegen a) = Some inv ->
  inst_type_entry inv = Some entry_invalid ->
  invalid_instruction (ira_codegen a) <> load_ptr_instruction ->
  exists a',
    ir_analyze_instruction_load_ptr load_ptr_instruction a =
      Ok (entry_invalid, a') /\
    errors (ira_codegen a') =
      errors (ira_codegen a) ++
        [node_error (inst_source_node lp)
           "attempt to dereference non pointer type '%s'" [ArgType t]] /\
    length (instructions (ira_store a')) = length (instructions (ira_store a)) /\
    basic_blocks (ira_store a') = basic_blocks (ira_store a) /\
    instructions (ira_store a') !! load_ptr_instruction =
      Some (set_inst_other (Some (invalid_instruction (ira_codegen a))) lp).
Proof.
  intros Hlp Hlpd Hop Hopo Hp Hpt Hinv Hptr Hi Hit Hne.
  unfold ir_analyze_instruction_load_ptr. repeat mstep'. rewrite Hlpd.
  repeat mstep'.
  rewrite (bind_run _ _ _ _ _
             (ir_get_deref_non_pointer _ _ _ _ _ _ Hlp Hp Hpt Hinv Hptr)).
  clear Hop Hopo Hp Hpt.
  destruct a as [g [I B V N C] oirb [ex cur bs cs] L Lc Q qi ii ert irl cp fvl].
  cbn [ira_store ira_codegen ira_new_irb ira_mem_slot_list instructions
       basic_blocks variables irb_current_basic_block irb_exec
       invalid_instruction] in *.
  pose proof (lookup_lt_Some _ _ _ Hlp) as Llp.
  pose proof (lookup_lt_Some _ _ _ Hi) as Li.
  analysis_unfold. unfold set_errors. state_norm. cbn [invalid_instruction].
  rewrite Hi. state_norm.
  repeat (first [rewrite Hlp | rewrite Hi | lookup_step]; state_norm).
  cbn [inst_type_entry set_inst_other]. rewrite Hit.
  eexists. split; [reflexivity|]. state_norm. cbn [errors].
  split; [reflexivity|]. split; [reflexivity|]. split; [reflexivity|].
  apply list_lookup_insert_eq. rewrite length_insert. assumption.
Qed.

(** ** Boolean operators *)

Section BoolOps.
Variable oracle : Oracle.

(** X9: [ir_analyze_bin_op_bool] on two [Static] operands of type [bool]
    returns [bool] and links the old instruction with one fresh [Const]
    holding [b1 || b2] for [BoolOr] and [b1 && b2] for [BoolAnd], with the
    disjunction of the operands' [depends_on_compile_var]; no block and no
    diagnostic changes. *)
Theorem bool_op_on_constants_is_folded a bin_op_instruction bo op_id old_op1
    old_op2 o1 o2 op1 op2 i1 i2 b1 b2 r :
  instructions (ira_store a) !! bin_op_instruction = Some bo ->
  inst_id bo = IrInstructionIdBinOp ->
  inst_data bo = IrInstructionBinOp op_id old_op1 old_op2 ->
  bool_op_result op_id b1 b2 = Some r ->
  instructions (ira_store a) !! old_op1 = Some o1 ->
  inst_other o1 = Some op1 ->
  instructions (ira_store a) !! op1 = Some i1 ->
  inst_type_entry i1 = Some entry_bool ->
  special (inst_static_value i1) = ConstValSpecialStatic ->
  data (inst_static_value i1) = x_bool b1 ->
  instructions (ira_store a) !! old_op2 = Some o2 ->
  inst_other o2 = Some op2 ->
  instructions (ira_store a) !! op2 = Some i2 ->
  inst_type_entry i2 = Some entry_bool ->
  special (inst_static_value i2) = ConstValSpecialStatic ->
  data (inst_static_value i2) = x_bool b2 ->
  op1 <> invalid_instruction (ira_codegen a) ->
  op2 <> invalid_instruction (ira_codegen a) ->
  op1 <> bin_op_instruction ->
  op2 <> bin_op_instruction ->
  let result := length (instructions (ira_store a)) in
  exists a',
    ir_analyze_bin_op_bool oracle bin_op_instruction a = Ok (entry_bool, a') /\
    instructions (ira_store a') =
      <[bin_op_instruction := set_inst_other (Some result) bo]>
        (instructions (ira_store a) ++
           [{| inst_id := IrInstructionIdConst;
               inst_source_node := inst_source_node bo;
               inst_static_value :=
                 {| special := ConstValSpecialStatic;
                    depends_on_compile_var :=
                      depends_on_compile_var (inst_static_value i1)
                      || depends_on_compile_var (inst_static_value i2);
                    data := x_bool r |};
               inst_type_entry := None;
               inst_debug_id := exec_next_debug_id (irb_exec (ira_new_irb a));
               inst_other := Some bin_op_instruction; inst_ref_count := 0;
               inst_data := IrInstructionConst |}]) /\
    basic_blocks (ira_store a') = basic_blocks (ira_store a) /\
    ira_codegen a' = ira_codegen a.
Proof.
  intros Hbo Hboid Hbod Hr Ho1 Ho1o H1 H1t H1s H1d Ho2 Ho2o H2 H2t H2s H2d
    Hne1 Hne2 N1 N2.
  cbv zeta.
  unfold ir_analyze_bin_op_bool. repeat mstep'. rewrite Hbod. repeat mstep'.
  change (id_is entry_bool TypeTableEntryIdInvalid) with false. cbv iota.
  repeat mstep'.
  change (id_is entry_bool TypeTableEntryIdInvalid) with false. cbv iota.
  rewrite (bind_run _ _ _ _ _
             (ir_get_casted_value_same_type oracle op1 i1 entry_bool a H1 H1t Hne1
                ltac:(discriminate))).
  repeat mstep'. rewrite (bool_decide_eq_false_2 _ Hne1).
  rewrite (bind_run _ _ _ _ _
             (ir_get_casted_value_same_type oracle op2 i2 entry_bool a H2 H2t Hne2
                ltac:(discriminate))).
  repeat mstep'. rewrite (bool_decide_eq_false_2 _ Hne2).
  repeat mstep'.
  unfold is_runtime. rewrite H1s, H2s.
  rewrite !bool_decide_eq_false_2 by discriminate. cbn [negb andb].
  clear Ho1 Ho1o Ho2 Ho2o.
  destruct a as [g [I B V N C] oirb [ex cur bs cs] L Lc Q qi ii ert irl cp fvl].
  cbn [ira_store ira_codegen ira_new_irb ira_mem_slot_list instructions
       basic_blocks variables irb_current_basic_block irb_exec
       invalid_instruction] in *.
  pose proof (lookup_lt_Some _ _ _ Hbo) as Lbo.
  pose proof (lookup_lt_Some _ _ _ H1) as L1.
  pose proof (lookup_lt_Some _ _ _ H2) as L2.
  analysis_unfold.
  remember (length I) as n eqn:En.
  state_norm. rewrite Hbo. state_norm.
  rewrite Hboid. rewrite !bool_decide_eq_false_2 by discriminate. state_norm.
  repeat (first [rewrite Hbo | rewrite H1 | rewrite H2 | lookup_step]; state_norm).
  rewrite H1t, H2t.
  change (id_is entry_bool TypeTableEntryIdBool) with true. cbv iota.
  cbv zeta. rewrite H1d, H2d.
  destruct op_id; try discriminate Hr; cbn in Hr; injection Hr as <-.
  all: destruct b1; cbn [orb andb]; state_norm.
  all: repeat (first [rewrite Hbo | rewrite H1 | rewrite H2 | lookup_step]; state_norm).
  all: eexists; (split; [reflexivity|]); state_norm.
  all: split;
    [ sink_insert n; rewrite En, insert_app_r_alt by lia;
      rewrite Nat.sub_diag; reflexivity
    | split; reflexivity ].
Qed.

(** X10: [ir_analyze_bin_op_bool] with an operand that is [Runtime] emits
    a [Runtime] [BinOp] of the same operator on the two new operands into
    the current new block, linked with the old instruction, and returns
    [bool], whatever the other operand is. *)
Theorem bool_op_on_runtime_operand_is_emitted a bin_op_instruction bo op_id
    old_op1 old_op2 o1 o2 op1 op2 i1 i2 current bb :
  instructions (ira_store a) !! bin_op_instruction = Some bo ->
  inst_data bo = IrInstructionBinOp op_id old_op1 old_op2 ->
  instructions (ira_store a) !! old_op1 = Some o1 ->
  inst_other o1 = Some op1 ->
  instructions (ira_store a) !! op1 = Some i1 ->
  inst_type_entry i1 = Some entry_bool ->
  instructions (ira_store a) !! old_op2 = Some o2 ->
  inst_other o2 = Some op2 ->
  instructions (ira_store a) !! op2 = Some i2 ->
  inst_type_entry i2 = Some entry_bool ->
  is_runtime (inst_static_value i1) || is_runtime (inst_static_value i2) = true ->
  op1 <> invalid_instruction (ira_codegen a) ->
  op2 <> invalid_instruction (ira_codegen a) ->
  op1 <> bin_op_instruction ->
  op2 <> bin_op_instruction ->
  irb_current_basic_block (ira_new_irb a) = Some current ->
  basic_blocks (ira_store a) !! current = Some bb ->
  let result := length (instructions (ira_store a)) in
  exists a' bi,
    ir_analyze_bin_op_bool oracle bin_op_instruction a = Ok (entry_bool, a') /\
    instructions (ira_store a') !! result = Some bi /\
    inst_id bi = IrInstructionIdBinOp /\
    inst_data bi = IrInstructionBinOp op_id op1 op2 /\
    inst_other bi = Some bin_op_instruction /\
    is_runtime (inst_static_value bi) = true /\
    basic_blocks (ira_store a') =
      <[current :=
          set_bb_instruction_list (bb_instruction_list bb ++ [result]) bb]>
        (basic_blocks (ira_store a)) /\
    ira_codegen a' = ira_codegen a.
Proof.
  intros Hbo Hbod Ho1 Ho1o H1 H1t Ho2 Ho2o H2 H2t Hrt Hne1 Hne2 N1 N2 Hcur Hbb.
  cbv zeta.
  unfold ir_analyze_bin_op_bool. repeat mstep'. rewrite Hbod. repeat mstep'.
  change (id_is entry_bool TypeTableEntryIdInvalid) with false. cbv iota.
  repeat mstep'.
  change (id_is entry_bool TypeTableEntryIdInvalid) with false. cbv iota.
  rewrite (bind_run _ _ _ _ _
             (ir_get_casted_value_same_type oracle op1 i1 entry_bool a H1 H1t Hne1
                ltac:(discriminate))).
  repeat mstep'. rewrite (bool_decide_eq_false_2 _ Hne1).
  rewrite (bind_run _ _ _ _ _
             (ir_get_casted_value_same_type oracle op2 i2 entry_bool a H2 H2t Hne2
                ltac:(discriminate))).
  repeat mstep'. rewrite (bool_decide_eq_false_2 _ Hne2).
  repeat mstep'.
  rewrite <- negb_orb, Hrt. cbn [negb].
  clear Ho1 Ho1o Ho2 Ho2o.
  destruct a as [g [I B V N C] oirb [ex cur bs cs] L Lc Q qi ii ert irl cp fvl].
  cbn [ira_store ira_codegen ira_new_irb ira_mem_slot_list instructions
       basic_blocks variables irb_current_basic_block irb_exec
       invalid_instruction] in *.
  subst cur.
  pose proof (lookup_lt_Some _ _ _ Hbo) as Lbo.
  pose proof (lookup_lt_Some _ _ _ H1) as L1.
  pose proof (lookup_lt_Some _ _ _ H2) as L2.
  pose proof (lookup_lt_Some _ _ _ Hbb) as Lbb.
  analysis_unfold.
  remember (length I) as n eqn:En.
  state_norm. rewrite Hbo. state_norm. rewrite Hbb. state_norm.
  repeat (first [rewrite H1 | lookup_step]; state_norm).
  destruct (decide (op2 = op1)) as [->|Hd].
  all: repeat (first [rewrite Hbo | rewrite H2 | lookup_step]; state_norm).
  all: eexists _, _; (split; [reflexivity|]); state_norm.
  all: (split; [repeat lookup_step; reflexivity|]).
  all: repeat split; reflexivity.
Qed.
End BoolOps.

(** ** Phi instructions *)

Lemma ir_analyze_phi_const_predecessor_skip phi_instruction pred values a :
  forall (before : list BlockPtr) k after,
    pred ∉ before ->
    ir_analyze_phi_const_predecessor phi_instruction pred values k
      (before ++ pred :: after) a =
    ir_analyze_phi_const_predecessor phi_instruction pred values
      (k + length before) [pred] a.
Proof.
  induction before as [|b before IH]; intros k after Hnotin.
  - cbn [app length ir_analyze_phi_const_predecessor].
    rewrite Nat.add_0_r. rewrite bool_decide_eq_true_2 by reflexivity.
    reflexivity.
  - apply not_elem_of_cons in Hnotin as [Hne Hnotin].
    cbn [app length ir_analyze_phi_const_predecessor].
    rewrite bool_decide_eq_false_2 by congruence. cbn [negb].
    rewrite IH by assumption.
    replace (S k + length before)%nat with (k + S (length before))%nat by lia.
    reflexivity.
Qed.

Section Phi.
Variable oracle : Oracle.

(** X11: [ir_analyze_instruction_phi] with a const predecessor takes the
    value that comes in from the first occurrence of that predecessor and
    returns its type: a value that is not [Runtime] is copied into a fresh
    [Const] linked with the phi, a [Runtime] value becomes the [other] of
    the phi; no block and no diagnostic changes. *)
Theorem phi_after_inlined_branch_takes_value_of_that_edge a phi_instruction ph
    incoming_blocks incoming_values pred before after old_value ov value v t :
  instructions (ira_store a) !! phi_instruction = Some ph ->
  inst_id ph = IrInstructionIdPhi ->
  inst_data ph = IrInstructionPhi incoming_blocks incoming_values ->
  ira_const_predecessor_bb a = Some pred ->
  incoming_blocks = before ++ pred :: after ->
  pred ∉ before ->
  incoming_values !! length before = Some old_value ->
  instructions (ira_store a) !! old_value = Some ov ->
  inst_other ov = Some value ->
  instructions (ira_store a) !! value = Some v ->
  inst_type_entry v = Some t ->
  type_id t <> TypeTableEntryIdInvalid ->
  value <> phi_instruction ->
  let result := length (instructions (ira_store a)) in
  exists a',
    ir_analyze_instruction_phi oracle phi_instruction a = Ok (t, a') /\
    instructions (ira_store a') =
      (if is_runtime (inst_static_value v)
       then <[phi_instruction := set_inst_other (Some value) ph]>
              (instructions (ira_store a))
       else <[phi_instruction := set_inst_other (Some result) ph]>
              (instructions (ira_store a) ++
                 [{| inst_id := IrInstructionIdConst;
                     inst_source_node := inst_source_node ph;
                     inst_static_value := inst_static_value v;
                     inst_type_entry := None;
                     inst_debug_id :=
                       exec_next_debug_id (irb_exec (ira_new_irb a));
                     inst_other := Some phi_instruction; inst_ref_count := 0;
                     inst_data := IrInstructionConst |}])) /\
    basic_blocks (ira_store a') = basic_blocks (ira_store a) /\
    ira_codegen a' = ira_codegen a.
Proof.
  intros Hph Hphid Hphd Hcp -> Hnotin Hval Hov Hovo Hv Hvt Htid Hne. cbv zeta.
  unfold ir_analyze_instruction_phi. repeat mstep'. rewrite Hphd.
  repeat mstep'. rewrite Hcp.
  rewrite ir_analyze_phi_const_predecessor_skip by assumption.
  cbn [ir_analyze_phi_const_predecessor Nat.add].
  rewrite bool_decide_eq_true_2 by reflexivity. cbn [negb].
  rewrite Hval. repeat mstep'. rewrite Hvt. repeat mstep'.
  unfold id_is. rewrite (bool_decide_eq_false_2 _ Htid).
  clear Hov Hovo Hcp.
  destruct a as [g [I B V N C] oirb [ex cur bs cs] L Lc Q qi ii ert irl cp fvl].
  cbn [ira_store ira_codegen ira_new_irb ira_mem_slot_list instructions
       basic_blocks variables irb_current_basic_block irb_exec
       invalid_instruction] in *.
  pose proof (lookup_lt_Some _ _ _ Hph) as Lph.
  pose proof (lookup_lt_Some _ _ _ Hv) as Lv.
  destruct (is_runtime (inst_static_value v)); cbn [negb].
  - analysis_unfold. state_norm.
    repeat (first [rewrite Hph | rewrite Hv | lookup_step]; state_norm).
    rewrite Hvt.
    eexists. split; [reflexivity|]. state_norm. repeat split; reflexivity.
  - analysis_unfold. remember (length I) as n eqn:En. state_norm.
    rewrite Hph. state_norm. rewrite Hphid.
    rewrite !bool_decide_eq_false_2 by discriminate. state_norm.
    repeat (first [rewrite Hph | rewrite Hv | lookup_step]; state_norm).
    rewrite Hvt.
    eexists. split; [reflexivity|]. state_norm.
    split; [|split; reflexivity].
    sink_insert n. rewrite En, insert_app_r_alt by lia.
    rewrite Nat.sub_diag. reflexivity.
Qed.

End Phi.

Lemma ir_analyze_phi_incoming_skip values a :
  forall (before : list BlockPtr) i others acc_b acc_v,
    Forall (unreferenced a) before ->
    ir_analyze_phi_incoming values i (before ++ others) acc_b acc_v a =
    ir_analyze_phi_incoming values (i + length before) others acc_b acc_v a.
Proof.
  induction before as [|b before IH]; intros i others acc_b acc_v Hdead.
  - cbn [app length]. rewrite Nat.add_0_r. reflexivity.
  - inversion Hdead as [|? ? (bb & Hbb & Hrc) Hrest]; subst.
    cbn [app length ir_analyze_phi_incoming].
    erewrite bind_ira_basic_block by exact Hbb. rewrite Hrc. cbn [Z.eqb].
    rewrite IH by assumption.
    replace (S i + length before)%nat with (i + S (length before))%nat by lia.
    reflexivity.
Qed.

Lemma ir_analyze_phi_incoming_dead values a (l : list BlockPtr) i acc_b acc_v :
  Forall (unreferenced a) l ->
  ir_analyze_phi_incoming values i l acc_b acc_v a = Ok (Some (acc_b, acc_v), a).
Proof.
  intros Hdead. rewrite <- (app_nil_r l).
  rewrite ir_analyze_phi_incoming_skip by assumption. reflexivity.
Qed.

Section PhiLive.
Variable oracle : Oracle.

(** X12: [ir_analyze_instruction_phi] without a const predecessor, on a
    phi with exactly one incoming block whose reference count is not 0,
    makes the value of that edge the [other] of the phi and returns its
    type, creating nothing. *)
Theorem phi_with_one_live_predecessor_is_its_value a phi_instruction ph
    incoming_blocks incoming_values pred pb new_pred before after old_value ov
    value v t :
  instructions (ira_store a) !! phi_instruction = Some ph ->
  inst_data ph = IrInstructionPhi incoming_blocks incoming_values ->
  ira_const_predecessor_bb a = None ->
  incoming_blocks = before ++ pred :: after ->
  Forall (unreferenced a) before ->
  Forall (unreferenced a) after ->
  basic_blocks (ira_store a) !! pred = Some pb ->
  bb_ref_count pb <> 0 ->
  bb_other pb = Some new_pred ->
  incoming_values !! length before = Some old_value ->
  instructions (ira_store a) !! old_value = Some ov ->
  inst_other ov = Some value ->
  instructions (ira_store a) !! value = Some v ->
  inst_type_entry v = Some t ->
  type_id t <> TypeTableEntryIdInvalid ->
  value <> phi_instruction ->
  exists a',
    ir_analyze_instruction_phi oracle phi_instruction a = Ok (t, a') /\
    instructions (ira_store a') =
      <[phi_instruction := set_inst_other (Some value) ph]>
        (instructions (ira_store a)) /\
    basic_blocks (ira_store a') = basic_blocks (ira_store a) /\
    ira_codegen a' = ira_codegen a.
Proof.
  intros Hph Hphd Hcp -> Hbefore Hafter Hpb Hrc Hpo Hval Hov Hovo Hv Hvt Htid
    Hne.
  unfold ir_analyze_instruction_phi. repeat mstep'. rewrite Hphd.
  repeat mstep'. rewrite Hcp.
  unfold bind at 1.
  rewrite ir_analyze_phi_incoming_skip by assumption.
  cbn [ir_analyze_phi_incoming Nat.add].
  repeat mstep'.
  destruct (Z.eqb_spec (bb_ref_count pb) 0) as [?|_]; [contradiction|].
  rewrite Hpo. repeat mstep'. rewrite Hval. repeat mstep'.
  unfold id_is at 1. rewrite (bool_decide_eq_false_2 _ Htid).
  rewrite ir_analyze_phi_incoming_dead by assumption.
  cbv beta iota. cbn [app length]. repeat mstep'.
  cbn [negb bool_decide].
  rewrite bool_decide_eq_true_2 by reflexivity.
  rewrite (bind_run _ _ _ _ _ (list_at_ok [value] 0 value _ ltac:(lia) eq_refl)).
  clear Hov Hovo Hcp Hbefore Hafter.
  destruct a as [g [I B V N C] oirb [ex cur bs cs] L Lc Q qi ii ert irl cp fvl].
  cbn [ira_store ira_codegen ira_new_irb ira_mem_slot_list instructions
       basic_blocks variables irb_current_basic_block irb_exec
       invalid_instruction] in *.
  pose proof (lookup_lt_Some _ _ _ Hph) as Lph.
  pose proof (lookup_lt_Some _ _ _ Hv) as Lv.
  analysis_unfold. state_norm.
  repeat (first [rewrite Hph | rewrite Hv | lookup_step]; state_norm).
  rewrite Hvt.
  eexists. split; [reflexivity|]. state_norm. repeat split; reflexivity.
Qed.

End PhiLive.

(** ** The constant result of an executable, and peer types *)

Lemma ir_exec_const_result_iff exec b value :
  ir_exec_const_result exec b = Ok (Some value, b) <->
  returns_constant exec (b_store b) value.
Proof.
  unfold ir_exec_const_result, returns_constant. split.
  - destruct (exec_basic_block_list exec) as [|bb_ptr [|]]; try discriminate.
    unfold get_basic_block, get_instruction, bind, gets, deref, ret, assert, panic.
    destruct (basic_blocks (b_store b) !! bb_ptr) as [bb|] eqn:Hbb;
      [|discriminate].
    destruct (bb_instruction_list bb) as [|only_inst [|]] eqn:Hl;
      try discriminate.
    destruct (instructions (b_store b) !! only_inst) as [r|] eqn:Hr;
      [|discriminate].
    destruct (bool_decide (inst_id r = IrInstructionIdReturn)) eqn:Hid;
      cbn [negb]; [|discriminate].
    apply bool_decide_eq_true_1 in Hid.
    destruct (inst_data r) eqn:Hd; try discriminate.
    destruct (instructions (b_store b) !! value0) as [v|] eqn:Hv;
      [|discriminate].
    destruct (is_runtime (inst_static_value v)) eqn:Hrt; cbn [negb];
      [discriminate|].
    intros [= <-]. exists bb_ptr, bb, only_inst, r, v.
    repeat split; try assumption; reflexivity.
  - intros (bb_ptr & bb & only_inst & r & v & -> & Hbb & Hl & Hr & Hid & Hd &
            Hv & Hrt).
    unfold get_basic_block, get_instruction, bind, gets, deref, ret, assert.
    rewrite Hbb, Hl, Hr. rewrite bool_decide_eq_true_2 by assumption.
    cbn [negb]. rewrite Hd. cbv iota. rewrite Hv, Hrt. reflexivity.
Qed.

(** Peer types *)

Lemma add_node_error_errors node fmt args g u g' :
  add_node_error node fmt args g = Ok (u, g') ->
  exists more, errors g' = errors g ++ more.
Proof.
  unfold add_node_error, modify. intros H. injection H as H. subst g'.
  eexists. reflexivity.
Qed.

Lemma ir_num_lit_fits_errors i t g r g' :
  ir_num_lit_fits_in_other_type i t g = Ok (r, g') ->
  exists more, errors g' = errors g ++ more.
Proof.
  unfold ir_num_lit_fits_in_other_type.
  repeat progress unfold bind, ret, assert, deref, panic, add_node_error, modify.
  repeat first
    [ match goal with
      | |- context [if ?c then _ else _] => destruct c
      | |- context [match ?o with Some _ => _ | None => _ end] => destruct o
      end
    | progress cbv beta iota ];
    intros H; try discriminate H; injection H as _ H; subst g';
    first [exists []; rewrite app_nil_r; reflexivity | eexists; reflexivity].
Qed.

Lemma ir_determine_peer_types_loop_among src rest :
  forall prev g t g',
    ir_determine_peer_types_loop src prev rest g = Ok (t, g') ->
    peer_type_of (prev :: rest) t /\ exists more, errors g' = errors g ++ more.
Proof.
  induction rest as [|cur rest IH]; intros prev g t g' H.
  - cbn in H. unfold deref in H.
    destruct (inst_type_entry prev) eqn:Hp; [|discriminate].
    injection H as <- <-. split.
    + right. exists prev. split; [left|assumption].
    + exists []. rewrite app_nil_r. reflexivity.
  - cbn [ir_determine_peer_types_loop] in H.
    destruct (inst_type_entry cur) as [cur_type|] eqn:Hc; [|discriminate].
    rewrite bind_deref_some in H.
    destruct (inst_type_entry prev) as [prev_type|] eqn:Hp; [|discriminate].
    rewrite bind_deref_some in H.
    assert (Hprev : forall g0 t g', ir_determine_peer_types_loop src prev rest g0 = Ok (t, g') ->
              peer_type_of (prev :: cur :: rest) t /\
              exists more, errors g' = errors g0 ++ more).
    { intros g0 t0 g0' H0. apply IH in H0 as [[->|(i & Hi & Ht)] He];
        (split; [|exact He]); [left; reflexivity|].
      right. exists i. split; [|assumption].
      apply elem_of_cons in Hi as [->|Hi]; [left|right; right; assumption]. }
    assert (Hcur : forall g0 t g', ir_determine_peer_types_loop src cur rest g0 = Ok (t, g') ->
              peer_type_of (prev :: cur :: rest) t /\
              exists more, errors g' = errors g0 ++ more).
    { intros g0 t0 g0' H0. apply IH in H0 as [[->|(i & Hi & Ht)] He];
        (split; [|exact He]); [left; reflexivity|].
      right. exists i. split; [|assumption]. right. assumption. }
    assert (Hinv : forall g0, peer_type_of (prev :: cur :: rest) entry_invalid /\
              exists more : list ErrorMsg, errors g0 = errors g0 ++ more).
    { intros g0. split; [left; reflexivity|]. exists []. rewrite app_nil_r. reflexivity. }
    repeat match type of H with
           | (if ?c then _ else _) _ = _ => destruct c eqn:?
           end;
      try (apply Hprev in H; exact H); try (apply Hcur in H; exact H).
    + unfold ret in H. injection H as <- <-. split;
        [|exists []; rewrite app_nil_r; reflexivity].
      right. exists cur. split; [right; left|assumption].
    + unfold bind at 1 in H.
      destruct (ir_num_lit_fits_in_other_type prev cur_type g) as [[fits g1]|]
        eqn:Hf; [|discriminate].
      apply ir_num_lit_fits_errors in Hf as [m1 Hm1].
      destruct fits.
      * apply Hcur in H as [Ht [m2 Hm2]]. split; [exact Ht|].
        exists (m1 ++ m2). rewrite Hm2, Hm1, app_assoc. reflexivity.
      * unfold ret in H. injection H as <- <-. split; [left; reflexivity|]. eauto.
    + unfold bind at 1 in H.
      destruct (ir_num_lit_fits_in_other_type cur prev_type g) as [[fits g1]|]
        eqn:Hf; [|discriminate].
      apply ir_num_lit_fits_errors in Hf as [m1 Hm1].
      destruct fits.
      * apply Hprev in H as [Ht [m2 Hm2]]. split; [exact Ht|].
        exists (m1 ++ m2). rewrite Hm2, Hm1, app_assoc. reflexivity.
      * unfold ret in H. injection H as <- <-. split; [left; reflexivity|]. eauto.
    + unfold bind, add_node_error, modify, ret in H. cbv beta iota in H.
      inversion H; subst.
      split; [left; reflexivity|]. eexists. reflexivity.
Qed.

(** X13: a type that [ir_resolve_peer_types] returns is the invalid type
    or the type of one of the instructions, and the errors reported before
    are a prefix of the errors afterwards. *)
Theorem resolved_peer_type_is_one_of_the_peers src l g t g' :
  ir_resolve_peer_types src l g = Ok (t, g') ->
  peer_type_of l t /\ exists more, errors g' = errors g ++ more.
Proof.
  unfold ir_resolve_peer_types, ir_determine_peer_types.
  destruct l as [|prev rest]; [discriminate|].
  destruct (inst_type_entry prev) as [prev_type|]; [|discriminate].
  rewrite bind_deref_some.
  destruct (id_is prev_type TypeTableEntryIdInvalid).
  - unfold ret. intros [= <- <-]. split; [left; reflexivity|].
    exists []. rewrite app_nil_r. reflexivity.
  - apply ir_determine_peer_types_loop_among.
Qed.

(** ** New basic blocks *)

Lemma ir_get_new_bb_known old_bb bb new_bb a :
  basic_blocks (ira_store a) !! old_bb = Some bb ->
  bb_other bb = Some new_bb ->
  ir_get_new_bb old_bb a = Ok (new_bb, a).
Proof.
  intros Hbb Ho. unfold ir_get_new_bb. repeat mstep'.
  cbn [ir_get_new_bb_fuel]. repeat mstep'. rewrite Ho. reflexivity.
Qed.

Lemma ir_get_new_bb_fresh old_bb bb a :
  basic_blocks (ira_store a) !! old_bb = Some bb ->
  bb_other bb = None ->
  no_leading_phi (ira_store a) bb ->
  let new_bb := length (basic_blocks (ira_store a)) in
  exists a',
    ir_get_new_bb old_bb a = Ok (new_bb, a') /\
    basic_blocks (ira_store a') =
      <[old_bb := set_bb_other (Some new_bb) bb]>
        (basic_blocks (ira_store a) ++
           [new_block_for old_bb bb
              (exec_next_debug_id (irb_exec (ira_new_irb a)))]) /\
    ira_old_bb_queue a' = ira_old_bb_queue a ++ [old_bb] /\
    instructions (ira_store a') = instructions (ira_store a) /\
    ira_codegen a' = ira_codegen a /\
    ira_mem_slot_list a' = ira_mem_slot_list a /\
    ira_old_irb a' = ira_old_irb a /\
    ira_new_irb a' =
      set_irb_exec
        (set_exec_next_debug_id
           (wrap64 (exec_next_debug_id (irb_exec (ira_new_irb a)) + 1))
           (irb_exec (ira_new_irb a))) (ira_new_irb a) /\
    ira_block_queue_index a' = ira_block_queue_index a /\
    ira_instruction_index a' = ira_instruction_index a /\
    ira_explicit_return_type a' = ira_explicit_return_type a /\
    ira_implicit_return_type_list a' = ira_implicit_return_type_list a /\
    ira_const_predecessor_bb a' = ira_const_predecessor_bb a /\
    ira_mem_slot_count a' = ira_mem_slot_count a.
Proof.
  intros Hbb Ho Hphi. cbv zeta.
  unfold ir_get_new_bb. repeat mstep'.
  cbn [ir_get_new_bb_fuel]. repeat mstep'. rewrite Ho.
  destruct a as [g [I B V N C] oirb [ex cur bs cs] L Lc Q qi ii ert irl cp fvl].
  cbn [ira_store ira_codegen ira_new_irb ira_mem_slot_list instructions
       basic_blocks variables irb_current_basic_block irb_exec
       invalid_instruction] in *.
  pose proof (lookup_lt_Some _ _ _ Hbb) as Lbb.
  unfold no_leading_phi in Hphi.
  unfold ir_build_bb_from, ir_build_basic_block_raw, ir_link_new_bb,
    allocate_basic_block.
  analysis_unfold.
  remember (length B) as n eqn:En.
  state_norm. rewrite Hbb. state_norm.
  repeat (first [rewrite Hbb | lookup_step]; state_norm).
  destruct (bb_instruction_list bb) as [|p l] eqn:Hl; cbn [head] in Hphi.
  - eexists. split; [reflexivity|]. state_norm. unfold set_ira_old_bb_queue.
    cbn. split; [|repeat split; reflexivity].
    sink_insert n. rewrite En, insert_app_r_alt by lia.
    rewrite Nat.sub_diag. reflexivity.
  - destruct Hphi as (i & Hi & Hid). cbn [instructions] in Hi.
    state_norm. rewrite Hi.
    rewrite (bool_decide_eq_false_2 _ Hid). cbn [negb].
    eexists. split; [reflexivity|]. state_norm. unfold set_ira_old_bb_queue.
    cbn. split; [|repeat split; reflexivity].
    sink_insert n. rewrite En, insert_app_r_alt by lia.
    rewrite Nat.sub_diag. reflexivity.
Qed.

(** X14: [ir_get_new_bb] on an old block without a new block and without
    a leading phi allocates the new block, linked both ways with the old
    one, and appends the old block to the queue; a second call returns the
    same block and leaves the state as it is. *)
Theorem ir_get_new_bb_makes_one_block_per_old_block old_bb bb a :
  basic_blocks (ira_store a) !! old_bb = Some bb ->
  bb_other bb = None ->
  no_leading_phi (ira_store a) bb ->
  let new_bb := length (basic_blocks (ira_store a)) in
  exists a',
    ir_get_new_bb old_bb a = Ok (new_bb, a') /\
    basic_blocks (ira_store a') =
      <[old_bb := set_bb_other (Some new_bb) bb]>
        (basic_blocks (ira_store a) ++
           [new_block_for old_bb bb
              (exec_next_debug_id (irb_exec (ira_new_irb a)))]) /\
    ira_old_bb_queue a' = ira_old_bb_queue a ++ [old_bb] /\
    ir_get_new_bb old_bb a' = Ok (new_bb, a').
Proof.
  intros Hbb Ho Hphi. cbv zeta.
  destruct (ir_get_new_bb_fresh old_bb bb a Hbb Ho Hphi)
    as (a' & E & HB & HQ & _).
  exists a'. split; [exact E|]. split; [exact HB|]. split; [exact HQ|].
  apply (ir_get_new_bb_known old_bb
           (set_bb_other (Some (length (basic_blocks (ira_store a)))) bb)).
  - rewrite HB. apply list_lookup_insert_eq. rewrite length_app.
    apply lookup_lt_Some in Hbb. lia.
  - reflexivity.
Qed.

(** ** Conditional branches and returns *)

Section ControlFlow.
Variable oracle : Oracle.

(** X16: the analysis of an inline [CondBr] on a [bool] condition whose
    value is not [Static] reports "unable to evaluate constant expression"
    at the condition, marks the new executable invalid, sets the queue
    index to [SIZE_MAX] and changes no object. *)
Theorem inline_cond_br_needs_constant_condition a cond_br_instruction cb
    old_condition oc condition c then_block else_block :
  instructions (ira_store a) !! cond_br_instruction = Some cb ->
  inst_data cb = IrInstructionCondBr old_condition then_block else_block true ->
  instructions (ira_store a) !! old_condition = Some oc ->
  inst_other oc = Some condition ->
  instructions (ira_store a) !! condition = Some c ->
  inst_type_entry c = Some entry_bool ->
  special (inst_static_value c) <> ConstValSpecialStatic ->
  condition <> invalid_instruction (ira_codegen a) ->
  exists a',
    ir_analyze_instruction_cond_br oracle cond_br_instruction a =
      Ok (entry_unreachable, a') /\
    errors (ira_codegen a') =
      errors (ira_codegen a) ++
        [node_error (inst_source_node c)
           "unable to evaluate constant expression" []] /\
    exec_invalid (new_exec a') = true /\
    ira_block_queue_index a' = SIZE_MAX /\
    ira_store a' = ira_store a.
Proof.
  intros Hcb Hcbd Hoc Hoco Hc Hct Hcs Hne.
  unfold ir_analyze_instruction_cond_br. repeat mstep'. rewrite Hcbd.
  repeat mstep'.
  change (id_is entry_bool TypeTableEntryIdInvalid) with false. cbv iota.
  repeat mstep'. cbn [orb].
  unfold ir_resolve_bool. repeat mstep'.
  change (id_is entry_bool TypeTableEntryIdInvalid) with false. cbv iota.
  rewrite ?bind_assoc.
  rewrite (bind_run _ _ _ _ _
             (ir_get_casted_value_same_type oracle condition c entry_bool a Hc Hct
                Hne ltac:(discriminate))).
  repeat mstep'.
  change (id_is entry_bool TypeTableEntryIdInvalid) with false. cbv iota.
  unfold ir_resolve_const. repeat mstep'.
  rewrite (bool_decide_eq_false_2 _ Hcs). cbn [negb]. repeat mstep'.
  unfold ir_unreach_error. repeat mstep'.
  eexists. split; [reflexivity|]. cbn. repeat split; reflexivity.
Qed.


Lemma return_in_last_block_run a return_instruction ri old_value ov value v t
    current bb :
  instructions (ira_store a) !! return_instruction = Some ri ->
  inst_data ri = IrInstructionReturn old_value ->
  instructions (ira_store a) !! old_value = Some ov ->
  inst_other ov = Some value ->
  instructions (ira_store a) !! value = Some v ->
  inst_type_entry v = Some t ->
  type_id t <> TypeTableEntryIdInvalid ->
  value <> invalid_instruction (ira_codegen a) ->
  value <> return_instruction ->
  ira_explicit_return_type a = None \/ ira_explicit_return_type a = Some t ->
  irb_current_basic_block (ira_new_irb a) = Some current ->
  basic_blocks (ira_store a) !! current = Some bb ->
  Z.of_nat (length (ira_old_bb_queue a)) <= wrap64 (ira_block_queue_index a + 1) ->
  let result := length (instructions (ira_store a)) in
  exists a',
    ir_analyze_instruction_return oracle return_instruction a =
      Ok (entry_unreachable, a') /\
    instructions (ira_store a') =
      <[return_instruction := set_inst_other (Some result) ri]>
        (<[value := set_inst_ref_count (wrap64 (inst_ref_count v + 1)) v]>
           (instructions (ira_store a)) ++
         [emitted_return (inst_source_node ri) value
            (exec_next_debug_id (irb_exec (ira_new_irb a)))
            return_instruction]) /\
    basic_blocks (ira_store a') =
      <[current :=
          set_bb_instruction_list (bb_instruction_list bb ++ [result]) bb]>
        (basic_blocks (ira_store a)) /\
    ira_implicit_return_type_list a' =
      ira_implicit_return_type_list a ++ [value] /\
    ira_block_queue_index a' = wrap64 (ira_block_queue_index a + 1) /\
    ira_old_bb_queue a' = ira_old_bb_queue a /\
    ira_codegen a' = ira_codegen a /\
    exec_invalid (new_exec a') = exec_invalid (new_exec a) /\
    exec_basic_block_list (new_exec a') = exec_basic_block_list (new_exec a) /\
    ira_old_irb a' = ira_old_irb a /\
    ira_instruction_index a' = ira_instruction_index a /\
    irb_current_basic_block (ira_new_irb a') = Some current.
Proof.
  intros Hri Hrid Hov Hovo Hv Hvt Htid Hne Hnr Hert Hcur Hbb Hlast. cbv zeta.
  unfold ir_analyze_instruction_return. repeat mstep'. rewrite Hrid.
  repeat mstep'.
  unfold id_is at 1. rewrite (bool_decide_eq_false_2 _ Htid). repeat mstep'.
  cbn [ira_explicit_return_type set_ira_implicit_return_type_list].
  assert (Hcast : forall a0,
            instructions (ira_store a0) = instructions (ira_store a) ->
            ira_codegen a0 = ira_codegen a ->
            ir_get_casted_value oracle value (ira_explicit_return_type a) a0 =
              Ok (value, a0)).
  { intros a0 Hi Hg.
    assert (Hv0 : instructions (ira_store a0) !! value = Some v)
      by (rewrite Hi; exact Hv).
    destruct Hert as [->| ->].
    - unfold ir_get_casted_value. repeat mstep'. rewrite Hg.
      rewrite (bool_decide_eq_false_2 _ Hne). cbn [negb]. repeat mstep'.
      rewrite Hvt. repeat mstep'.
      unfold id_is. rewrite (bool_decide_eq_false_2 _ Htid). reflexivity.
    - apply (ir_get_casted_value_same_type oracle value v t); try assumption.
      rewrite Hg. assumption. }
  match goal with
  | |- context [bind (ir_get_casted_value oracle value _) _ ?s] =>
      rewrite (bind_run _ _ s _ _ (Hcast s eq_refl eq_refl))
  end. clear Hcast.
  repeat mstep'. cbn [ira_codegen set_ira_implicit_return_type_list].
  rewrite (bool_decide_eq_false_2 _ Hne).
  unfold ir_finish_anal. change (id_is entry_unreachable TypeTableEntryIdUnreachable) with true.
  cbv iota. unfold ir_finish_bb.
  clear Hov Hovo Hert.
  destruct a as [g [I B V N C] oirb [ex cur bs cs] L Lc Q qi ii ert irl cp fvl].
  cbn [ira_store ira_codegen ira_new_irb ira_mem_slot_list instructions
       basic_blocks variables irb_current_basic_block irb_exec
       invalid_instruction ira_old_bb_queue ira_block_queue_index] in *.
  subst cur.
  pose proof (lookup_lt_Some _ _ _ Hri) as Lri.
  pose proof (lookup_lt_Some _ _ _ Hv) as Lv.
  pose proof (lookup_lt_Some _ _ _ Hbb) as Lbb.
  unfold ir_build_return_from, ir_build_return.
  analysis_unfold. unfold set_ira_implicit_return_type_list, set_ira_block_queue_index.
  remember (length I) as n eqn:En.
  state_norm. rewrite Hri. state_norm. rewrite Hbb. state_norm.
  repeat (first [rewrite Hri | rewrite Hv | lookup_step]; state_norm).
  destruct (Z.ltb_spec (wrap64 (qi + 1)) (Z.of_nat (length Q))) as [?|_]; [lia|].
  eexists. split; [reflexivity|]. state_norm.
  split.
  { sink_insert n. rewrite En, insert_app_r_alt by lia.
    rewrite Nat.sub_diag, <- En.
    rewrite (insert_app_l _ _ value) by lia. reflexivity. }
  repeat split; reflexivity.
Qed.


(** X17: the analysis of a [Return] of a value of the explicit return
    type, or without an explicit return type, appends the value to the
    implicit return type list and a [Return] of it to the current new
    block; with no further block in the queue the loop of [ir_analyze] is
    over, and the invalid flag and the diagnostics are unchanged. *)
Theorem return_in_last_block_ends_the_analysis a return_instruction ri old_value
    ov value v t current bb :
  instructions (ira_store a) !! return_instruction = Some ri ->
  inst_data ri = IrInstructionReturn old_value ->
  instructions (ira_store a) !! old_value = Some ov ->
  inst_other ov = Some value ->
  instructions (ira_store a) !! value = Some v ->
  inst_type_entry v = Some t ->
  type_id t <> TypeTableEntryIdInvalid ->
  value <> invalid_instruction (ira_codegen a) ->
  value <> return_instruction ->
  ira_explicit_return_type a = None \/ ira_explicit_return_type a = Some t ->
  irb_current_basic_block (ira_new_irb a) = Some current ->
  basic_blocks (ira_store a) !! current = Some bb ->
  Z.of_nat (length (ira_old_bb_queue a)) <= wrap64 (ira_block_queue_index a + 1) ->
  let result := length (instructions (ira_store a)) in
  exists a',
    ir_analyze_instruction_return oracle return_instruction a =
      Ok (entry_unreachable, a') /\
    instructions (ira_store a') !! result =
      Some (emitted_return (inst_source_node ri) value
              (exec_next_debug_id (irb_exec (ira_new_irb a)))
              return_instruction) /\
    basic_blocks (ira_store a') !! current =
      Some (set_bb_instruction_list (bb_instruction_list bb ++ [result]) bb) /\
    ira_implicit_return_type_list a' =
      ira_implicit_return_type_list a ++ [value] /\
    ir_analyze_running a' = false /\
    exec_invalid (new_exec a') = exec_invalid (new_exec a) /\
    ira_codegen a' = ira_codegen a.
Proof.
  intros Hri Hrid Hov Hovo Hv Hvt Htid Hne Hnr Hert Hcur Hbb Hlast. cbv zeta.
  destruct (return_in_last_block_run a return_instruction ri old_value ov value
              v t current bb)
    as (a' & E & HI & HB & HL & HQi & HQ & HG & HX & _); try assumption.
  exists a'. split; [exact E|].
  pose proof (lookup_lt_Some _ _ _ Hri) as Lri.
  pose proof (lookup_lt_Some _ _ _ Hbb) as Lbb.
  split.
  { rewrite HI. rewrite list_lookup_insert_ne by lia.
    rewrite <- (length_insert (instructions (ira_store a)) value
                  (set_inst_ref_count (wrap64 (inst_ref_count v + 1)) v)).
    apply list_lookup_middle. reflexivity. }
  split; [rewrite HB; apply list_lookup_insert_eq; assumption|].
  split; [exact HL|].
  split.
  { unfold ir_analyze_running. rewrite HQi, HQ. apply Z.ltb_ge. exact Hlast. }
  split; assumption.
Qed.

Lemma ir_get_casted_value_mismatch value v t expected a :
  instructions (ira_store a) !! value = Some v ->
  inst_type_entry v = Some t ->
  type_id t <> TypeTableEntryIdInvalid ->
  type_id t <> TypeTableEntryIdUnreachable ->
  value <> invalid_instruction (ira_codegen a) ->
  type_id expected <> TypeTableEntryIdInvalid ->
  expected <> t ->
  ir_types_match_with_implicit_cast expected t v (ira_codegen a) =
    Ok (ImplicitCastMatchResultNo, ira_codegen a) ->
  ir_get_casted_value oracle value (Some expected) a =
    Ok (invalid_instruction (ira_codegen a),
        set_ira_codegen
          (set_errors
             (errors (ira_codegen a) ++
                [node_error (first_executing_node oracle (inst_source_node v))
                   "expected type '%s', found '%s'"
                   [ArgType expected; ArgType t]])
             (ira_codegen a)) a).
Proof.
  intros Hv Hvt Htid Htunr Hne Heid Het Hmatch.
  unfold ir_get_casted_value. repeat mstep'.
  rewrite (bool_decide_eq_false_2 _ Hne). cbn [negb].
  repeat mstep'. unfold id_is at 1. rewrite (bool_decide_eq_false_2 _ Heid).
  cbn [negb]. repeat mstep'. rewrite Hvt. repeat mstep'.
  unfold id_is at 1. rewrite (bool_decide_eq_false_2 _ Htid). cbn [negb].
  repeat mstep'. rewrite (bool_decide_eq_false_2 _ Het).
  unfold id_is at 1. rewrite (bool_decide_eq_false_2 _ Htunr).
  unfold on_codegen at 1. unfold bind at 1. rewrite Hmatch. cbv beta iota.
  destruct a; reflexivity.
Qed.

(** X18: the analysis of a [Return] of a value whose type differs from
    the explicit return type and has no implicit cast to it reports
    "expected type '%s', found '%s'", marks the new executable invalid and
    sets the queue index to [SIZE_MAX]; no object changes, and the value is
    in the implicit return type list all the same. *)
Theorem return_of_mismatched_type_stops_the_analysis a return_instruction ri
    old_value ov value v t expected :
  instructions (ira_store a) !! return_instruction = Some ri ->
  inst_data ri = IrInstructionReturn old_value ->
  instructions (ira_store a) !! old_value = Some ov ->
  inst_other ov = Some value ->
  instructions (ira_store a) !! value = Some v ->
  inst_type_entry v = Some t ->
  type_id t <> TypeTableEntryIdInvalid ->
  type_id t <> TypeTableEntryIdUnreachable ->
  value <> invalid_instruction (ira_codegen a) ->
  ira_explicit_return_type a = Some expected ->
  type_id expected <> TypeTableEntryIdInvalid ->
  expected <> t ->
  ir_types_match_with_implicit_cast expected t v (ira_codegen a) =
    Ok (ImplicitCastMatchResultNo, ira_codegen a) ->
  exists a',
    ir_analyze_instruction_return oracle return_instruction a =
      Ok (entry_unreachable, a') /\
    errors (ira_codegen a') =
      errors (ira_codegen a) ++
        [node_error (first_executing_node oracle (inst_source_node v))
           "expected type '%s', found '%s'" [ArgType expected; ArgType t]] /\
    exec_invalid (new_exec a') = true /\
    ira_block_queue_index a' = SIZE_MAX /\
    ira_store a' = ira_store a /\
    ira_implicit_return_type_list a' =
      ira_implicit_return_type_list a ++ [value].
Proof.
  intros Hri Hrid Hov Hovo Hv Hvt Htid Htunr Hne Hert Heid Het Hmatch.
  unfold ir_analyze_instruction_return. repeat mstep'. rewrite Hrid.
  repeat mstep'.
  unfold id_is at 1. rewrite (bool_decide_eq_false_2 _ Htid). repeat mstep'.
  cbn [ira_explicit_return_type set_ira_implicit_return_type_list].
  rewrite Hert.
  erewrite (bind_run (ir_get_casted_value oracle value (Some expected)));
    [|apply (ir_get_casted_value_mismatch value v t expected); assumption].
  repeat mstep'. cbn [ira_codegen invalid_instruction set_errors].
  rewrite bool_decide_eq_true_2 by reflexivity.
  unfold ir_unreach_error. repeat mstep'.
  eexists. split; [reflexivity|]. cbn. repeat split; reflexivity.
Qed.

End ControlFlow.

(** ** The analysis of a whole function body *)

Ltac ira_norm :=
  unfold with_instructions, with_next_debug_id, set_ira_instruction_index,
    set_ira_block_queue_index, set_ira_old_bb_queue, set_ira_mem_slot_count,
    set_ira_implicit_return_type_list, set_ira_old_irb,
    set_ira_const_predecessor_bb, set_irb_current_basic_block,
    set_exec_next_debug_id, set_exec_basic_block_list;
  state_norm;
  cbn [exec_basic_block_list exec_mem_slot_count exec_next_debug_id
       exec_is_inline exec_invalid exec_backward_branch_count
       exec_backward_branch_quota app].

Ltac run_head tac :=
  lazymatch goal with
  | |- bind ?m ?k ?s = _ =>
      let H := fresh "Hrun" in
      eassert (H : m s = Ok _);
      [ tac | rewrite (bind_run m k s _ _ H); clear H; cbv beta ]
  end.

Ltac solve_step_with tac :=
  unfold old_current_block; ira_norm;
  repeat (lookup_step; ira_norm);
  cbn [bb_instruction_list set_bb_other set_bb_ref_count Z.to_nat
       inst_other inst_type_entry set_inst_other set_inst_type_entry
       invalid_instruction];
  tac;
  first [ reflexivity | eassumption | lia | congruence | left; reflexivity ].

Ltac solve_step := solve_step_with idtac.

Section WholeAnalysis.
Variable oracle : Oracle.

Lemma analyze_referenced_constant a current bb c ci t :
  old_current_block a = Some current ->
  basic_blocks (ira_store a) !! current = Some bb ->
  0 <= ira_instruction_index a ->
  bb_instruction_list bb !! Z.to_nat (ira_instruction_index a) = Some c ->
  instructions (ira_store a) !! c = Some ci ->
  inst_id ci = IrInstructionIdConst ->
  inst_type_entry ci = Some t ->
  type_id t <> TypeTableEntryIdUnreachable ->
  inst_ref_count ci <> 0 ->
  let result := length (instructions (ira_store a)) in
  ir_analyze_loop_body oracle a =
    Ok (Analyzed c t,
        set_ira_instruction_index (wrap64 (ira_instruction_index a + 1))
          (with_instructions
             (<[c := set_inst_type_entry (Some t)
                       (set_inst_other (Some result) ci)]>
                (instructions (ira_store a) ++
                   [folded_constant (inst_source_node ci) (inst_static_value ci)
                      t (exec_next_debug_id (irb_exec (ira_new_irb a))) c]))
             (with_next_debug_id a))).
Proof.
  intros Hcur Hbb Hidx Hlist Hc Hcid Hct Htunr Hcref. cbv zeta.
  unfold old_current_block in Hcur.
  unfold ir_analyze_loop_body. repeat mstep'. rewrite Hcur. repeat mstep'.
  rewrite (bind_run _ _ _ _ _ (list_at_ok _ _ c _ Hidx Hlist)).
  repeat mstep'.
  destruct (Z.eqb_spec (inst_ref_count ci) 0) as [?|_]; [contradiction|].
  repeat mstep'. cbn [andb].
  unfold ir_analyze_instruction. rewrite !bind_assoc.
  unfold ir_analyze_instruction_nocast. repeat mstep'.
  rewrite Hcid.
  unfold ir_analyze_instruction_const.
  destruct a as [g [I B V N C] oirb [ex cur bs cs] L Lc Q qi ii ert irl cp fvl].
  cbn [ira_store ira_codegen ira_new_irb ira_mem_slot_list instructions
       basic_blocks variables irb_current_basic_block irb_exec
       invalid_instruction ira_old_bb_queue ira_block_queue_index
       ira_instruction_index] in *.
  pose proof (lookup_lt_Some _ _ _ Hc) as Lc'.
  analysis_unfold.
  unfold with_instructions, with_next_debug_id, set_ira_instruction_index.
  remember (length I) as n eqn:En.
  state_norm.
  repeat (first [ rewrite Hc | rewrite Hcid | rewrite Hct | lookup_step
                | rewrite bool_decide_eq_false_2 by discriminate
                | progress cbn [inst_type_entry inst_other set_inst_other
                                set_inst_type_entry set_inst_static_value] ];
          state_norm).
  unfold id_is. rewrite (bool_decide_eq_false_2 _ Htunr).
  state_norm. cbn [ira_instruction_index].
  sink_insert n. rewrite !(list_insert_insert_eq _ c).
  rewrite En, insert_app_r_alt by lia.
  rewrite Nat.sub_diag. reflexivity.
Qed.

Lemma analyze_return_in_last_block a old_current old_bb r ri old_value ov value
    v t current bb :
  old_current_block a = Some old_current ->
  basic_blocks (ira_store a) !! old_current = Some old_bb ->
  0 <= ira_instruction_index a ->
  bb_instruction_list old_bb !! Z.to_nat (ira_instruction_index a) = Some r ->
  instructions (ira_store a) !! r = Some ri ->
  inst_id ri = IrInstructionIdReturn ->
  inst_data ri = IrInstructionReturn old_value ->
  instructions (ira_store a) !! old_value = Some ov ->
  inst_other ov = Some value ->
  instructions (ira_store a) !! value = Some v ->
  inst_type_entry v = Some t ->
  type_id t <> TypeTableEntryIdInvalid ->
  value <> invalid_instruction (ira_codegen a) ->
  value <> r ->
  ira_explicit_return_type a = None \/ ira_explicit_return_type a = Some t ->
  irb_current_basic_block (ira_new_irb a) = Some current ->
  basic_blocks (ira_store a) !! current = Some bb ->
  Z.of_nat (length (ira_old_bb_queue a)) <= wrap64 (ira_block_queue_index a + 1) ->
  let result := length (instructions (ira_store a)) in
  ir_analyze_loop_body oracle a =
    Ok (Analyzed r entry_unreachable,
        set_ira_block_queue_index (wrap64 (ira_block_queue_index a + 1))
          (set_ira_implicit_return_type_list
             (ira_implicit_return_type_list a ++ [value])
             (set_ira_store
                (set_basic_blocks
                   (<[current :=
                        set_bb_instruction_list
                          (bb_instruction_list bb ++ [result]) bb]>
                      (basic_blocks (ira_store a)))
                   (set_instructions
                      (<[r := set_inst_type_entry (Some entry_unreachable)
                                (set_inst_other (Some result) ri)]>
                         (<[value := set_inst_ref_count
                                       (wrap64 (inst_ref_count v + 1)) v]>
                            (instructions (ira_store a)) ++
                          [emitted_return (inst_source_node ri) value
                             (exec_next_debug_id (irb_exec (ira_new_irb a)))
                             r]))
                      (ira_store a)))
                (with_next_debug_id a)))).
Proof.
  intros Hcur Hobb Hidx Hlist Hri Hrid Hrd Hov Hovo Hv Hvt Htid Hne Hnr Hert
    Hnc Hbb Hlast.
  cbv zeta. unfold old_current_block in Hcur.
  unfold ir_analyze_loop_body. repeat mstep'. rewrite Hcur. repeat mstep'.
  rewrite (bind_run _ _ _ _ _ (list_at_ok _ _ r _ Hidx Hlist)).
  repeat mstep'.
  assert (Hside :
    (if inst_ref_count ri =? 0 then ir_has_side_effects ri else ret true) a =
      Ok (true, a)).
  { destruct (inst_ref_count ri =? 0); [|reflexivity].
    unfold ir_has_side_effects. rewrite Hrid. reflexivity. }
  rewrite (bind_run _ _ _ _ _ Hside). clear Hside.
  rewrite andb_false_r.
  unfold ir_analyze_instruction. rewrite !bind_assoc.
  unfold ir_analyze_instruction_nocast. repeat mstep'. rewrite Hrid.
  unfold ir_analyze_instruction_return. repeat mstep'. rewrite Hrd.
  repeat mstep'.
  unfold id_is at 1. rewrite (bool_decide_eq_false_2 _ Htid). repeat mstep'.
  cbn [ira_explicit_return_type set_ira_implicit_return_type_list].
  assert (Hcast : forall a0,
            instructions (ira_store a0) = instructions (ira_store a) ->
            ira_codegen a0 = ira_codegen a ->
            ir_get_casted_value oracle value (ira_explicit_return_type a) a0 =
              Ok (value, a0)).
  { intros a0 Hi Hg.
    assert (Hv0 : instructions (ira_store a0) !! value = Some v)
      by (rewrite Hi; exact Hv).
    destruct Hert as [->| ->].
    - unfold ir_get_casted_value. repeat mstep'. rewrite Hg.
      rewrite (bool_decide_eq_false_2 _ Hne). cbn [negb]. repeat mstep'.
      rewrite Hvt. repeat mstep'.
      unfold id_is. rewrite (bool_decide_eq_false_2 _ Htid). reflexivity.
    - apply (ir_get_casted_value_same_type oracle value v t); try assumption.
      rewrite Hg. assumption. }
  match goal with
  | |- context [bind (ir_get_casted_value oracle value _) _ ?s] =>
      rewrite (bind_run _ _ s _ _ (Hcast s eq_refl eq_refl))
  end. clear Hcast.
  repeat mstep'. cbn [ira_codegen set_ira_implicit_return_type_list].
  rewrite (bool_decide_eq_false_2 _ Hne).
  unfold ir_finish_anal.
  change (id_is entry_unreachable TypeTableEntryIdUnreachable) with true.
  cbv iota. unfold ir_finish_bb.
  clear Hov Hovo Hert.
  destruct a as [g [I B V N C] oirb [ex cur bs cs] L Lc Q qi ii ert irl cp fvl].
  cbn [ira_store ira_codegen ira_new_irb ira_mem_slot_list instructions
       basic_blocks variables irb_current_basic_block irb_exec
       invalid_instruction ira_old_bb_queue ira_block_queue_index
       ira_instruction_index ira_implicit_return_type_list] in *.
  subst cur.
  pose proof (lookup_lt_Some _ _ _ Hri) as Lri.
  pose proof (lookup_lt_Some _ _ _ Hv) as Lv.
  pose proof (lookup_lt_Some _ _ _ Hbb) as Lbb.
  unfold ir_build_return_from, ir_build_return.
  analysis_unfold.
  unfold set_ira_implicit_return_type_list, set_ira_block_queue_index,
    with_next_debug_id.
  remember (length I) as n eqn:En.
  state_norm.
  repeat (first [ rewrite Hri | rewrite Hv | rewrite Hbb | lookup_step
                | progress cbn [inst_type_entry inst_other set_inst_other
                                set_inst_type_entry set_inst_static_value
                                set_inst_ref_count] ];
          state_norm).
  destruct (Z.ltb_spec (wrap64 (qi + 1)) (Z.of_nat (length Q))) as [?|_]; [lia|].
  state_norm.
  repeat (first [ rewrite Hri | rewrite Hv | rewrite Hbb | lookup_step
                | progress cbn [inst_type_entry inst_other set_inst_other
                                set_inst_type_entry set_inst_static_value
                                set_inst_ref_count] ];
          state_norm).
  change (id_is entry_unreachable TypeTableEntryIdUnreachable) with true.
  cbv beta iota.
  sink_insert n. rewrite !(list_insert_insert_eq _ r).
  rewrite En, insert_app_r_alt by lia.
  rewrite Nat.sub_diag, <- En.
  rewrite (insert_app_l _ _ value) by lia.
  reflexivity.
Qed.


Lemma ir_start_bb_run old_bb cp bb other a :
  basic_blocks (ira_store a) !! old_bb = Some bb ->
  bb_other bb = Some other ->
  ir_start_bb old_bb cp a =
    Ok (tt,
        set_ira_new_irb
          (set_irb_exec
             (set_exec_basic_block_list
                (exec_basic_block_list (irb_exec (ira_new_irb a)) ++ [other])
                (irb_exec (ira_new_irb a)))
             (ira_new_irb a))
          (set_ira_const_predecessor_bb cp
             (set_ira_old_irb
                (set_irb_current_basic_block (Some old_bb) (ira_old_irb a))
                (set_ira_instruction_index 0 a)))).
Proof.
  intros Hbb Ho. unfold ir_start_bb. repeat mstep. rewrite Ho. reflexivity.
Qed.

Lemma ir_get_new_bb_fresh_run old_bb bb a :
  basic_blocks (ira_store a) !! old_bb = Some bb ->
  bb_other bb = None ->
  no_leading_phi (ira_store a) bb ->
  let new_bb := length (basic_blocks (ira_store a)) in
  ir_get_new_bb old_bb a =
    Ok (new_bb,
        set_ira_old_bb_queue (ira_old_bb_queue a ++ [old_bb])
          (set_ira_store
             (set_basic_blocks
                (<[old_bb := set_bb_other (Some new_bb) bb]>
                   (basic_blocks (ira_store a) ++
                      [new_block_for old_bb bb
                         (exec_next_debug_id (irb_exec (ira_new_irb a)))]))
                (ira_store a))
             (with_next_debug_id a))).
Proof.
  intros Hbb Ho Hphi. cbv zeta.
  unfold ir_get_new_bb. repeat mstep'.
  cbn [ir_get_new_bb_fuel]. repeat mstep'. rewrite Ho.
  destruct a as [g [I B V N C] oirb [ex cur bs cs] L Lc Q qi ii ert irl cp fvl].
  cbn [ira_store ira_codegen ira_new_irb ira_mem_slot_list instructions
       basic_blocks variables irb_current_basic_block irb_exec
       invalid_instruction ira_old_bb_queue] in *.
  pose proof (lookup_lt_Some _ _ _ Hbb) as Lbb.
  unfold no_leading_phi in Hphi.
  unfold ir_build_bb_from, ir_build_basic_block_raw, ir_link_new_bb,
    allocate_basic_block.
  analysis_unfold. unfold with_next_debug_id, set_ira_old_bb_queue.
  remember (length B) as n eqn:En.
  state_norm. rewrite Hbb. state_norm.
  repeat (first [rewrite Hbb | lookup_step]; state_norm).
  destruct (bb_instruction_list bb) as [|p l] eqn:Hl; cbn [head] in Hphi.
  - sink_insert n. rewrite En, insert_app_r_alt by lia.
    rewrite Nat.sub_diag. reflexivity.
  - destruct Hphi as (i & Hi & Hid). cbn [instructions] in Hi.
    state_norm. rewrite Hi.
    rewrite (bool_decide_eq_false_2 _ Hid). cbn [negb].
    sink_insert n. rewrite En, insert_app_r_alt by lia.
    rewrite Nat.sub_diag. reflexivity.
Qed.

(** X19: [ir_analyze], with fuel for two instructions or more, on an
    executable whose entry block is a referenced constant and the [Return]
    of it returns the type of the constant and leaves the diagnostics
    alone, and [ir_exec_const_result] of the new executable is an
    instruction with the value and the type of the constant. *)
Theorem analysis_of_return_of_constant g store old_exec new_exec0 fuel node
    entry more_blocks bb c r ci ri t :
  exec_invalid old_exec = false ->
  exec_basic_block_list old_exec = entry :: more_blocks ->
  basic_blocks store !! entry = Some bb ->
  bb_other bb = None ->
  bb_instruction_list bb = [c; r] ->
  instructions store !! c = Some ci ->
  inst_id ci = IrInstructionIdConst ->
  inst_type_entry ci = Some t ->
  type_id t <> TypeTableEntryIdInvalid ->
  type_id t <> TypeTableEntryIdUnreachable ->
  is_runtime (inst_static_value ci) = false ->
  inst_ref_count ci <> 0 ->
  instructions store !! r = Some ri ->
  inst_id ri = IrInstructionIdReturn ->
  inst_data ri = IrInstructionReturn c ->
  exec_invalid new_exec0 = false ->
  exec_basic_block_list new_exec0 = [] ->
  (invalid_instruction g < length (instructions store))%nat ->
  exists a' k kv,
    ir_analyze oracle (S (S fuel)) node
      (ir_analyze_data g store old_exec new_exec0 None) = Ok (t, a') /\
    ir_exec_const_result (new_exec a') (builder_of a') =
      Ok (Some k, builder_of a') /\
    instructions (ira_store a') !! k = Some kv /\
    inst_static_value kv = inst_static_value ci /\
    inst_type_entry kv = Some t /\
    ira_codegen a' = g.
Proof.
  intros Hoi Hol Hbb Hbo Hbl Hc Hcid Hct Htinv Htunr Hcrt Hcref Hr Hrid Hrd
    Hni Hnl Hinv.
  pose proof (lookup_lt_Some _ _ _ Hc) as Lc.
  pose proof (lookup_lt_Some _ _ _ Hr) as Lr.
  pose proof (lookup_lt_Some _ _ _ Hbb) as Lbb.
  assert (Hcr : c <> r).
  { intros ->. rewrite Hc in Hr. injection Hr as <-. congruence. }
  destruct store as [I B V N C].
  destruct old_exec as [obl omc odi oil oinv obc obq].
  destruct new_exec0 as [nbl nmc ndi nil ninv nbc nbq].
  cbn [instructions basic_blocks exec_invalid exec_basic_block_list] in *.
  subst oinv ninv obl nbl.
  remember (length B) as nb eqn:Enb.
  remember (length I) as n eqn:En.
  eexists _, _, _. split.
  { unfold ir_analyze, ir_analyze_data.
    repeat mstep'. cbn [irb_exec ira_old_irb exec_invalid negb
                        exec_mem_slot_count exec_basic_block_list].
    repeat mstep'.
    rewrite (bind_run _ _ _ _ _
               (list_at_ok (entry :: more_blocks) 0 entry _ ltac:(lia) eq_refl)).
    erewrite (bind_run (ir_get_new_bb entry));
      [|apply (ir_get_new_bb_fresh_run entry bb); 
        [exact Hbb | exact Hbo
        | unfold no_leading_phi; rewrite Hbl; cbn [head]; exists ci;
          split; [exact Hc | congruence] ] ].
    ira_norm.
    run_head ltac:(analysis_unfold; state_norm;
                   repeat (lookup_step; state_norm); reflexivity).
    repeat mstep'. ira_norm.
    erewrite (bind_run (ir_start_bb _ _));
      [|eapply ir_start_bb_run; solve_step].
    ira_norm.
    cbn [ir_analyze_loop]. rewrite bind_assoc, bind_get.
    lazymatch goal with
    | |- context [ir_analyze_running ?s] => change (ir_analyze_running s) with true
    end.
    cbv iota. rewrite bind_assoc.
    erewrite (bind_run (ir_analyze_loop_body oracle));
      [|eapply (analyze_referenced_constant _ entry _ c ci t);
        try solve_step_with ltac:(rewrite ?Hbl)].
    ira_norm. change (wrap64 (0 + 1)) with 1.
    cbn [ir_analyze_loop]. rewrite bind_assoc, bind_get.
    lazymatch goal with
    | |- context [ir_analyze_running ?s] => change (ir_analyze_running s) with true
    end.
    cbv iota. rewrite bind_assoc.
    erewrite (bind_run (ir_analyze_loop_body oracle));
      [|eapply (analyze_return_in_last_block _ entry _ r ri c _ n _ t nb);
        try solve_step_with ltac:(rewrite ?Hbl)].
    ira_norm. change (wrap64 (0 + 1)) with 1.
    cbn [ir_analyze_loop].
    assert (Hstop : forall s, ir_analyze_running s = false ->
              ir_analyze_loop oracle fuel s = Ok (tt, s)).
    { intros s Hs. destruct fuel; cbn [ir_analyze_loop];
        rewrite bind_get, Hs; reflexivity. }
    erewrite (bind_run (ir_analyze_loop oracle fuel));
      [|apply Hstop; reflexivity].
    clear Hstop.
    rewrite bind_get. ira_norm.
    rewrite bool_decide_eq_false_2 by (cbn [length]; lia).
    cbn [foldr]. rewrite !bind_assoc.
    erewrite bind_ira_instruction
      by (ira_norm; repeat lookup_step; reflexivity).
    rewrite bind_assoc, bind_ret, bind_ret.
    unfold on_codegen, ir_resolve_peer_types, ir_determine_peer_types.
    ira_norm. cbn [inst_type_entry set_inst_ref_count folded_constant].
    rewrite bind_deref_some. unfold id_is.
    rewrite (bool_decide_eq_false_2 _ Htinv).
    cbn [ir_determine_peer_types_loop inst_type_entry]. unfold deref.
    unfold set_ira_codegen. reflexivity. }
  unfold builder_of, new_exec. ira_norm.
  split.
  { apply ir_exec_const_result_iff.
    unfold returns_constant. ira_norm.
    eexists nb, _, (n + 1)%nat, _, _.
    split; [reflexivity|].
    split; [repeat lookup_step; reflexivity|].
    split; [reflexivity|].
    split; [repeat lookup_step; reflexivity|].
    split; [reflexivity|]. split; [reflexivity|].
    split; [repeat lookup_step; reflexivity|].
    exact Hcrt. }
  split; [repeat lookup_step; reflexivity|].
  repeat split; reflexivity.
Qed.


End WholeAnalysis.

(** ** The block queue and the references of a branch *)

(** X15: [ir_finish_bb] with another block in the queue advances the
    queue index by one, makes that block the current old block and its new
    block the current new block, resets the instruction index and the const
    predecessor and appends the new block to the new executable; the
    objects and the diagnostics do not change. *)
Theorem ir_finish_bb_moves_to_next_queued_block a old_bb ob new_bb :
  0 <= ira_block_queue_index a ->
  ira_block_queue_index a + 1 < Z.of_nat (length (ira_old_bb_queue a)) ->
  Z.of_nat (length (ira_old_bb_queue a)) <= SIZE_MAX ->
  ira_old_bb_queue a !! Z.to_nat (ira_block_queue_index a + 1) = Some old_bb ->
  basic_blocks (ira_store a) !! old_bb = Some ob ->
  bb_other ob = Some new_bb ->
  exists a',
    ir_finish_bb a = Ok (tt, a') /\
    ira_block_queue_index a' = ira_block_queue_index a + 1 /\
    old_current_block a' = Some old_bb /\
    irb_current_basic_block (ira_new_irb a') = Some new_bb /\
    ira_instruction_index a' = 0 /\
    ira_const_predecessor_bb a' = None /\
    exec_basic_block_list (new_exec a') =
      exec_basic_block_list (new_exec a) ++ [new_bb] /\
    ira_store a' = ira_store a /\
    ira_old_bb_queue a' = ira_old_bb_queue a /\
    ira_codegen a' = ira_codegen a.
Proof.
  intros H0 Hlt Hmax Hq Hob Hoo.
  assert (Hw : wrap64 (ira_block_queue_index a + 1) = ira_block_queue_index a + 1).
  { apply wrap64_small. unfold SIZE_MAX in Hmax. lia. }
  unfold ir_finish_bb. repeat mstep'.
  cbn [ira_block_queue_index ira_old_bb_queue set_ira_block_queue_index].
  rewrite Hw.
  destruct (Z.ltb_spec (ira_block_queue_index a + 1)
              (Z.of_nat (length (ira_old_bb_queue a)))) as [_|?]; [|lia].
  rewrite (bind_run _ _ _ _ _ (list_at_ok (ira_old_bb_queue a) (ira_block_queue_index a + 1) old_bb _
                ltac:(lia) Hq)).
  erewrite (bind_run (ir_get_new_bb old_bb));
    [|apply (ir_get_new_bb_known old_bb ob new_bb); [exact Hob | exact Hoo]].
  repeat mstep'.
  unfold ir_start_bb. repeat mstep'. rewrite Hoo.
  unfold update_new_exec, modify.
  eexists. split; [reflexivity|]. cbn. repeat split; reflexivity.
Qed.

(** X20: [ir_build_cond_br] returns a fresh instruction, appended to the
    current block, and adds one to the reference count of the condition
    and of each target; a block that is both targets gets two. *)
Theorem cond_br_references_both_targets s node condition then_block else_block
    is_inline ci tb eb current cb :
  instructions (b_store s) !! condition = Some ci ->
  basic_blocks (b_store s) !! then_block = Some tb ->
  basic_blocks (b_store s) !! else_block = Some eb ->
  irb_current_basic_block (b_irb s) = Some current ->
  basic_blocks (b_store s) !! current = Some cb ->
  let result := length (instructions (b_store s)) in
  exists s' tb' eb' cb' ci',
    ir_build_cond_br node condition then_block else_block is_inline s =
      Ok (result, s') /\
    basic_blocks (b_store s') !! then_block = Some tb' /\
    bb_ref_count tb' =
      (if decide (then_block = else_block)
       then wrap64 (wrap64 (bb_ref_count tb + 1) + 1)
       else wrap64 (bb_ref_count tb + 1)) /\
    basic_blocks (b_store s') !! else_block = Some eb' /\
    bb_ref_count eb' =
      (if decide (then_block = else_block)
       then wrap64 (wrap64 (bb_ref_count eb + 1) + 1)
       else wrap64 (bb_ref_count eb + 1)) /\
    basic_blocks (b_store s') !! current = Some cb' /\
    bb_instruction_list cb' = bb_instruction_list cb ++ [result] /\
    instructions (b_store s') !! condition = Some ci' /\
    inst_ref_count ci' = wrap64 (inst_ref_count ci + 1).
Proof.
  intros Hci Htb Heb Hcur Hcb. cbv zeta.
  destruct s as [g [I B V N C] [ex cur bs cs]].
  cbn [b_store b_codegen b_irb instructions basic_blocks
       irb_current_basic_block irb_exec] in *.
  subst cur.
  pose proof (lookup_lt_Some _ _ _ Hci) as Lci.
  pose proof (lookup_lt_Some _ _ _ Htb) as Ltb.
  pose proof (lookup_lt_Some _ _ _ Heb) as Leb.
  pose proof (lookup_lt_Some _ _ _ Hcb) as Lcb.
  builder_unfold.
  remember (length I) as n eqn:En.
  state_norm. rewrite Hcb. state_norm.
  repeat (first [rewrite Hci | lookup_step]; state_norm).
  destruct (decide (then_block = else_block)) as [<-|Hte];
    destruct (decide (then_block = current)) as [<-|Htc];
    try destruct (decide (else_block = current)) as [<-|Hec];
    try congruence.
  all: repeat match goal with
              | H1 : ?l !! ?k = Some ?x, H2 : ?l !! ?k = Some ?y |- _ =>
                  rewrite H1 in H2; injection H2 as <-
              end.
  all: repeat (first [rewrite Htb | rewrite Heb | lookup_step]; state_norm).
  all: eexists _, _, _, _, _; (split; [reflexivity|]); state_norm.
  all: repeat (first [rewrite Htb | rewrite Heb | lookup_step]; state_norm).
  all: repeat split; try reflexivity.
  all: repeat lookup_step; reflexivity.
Qed.

(** ** Pointers to the elements of a known array *)

Section ElemPtrInRange.
Variable oracle : Oracle.

(** X24: the analysis of an [ElemPtr] into an array in a mem slot that
    is not [Runtime], at a [Static] index [k] below the length, returns the
    pointer type of the element and links the old instruction with a fresh
    constant pointer of base the array and index [k], whose pointee is the
    element [k] of the array; blocks, mem slots and diagnostics do not
    change. *)
Theorem elem_ptr_of_known_array_points_at_element a elem_ptr_instruction ep
    old_array_ptr oa array_ptr ap old_elem_index oi elem_index ei safety child
    len is_const slot is_c_str arr elements e bn k :
  instructions (ira_store a) !! elem_ptr_instruction = Some ep ->
  inst_id ep = IrInstructionIdElemPtr ->
  inst_data ep =
    IrInstructionElemPtr (Some old_array_ptr) (Some old_elem_index) safety ->
  instructions (ira_store a) !! old_array_ptr = Some oa ->
  inst_other oa = Some array_ptr ->
  instructions (ira_store a) !! array_ptr = Some ap ->
  inst_type_entry ap = Some (TyPointer (TyArray child len) is_const) ->
  special (inst_static_value ap) = ConstValSpecialStatic ->
  data (inst_static_value ap) = x_ptr (mem_slot slot) SIZE_MAX is_c_str ->
  ira_mem_slot_list a !! slot = Some arr ->
  is_runtime arr = false ->
  data arr = x_array elements ->
  elements !! Z.to_nat k = Some e ->
  instructions (ira_store a) !! old_elem_index = Some oi ->
  inst_other oi = Some elem_index ->
  instructions (ira_store a) !! elem_index = Some ei ->
  elem_index <> invalid_instruction (ira_codegen a) ->
  inst_type_entry ei = Some entry_usize ->
  is_runtime (inst_static_value ei) = false ->
  read_x_bignum (inst_static_value ei) = Some bn ->
  bn_x_uint bn = k ->
  0 <= k < len ->
  k <> SIZE_MAX ->
  let result := length (instructions (ira_store a)) in
  exists a' out,
    ir_analyze_instruction_elem_ptr oracle elem_ptr_instruction a =
      Ok (TyPointer child false, a') /\
    instructions (ira_store a') !! elem_ptr_instruction =
      Some (set_inst_other (Some result) ep) /\
    instructions (ira_store a') !! result = Some out /\
    data (inst_static_value out) = x_ptr (mem_slot slot) k false /\
    special (inst_static_value out) = ConstValSpecialStatic /\
    (pointee <- const_ptr_pointee (inst_static_value out) ;; read_val pointee) a' =
      Ok (e, a') /\
    basic_blocks (ira_store a') = basic_blocks (ira_store a) /\
    ira_mem_slot_list a' = ira_mem_slot_list a /\
    ira_codegen a' = ira_codegen a.
Proof.
  intros Hep Hepid Hdata Hoa Hoao Hap Hapt Haps Hapd Hslot Harr Hdarr Hel Hoi
    Hoio Hei Hne Heit Hrt Hbn Hk Hlen Hkmax.
  cbv zeta.
  unfold ir_analyze_instruction_elem_ptr. repeat mstep'. rewrite Hdata.
  repeat mstep'.
  change (id_is (TyPointer (TyArray child len) is_const) TypeTableEntryIdInvalid)
    with false. cbv iota. repeat mstep'.
  change (id_is entry_usize TypeTableEntryIdInvalid) with false. cbv iota.
  repeat mstep'.
  destruct (Z.eqb_spec len 0) as [?|_]; [lia|]. repeat mstep'.
  unfold bind at 1.
  rewrite (ir_get_casted_value_same_type oracle elem_index ei entry_usize a
             Hei Heit Hne) by discriminate.
  repeat mstep'. rewrite (bool_decide_eq_false_2 _ Hne). repeat mstep'.
  rewrite Hrt. cbn [negb]. rewrite Hbn. repeat mstep'. rewrite Hk.
  destruct (Z.geb_spec k len) as [?|_]; [lia|].
  repeat mstep'.
  unfold is_runtime at 1. rewrite Haps.
  rewrite bool_decide_eq_false_2 by discriminate. cbn [negb].
  unfold const_ptr_pointee at 1. rewrite Haps.
  rewrite bool_decide_eq_true_2 by reflexivity. repeat mstep'.
  unfold read_x_ptr at 1. rewrite Hapd. repeat mstep'.
  rewrite Z.eqb_refl. repeat mstep'.
  rewrite (bind_run _ _ _ _ _ (read_slot a slot arr Hslot)).
  rewrite Harr. cbn [negb]. repeat mstep'.
  change (id_is (TyArray child len) TypeTableEntryIdPointer) with false.
  change (is_slice (TyArray child len)) with false.
  change (id_is (TyArray child len) TypeTableEntryIdArray) with true.
  cbv iota.
  clear Hoa Hoao Hoi Hoio.
  destruct a as [g [I B V N C] oirb [ex cur bs cs] L Lc Q qi ii ert irl cp fvl].
  cbn [ira_store ira_codegen ira_new_irb ira_mem_slot_list instructions
       basic_blocks variables irb_current_basic_block irb_exec
       invalid_instruction] in *.
  pose proof (lookup_lt_Some _ _ _ Hep) as Lep.
  analysis_unfold.
  remember (length I) as n eqn:En.
  state_norm. rewrite Hep. state_norm. rewrite Hepid.
  rewrite (bool_decide_eq_false_2 (IrInstructionIdElemPtr = IrInstructionIdVarPtr))
    by discriminate.
  rewrite (bool_decide_eq_false_2 (IrInstructionIdElemPtr = IrInstructionIdFieldPtr))
    by discriminate.
  rewrite bool_decide_eq_true_2 by reflexivity. state_norm.
  repeat (first [rewrite Hep | lookup_step]; state_norm).
  eexists _, _. split; [reflexivity|]. state_norm.
  split; [repeat lookup_step; reflexivity|].
  split; [repeat lookup_step; reflexivity|].
  split; [reflexivity|]. split; [reflexivity|].
  split; [|repeat split; reflexivity].
  unfold const_ptr_pointee.
  cbn [special set_inst_static_value inst_static_value set_data
       set_depends_on_compile_var set_special set_inst_other].
  rewrite bool_decide_eq_true_2 by reflexivity.
  unfold read_x_ptr. cbn [data]. unfold mem_slot, element_ptr, read_x_array_size.
  analysis_unfold. state_norm.
  state_norm. cbn [data set_data]. state_norm.
  destruct (Z.eqb_spec k SIZE_MAX) as [?|_]; [contradiction|].
  state_norm. rewrite Hslot. state_norm. rewrite Hdarr. state_norm.
  pose proof (lookup_lt_Some _ _ _ Hel) as Lel.
  destruct (Z.ltb_spec k (Z.of_nat (length elements))) as [_|?]; [|lia].
  state_norm. rewrite Hslot. state_norm.
  cbn [app val_at_path]. rewrite Hdarr, Hel. reflexivity.
Qed.

End ElemPtrInRange.

(** ** Reads of variables *)

Section Variables.
Variable oracle : Oracle.

Lemma var_ptr_of_known_variable_run a var_ptr_instruction vp var vr ty slot sv :
  instructions (ira_store a) !! var_ptr_instruction = Some vp ->
  inst_id vp = IrInstructionIdVarPtr ->
  inst_data vp = IrInstructionVarPtr var ->
  variables (ira_store a) !! var = Some vr ->
  var_type vr = Some ty ->
  type_id ty <> TypeTableEntryIdInvalid ->
  var_in_fn vr = true ->
  var_mem_slot_index vr = Z.of_nat slot ->
  Z.of_nat slot <> SIZE_MAX ->
  ira_mem_slot_list a !! slot = Some sv ->
  is_runtime sv = false ->
  let result := length (instructions (ira_store a)) in
  exists a',
    ir_analyze_instruction oracle var_ptr_instruction a =
      Ok (TyPointer ty true, a') /\
    instructions (ira_store a') =
      <[var_ptr_instruction :=
          set_inst_type_entry (Some (TyPointer ty true))
            (set_inst_other (Some result) vp)]>
        (instructions (ira_store a) ++
           [constant_var_ptr (inst_source_node vp) var slot
              (depends_on_compile_var sv) ty
              (exec_next_debug_id (irb_exec (ira_new_irb a)))
              var_ptr_instruction]) /\
    basic_blocks (ira_store a') = basic_blocks (ira_store a) /\
    ira_mem_slot_list a' = ira_mem_slot_list a /\
    ira_codegen a' = ira_codegen a.
Proof.
  intros Hvp Hvpid Hvpd Hvar Hty Htid Hfn Hslot Hmax Hsv Hrt. cbv zeta.
  unfold ir_analyze_instruction. rewrite ?bind_assoc.
  unfold ir_analyze_instruction_nocast. repeat mstep'. rewrite Hvpid.
  unfold ir_analyze_instruction_var_ptr. repeat mstep'. rewrite Hvpd.
  unfold ir_analyze_var_ptr, ira_variable.
  destruct a as [g [I B V N C] oirb [ex cur bs cs] L Lc Q qi ii ert irl cp fvl].
  cbn [ira_store ira_codegen ira_new_irb ira_mem_slot_list instructions
       basic_blocks variables irb_current_basic_block irb_exec
       invalid_instruction] in *.
  pose proof (lookup_lt_Some _ _ _ Hvp) as Lvp.
  unfold ir_analyze_const_ptr.
  analysis_unfold. unfold mem_slot.
  remember (length I) as n eqn:En.
  state_norm. rewrite Hvar. state_norm. rewrite Hty. state_norm.
  unfold id_is. rewrite (bool_decide_eq_false_2 _ Htid).
  rewrite Hfn, Hslot.
  destruct (Z.eqb_spec (Z.of_nat slot) SIZE_MAX) as [?|_]; [contradiction|].
  cbn [negb]. rewrite Nat2Z.id. state_norm.
  repeat (first [ rewrite Hsv | rewrite Hrt | rewrite Hvp | rewrite Hvpid
                | rewrite Hvpd | lookup_step
                | rewrite bool_decide_eq_true_2 by reflexivity
                | progress cbn [negb inst_type_entry inst_other set_inst_other
                                set_inst_type_entry set_inst_static_value] ];
          state_norm).
  eexists. split; [reflexivity|]. state_norm.
  split; [|repeat split; reflexivity].
  sink_insert n. rewrite !(list_insert_insert_eq _ var_ptr_instruction).
  rewrite En, insert_app_r_alt by lia.
  rewrite Nat.sub_diag. reflexivity.
Qed.

Lemma read_of_known_variable_run a var_ptr_instruction vp var vr ty slot
    sv load_ptr_instruction lp :
  instructions (ira_store a) !! var_ptr_instruction = Some vp ->
  inst_id vp = IrInstructionIdVarPtr ->
  inst_data vp = IrInstructionVarPtr var ->
  variables (ira_store a) !! var = Some vr ->
  var_type vr = Some ty ->
  type_id ty <> TypeTableEntryIdInvalid ->
  var_in_fn vr = true ->
  var_mem_slot_index vr = Z.of_nat slot ->
  Z.of_nat slot <> SIZE_MAX ->
  ira_mem_slot_list a !! slot = Some sv ->
  is_runtime sv = false ->
  instructions (ira_store a) !! load_ptr_instruction = Some lp ->
  inst_data lp = IrInstructionOperand var_ptr_instruction ->
  let loaded := S (length (instructions (ira_store a))) in
  exists a1 a2 c,
    ir_analyze_instruction oracle var_ptr_instruction a =
      Ok (TyPointer ty true, a1) /\
    ir_analyze_instruction_load_ptr load_ptr_instruction a1 = Ok (ty, a2) /\
    instructions (ira_store a2) !! load_ptr_instruction =
      Some (set_inst_other (Some loaded) lp) /\
    instructions (ira_store a2) !! loaded = Some c /\
    inst_id c = IrInstructionIdConst /\
    inst_static_value c = sv /\
    inst_type_entry c = Some ty /\
    basic_blocks (ira_store a2) = basic_blocks (ira_store a) /\
    ira_mem_slot_list a2 = ira_mem_slot_list a /\
    ira_codegen a2 = ira_codegen a.
Proof.
  intros Hvp Hvpid Hvpd Hvar Hty Htid Hfn Hslot Hmax Hsv Hrt Hlp Hlpd.
  cbv zeta.
  destruct (var_ptr_of_known_variable_run a var_ptr_instruction vp var vr ty
              slot sv) as (a1 & R1 & I1 & B1 & S1 & G1); try assumption.
  pose proof (lookup_lt_Some _ _ _ Hvp) as Lvp.
  pose proof (lookup_lt_Some _ _ _ Hlp) as Llp.
  assert (Hne : load_ptr_instruction <> var_ptr_instruction).
  { intros ->. rewrite Hvp in Hlp. injection Hlp as <-. congruence. }
  assert (Hlen : length (instructions (ira_store a1)) =
                 S (length (instructions (ira_store a)))).
  { rewrite I1. rewrite length_insert, length_app. cbn [length]. lia. }
  destruct (load_ptr_static_run a1 load_ptr_instruction lp var_ptr_instruction
              (set_inst_type_entry (Some (TyPointer ty true))
                 (set_inst_other (Some (length (instructions (ira_store a)))) vp))
              (length (instructions (ira_store a)))
              (constant_var_ptr (inst_source_node vp) var slot
                 (depends_on_compile_var sv) ty
                 (exec_next_debug_id (irb_exec (ira_new_irb a)))
                 var_ptr_instruction)
              ty true (mem_slot slot) false sv)
    as (a2 & R2 & I2 & B2 & S2 & G2).
  - rewrite I1. rewrite list_lookup_insert_ne by congruence.
    rewrite lookup_app_l by assumption. exact Hlp.
  - exact Hlpd.
  - rewrite I1. apply list_lookup_insert_eq. rewrite length_app. lia.
  - reflexivity.
  - rewrite I1. rewrite list_lookup_insert_ne by lia.
    apply list_lookup_middle. reflexivity.
  - reflexivity.
  - reflexivity.
  - reflexivity.
  - apply read_slot. rewrite S1. exact Hsv.
  - exact Hrt.
  - rewrite Hlen in I2.
    exists a1, a2. eexists. split; [exact R1|]. split; [exact R2|].
    split.
    { rewrite I2. apply list_lookup_insert_eq.
      rewrite length_app. cbn [length]. lia. }
    split.
    { rewrite I2. rewrite list_lookup_insert_ne by lia.
      rewrite <- Hlen. apply list_lookup_middle. reflexivity. }
    repeat split; congruence.
Qed.

(** X21: for a variable of a function whose mem slot is not [Runtime],
    the analysis of its [VarPtr] returns the const pointer type and the
    analysis of a [LoadPtr] through it the variable's type, linked with a
    fresh [Const] that holds the value of the slot; blocks, mem slots and
    diagnostics do not change. *)
Theorem read_of_known_variable_is_folded a var_ptr_instruction vp var vr ty slot
    sv load_ptr_instruction lp :
  instructions (ira_store a) !! var_ptr_instruction = Some vp ->
  inst_id vp = IrInstructionIdVarPtr ->
  inst_data vp = IrInstructionVarPtr var ->
  variables (ira_store a) !! var = Some vr ->
  var_type vr = Some ty ->
  type_id ty <> TypeTableEntryIdInvalid ->
  var_in_fn vr = true ->
  var_mem_slot_index vr = Z.of_nat slot ->
  Z.of_nat slot <> SIZE_MAX ->
  ira_mem_slot_list a !! slot = Some sv ->
  is_runtime sv = false ->
  instructions (ira_store a) !! load_ptr_instruction = Some lp ->
  inst_data lp = IrInstructionOperand var_ptr_instruction ->
  let loaded := S (length (instructions (ira_store a))) in
  exists a1 a2 c,
    ir_analyze_instruction oracle var_ptr_instruction a =
      Ok (TyPointer ty true, a1) /\
    ir_analyze_instruction_load_ptr load_ptr_instruction a1 = Ok (ty, a2) /\
    instructions (ira_store a2) !! load_ptr_instruction =
      Some (set_inst_other (Some loaded) lp) /\
    instructions (ira_store a2) !! loaded = Some c /\
    inst_id c = IrInstructionIdConst /\
    inst_static_value c = sv /\
    inst_type_entry c = Some ty /\
    basic_blocks (ira_store a2) = basic_blocks (ira_store a) /\
    ira_mem_slot_list a2 = ira_mem_slot_list a /\
    ira_codegen a2 = ira_codegen a.
Proof. apply read_of_known_variable_run. Qed.

End Variables.

(** ** Declarations of variables *)

Section Declarations.
Variable oracle : Oracle.

Lemma decl_var_run a decl_var_instruction dv var vr old_init_value oi init_value
    iv ty slot old_slot current bb n scope sc :
  instructions (ira_store a) !! decl_var_instruction = Some dv ->
  inst_data dv = IrInstructionDeclVar var None old_init_value ->
  instructions (ira_store a) !! old_init_value = Some oi ->
  inst_other oi = Some init_value ->
  instructions (ira_store a) !! init_value = Some iv ->
  inst_type_entry iv = Some ty ->
  plain_variable_type ty = true ->
  init_value <> invalid_instruction (ira_codegen a) ->
  init_value <> decl_var_instruction ->
  variables (ira_store a) !! var = Some vr ->
  var_mem_slot_index vr = Z.of_nat slot ->
  Z.of_nat slot <> SIZE_MAX ->
  Z.of_nat slot < ira_mem_slot_count a ->
  ira_mem_slot_list a !! slot = Some old_slot ->
  irb_current_basic_block (ira_new_irb a) = Some current ->
  basic_blocks (ira_store a) !! current = Some bb ->
  ast_nodes (ira_store a) !! inst_source_node dv = Some n ->
  node_block_context n = Some scope ->
  block_contexts (ira_store a) !! scope = Some sc ->
  let result := length (instructions (ira_store a)) in
  exists a',
    ir_analyze_instruction_decl_var oracle decl_var_instruction a =
      Ok (entry_void, a') /\
    ira_mem_slot_list a' =
      <[slot := inst_static_value iv]> (ira_mem_slot_list a) /\
    variables (ira_store a') =
      <[var := set_var_type (Some ty) (set_var_ref_count 0 vr)]>
        (variables (ira_store a)) /\
    instructions (ira_store a') =
      <[decl_var_instruction := set_inst_other (Some result) dv]>
        (<[init_value := set_inst_ref_count (wrap64 (inst_ref_count iv + 1)) iv]>
           (instructions (ira_store a)) ++
         [emitted_decl_var (inst_source_node dv) var init_value
            (exec_next_debug_id (irb_exec (ira_new_irb a)))
            decl_var_instruction]) /\
    basic_blocks (ira_store a') =
      <[current :=
          set_bb_instruction_list (bb_instruction_list bb ++ [result]) bb]>
        (basic_blocks (ira_store a)) /\
    ira_codegen a' = ira_codegen a.
Proof.
  intros Hdv Hdvd Hoi Hoio Hiv Hivt Hplain Hne Hnd Hvar Hslot Hmax Hcount Hold
    Hcur Hbb Hn Hscope Hsc.
  cbv zeta.
  assert (Htid : type_id ty <> TypeTableEntryIdInvalid)
    by (destruct ty; discriminate).
  unfold ir_analyze_instruction_decl_var. repeat mstep'. rewrite Hdvd.
  repeat mstep'.
  unfold id_is at 1. rewrite (bool_decide_eq_false_2 _ Htid).
  unfold ira_variable.
  assert (Hcast : forall a0,
            instructions (ira_store a0) = instructions (ira_store a) ->
            ira_codegen a0 = ira_codegen a ->
            ir_get_casted_value oracle init_value None a0 = Ok (init_value, a0)).
  { intros a0 Hi Hg.
    assert (Hv0 : instructions (ira_store a0) !! init_value = Some iv)
      by (rewrite Hi; exact Hiv).
    unfold ir_get_casted_value. repeat mstep'. rewrite Hg.
    rewrite (bool_decide_eq_false_2 _ Hne). cbn [negb]. repeat mstep'.
    rewrite Hivt. repeat mstep'.
    unfold id_is. rewrite (bool_decide_eq_false_2 _ Htid). reflexivity. }
  erewrite bind_run
    by (unfold on_new_irb, get_variable, bind, gets, deref, ret;
        cbn [b_store]; rewrite Hvar; cbn; rewrite ira_state_eta; reflexivity).
  destruct a as [g [I B V N C] oirb [ex cur bs cs] L Lc Q qi ii ert irl cp fvl].
  cbn [ira_store ira_codegen ira_new_irb ira_mem_slot_list instructions
       basic_blocks variables irb_current_basic_block irb_exec
       invalid_instruction ira_mem_slot_count ast_nodes block_contexts] in *.
  subst cur.
  pose proof (lookup_lt_Some _ _ _ Hdv) as Ldv.
  pose proof (lookup_lt_Some _ _ _ Hiv) as Liv.
  pose proof (lookup_lt_Some _ _ _ Hvar) as Lvar.
  pose proof (lookup_lt_Some _ _ _ Hbb) as Lbb.
  pose proof (lookup_lt_Some _ _ _ Hold) as Lold.
  erewrite (bind_run (on_new_irb (update_variable var (set_var_ref_count 0))))
    by (analysis_unfold; state_norm; rewrite Hvar; state_norm; reflexivity).
  erewrite (bind_run (ir_get_casted_value oracle init_value None))
    by (apply Hcast; reflexivity).
  clear Hcast.
  erewrite bind_ira_type_entry by (cbn; eassumption).
  erewrite bind_ira_instruction by (cbn; eassumption).
  match goal with
  | |- context [bind ?m _ _] =>
      lazymatch type of m with
      | M IrAnalyze TypeTableEntry =>
          let Hm := fresh "Hm" in
          assert (Hm : m = ret ty)
            by (destruct ty; try discriminate Hplain; reflexivity);
          rewrite Hm; clear Hm
      end
  end.
  rewrite bind_ret.
  rewrite Hslot.
  destruct (Z.eqb_spec (Z.of_nat slot) SIZE_MAX) as [?|_]; [contradiction|].
  cbn [negb]. rewrite Nat2Z.id.
  unfold ir_build_var_decl_from, ir_build_var_decl, get_node, get_block_context.
  analysis_unfold.
  remember (length I) as k eqn:En.
  state_norm.
  assert (Hlt : (Z.of_nat slot <? Lc) = true) by (apply Z.ltb_lt; exact Hcount).
  repeat (first [ rewrite Hdv | rewrite Hiv | rewrite Hbb | rewrite Hold
                | rewrite Hn | rewrite Hscope | rewrite Hsc | rewrite Hlt
                | lookup_step ];
          state_norm).
  destruct (bc_has_fn_entry sc).
  all: eexists; (split; [reflexivity|]); state_norm; unfold set_variables;
    state_norm; cbn [ira_mem_slot_list ira_store variables instructions
                     basic_blocks ira_codegen set_ira_fn_variable_list].
  all: split; [reflexivity|].
  all: split; [rewrite list_insert_insert_eq; reflexivity|].
  all: split; [|split; reflexivity].
  all: sink_insert k; rewrite En, insert_app_r_alt by lia;
    rewrite Nat.sub_diag, <- En;
    rewrite (insert_app_l _ _ init_value) by lia; reflexivity.
Qed.


(** X22: the analysis of a [DeclVar] without a type, with an initial
    value of a type a variable may have, sets the variable's type to it and
    its reference count to 0, writes the value of the initial instruction to
    the mem slot and appends a [DeclVar] to the current new block, with one
    more reference to the initial value; nothing is reported. *)
Theorem declaration_sets_the_slot_and_is_emitted a decl_var_instruction dv var vr old_init_value oi init_value
    iv ty slot old_slot current bb n scope sc :
  instructions (ira_store a) !! decl_var_instruction = Some dv ->
  inst_data dv = IrInstructionDeclVar var None old_init_value ->
  instructions (ira_store a) !! old_init_value = Some oi ->
  inst_other oi = Some init_value ->
  instructions (ira_store a) !! init_value = Some iv ->
  inst_type_entry iv = Some ty ->
  plain_variable_type ty = true ->
  init_value <> invalid_instruction (ira_codegen a) ->
  init_value <> decl_var_instruction ->
  variables (ira_store a) !! var = Some vr ->
  var_mem_slot_index vr = Z.of_nat slot ->
  Z.of_nat slot <> SIZE_MAX ->
  Z.of_nat slot < ira_mem_slot_count a ->
  ira_mem_slot_list a !! slot = Some old_slot ->
  irb_current_basic_block (ira_new_irb a) = Some current ->
  basic_blocks (ira_store a) !! current = Some bb ->
  ast_nodes (ira_store a) !! inst_source_node dv = Some n ->
  node_block_context n = Some scope ->
  block_contexts (ira_store a) !! scope = Some sc ->
  let result := length (instructions (ira_store a)) in
  exists a',
    ir_analyze_instruction_decl_var oracle decl_var_instruction a =
      Ok (entry_void, a') /\
    ira_mem_slot_list a' =
      <[slot := inst_static_value iv]> (ira_mem_slot_list a) /\
    variables (ira_store a') =
      <[var := set_var_type (Some ty) (set_var_ref_count 0 vr)]>
        (variables (ira_store a)) /\
    instructions (ira_store a') =
      <[decl_var_instruction := set_inst_other (Some result) dv]>
        (<[init_value := set_inst_ref_count (wrap64 (inst_ref_count iv + 1)) iv]>
           (instructions (ira_store a)) ++
         [emitted_decl_var (inst_source_node dv) var init_value
            (exec_next_debug_id (irb_exec (ira_new_irb a)))
            decl_var_instruction]) /\
    basic_blocks (ira_store a') =
      <[current :=
          set_bb_instruction_list (bb_instruction_list bb ++ [result]) bb]>
        (basic_blocks (ira_store a)) /\
    ira_codegen a' = ira_codegen a.
Proof. apply decl_var_run. Qed.

(** X23: after the analysis of the [DeclVar] of a variable of a function
    with a compile-time known initial value, the analysis of a [VarPtr] of
    the variable and of a [LoadPtr] through it links the load with a fresh
    [Const] of the variable's type that holds the initial value. *)
Theorem declared_variable_reads_its_initial_value a decl_var_instruction dv var
    vr old_init_value oi init_value iv ty slot old_slot current bb n scope sc
    var_ptr_instruction vp load_ptr_instruction lp :
  instructions (ira_store a) !! decl_var_instruction = Some dv ->
  inst_data dv = IrInstructionDeclVar var None old_init_value ->
  instructions (ira_store a) !! old_init_value = Some oi ->
  inst_other oi = Some init_value ->
  instructions (ira_store a) !! init_value = Some iv ->
  inst_type_entry iv = Some ty ->
  plain_variable_type ty = true ->
  is_runtime (inst_static_value iv) = false ->
  init_value <> invalid_instruction (ira_codegen a) ->
  init_value <> decl_var_instruction ->
  variables (ira_store a) !! var = Some vr ->
  var_in_fn vr = true ->
  var_mem_slot_index vr = Z.of_nat slot ->
  Z.of_nat slot <> SIZE_MAX ->
  Z.of_nat slot < ira_mem_slot_count a ->
  ira_mem_slot_list a !! slot = Some old_slot ->
  irb_current_basic_block (ira_new_irb a) = Some current ->
  basic_blocks (ira_store a) !! current = Some bb ->
  ast_nodes (ira_store a) !! inst_source_node dv = Some n ->
  node_block_context n = Some scope ->
  block_contexts (ira_store a) !! scope = Some sc ->
  instructions (ira_store a) !! var_ptr_instruction = Some vp ->
  inst_id vp = IrInstructionIdVarPtr ->
  inst_data vp = IrInstructionVarPtr var ->
  var_ptr_instruction <> init_value ->
  instructions (ira_store a) !! load_ptr_instruction = Some lp ->
  inst_data lp = IrInstructionOperand var_ptr_instruction ->
  load_ptr_instruction <> init_value ->
  let loaded := S (S (length (instructions (ira_store a)))) in
  exists a1 a2 a3 c,
    ir_analyze_instruction_decl_var oracle decl_var_instruction a =
      Ok (entry_void, a1) /\
    ir_analyze_instruction oracle var_ptr_instruction a1 =
      Ok (TyPointer ty true, a2) /\
    ir_analyze_instruction_load_ptr load_ptr_instruction a2 = Ok (ty, a3) /\
    instructions (ira_store a3) !! load_ptr_instruction =
      Some (set_inst_other (Some loaded) lp) /\
    instructions (ira_store a3) !! loaded = Some c /\
    inst_id c = IrInstructionIdConst /\
    inst_static_value c = inst_static_value iv /\
    inst_type_entry c = Some ty.
Proof.
  intros Hdv Hdvd Hoi Hoio Hiv Hivt Hplain Hrt Hne Hnd Hvar Hfn Hslot Hmax
    Hcount Hold Hcur Hbb Hn Hscope Hsc Hvp Hvpid Hvpd Hvi Hlp Hlpd Hli.
  cbv zeta.
  destruct (decl_var_run a decl_var_instruction dv var vr old_init_value oi
              init_value iv ty slot old_slot current bb n scope sc)
    as (a1 & R1 & S1 & V1 & I1 & B1 & G1); try assumption.
  pose proof (lookup_lt_Some _ _ _ Hdv) as Ldv.
  pose proof (lookup_lt_Some _ _ _ Hiv) as Liv.
  pose proof (lookup_lt_Some _ _ _ Hvp) as Lvp.
  pose proof (lookup_lt_Some _ _ _ Hlp) as Llp.
  pose proof (lookup_lt_Some _ _ _ Hvar) as Lvar.
  pose proof (lookup_lt_Some _ _ _ Hold) as Lold.
  assert (Hvd : var_ptr_instruction <> decl_var_instruction).
  { intros ->. rewrite Hdv in Hvp. injection Hvp as <-. congruence. }
  assert (Hld : load_ptr_instruction <> decl_var_instruction).
  { intros ->. rewrite Hdv in Hlp. injection Hlp as <-. congruence. }
  assert (Hlen : length (instructions (ira_store a1)) =
                 S (length (instructions (ira_store a)))).
  { rewrite I1. rewrite length_insert, length_app, length_insert.
    cbn [length]. lia. }
  assert (Htid : type_id ty <> TypeTableEntryIdInvalid)
    by (destruct ty; discriminate).
  destruct (read_of_known_variable_run oracle a1 var_ptr_instruction vp var
              (set_var_type (Some ty) (set_var_ref_count 0 vr)) ty slot
              (inst_static_value iv) load_ptr_instruction lp)
    as (a2 & a3 & c & R2 & R3 & L1 & L2 & C1 & C2 & C3 & _).
  - rewrite I1. rewrite list_lookup_insert_ne by congruence.
    rewrite lookup_app_l by (rewrite length_insert; assumption).
    rewrite list_lookup_insert_ne by congruence. exact Hvp.
  - exact Hvpid.
  - exact Hvpd.
  - rewrite V1. apply list_lookup_insert_eq. assumption.
  - reflexivity.
  - exact Htid.
  - exact Hfn.
  - exact Hslot.
  - exact Hmax.
  - rewrite S1. apply list_lookup_insert_eq. assumption.
  - exact Hrt.
  - rewrite I1. rewrite list_lookup_insert_ne by congruence.
    rewrite lookup_app_l by (rewrite length_insert; assumption).
    rewrite list_lookup_insert_ne by congruence. exact Hlp.
  - exact Hlpd.
  - rewrite Hlen in L1, L2.
    exists a1, a2, a3, c. repeat split; assumption.
Qed.

End Declarations.

(** ** The properties at example programs *)

Ltac witness_side :=
  lazymatch goal with
  | |- _ <> _ => vm_compute; discriminate
  | |- _ \/ _ => first [left; reflexivity | right; reflexivity]
  | |- _ <= _ => vm_compute; discriminate
  | |- _ < _ => reflexivity
  | |- _ => reflexivity
  end.

(** X4, at an example program. *)
Lemma load_through_constant_pointer_is_folded_witness :
  exists a',
    ir_analyze_instruction_load_ptr 6%nat operations_state = Ok (entry_bool, a') /\
    ira_mem_slot_list a' = ira_mem_slot_list operations_state.
Proof.
  edestruct (load_through_constant_pointer_is_folded operations_state 6%nat)
    as (a' & E & _ & _ & S & _); [witness_side..|].
  exists a'. split; [exact E | exact S].
Defined.

(** X1, at an example program. *)
Lemma for_expr_without_element_is_rejected_witness :
  exists s',
    ir_gen_node_extra no_other_generators 1 0%nat (Some 0%nat) LValPurposeNone
      for_without_element = Ok (0%nat, s') /\
    exec_invalid (irb_exec (b_irb s')) = true.
Proof.
  edestruct (for_expr_without_element_is_rejected no_other_generators 0 0%nat
               (a_node NodeTypeForExpr
                  (data_for_expr 1%nat None None 2%nat false false None None))
               0%nat LValPurposeNone for_without_element)
    as (s' & E & _ & X & _); [witness_side..|].
  exists s'. split; [exact E | exact X].
Defined.

(** X2, at an example program. *)
Lemma asm_expr_without_output_must_be_volatile_witness :
  exists s',
    ir_gen_node_extra no_other_generators 1 0%nat (Some 0%nat) LValPurposeNone
      asm_without_output = Ok (0%nat, s') /\
    exec_invalid (irb_exec (b_irb s')) = true.
Proof.
  edestruct (asm_expr_without_output_must_be_volatile no_other_generators 0
               0%nat
               {| node_type := NodeTypeAsmExpr; node_block_context := Some 0%nat;
                  node_data := data_asm_expr false [] [] |}
               0%nat LValPurposeNone asm_without_output)
    as (s' & E & _ & X & _); [witness_side..|].
  exists s'. split; [exact E | exact X].
Defined.

(** X3, at an example program. *)
Lemma bool_literal_generates_static_constant_witness :
  exists s' bb',
    ir_gen_node_extra no_other_generators 1 1%nat (Some 0%nat) LValPurposeNone
      while_true = Ok (1%nat, s') /\
    basic_blocks (b_store s') !! 0%nat = Some bb' /\
    bb_instruction_list bb' = [1%nat].
Proof.
  edestruct (bool_literal_generates_static_constant no_other_generators 0
               1%nat (a_node NodeTypeBoolLiteral (data_bool_literal true))
               0%nat while_true true 0%nat)
    as (s' & bb' & E & _ & B1 & B2 & _);
    [witness_side | witness_side | witness_side | witness_side | witness_side
    | eexists; reflexivity |].
  exists s', bb'. split; [exact E|]. split; [exact B1 | exact B2].
Defined.

(** X7, at an example program. *)
Lemma store_of_static_value_updates_slot_and_emits_nothing_witness :
  exists a',
    ir_analyze_instruction_store_ptr no_oracle 5%nat operations_state =
      Ok (entry_void, a') /\
    ira_mem_slot_list a' = [static_value (x_bool false)].
Proof.
  edestruct (store_of_static_value_updates_slot_and_emits_nothing no_oracle
               operations_state 5%nat)
    as (a' & E & S & _); [witness_side..|].
  exists a'. split; [exact E | exact S].
Defined.

(** X8, at an example program. *)
Lemma static_store_then_load_reads_back_witness :
  exists a1 a2 c,
    ir_analyze_instruction_store_ptr no_oracle 5%nat operations_state =
      Ok (entry_void, a1) /\
    ir_analyze_instruction_load_ptr 6%nat a1 = Ok (entry_bool, a2) /\
    instructions (ira_store a2) !! 24%nat = Some c /\
    inst_static_value c = static_value (x_bool false).
Proof.
  edestruct (static_store_then_load_reads_back no_oracle operations_state 5%nat)
    as (a1 & a2 & c & E1 & E2 & _ & L & _ & V & _);
    [witness_side | witness_side | witness_side | witness_side | witness_side
    | witness_side | witness_side | witness_side | witness_side | witness_side
    | witness_side | witness_side | witness_side | witness_side | witness_side
    | witness_side | witness_side | witness_side
    | exact (eq_refl : instructions (ira_store operations_state) !! 6%nat = Some _)
    | witness_side | witness_side | witness_side |].
  exists a1, a2, c. split; [exact E1|]. split; [exact E2|].
  split; [exact L | exact V].
Defined.

(** X5, at an example program. *)
Lemma load_of_unknown_pointee_emits_load_witness :
  exists a',
    ir_analyze_instruction_load_ptr 21%nat operations_state =
      Ok (entry_bool, a') /\
    basic_blocks (ira_store a') !! 1%nat =
      Some (example_block "Entry" 0 1 (Some 0%nat) [23%nat]).
Proof.
  edestruct (load_of_unknown_pointee_emits_load operations_state 21%nat)
    as (a' & E & _ & B & _);
    [witness_side | witness_side | witness_side | witness_side | witness_side
    | witness_side | left; reflexivity | witness_side | witness_side
    | witness_side |].
  exists a'. split; [exact E|]. rewrite B. reflexivity.
Defined.

(** X6, at an example program. *)
Lemma load_through_non_pointer_is_an_error_witness :
  exists a',
    ir_analyze_instruction_load_ptr 16%nat operations_state =
      Ok (entry_invalid, a') /\
    errors (ira_codegen a') =
      [node_error 0%nat "attempt to dereference non pointer type '%s'"
         [ArgType entry_bool]].
Proof.
  edestruct (load_through_non_pointer_is_an_error operations_state 16%nat)
    as (a' & E & R & _); [witness_side..|].
  exists a'. split; [exact E | exact R].
Defined.

(** X9, at an example program. *)
Lemma bool_op_on_constants_is_folded_witness :
  exists a' c,
    ir_analyze_bin_op_bool no_oracle 11%nat operations_state =
      Ok (entry_bool, a') /\
    instructions (ira_store a') !! 23%nat = Some c /\
    inst_static_value c = static_value (x_bool true).
Proof.
  edestruct (bool_op_on_constants_is_folded no_oracle operations_state 11%nat)
    as (a' & E & I & _); [witness_side..|].
  exists a'. eexists. split; [exact E|]. rewrite I. split; reflexivity.
Defined.

(** X10, at an example program. *)
Lemma bool_op_on_runtime_operand_is_emitted_witness :
  exists a' bi,
    ir_analyze_bin_op_bool no_oracle 12%nat operations_state =
      Ok (entry_bool, a') /\
    instructions (ira_store a') !! 23%nat = Some bi /\
    inst_data bi = IrInstructionBinOp IrBinOpBoolAnd 4%nat 8%nat.
Proof.
  edestruct (bool_op_on_runtime_operand_is_emitted no_oracle operations_state
               12%nat)
    as (a' & bi & E & I & _ & D & _); [witness_side..|].
  exists a', bi. split; [exact E|]. split; [exact I | exact D].
Defined.

(** X11, at an example program. *)
Lemma phi_after_inlined_branch_takes_value_of_that_edge_witness :
  exists a' c,
    ir_analyze_instruction_phi no_oracle 15%nat
      (set_ira_const_predecessor_bb (Some 2%nat) operations_state) =
      Ok (entry_bool, a') /\
    instructions (ira_store a') !! 23%nat = Some c /\
    inst_static_value c = static_value (x_bool true).
Proof.
  edestruct (phi_after_inlined_branch_takes_value_of_that_edge no_oracle
               (set_ira_const_predecessor_bb (Some 2%nat) operations_state)
               15%nat
               (example_instruction IrInstructionIdPhi
                  (IrInstructionPhi [4%nat; 2%nat] [3%nat; 9%nat]) None
                  runtime_value None 1)
               [4%nat; 2%nat] [3%nat; 9%nat] 2%nat [4%nat] [])
    as (a' & E & I & _);
    [witness_side | witness_side | witness_side | witness_side | witness_side
    | intros H; apply list_elem_of_singleton in H; discriminate H
    | witness_side | witness_side | witness_side | witness_side | witness_side
    | witness_side | witness_side |].
  exists a'. eexists. split; [exact E|]. rewrite I. split; reflexivity.
Defined.

(** X12, at an example program. *)
Lemma phi_with_one_live_predecessor_is_its_value_witness :
  exists a' ph,
    ir_analyze_instruction_phi no_oracle 15%nat operations_state =
      Ok (entry_bool, a') /\
    instructions (ira_store a') !! 15%nat = Some ph /\
    inst_other ph = Some 10%nat.
Proof.
  edestruct (phi_with_one_live_predecessor_is_its_value no_oracle
               operations_state 15%nat
               (example_instruction IrInstructionIdPhi
                  (IrInstructionPhi [4%nat; 2%nat] [3%nat; 9%nat]) None
                  runtime_value None 1)
               [4%nat; 2%nat] [3%nat; 9%nat] 2%nat
               (example_block "Then" 1 1 (Some 3%nat) []) 3%nat [4%nat] [])
    as (a' & E & I & _);
    [witness_side | witness_side | witness_side | witness_side
    | repeat constructor; eexists; split; reflexivity
    | constructor
    | witness_side | witness_side | witness_side | witness_side | witness_side
    | witness_side | witness_side | witness_side | witness_side | witness_side |].
  exists a'. eexists. split; [exact E|]. rewrite I. split; reflexivity.
Defined.

(** X13, at an example program. *)
Lemma resolved_peer_type_is_one_of_the_peers_witness :
  peer_type_of [analyzed_instruction ty_i8; analyzed_instruction ty_i16] ty_i16 /\
  exists more, errors empty_codegen = errors empty_codegen ++ more.
Proof.
  apply (resolved_peer_type_is_one_of_the_peers 0%nat
           [analyzed_instruction ty_i8; analyzed_instruction ty_i16]
           empty_codegen ty_i16 empty_codegen).
  reflexivity.
Defined.

(** X14, at an example program. *)
Lemma ir_get_new_bb_makes_one_block_per_old_block_witness :
  exists a',
    ir_get_new_bb 4%nat operations_state = Ok (5%nat, a') /\
    ira_old_bb_queue a' = [0%nat; 4%nat] /\
    ir_get_new_bb 4%nat a' = Ok (5%nat, a').
Proof.
  edestruct (ir_get_new_bb_makes_one_block_per_old_block 4%nat
               (example_block "Else" 2 0 None []) operations_state)
    as (a' & E & _ & Q & E'); [witness_side | witness_side | exact I |].
  exists a'. split; [exact E|]. split; [exact Q | exact E'].
Defined.

(** X16, at an example program. *)
Lemma inline_cond_br_needs_constant_condition_witness :
  exists a',
    ir_analyze_instruction_cond_br no_oracle 13%nat operations_state =
      Ok (entry_unreachable, a') /\
    errors (ira_codegen a') =
      [node_error 0%nat "unable to evaluate constant expression" []] /\
    exec_invalid (new_exec a') = true.
Proof.
  edestruct (inline_cond_br_needs_constant_condition no_oracle operations_state
               13%nat)
    as (a' & E & R & X & _); [witness_side..|].
  exists a'. split; [exact E|]. split; [exact R | exact X].
Defined.

(** X19, at an example program. *)
Lemma analysis_of_return_of_constant_witness :
  exists a' k kv,
    ir_analyze no_oracle 2 0%nat
      (ir_analyze_data example_codegen constant_function_store
         (example_exec [0%nat] 3 0 1000) (example_exec [] 3 0 1000) None) =
      Ok (entry_bool, a') /\
    ir_exec_const_result (new_exec a') (builder_of a') =
      Ok (Some k, builder_of a') /\
    instructions (ira_store a') !! k = Some kv /\
    inst_static_value kv = static_value (x_bool true).
Proof.
  edestruct (analysis_of_return_of_constant no_oracle example_codegen
               constant_function_store (example_exec [0%nat] 3 0 1000)
               (example_exec [] 3 0 1000) 0 0%nat 0%nat [])
    as (a' & k & kv & E & R & L & V & _);
    [witness_side | witness_side | witness_side | witness_side | witness_side
    | witness_side | witness_side | witness_side | witness_side | witness_side
    | witness_side | witness_side | witness_side | witness_side | witness_side
    | witness_side | witness_side | vm_compute; lia |].
  exists a', k, kv. split; [exact E|]. split; [exact R|].
  split; [exact L | exact V].
Defined.

(** X17, at an example program. *)
Lemma return_in_last_block_ends_the_analysis_witness :
  exists a',
    ir_analyze_instruction_return no_oracle 14%nat operations_state =
      Ok (entry_unreachable, a') /\
    ira_implicit_return_type_list a' = [4%nat] /\
    ir_analyze_running a' = false.
Proof.
  edestruct (return_in_last_block_ends_the_analysis no_oracle operations_state
               14%nat)
    as (a' & E & _ & _ & L & R & _); [witness_side..|].
  exists a'. split; [exact E|]. split; [exact L | exact R].
Defined.

(** X18, at an example program. *)
Lemma return_of_mismatched_type_stops_the_analysis_witness :
  exists a',
    ir_analyze_instruction_return no_oracle 14%nat
      (set_ira_explicit_return_type (Some ty_i8) operations_state) =
      Ok (entry_unreachable, a') /\
    errors (ira_codegen a') =
      [node_error 0%nat "expected type '%s', found '%s'"
         [ArgType ty_i8; ArgType entry_bool]] /\
    exec_invalid (new_exec a') = true.
Proof.
  edestruct (return_of_mismatched_type_stops_the_analysis no_oracle
               (set_ira_explicit_return_type (Some ty_i8) operations_state)
               14%nat)
    as (a' & E & R & X & _); [witness_side..|].
  exists a'. split; [exact E|]. split; [exact R | exact X].
Defined.

(** X15, at an example program. *)
Lemma ir_finish_bb_moves_to_next_queued_block_witness :
  exists a',
    ir_finish_bb (set_ira_old_bb_queue [0%nat; 2%nat] operations_state) =
      Ok (tt, a') /\
    old_current_block a' = Some 2%nat /\
    irb_current_basic_block (ira_new_irb a') = Some 3%nat.
Proof.
  edestruct (ir_finish_bb_moves_to_next_queued_block
               (set_ira_old_bb_queue [0%nat; 2%nat] operations_state) 2%nat
               (example_block "Then" 1 1 (Some 3%nat) []) 3%nat)
    as (a' & E & _ & O & N & _);
    [vm_compute; discriminate | reflexivity | vm_compute; discriminate
    | reflexivity | reflexivity | reflexivity |].
  exists a'. split; [exact E|]. split; [exact O | exact N].
Defined.

(** X20, at an example program. *)
Lemma cond_br_references_both_targets_witness :
  exists s' tb',
    ir_build_cond_br 0%nat 8%nat 3%nat 3%nat false
      (example_builder_of operations_store) = Ok (23%nat, s') /\
    basic_blocks (b_store s') !! 3%nat = Some tb' /\
    bb_ref_count tb' = 3.
Proof.
  edestruct (cond_br_references_both_targets (example_builder_of operations_store)
               0%nat 8%nat 3%nat 3%nat false)
    as (s' & tb' & eb' & cb' & ci' & E & T & R & _); [witness_side..|].
  exists s', tb'. split; [exact E|]. split; [exact T | exact R].
Defined.

(** X21, at an example program. *)
Lemma read_of_known_variable_is_folded_witness :
  exists a1 a2 c,
    ir_analyze_instruction no_oracle 17%nat operations_state =
      Ok (TyPointer entry_bool true, a1) /\
    ir_analyze_instruction_load_ptr 18%nat a1 = Ok (entry_bool, a2) /\
    instructions (ira_store a2) !! 24%nat = Some c /\
    inst_static_value c = static_value (x_bool true).
Proof.
  edestruct (read_of_known_variable_is_folded no_oracle operations_state 17%nat
               (example_instruction IrInstructionIdVarPtr
                  (IrInstructionVarPtr 0%nat) None runtime_value None 1)
               0%nat (a_variable "x" entry_bool 0) entry_bool 0%nat
               (static_value (x_bool true)) 18%nat)
    as (a1 & a2 & c & E1 & E2 & _ & L & _ & V & _); [witness_side..|].
  exists a1, a2, c. split; [exact E1|]. split; [exact E2|].
  split; [exact L | exact V].
Defined.

(** X24, at an example program. *)
Lemma elem_ptr_of_known_array_points_at_element_witness :
  exists a' out,
    ir_analyze_instruction_elem_ptr no_oracle 5%nat (array_state 2) =
      Ok (TyPointer ty_u8 false, a') /\
    instructions (ira_store a') !! 6%nat = Some out /\
    (pointee <- const_ptr_pointee (inst_static_value out) ;; read_val pointee) a' =
      Ok (usize_value 3, a').
Proof.
  edestruct (elem_ptr_of_known_array_points_at_element no_oracle (array_state 2)
               5%nat
               (example_instruction IrInstructionIdElemPtr
                  (IrInstructionElemPtr (Some 1%nat) (Some 3%nat) true)
                  None runtime_value None 1)
               1%nat
               (example_instruction IrInstructionIdVarPtr
                  (IrInstructionVarPtr 0%nat) None runtime_value (Some 2%nat) 1)
               2%nat
               (example_instruction IrInstructionIdVarPtr
                  (IrInstructionVarPtr 0%nat)
                  (Some (TyPointer (TyArray ty_u8 3) true))
                  (static_value (x_ptr (mem_slot 0) SIZE_MAX false))
                  (Some 1%nat) 1)
               3%nat
               (example_instruction IrInstructionIdConst IrInstructionConst
                  None runtime_value (Some 4%nat) 1)
               4%nat
               (example_instruction IrInstructionIdConst IrInstructionConst
                  (Some entry_usize) (usize_value 2) (Some 3%nat) 1)
               true ty_u8 3 true 0%nat false
               (static_value (x_array [usize_value 1; usize_value 2; usize_value 3]))
               [usize_value 1; usize_value 2; usize_value 3] (usize_value 3)
               {| bn_kind := BigNumKindInt; bn_is_negative := false;
                  bn_x_uint := 2 |} 2)
    as (a' & out & E & _ & L & _ & _ & P & _);
    [witness_side | witness_side | witness_side | witness_side | witness_side
    | witness_side | witness_side | witness_side | witness_side | witness_side
    | witness_side | witness_side | witness_side | witness_side | witness_side
    | witness_side | witness_side | witness_side | witness_side | witness_side
    | witness_side | lia | witness_side |].
  exists a', out. split; [exact E|]. split; [exact L | exact P].
Defined.

(** X25, at an example program. *)
Lemma elem_ptr_index_outside_array_witness :
  exists a',
    ir_analyze_instruction_elem_ptr no_oracle 5%nat (array_state 3) =
      Ok (entry_invalid, a') /\
    errors (ira_codegen a') = [index_outside_array_error 0%nat 3 3].
Proof.
  eexists. split.
  - apply (elem_ptr_index_outside_array no_oracle (array_state 3) 5%nat
             (example_instruction IrInstructionIdElemPtr
                (IrInstructionElemPtr (Some 1%nat) (Some 3%nat) true)
                None runtime_value None 1)
             1%nat
             (example_instruction IrInstructionIdVarPtr
                (IrInstructionVarPtr 0%nat) None runtime_value (Some 2%nat) 1)
             2%nat
             (example_instruction IrInstructionIdVarPtr
                (IrInstructionVarPtr 0%nat)
                (Some (TyPointer (TyArray ty_u8 3) true))
                (static_value (x_ptr (mem_slot 0) SIZE_MAX false))
                (Some 1%nat) 1)
             3%nat
             (example_instruction IrInstructionIdConst IrInstructionConst
                None runtime_value (Some 4%nat) 1)
             4%nat
             (example_instruction IrInstructionIdConst IrInstructionConst
                (Some entry_usize) (usize_value 3) (Some 3%nat) 1)
             true ty_u8 3 true 3
             {| bn_kind := BigNumKindInt; bn_is_negative := false;
                bn_x_uint := 3 |});
      first [reflexivity | lia | discriminate].
  - reflexivity.
Defined.

(** X22, at an example program. *)
Lemma declaration_sets_the_slot_and_is_emitted_witness :
  exists a' bb',
    ir_analyze_instruction_decl_var no_oracle 22%nat operations_state =
      Ok (entry_void, a') /\
    ira_mem_slot_list a' = [static_value (x_bool true)] /\
    basic_blocks (ira_store a') !! 1%nat = Some bb' /\
    bb_instruction_list bb' = [23%nat].
Proof.
  edestruct (declaration_sets_the_slot_and_is_emitted no_oracle operations_state
               22%nat
               (example_instruction IrInstructionIdDeclVar
                  (IrInstructionDeclVar 0%nat None 9%nat) None runtime_value
                  None 0)
               0%nat (a_variable "x" entry_bool 0) 9%nat
               (example_instruction IrInstructionIdConst IrInstructionConst
                  (Some entry_bool) (static_value (x_bool true)) (Some 10%nat) 1)
               10%nat
               (example_instruction IrInstructionIdConst IrInstructionConst
                  (Some entry_bool) (static_value (x_bool true)) (Some 9%nat) 0)
               entry_bool 0%nat)
    as (a' & E & S & _ & _ & B & _); [witness_side..|].
  exists a'. eexists. split; [exact E|]. split; [exact S|].
  rewrite B. split; reflexivity.
Defined.

(** X23, at an example program. *)
Lemma declared_variable_reads_its_initial_value_witness :
  exists a1 a2 a3 c,
    ir_analyze_instruction_decl_var no_oracle 22%nat operations_state =
      Ok (entry_void, a1) /\
    ir_analyze_instruction no_oracle 17%nat a1 =
      Ok (TyPointer entry_bool true, a2) /\
    ir_analyze_instruction_load_ptr 18%nat a2 = Ok (entry_bool, a3) /\
    instructions (ira_store a3) !! 25%nat = Some c /\
    inst_static_value c = static_value (x_bool true).
Proof.
  edestruct (declared_variable_reads_its_initial_value no_oracle operations_state
               22%nat
               (example_instruction IrInstructionIdDeclVar
                  (IrInstructionDeclVar 0%nat None 9%nat) None runtime_value
                  None 0)
               0%nat (a_variable "x" entry_bool 0) 9%nat
               (example_instruction IrInstructionIdConst IrInstructionConst
                  (Some entry_bool) (static_value (x_bool true)) (Some 10%nat) 1)
               10%nat
               (example_instruction IrInstructionIdConst IrInstructionConst
                  (Some entry_bool) (static_value (x_bool true)) (Some 9%nat) 0)
               entry_bool 0%nat)
    as (a1 & a2 & a3 & c & E1 & E2 & E3 & _ & L & _ & V & _);
    [witness_side | witness_side | witness_side | witness_side | witness_side
    | witness_side | witness_side | witness_side | witness_side | witness_side
    | witness_side | witness_side | witness_side | witness_side | witness_side
    | witness_side | witness_side | witness_side | witness_side | witness_side
    | witness_side
    | exact (eq_refl : instructions (ira_store operations_state) !! 17%nat = Some _)
    | witness_side | witness_side | witness_side
    | exact (eq_refl : instructions (ira_store operations_state) !! 18%nat = Some _)
    | witness_side | witness_side |].
  exists a1, a2, a3, c. split; [exact E1|]. split; [exact E2|].
  split; [exact E3|]. split; [exact L | exact V].
Defined.
